(** * The Mundt nodal room-air model (MundtSimMgr.cc)

    A shallow embedding of the EnergyPlus module [MundtSimMgr] and the
    properties of its specification.

    Conventions of the embedding.
    - [Real64] values are the values of a double: the finite numbers, the
      two infinities and NaN.  Finite numbers are exact rationals ([Q]):
      rounding, overflow and underflow are outside the model, and a zero
      has no sign.  The operations follow IEEE 754 on the special values:
      a quotient by zero is an infinity, or NaN for 0 / 0; a comparison
      with NaN is false.
    - [int] values are [Z].  The module's arrays (ObjexxFCL [FArray1D],
      [FArray2D]) are lists read and written through 1-based indices; an
      access outside the bounds stops with the fault [ArrayBound].
    - Arrays owned by the host engine are total functions of their index.
    - [ShowSevereError] appends to the message log and returns;
      [ShowFatalError] appends to the log and terminates the run. *)

From Stdlib Require Import ZArith QArith Qfield Lqa Lia String Ascii List Bool.
From stdpp Require Import base list.

Local Open Scope Z_scope.
Local Open Scope Q_scope.

(** ** Numbers *)

Inductive Real64 : Type :=
| Finite (q : Q)
| PosInf
| NegInf
| NaN.

Coercion Finite : Q >-> Real64.

Declare Scope R64_scope.
Delimit Scope R64_scope with R.
Bind Scope R64_scope with Real64.

Module R64.

(** The infinity with the sign of a number: [Gt] for a positive number. *)
Definition inf (sign : comparison) : Real64 :=
  match sign with
  | Gt => PosInf
  | Lt => NegInf
  | Eq => NaN
  end.

Definition sign (x : Real64) : comparison :=
  match x with
  | Finite a => a ?= 0
  | PosInf => Gt
  | NegInf => Lt
  | NaN => Eq
  end.

(** The sign of a product; [Eq] stands for a zero or NaN factor. *)
Definition sign_mul (s t : comparison) : comparison :=
  match s, t with
  | Eq, _ | _, Eq => Eq
  | Gt, Gt | Lt, Lt => Gt
  | Gt, Lt | Lt, Gt => Lt
  end.

Definition opp (x : Real64) : Real64 :=
  match x with
  | Finite a => Finite (- a)
  | PosInf => NegInf
  | NegInf => PosInf
  | NaN => NaN
  end.

Definition add (x y : Real64) : Real64 :=
  match x, y with
  | Finite a, Finite b => Finite (a + b)
  | NaN, _ => NaN
  | _, NaN => NaN
  | PosInf, NegInf => NaN
  | NegInf, PosInf => NaN
  | PosInf, _ => PosInf
  | _, PosInf => PosInf
  | NegInf, _ => NegInf
  | _, NegInf => NegInf
  end.

Definition sub (x y : Real64) : Real64 :=
  match x, y with
  | Finite a, Finite b => Finite (a - b)
  | NaN, _ => NaN
  | _, NaN => NaN
  | PosInf, PosInf => NaN
  | NegInf, NegInf => NaN
  | PosInf, _ => PosInf
  | _, NegInf => PosInf
  | NegInf, _ => NegInf
  | _, PosInf => NegInf
  end.

(** A product with an infinite factor is the infinity with the sign of
    the product, and NaN when the other factor is zero. *)
Definition mul (x y : Real64) : Real64 :=
  match x, y with
  | Finite a, Finite b => Finite (a * b)
  | _, _ => inf (sign_mul (sign x) (sign y))
  end.

(** A finite number over zero is the infinity with the sign of the
    number, and NaN for 0 / 0; a finite number over an infinity is zero;
    an infinity over a finite number keeps or changes its sign with the
    sign of the number (a zero counts as positive); an infinity over an
    infinity is NaN. *)
Definition div (x y : Real64) : Real64 :=
  match x, y with
  | Finite a, Finite b =>
      match b ?= 0 with
      | Eq => inf (a ?= 0)
      | _ => Finite (a / b)
      end
  | Finite _, PosInf => Finite 0
  | Finite _, NegInf => Finite 0
  | PosInf, Finite b => match b ?= 0 with Lt => NegInf | _ => PosInf end
  | NegInf, Finite b => match b ?= 0 with Lt => PosInf | _ => NegInf end
  | _, _ => NaN
  end.

(** The comparisons [x <= y] and [x < y] of the code. *)
Definition leb (x y : Real64) : bool :=
  match x, y with
  | Finite a, Finite b => Qle_bool a b
  | NaN, _ => false
  | _, NaN => false
  | NegInf, _ => true
  | _, PosInf => true
  | _, _ => false
  end.

Definition ltb (x y : Real64) : bool :=
  match x, y with
  | Finite a, Finite b => negb (Qle_bool b a)
  | NaN, _ => false
  | _, NaN => false
  | PosInf, _ => false
  | _, NegInf => false
  | _, _ => true
  end.

(** The same as propositions, and the identity of two values up to the
    representation of a rational. *)
Definition le (x y : Real64) : Prop :=
  match x, y with
  | Finite a, Finite b => a <= b
  | NaN, _ => False
  | _, NaN => False
  | NegInf, _ => True
  | _, PosInf => True
  | _, _ => False
  end.

Definition lt (x y : Real64) : Prop :=
  match x, y with
  | Finite a, Finite b => a < b
  | NaN, _ => False
  | _, NaN => False
  | PosInf, _ => False
  | _, NegInf => False
  | _, _ => True
  end.

Definition eqv (x y : Real64) : Prop :=
  match x, y with
  | Finite a, Finite b => a == b
  | PosInf, PosInf => True
  | NegInf, NegInf => True
  | NaN, NaN => True
  | _, _ => False
  end.

End R64.

Infix "+" := R64.add : R64_scope.
Infix "-" := R64.sub : R64_scope.
Infix "*" := R64.mul : R64_scope.
Infix "/" := R64.div : R64_scope.
Notation "- x" := (R64.opp x) : R64_scope.
Infix "<=" := R64.le : R64_scope.
Infix "<" := R64.lt : R64_scope.
Infix "==" := R64.eqv (at level 70, no associativity) : R64_scope.
Notation "x <= y <= z" := (R64.le x y /\ R64.le y z) : R64_scope.
Notation "x <= y < z" := (R64.le x y /\ R64.lt y z) : R64_scope.
Notation "x < y <= z" := (R64.lt x y /\ R64.le y z) : R64_scope.
Notation "x < y < z" := (R64.lt x y /\ R64.lt y z) : R64_scope.

Local Open Scope R64_scope.

(** A value that is a finite number, and a value that is not NaN. *)
Definition finite (x : Real64) : Prop :=
  match x with
  | Finite _ => True
  | _ => False
  end.

Definition number (x : Real64) : Prop :=
  match x with
  | NaN => False
  | _ => True
  end.

(** [sum] of ObjexxFCL: the elements added up from zero. *)
Definition sum (l : list Real64) : Real64 := fold_left R64.add l (Finite 0).

(** ** Module parameters (MundtSimMgr.cc, lines 55-57) *)

Definition CpAir : Real64 := 1005.0.
Definition MinSlope : Real64 := 0.001.
Definition MaxSlope : Real64 := 5.0.

(** Modelled from the spec: the role tags of [DataRoomAirModel], declared
    outside this file.  The spec names six roles (Supply/Inlet, Floor,
    Control, Ceiling, Room, Return); the development relies only on the six
    tags being pairwise distinct and different from the default [-1]. *)
Definition InletAirNode : Z := 0.
Definition FloorAirNode : Z := 1.
Definition ControlAirNode : Z := 2.
Definition CeilingAirNode : Z := 3.
Definition MundtRoomAirNode : Z := 4.
Definition ReturnAirNode : Z := 10.

(** Modelled from the spec: the model selector and the coupling policy of
    [DataRoomAirModel], and the reference-air-temperature modes of
    [DataSurfaces], all declared outside this file. *)
Definition RoomAirModel_Mundt : Z := 3.
Definition DirectCoupling : Z := 1.
Definition ZoneMeanAirTemp : Z := 1.
Definition AdjacentAirTemp : Z := 2.

(** ** Derived types *)

Module DefineZoneData.
Record t : Type := mk {
  SurfFirst : Z;
  NumOfSurfs : Z;
  MundtZoneIndex : Z
}.
End DefineZoneData.

Module DefineLinearModelNode.
Record t : Type := mk {
  AirNodeName : string;
  ClassType : Z;
  Height : Real64;
  Temp : Real64;
  SurfMask : list bool
}.
Definition set_Temp (v : Real64) (n : t) : t :=
  {| AirNodeName := AirNodeName n; ClassType := ClassType n; Height := Height n;
     Temp := v; SurfMask := SurfMask n |}.
Definition set_SurfMask (v : list bool) (n : t) : t :=
  {| AirNodeName := AirNodeName n; ClassType := ClassType n; Height := Height n;
     Temp := Temp n; SurfMask := v |}.
End DefineLinearModelNode.

Module DefineSurfaceSettings.
Record t : Type := mk {
  Area : Real64;
  Temp : Real64;
  Hc : Real64;
  TMeanAir : Real64
}.
Definition set_Area (v : Real64) (s : t) : t :=
  {| Area := v; Temp := Temp s; Hc := Hc s; TMeanAir := TMeanAir s |}.
Definition set_Temp (v : Real64) (s : t) : t :=
  {| Area := Area s; Temp := v; Hc := Hc s; TMeanAir := TMeanAir s |}.
Definition set_Hc (v : Real64) (s : t) : t :=
  {| Area := Area s; Temp := Temp s; Hc := v; TMeanAir := TMeanAir s |}.
Definition set_TMeanAir (v : Real64) (s : t) : t :=
  {| Area := Area s; Temp := Temp s; Hc := Hc s; TMeanAir := v |}.
End DefineSurfaceSettings.

(** An entry of the host's air-node table ([DataRoomAirModel::AirNode]). *)
Module AirNodeData.
Record t : Type := mk {
  Name : string;
  ZoneName : string;
  ClassType : Z;
  Height : Real64;
  SurfMask : list bool
}.
End AirNodeData.

(** ** The host engine, as this module reads it *)

Record Host : Type := mkHost {
  (* DataGlobals, DataHeatBalance::Zone *)
  NumOfZones : Z;
  ZoneName : Z -> string;
  SurfaceFirst : Z -> Z;
  SurfaceLast : Z -> Z;
  IsControlled : Z -> bool;
  CeilingHeight : Z -> Real64;
  FloorArea : Z -> Real64;
  Multiplier : Z -> Z;
  ListMultiplier : Z -> Z;
  SystemZoneNodeNumber : Z -> Z;
  NoHeatToReturnAir : Z -> bool;
  OutDryBulbTemp : Z -> Real64;
  (* DataRoomAirModel *)
  AirModelType : Z -> Z;
  TempCoupleScheme : Z -> Z;
  TotNumOfZoneAirNodes : Z -> Z;
  TotNumOfAirNodes : Z;
  AirNode : Z -> AirNodeData.t;
  ConvectiveFloorSplit : Z -> Real64;
  InfiltratFloorSplit : Z -> Real64;
  (* DataSurfaces, DataHeatBalSurface, DataHeatBalance *)
  SurfaceArea : Z -> Real64;
  TempSurfIn : Z -> Real64;
  HConvIn : Z -> Real64;
  (* DataEnvironment, DataHeatBalFanSys *)
  OutBaroPress : Real64;
  MAT : Z -> Real64;
  ZT : Z -> Real64;
  ZoneAirHumRat : Z -> Real64;
  MCPI : Z -> Real64;
  SumConvHTRadSys : Z -> Real64;
  SumConvPool : Z -> Real64;
  SysDepZoneLoadsLagged : Z -> Real64;
  NonAirSystemResponse : Z -> Real64;
  TempZoneThermostatSetPoint : Z -> Real64;
  (* DataLoopNode, DataZoneEquipment *)
  NodeMassFlowRate : Z -> Real64;
  NumInletNodes : Z -> Z;
  InletNode : Z -> Z -> Z;
  (* Psychrometrics, InternalHeatGains *)
  PsyRhoAirFnPbTdbW : Real64 -> Real64 -> Real64 -> Real64;
  PsyWFnTdpPb : Real64 -> Real64 -> Real64;
  PsyCpAirFnWTdb : Real64 -> Real64 -> Real64;
  SumAllInternalConvectionGains : Z -> Real64;
  SumAllReturnAirConvectionGains : Z -> Real64
}.

(** ** Messages *)

Inductive Message : Type :=
| SevereError (msg : string)
| FatalError (msg : string)
| OutputVariable (name : string) (key : string).

(** ** Module variables (MundtSimMgr.cc, lines 66-100) *)

(** The role indices: air node indices of the zone being processed. *)
Record RoleIDs : Type := mkRoleIDs {
  MundtCeilAirID : Z;
  MundtFootAirID : Z;
  SupplyNodeID : Z;
  TstatNodeID : Z;
  ReturnNodeID : Z;
  NumRoomNodes : Z;
  RoomNodeIDs : list Z
}.

(** The scalar working state of the zone being processed. *)
Record ZoneWork : Type := mkZoneWork {
  ZoneHeight : Real64;
  ZoneFloorArea : Real64;
  QventCool : Real64;
  ConvIntGain : Real64;
  SupplyAirTemp : Real64;
  SupplyAirVolumeRate : Real64;
  ZoneAirDensity : Real64;
  QsysCoolTot : Real64
}.

(** The host variables this module writes. *)
Record HostVars : Type := mkHostVars {
  TempEffBulkAir : Z -> Real64;
  SurfaceTAirRef : Z -> Z;
  NodeTemp : Z -> Real64;
  TempTstatAir : Z -> Real64;
  SimAirModel : Z -> bool
}.

Record State : Type := mkState {
  roles : RoleIDs;
  work : ZoneWork;
  hostv : HostVars;
  MundtZoneNum : Z;
  NumFloorSurfs : Z;
  FloorSurfSetIDs : list Z;
  FloorSurf : list DefineSurfaceSettings.t;
  TheseSurfIDs : list Z;
  ID1dSurf : list Z;
  ZoneData : list DefineZoneData.t;
  LineNode : list (list DefineLinearModelNode.t);
  MundtAirSurf : list (list DefineSurfaceSettings.t);
  FirstTimeFlag : bool;
  Messages : list Message
}.

Definition set_MundtCeilAirID (v : Z) (r : RoleIDs) : RoleIDs :=
  {| MundtCeilAirID := v; MundtFootAirID := MundtFootAirID r; SupplyNodeID := SupplyNodeID
     r; TstatNodeID := TstatNodeID r; ReturnNodeID := ReturnNodeID r; NumRoomNodes :=
     NumRoomNodes r; RoomNodeIDs := RoomNodeIDs r |}.

Definition set_MundtFootAirID (v : Z) (r : RoleIDs) : RoleIDs :=
  {| MundtCeilAirID := MundtCeilAirID r; MundtFootAirID := v; SupplyNodeID := SupplyNodeID
     r; TstatNodeID := TstatNodeID r; ReturnNodeID := ReturnNodeID r; NumRoomNodes :=
     NumRoomNodes r; RoomNodeIDs := RoomNodeIDs r |}.

Definition set_SupplyNodeID (v : Z) (r : RoleIDs) : RoleIDs :=
  {| MundtCeilAirID := MundtCeilAirID r; MundtFootAirID := MundtFootAirID r; SupplyNodeID :=
     v; TstatNodeID := TstatNodeID r; ReturnNodeID := ReturnNodeID r; NumRoomNodes :=
     NumRoomNodes r; RoomNodeIDs := RoomNodeIDs r |}.

Definition set_TstatNodeID (v : Z) (r : RoleIDs) : RoleIDs :=
  {| MundtCeilAirID := MundtCeilAirID r; MundtFootAirID := MundtFootAirID r; SupplyNodeID :=
     SupplyNodeID r; TstatNodeID := v; ReturnNodeID := ReturnNodeID r; NumRoomNodes :=
     NumRoomNodes r; RoomNodeIDs := RoomNodeIDs r |}.

Definition set_ReturnNodeID (v : Z) (r : RoleIDs) : RoleIDs :=
  {| MundtCeilAirID := MundtCeilAirID r; MundtFootAirID := MundtFootAirID r; SupplyNodeID :=
     SupplyNodeID r; TstatNodeID := TstatNodeID r; ReturnNodeID := v; NumRoomNodes :=
     NumRoomNodes r; RoomNodeIDs := RoomNodeIDs r |}.

Definition set_NumRoomNodes (v : Z) (r : RoleIDs) : RoleIDs :=
  {| MundtCeilAirID := MundtCeilAirID r; MundtFootAirID := MundtFootAirID r; SupplyNodeID :=
     SupplyNodeID r; TstatNodeID := TstatNodeID r; ReturnNodeID := ReturnNodeID r;
     NumRoomNodes := v; RoomNodeIDs := RoomNodeIDs r |}.

Definition set_RoomNodeIDs (v : list Z) (r : RoleIDs) : RoleIDs :=
  {| MundtCeilAirID := MundtCeilAirID r; MundtFootAirID := MundtFootAirID r; SupplyNodeID :=
     SupplyNodeID r; TstatNodeID := TstatNodeID r; ReturnNodeID := ReturnNodeID r;
     NumRoomNodes := NumRoomNodes r; RoomNodeIDs := v |}.

Definition set_TempEffBulkAir (v : Z -> Real64) (hv : HostVars) : HostVars :=
  {| TempEffBulkAir := v; SurfaceTAirRef := SurfaceTAirRef hv; NodeTemp := NodeTemp hv;
     TempTstatAir := TempTstatAir hv; SimAirModel := SimAirModel hv |}.

Definition set_SurfaceTAirRef (v : Z -> Z) (hv : HostVars) : HostVars :=
  {| TempEffBulkAir := TempEffBulkAir hv; SurfaceTAirRef := v; NodeTemp := NodeTemp hv;
     TempTstatAir := TempTstatAir hv; SimAirModel := SimAirModel hv |}.

Definition set_NodeTemp (v : Z -> Real64) (hv : HostVars) : HostVars :=
  {| TempEffBulkAir := TempEffBulkAir hv; SurfaceTAirRef := SurfaceTAirRef hv; NodeTemp :=
     v; TempTstatAir := TempTstatAir hv; SimAirModel := SimAirModel hv |}.

Definition set_TempTstatAir (v : Z -> Real64) (hv : HostVars) : HostVars :=
  {| TempEffBulkAir := TempEffBulkAir hv; SurfaceTAirRef := SurfaceTAirRef hv; NodeTemp :=
     NodeTemp hv; TempTstatAir := v; SimAirModel := SimAirModel hv |}.

Definition set_SimAirModel (v : Z -> bool) (hv : HostVars) : HostVars :=
  {| TempEffBulkAir := TempEffBulkAir hv; SurfaceTAirRef := SurfaceTAirRef hv; NodeTemp :=
     NodeTemp hv; TempTstatAir := TempTstatAir hv; SimAirModel := v |}.

Definition set_roles (v : RoleIDs) (st : State) : State :=
  {| roles := v; work := work st; hostv := hostv st; MundtZoneNum := MundtZoneNum st;
     NumFloorSurfs := NumFloorSurfs st; FloorSurfSetIDs := FloorSurfSetIDs st; FloorSurf :=
     FloorSurf st; TheseSurfIDs := TheseSurfIDs st; ID1dSurf := ID1dSurf st; ZoneData :=
     ZoneData st; LineNode := LineNode st; MundtAirSurf := MundtAirSurf st; FirstTimeFlag :=
     FirstTimeFlag st; Messages := Messages st |}.

Definition set_work (v : ZoneWork) (st : State) : State :=
  {| roles := roles st; work := v; hostv := hostv st; MundtZoneNum := MundtZoneNum st;
     NumFloorSurfs := NumFloorSurfs st; FloorSurfSetIDs := FloorSurfSetIDs st; FloorSurf :=
     FloorSurf st; TheseSurfIDs := TheseSurfIDs st; ID1dSurf := ID1dSurf st; ZoneData :=
     ZoneData st; LineNode := LineNode st; MundtAirSurf := MundtAirSurf st; FirstTimeFlag :=
     FirstTimeFlag st; Messages := Messages st |}.

Definition set_hostv (v : HostVars) (st : State) : State :=
  {| roles := roles st; work := work st; hostv := v; MundtZoneNum := MundtZoneNum st;
     NumFloorSurfs := NumFloorSurfs st; FloorSurfSetIDs := FloorSurfSetIDs st; FloorSurf :=
     FloorSurf st; TheseSurfIDs := TheseSurfIDs st; ID1dSurf := ID1dSurf st; ZoneData :=
     ZoneData st; LineNode := LineNode st; MundtAirSurf := MundtAirSurf st; FirstTimeFlag :=
     FirstTimeFlag st; Messages := Messages st |}.

Definition set_MundtZoneNum (v : Z) (st : State) : State :=
  {| roles := roles st; work := work st; hostv := hostv st; MundtZoneNum := v; NumFloorSurfs
     := NumFloorSurfs st; FloorSurfSetIDs := FloorSurfSetIDs st; FloorSurf := FloorSurf st;
     TheseSurfIDs := TheseSurfIDs st; ID1dSurf := ID1dSurf st; ZoneData := ZoneData st;
     LineNode := LineNode st; MundtAirSurf := MundtAirSurf st; FirstTimeFlag :=
     FirstTimeFlag st; Messages := Messages st |}.

Definition set_NumFloorSurfs (v : Z) (st : State) : State :=
  {| roles := roles st; work := work st; hostv := hostv st; MundtZoneNum := MundtZoneNum st;
     NumFloorSurfs := v; FloorSurfSetIDs := FloorSurfSetIDs st; FloorSurf := FloorSurf st;
     TheseSurfIDs := TheseSurfIDs st; ID1dSurf := ID1dSurf st; ZoneData := ZoneData st;
     LineNode := LineNode st; MundtAirSurf := MundtAirSurf st; FirstTimeFlag :=
     FirstTimeFlag st; Messages := Messages st |}.

Definition set_FloorSurfSetIDs (v : list Z) (st : State) : State :=
  {| roles := roles st; work := work st; hostv := hostv st; MundtZoneNum := MundtZoneNum st;
     NumFloorSurfs := NumFloorSurfs st; FloorSurfSetIDs := v; FloorSurf := FloorSurf st;
     TheseSurfIDs := TheseSurfIDs st; ID1dSurf := ID1dSurf st; ZoneData := ZoneData st;
     LineNode := LineNode st; MundtAirSurf := MundtAirSurf st; FirstTimeFlag :=
     FirstTimeFlag st; Messages := Messages st |}.

Definition set_FloorSurf (v : list DefineSurfaceSettings.t) (st : State) : State :=
  {| roles := roles st; work := work st; hostv := hostv st; MundtZoneNum := MundtZoneNum st;
     NumFloorSurfs := NumFloorSurfs st; FloorSurfSetIDs := FloorSurfSetIDs st; FloorSurf :=
     v; TheseSurfIDs := TheseSurfIDs st; ID1dSurf := ID1dSurf st; ZoneData := ZoneData st;
     LineNode := LineNode st; MundtAirSurf := MundtAirSurf st; FirstTimeFlag :=
     FirstTimeFlag st; Messages := Messages st |}.

Definition set_TheseSurfIDs (v : list Z) (st : State) : State :=
  {| roles := roles st; work := work st; hostv := hostv st; MundtZoneNum := MundtZoneNum st;
     NumFloorSurfs := NumFloorSurfs st; FloorSurfSetIDs := FloorSurfSetIDs st; FloorSurf :=
     FloorSurf st; TheseSurfIDs := v; ID1dSurf := ID1dSurf st; ZoneData := ZoneData st;
     LineNode := LineNode st; MundtAirSurf := MundtAirSurf st; FirstTimeFlag :=
     FirstTimeFlag st; Messages := Messages st |}.

Definition set_ID1dSurf (v : list Z) (st : State) : State :=
  {| roles := roles st; work := work st; hostv := hostv st; MundtZoneNum := MundtZoneNum st;
     NumFloorSurfs := NumFloorSurfs st; FloorSurfSetIDs := FloorSurfSetIDs st; FloorSurf :=
     FloorSurf st; TheseSurfIDs := TheseSurfIDs st; ID1dSurf := v; ZoneData := ZoneData st;
     LineNode := LineNode st; MundtAirSurf := MundtAirSurf st; FirstTimeFlag :=
     FirstTimeFlag st; Messages := Messages st |}.

Definition set_ZoneData (v : list DefineZoneData.t) (st : State) : State :=
  {| roles := roles st; work := work st; hostv := hostv st; MundtZoneNum := MundtZoneNum st;
     NumFloorSurfs := NumFloorSurfs st; FloorSurfSetIDs := FloorSurfSetIDs st; FloorSurf :=
     FloorSurf st; TheseSurfIDs := TheseSurfIDs st; ID1dSurf := ID1dSurf st; ZoneData := v;
     LineNode := LineNode st; MundtAirSurf := MundtAirSurf st; FirstTimeFlag :=
     FirstTimeFlag st; Messages := Messages st |}.

Definition set_LineNode (v : list (list DefineLinearModelNode.t)) (st : State) : State :=
  {| roles := roles st; work := work st; hostv := hostv st; MundtZoneNum := MundtZoneNum st;
     NumFloorSurfs := NumFloorSurfs st; FloorSurfSetIDs := FloorSurfSetIDs st; FloorSurf :=
     FloorSurf st; TheseSurfIDs := TheseSurfIDs st; ID1dSurf := ID1dSurf st; ZoneData :=
     ZoneData st; LineNode := v; MundtAirSurf := MundtAirSurf st; FirstTimeFlag :=
     FirstTimeFlag st; Messages := Messages st |}.

Definition set_MundtAirSurf (v : list (list DefineSurfaceSettings.t)) (st : State) : State :=
  {| roles := roles st; work := work st; hostv := hostv st; MundtZoneNum := MundtZoneNum st;
     NumFloorSurfs := NumFloorSurfs st; FloorSurfSetIDs := FloorSurfSetIDs st; FloorSurf :=
     FloorSurf st; TheseSurfIDs := TheseSurfIDs st; ID1dSurf := ID1dSurf st; ZoneData :=
     ZoneData st; LineNode := LineNode st; MundtAirSurf := v; FirstTimeFlag := FirstTimeFlag
     st; Messages := Messages st |}.

Definition set_FirstTimeFlag (v : bool) (st : State) : State :=
  {| roles := roles st; work := work st; hostv := hostv st; MundtZoneNum := MundtZoneNum st;
     NumFloorSurfs := NumFloorSurfs st; FloorSurfSetIDs := FloorSurfSetIDs st; FloorSurf :=
     FloorSurf st; TheseSurfIDs := TheseSurfIDs st; ID1dSurf := ID1dSurf st; ZoneData :=
     ZoneData st; LineNode := LineNode st; MundtAirSurf := MundtAirSurf st; FirstTimeFlag :=
     v; Messages := Messages st |}.

Definition set_Messages (v : list Message) (st : State) : State :=
  {| roles := roles st; work := work st; hostv := hostv st; MundtZoneNum := MundtZoneNum st;
     NumFloorSurfs := NumFloorSurfs st; FloorSurfSetIDs := FloorSurfSetIDs st; FloorSurf :=
     FloorSurf st; TheseSurfIDs := TheseSurfIDs st; ID1dSurf := ID1dSurf st; ZoneData :=
     ZoneData st; LineNode := LineNode st; MundtAirSurf := MundtAirSurf st; FirstTimeFlag :=
     FirstTimeFlag st; Messages := v |}.

(** ** Outcomes and the state monad of the module *)

Inductive Fault : Type :=
| ArrayBound.

Inductive Outcome (A : Type) : Type :=
| Ok (a : A) (st : State)
| Fatal (st : State)
| Faulted (f : Fault).

Arguments Ok {A} a st.
Arguments Fatal {A} st.
Arguments Faulted {A} f.

Definition M (A : Type) : Type := State -> Outcome A.

Definition ret {A} (a : A) : M A := fun st => Ok a st.

Definition bind {A B} (m : M A) (k : A -> M B) : M B :=
  fun st =>
    match m st with
    | Ok a st' => k a st'
    | Fatal st' => Fatal st'
    | Faulted f => Faulted f
    end.

Notation "x <- m ;; k" := (bind m (fun x => k))
  (at level 100, m at next level, right associativity).
Notation "m ;; k" := (bind m (fun _ => k))
  (at level 100, right associativity).

Definition get : M State := fun st => Ok st st.
Definition modify (f : State -> State) : M unit := fun st => Ok tt (f st).
Definition fault {A} (f : Fault) : M A := fun _ => Faulted f.

Definition ShowSevereError (msg : string) : M unit :=
  modify (fun st => set_Messages (Messages st ++ [SevereError msg]) st).

Definition ShowFatalError {A} (msg : string) : M A :=
  fun st => Fatal (set_Messages (Messages st ++ [FatalError msg]) st).

Definition SetupOutputVariable (name key : string) : M unit :=
  modify (fun st => set_Messages (Messages st ++ [OutputVariable name key]) st).

(** A [for] loop over a list of index values. *)
Fixpoint for_each {B} (l : list B) (body : B -> M unit) : M unit :=
  match l with
  | [] => ret tt
  | x :: l' => body x ;; for_each l' body
  end.

(** A [for] loop that carries the value of a local variable. *)
Fixpoint for_fold {B S} (l : list B) (s : S) (body : B -> S -> M S) : M S :=
  match l with
  | [] => ret s
  | x :: l' => s' <- body x s ;; for_fold l' s' body
  end.

(** The index values of [for ( i = lo; i <= hi; ++i )]. *)
Definition range (lo hi : Z) : list Z :=
  map (fun k => (lo + Z.of_nat k)%Z) (seq 0 (Z.to_nat (hi - lo + 1))).

(** ** Arrays with 1-based indices *)

Definition at1 {A} (l : list A) (i : Z) : option A :=
  if (1 <=? i)%Z then l !! Z.to_nat (i - 1) else None.

Definition upd1 {A} (i : Z) (f : A -> A) (l : list A) : option (list A) :=
  match at1 l i with
  | Some x => Some (<[Z.to_nat (i - 1) := f x]> l)
  | None => None
  end.

Definition at2 {A} (ll : list (list A)) (i j : Z) : option A :=
  match at1 ll i with
  | Some row => at1 row j
  | None => None
  end.

Definition upd2 {A} (i j : Z) (f : A -> A) (ll : list (list A)) : option (list (list A)) :=
  match at1 ll i with
  | Some row =>
      match upd1 j f row with
      | Some row' => Some (<[Z.to_nat (i - 1) := row']> ll)
      | None => None
      end
  | None => None
  end.

Definition checked {A} (o : option A) : M A :=
  match o with
  | Some a => ret a
  | None => fault ArrayBound
  end.

(** [count] and [pack] of ObjexxFCL on a logical mask.
    Modelled from the spec: the surfaces of a node are those "whose mask bit
    is set"; [pack a mask] keeps, in order, the elements of [a] at the
    positions where [mask] is true. *)
Definition count (mask : list bool) : Z :=
  Z.of_nat (length (filter (fun b => b = true) mask)).

Definition pack {A} (a : list A) (mask : list bool) : list A :=
  map fst (filter (fun p => snd p = true) (combine a mask)).

(** Element access to the module's arrays, in the zone [MundtZoneNum]. *)
Definition LineNodeAt (NodeID : Z) : M DefineLinearModelNode.t :=
  st <- get ;; checked (at2 (LineNode st) (MundtZoneNum st) NodeID).

Definition MundtAirSurfAt (SurfID : Z) : M DefineSurfaceSettings.t :=
  st <- get ;; checked (at2 (MundtAirSurf st) (MundtZoneNum st) SurfID).

Definition FloorSurfSetIDsAt (i : Z) : M Z :=
  st <- get ;; checked (at1 (FloorSurfSetIDs st) i).

Definition TheseSurfIDsAt (i : Z) : M Z :=
  st <- get ;; checked (at1 (TheseSurfIDs st) i).

Definition RoomNodeIDsAt (i : Z) : M Z :=
  st <- get ;; checked (at1 (RoomNodeIDs (roles st)) i).

(** ** SetNodeResult (lines 736-781) *)

Definition SetNodeResult (NodeID : Z) (TempResult : Real64) : M unit :=
  st <- get ;;
  LineNode' <- checked (upd2 (MundtZoneNum st) NodeID
                             (DefineLinearModelNode.set_Temp TempResult) (LineNode st)) ;;
  modify (set_LineNode LineNode').

(** ** SetSurfTmeanAir (lines 785-830) *)

Definition SetSurfTmeanAir (SurfID : Z) (TeffAir : Real64) : M unit :=
  st <- get ;;
  MundtAirSurf' <- checked (upd2 (MundtZoneNum st) SurfID
                                 (DefineSurfaceSettings.set_TMeanAir TeffAir) (MundtAirSurf st)) ;;
  modify (set_MundtAirSurf MundtAirSurf').

(** ** CalcMundtModel (lines 612-732) *)

Module Solution.
Record t : Type := mk {
  TAirFoot : Real64;
  TLeaving : Real64;
  Slope : Real64
}.
End Solution.

(** The bounds on the slope (lines 690-698).  [dH] is the height of the
    Return node minus the height of the Floor node. *)
Definition CheckSlope (TLeaving dH Slope TAirFoot : Real64) : Solution.t :=
  let '(Slope, TAirFoot) :=
    if R64.ltb MaxSlope Slope
    then (MaxSlope, TLeaving - (MaxSlope * dH))
    else (Slope, TAirFoot) in
  let '(Slope, TAirFoot) :=
    if R64.ltb Slope MinSlope
    then (MinSlope, TLeaving)
    else (Slope, TAirFoot) in
  {| Solution.TAirFoot := TAirFoot; Solution.TLeaving := TLeaving; Solution.Slope := Slope |}.

(** The Mundt equations (lines 667-698): floor air temperature, leaving air
    temperature and the bounded slope. *)
Definition SolveMundt (h : Host) (ZoneNum : Z) : M Solution.t :=
  st <- get ;;
  let w := work st in
  let QequipConvFloor := ConvectiveFloorSplit h ZoneNum * ConvIntGain w in
  let QSensInfilFloor := - InfiltratFloorSplit h ZoneNum * QventCool w in
  let FloorSumHAT :=
    sum (map (fun s => DefineSurfaceSettings.Area s * DefineSurfaceSettings.Hc s
                       * DefineSurfaceSettings.Temp s) (FloorSurf st)) in
  let FloorSumHA :=
    sum (map (fun s => DefineSurfaceSettings.Area s * DefineSurfaceSettings.Hc s)
             (FloorSurf st)) in
  let TAirFoot :=
    (ZoneAirDensity w * CpAir * SupplyAirVolumeRate w * SupplyAirTemp w
     + FloorSumHAT + QequipConvFloor + QSensInfilFloor)
    / (ZoneAirDensity w * CpAir * SupplyAirVolumeRate w + FloorSumHA) in
  let TLeaving :=
    if R64.leb (QsysCoolTot w) 0.0
    then SupplyAirTemp w
    else QsysCoolTot w / (ZoneAirDensity w * CpAir * SupplyAirVolumeRate w)
         + SupplyAirTemp w in
  ReturnNode <- LineNodeAt (ReturnNodeID (roles st)) ;;
  FootNode <- LineNodeAt (MundtFootAirID (roles st)) ;;
  let dH := DefineLinearModelNode.Height ReturnNode - DefineLinearModelNode.Height FootNode in
  let Slope := (TLeaving - TAirFoot) / dH in
  ret (CheckSlope TLeaving dH Slope TAirFoot).

(** The temperature at height [h] on the gradient line anchored at the
    Return node (Eq 2.4, lines 701, 703 and 723). *)
Definition LineTemp (TLeaving Slope ReturnHeight h : Real64) : Real64 :=
  TLeaving - (Slope * (ReturnHeight - h)).

(** The surfaces of a node receive the node's temperature (lines 716-720 and
    725-729). *)
Definition SetNodeSurfaces (NodeID : Z) (TeffAir : Real64) : M unit :=
  Node <- LineNodeAt NodeID ;;
  let SurfCounted := count (DefineLinearModelNode.SurfMask Node) in
  st <- get ;;
  modify (set_TheseSurfIDs (pack (ID1dSurf st) (DefineLinearModelNode.SurfMask Node))) ;;
  for_each (range 1 SurfCounted) (fun SurfNum =>
    SurfID <- TheseSurfIDsAt SurfNum ;;
    SetSurfTmeanAir SurfID TeffAir).

Definition CalcMundtModel (h : Host) (ZoneNum : Z) : M unit :=
  sol <- SolveMundt h ZoneNum ;;
  let TAirFoot := Solution.TAirFoot sol in
  let TLeaving := Solution.TLeaving sol in
  let Slope := Solution.Slope sol in
  st <- get ;;
  let r := roles st in
  ReturnNode <- LineNodeAt (ReturnNodeID r) ;;
  let ReturnHeight := DefineLinearModelNode.Height ReturnNode in
  CeilNode <- LineNodeAt (MundtCeilAirID r) ;;
  let TAirCeil := LineTemp TLeaving Slope ReturnHeight (DefineLinearModelNode.Height CeilNode) in
  TstatNode <- LineNodeAt (TstatNodeID r) ;;
  let TControlPoint :=
    LineTemp TLeaving Slope ReturnHeight (DefineLinearModelNode.Height TstatNode) in
  (* determine air node temperatures in this zone *)
  SetNodeResult (SupplyNodeID r) (SupplyAirTemp (work st)) ;;
  SetNodeResult (ReturnNodeID r) TLeaving ;;
  SetNodeResult (MundtCeilAirID r) TAirCeil ;;
  SetNodeResult (MundtFootAirID r) TAirFoot ;;
  SetNodeResult (TstatNodeID r) TControlPoint ;;
  for_each (range 1 (NumFloorSurfs st)) (fun SurfNum =>
    SurfID <- FloorSurfSetIDsAt SurfNum ;;
    SetSurfTmeanAir SurfID TAirFoot) ;;
  SetNodeSurfaces (MundtCeilAirID r) TAirCeil ;;
  for_each (range 1 (NumRoomNodes r)) (fun NodeNum =>
    RoomNodeID <- RoomNodeIDsAt NodeNum ;;
    ReturnNode <- LineNodeAt (ReturnNodeID r) ;;
    RoomNode <- LineNodeAt RoomNodeID ;;
    let TThisNode :=
      LineTemp TLeaving Slope (DefineLinearModelNode.Height ReturnNode)
               (DefineLinearModelNode.Height RoomNode) in
    SetNodeResult RoomNodeID TThisNode ;;
    SetNodeSurfaces RoomNodeID TThisNode).

(** ** SetupMundtModel (lines 520-608) *)

Definition set_role (f : RoleIDs -> RoleIDs) : M unit :=
  modify (fun st => set_roles (f (roles st)) st).

Definition Default_FloorSurf (s : DefineSurfaceSettings.t) : DefineSurfaceSettings.t :=
  DefineSurfaceSettings.set_Area 0.0
    (DefineSurfaceSettings.set_Hc 0.0 (DefineSurfaceSettings.set_Temp 25.0 s)).

Definition SetupMundtModel (h : Host) (ZoneNum : Z) (ErrorsFound : bool) : M bool :=
  (* set up air node ID *)
  set_role (set_NumRoomNodes 0%Z) ;;
  ErrorsFound <-
    for_fold (range 1 (TotNumOfZoneAirNodes h ZoneNum)) ErrorsFound
      (fun NodeNum ErrorsFound =>
         Node <- LineNodeAt NodeNum ;;
         let SELECT_CASE_var := DefineLinearModelNode.ClassType Node in
         if (SELECT_CASE_var =? InletAirNode)%Z then
           set_role (set_SupplyNodeID NodeNum) ;; ret ErrorsFound
         else if (SELECT_CASE_var =? FloorAirNode)%Z then
           set_role (set_MundtFootAirID NodeNum) ;; ret ErrorsFound
         else if (SELECT_CASE_var =? ControlAirNode)%Z then
           set_role (set_TstatNodeID NodeNum) ;; ret ErrorsFound
         else if (SELECT_CASE_var =? CeilingAirNode)%Z then
           set_role (set_MundtCeilAirID NodeNum) ;; ret ErrorsFound
         else if (SELECT_CASE_var =? MundtRoomAirNode)%Z then
           set_role (fun r => set_NumRoomNodes (NumRoomNodes r + 1)%Z r) ;;
           st <- get ;;
           RoomNodeIDs' <- checked (upd1 (NumRoomNodes (roles st)) (fun _ => NodeNum)
                                         (RoomNodeIDs (roles st))) ;;
           set_role (set_RoomNodeIDs RoomNodeIDs') ;; ret ErrorsFound
         else if (SELECT_CASE_var =? ReturnAirNode)%Z then
           set_role (set_ReturnNodeID NodeNum) ;; ret ErrorsFound
         else
           ShowSevereError "SetupMundtModel: Non-Standard Type of Air Node for Mundt Model" ;;
           ret true) ;;
  (* get number of floors in the zone and setup FloorSurfSetIDs *)
  st <- get ;;
  if (0 <? MundtFootAirID (roles st))%Z then
    FootNode <- LineNodeAt (MundtFootAirID (roles st)) ;;
    modify (set_NumFloorSurfs (count (DefineLinearModelNode.SurfMask FootNode))) ;;
    modify (fun st =>
      set_FloorSurfSetIDs (pack (ID1dSurf st) (DefineLinearModelNode.SurfMask FootNode)) st) ;;
    (* initialize floor surface data *)
    modify (fun st => set_FloorSurf (map Default_FloorSurf (FloorSurf st)) st) ;;
    (* get floor surface data *)
    st <- get ;;
    for_each (range 1 (NumFloorSurfs st)) (fun SurfNum =>
      SurfID <- FloorSurfSetIDsAt SurfNum ;;
      s <- MundtAirSurfAt SurfID ;;
      st <- get ;;
      FloorSurf' <- checked (upd1 SurfNum
        (fun f => DefineSurfaceSettings.set_Area (DefineSurfaceSettings.Area s)
                    (DefineSurfaceSettings.set_Hc (DefineSurfaceSettings.Hc s)
                       (DefineSurfaceSettings.set_Temp (DefineSurfaceSettings.Temp s) f)))
        (FloorSurf st)) ;;
      modify (set_FloorSurf FloorSurf')) ;;
    ret ErrorsFound
  else
    ShowSevereError
      ("SetupMundtModel: Mundt model has no FloorAirNode, Zone=" ++ ZoneName h ZoneNum)%string ;;
    ret true.

(** ** GetSurfHBDataForMundtModel (lines 381-516) *)

(** The gate of lines 160 and 895. *)
Definition SystemOn (w : ZoneWork) : bool :=
  R64.ltb 0.0001 (SupplyAirVolumeRate w) && R64.ltb 0.0001 (QsysCoolTot w).

Definition GetSurfHBDataForMundtModel (h : Host) (ZoneNum : Z) : M unit :=
  (* determine ZoneEquipConfigNum for this zone *)
  let ZoneEquipConfigNum := ZoneNum in
  (* check whether this zone is a controlled zone or not *)
  if negb (IsControlled h ZoneNum) then
    ShowFatalError
      ("Zones must be controlled for Mundt air model. No system serves zone "
       ++ ZoneName h ZoneNum)%string
  else
  st <- get ;;
  (* determine information required by Mundt model *)
  let ZoneHeight' := CeilingHeight h ZoneNum in
  let ZoneFloorArea' := FloorArea h ZoneNum in
  let ZoneMult : Real64 := inject_Z (Multiplier h ZoneNum * ListMultiplier h ZoneNum) in
  (* supply air flowrate is the same as zone air flowrate *)
  let ZoneNode := SystemZoneNodeNumber h ZoneNum in
  let ZoneAirDensity' :=
    PsyRhoAirFnPbTdbW h (OutBaroPress h) (MAT h ZoneNum)
                      (PsyWFnTdpPb h (MAT h ZoneNum) (OutBaroPress h)) in
  let ZoneMassFlowRate := NodeMassFlowRate h ZoneNode in
  let SupplyAirVolumeRate' := ZoneMassFlowRate / ZoneAirDensity' in
  let '(SupplyAirTemp', QsysCoolTot') :=
    if R64.leb ZoneMassFlowRate 0.0001 then
      (* system is off *)
      (SupplyAirTemp (work st), Finite 0.0)
    else
      (* determine supply air conditions *)
      let '(SumSysMCp, SumSysMCpT) :=
        fold_left (fun acc NodeNum =>
          let NodeTemp' := NodeTemp (hostv st) (InletNode h ZoneEquipConfigNum NodeNum) in
          let MassFlowRate := NodeMassFlowRate h (InletNode h ZoneEquipConfigNum NodeNum) in
          let CpAir := PsyCpAirFnWTdb h (ZoneAirHumRat h ZoneNum) NodeTemp' in
          (fst acc + MassFlowRate * CpAir, snd acc + MassFlowRate * CpAir * NodeTemp'))
          (range 1 (NumInletNodes h ZoneEquipConfigNum)) (Finite 0.0, Finite 0.0) in
      (* prevent dividing by zero due to zero supply air flow rate *)
      let SupplyAirTemp' :=
        if R64.leb SumSysMCp 0.0
        then NodeTemp (hostv st) (InletNode h ZoneEquipConfigNum 1)
        else SumSysMCpT / SumSysMCp in
      (* determine cooling load *)
      let CpAir := PsyCpAirFnWTdb h (ZoneAirHumRat h ZoneNum) (MAT h ZoneNum) in
      (SupplyAirTemp', - (SumSysMCpT - ZoneMassFlowRate * CpAir * MAT h ZoneNum)) in
  (* determine heat gains *)
  let ConvIntGain' := SumAllInternalConvectionGains h ZoneNum in
  let ConvIntGain' :=
    ConvIntGain' + (SumConvHTRadSys h ZoneNum + SumConvPool h ZoneNum
                    + SysDepZoneLoadsLagged h ZoneNum
                    + NonAirSystemResponse h ZoneNum / ZoneMult) in
  let ConvIntGain' :=
    if NoHeatToReturnAir h ZoneNum
    then ConvIntGain' + SumAllReturnAirConvectionGains h ZoneNum
    else ConvIntGain' in
  let QventCool' := - MCPI h ZoneNum * (OutDryBulbTemp h ZoneNum - MAT h ZoneNum) in
  modify (set_work
    {| ZoneHeight := ZoneHeight'; ZoneFloorArea := ZoneFloorArea'; QventCool := QventCool';
       ConvIntGain := ConvIntGain'; SupplyAirTemp := SupplyAirTemp';
       SupplyAirVolumeRate := SupplyAirVolumeRate'; ZoneAirDensity := ZoneAirDensity';
       QsysCoolTot := QsysCoolTot' |}) ;;
  (* get surface data *)
  zd <- checked (at1 (ZoneData st) ZoneNum) ;;
  for_each (range 1 (DefineZoneData.NumOfSurfs zd)) (fun SurfNum =>
    st <- get ;;
    MundtAirSurf' <- checked (upd2 (MundtZoneNum st) SurfNum
      (fun s => DefineSurfaceSettings.set_Hc
                  (HConvIn h (DefineZoneData.SurfFirst zd + SurfNum - 1)%Z)
                  (DefineSurfaceSettings.set_Temp
                     (TempSurfIn h (DefineZoneData.SurfFirst zd + SurfNum - 1)%Z) s))
      (MundtAirSurf st)) ;;
    modify (set_MundtAirSurf MundtAirSurf')).

(** ** SetSurfHBDataForMundtModel (lines 834-948) *)

Definition fupd {V} (f : Z -> V) (k : Z) (v : V) : Z -> V :=
  fun i => if (i =? k)%Z then v else f i.

Definition set_host (f : HostVars -> HostVars) : M unit :=
  modify (fun st => set_hostv (f (hostv st)) st).

Definition SetSurfHBDataForMundtModel (h : Host) (ZoneNum : Z) : M unit :=
  (* get surface info *)
  st <- get ;;
  zd <- checked (at1 (ZoneData st) ZoneNum) ;;
  let SurfFirst := DefineZoneData.SurfFirst zd in
  let NumOfSurfs := DefineZoneData.NumOfSurfs zd in
  let r := roles st in
  if SystemOn (work st) then
    (* Controlled zone when the system is on *)
    (if (TempCoupleScheme h ZoneNum =? DirectCoupling)%Z then
      (* a) Bulk air temperatures -> TempEffBulkAir(SurfNum) *)
      for_each (range 1 NumOfSurfs) (fun SurfNum =>
        s <- MundtAirSurfAt SurfNum ;;
        set_host (fun hv => set_TempEffBulkAir
          (fupd (TempEffBulkAir hv) (SurfFirst + SurfNum - 1)%Z
                (DefineSurfaceSettings.TMeanAir s)) hv) ;;
        set_host (fun hv => set_SurfaceTAirRef
          (fupd (SurfaceTAirRef hv) (SurfFirst + SurfNum - 1)%Z AdjacentAirTemp) hv)) ;;
      (* b) Average zone air temperature *)
      CeilNode <- LineNodeAt (MundtCeilAirID r) ;;
      FootNode <- LineNodeAt (MundtFootAirID r) ;;
      let TRoomAverage :=
        (DefineLinearModelNode.Temp CeilNode + DefineLinearModelNode.Temp FootNode) / 2 in
      (* c) Leaving-zone air temperature -> Node(ZoneNode)%Temp *)
      let ZoneNodeNum := SystemZoneNodeNumber h ZoneNum in
      ReturnNode <- LineNodeAt (ReturnNodeID r) ;;
      set_host (fun hv => set_NodeTemp
        (fupd (NodeTemp hv) ZoneNodeNum (DefineLinearModelNode.Temp ReturnNode)) hv) ;;
      (* d) Thermostat air temperature -> TempTstatAir(ZoneNum) *)
      TstatNode <- LineNodeAt (TstatNodeID r) ;;
      set_host (fun hv => set_TempTstatAir
        (fupd (TempTstatAir hv) ZoneNum (DefineLinearModelNode.Temp TstatNode)) hv)
    else
      (* a) Bulk air temperatures -> TempEffBulkAir(SurfNum) *)
      for_each (range 1 NumOfSurfs) (fun SurfNum =>
        s <- MundtAirSurfAt SurfNum ;;
        TstatNode <- LineNodeAt (TstatNodeID r) ;;
        let DeltaTemp :=
          DefineSurfaceSettings.TMeanAir s - DefineLinearModelNode.Temp TstatNode in
        set_host (fun hv => set_TempEffBulkAir
          (fupd (TempEffBulkAir hv) (SurfFirst + SurfNum - 1)%Z
                (TempZoneThermostatSetPoint h ZoneNum + DeltaTemp)) hv) ;;
        set_host (fun hv => set_SurfaceTAirRef
          (fupd (SurfaceTAirRef hv) (SurfFirst + SurfNum - 1)%Z AdjacentAirTemp) hv)) ;;
      (* b) Average zone air temperature *)
      CeilNode <- LineNodeAt (MundtCeilAirID r) ;;
      FootNode <- LineNodeAt (MundtFootAirID r) ;;
      let TRoomAverage :=
        (DefineLinearModelNode.Temp CeilNode + DefineLinearModelNode.Temp FootNode) / 2 in
      TstatNode <- LineNodeAt (TstatNodeID r) ;;
      let DeltaTemp := TRoomAverage - DefineLinearModelNode.Temp TstatNode in
      (* c) Leaving-zone air temperature -> Node(ZoneNode)%Temp *)
      let ZoneNodeNum := SystemZoneNodeNumber h ZoneNum in
      ReturnNode <- LineNodeAt (ReturnNodeID r) ;;
      TstatNode <- LineNodeAt (TstatNodeID r) ;;
      let DeltaTemp :=
        DefineLinearModelNode.Temp ReturnNode - DefineLinearModelNode.Temp TstatNode in
      set_host (fun hv => set_NodeTemp
        (fupd (NodeTemp hv) ZoneNodeNum (TempZoneThermostatSetPoint h ZoneNum + DeltaTemp)) hv) ;;
      (* d) Thermostat air temperature -> TempTstatAir(ZoneNum) *)
      set_host (fun hv => set_TempTstatAir (fupd (TempTstatAir hv) ZoneNum (ZT h ZoneNum)) hv)) ;;
    (* set flag to indicate that Mundt model is used for this zone *)
    set_host (fun hv => set_SimAirModel (fupd (SimAirModel hv) ZoneNum true) hv)
  else
    (* Controlled zone when the system is off --> Use the mixing model *)
    for_each (range 1 NumOfSurfs) (fun SurfNum =>
      set_host (fun hv => set_TempEffBulkAir
        (fupd (TempEffBulkAir hv) (SurfFirst + SurfNum - 1)%Z (MAT h ZoneNum)) hv) ;;
      set_host (fun hv => set_SurfaceTAirRef
        (fupd (SurfaceTAirRef hv) (SurfFirst + SurfNum - 1)%Z ZoneMeanAirTemp) hv)) ;;
    (* set flag to indicate that Mundt model is NOT used for this zone *)
    set_host (fun hv => set_SimAirModel (fupd (SimAirModel hv) ZoneNum false) hv).

(** ** InitMundtModel (lines 179-377) *)

(** Modelled from the spec: [InputProcessor::SameString], declared outside
    this file; the spec describes it as a "case-insensitive name match". *)
Definition MakeUPPERCase (c : ascii) : ascii :=
  let n := N_of_ascii c in
  if ((97 <=? n) && (n <=? 122))%N then ascii_of_N (n - 32) else c.

Fixpoint MakeUPPERCaseString (s : string) : string :=
  match s with
  | EmptyString => EmptyString
  | String c s' => String (MakeUPPERCase c) (MakeUPPERCaseString s')
  end.

Definition SameString (s t : string) : bool :=
  String.eqb (MakeUPPERCaseString s) (MakeUPPERCaseString t).

Definition quote : string := String "034"%char EmptyString.

Definition Default_ZoneData : DefineZoneData.t :=
  {| DefineZoneData.SurfFirst := 0; DefineZoneData.NumOfSurfs := 0;
     DefineZoneData.MundtZoneIndex := 0 |}.

Definition Default_MundtAirSurf : DefineSurfaceSettings.t :=
  {| DefineSurfaceSettings.Area := 0.0; DefineSurfaceSettings.Temp := 25.0;
     DefineSurfaceSettings.Hc := 0.0; DefineSurfaceSettings.TMeanAir := 25.0 |}.

Definition Default_LineNode : DefineLinearModelNode.t :=
  {| DefineLinearModelNode.AirNodeName := EmptyString;
     DefineLinearModelNode.ClassType := (-1);
     DefineLinearModelNode.Height := 0.0;
     DefineLinearModelNode.Temp := 25.0;
     DefineLinearModelNode.SurfMask := [] |}.

Definition allocate {A} (n : Z) (x : A) : list A := replicate (Z.to_nat n) x.

(** The local variables of [InitMundtModel] that its loops carry along.
    The source leaves them uninitialised; they start here at zero and
    [false]. *)
Record InitLocals : Type := mkInitLocals {
  RoomNodesCount : Z;
  FloorSurfCount : Z;
  AirNodeBeginNum : Z;
  AirNodeFoundFlag : bool;
  ErrorsFound : bool
}.

Definition InitLocals0 : InitLocals :=
  {| RoomNodesCount := 0; FloorSurfCount := 0; AirNodeBeginNum := 0;
     AirNodeFoundFlag := false; ErrorsFound := false |}.

(** The zone data of one zone (the body of the loop of lines 260-276).
    [acc] holds the number of zones using the Mundt model and the maxima of
    the numbers of surfaces and of air nodes found so far. *)
Definition Init_ZoneData_body (h : Host) (ZoneIndex : Z) (acc : Z * Z * Z) : M (Z * Z * Z) :=
  let '(NumOfMundtZones, MaxNumOfSurfs, MaxNumOfAirNodes) := acc in
  if (AirModelType h ZoneIndex =? RoomAirModel_Mundt)%Z then
    (* find number of zones using the Mundt model *)
    let NumOfMundtZones := (NumOfMundtZones + 1)%Z in
    (* find maximum number of surfaces in zones using the Mundt model *)
    let SurfFirst := SurfaceFirst h ZoneIndex in
    let NumOfSurfs := (SurfaceLast h ZoneIndex - SurfFirst + 1)%Z in
    let MaxNumOfSurfs := Z.max MaxNumOfSurfs NumOfSurfs in
    (* find maximum number of air nodes in zones using the Mundt model *)
    let NumOfAirNodes := TotNumOfZoneAirNodes h ZoneIndex in
    let MaxNumOfAirNodes := Z.max MaxNumOfAirNodes NumOfAirNodes in
    (* assign zone data *)
    st <- get ;;
    ZoneData' <- checked (upd1 ZoneIndex
      (fun _ => {| DefineZoneData.SurfFirst := SurfFirst;
                   DefineZoneData.NumOfSurfs := NumOfSurfs;
                   DefineZoneData.MundtZoneIndex := NumOfMundtZones |})
      (ZoneData st)) ;;
    modify (set_ZoneData ZoneData') ;;
    ret (NumOfMundtZones, MaxNumOfSurfs, MaxNumOfAirNodes)
  else ret (NumOfMundtZones, MaxNumOfSurfs, MaxNumOfAirNodes).

(** The zone data of lines 247-276. *)
Definition Init_ZoneData (h : Host) : M (Z * Z * Z) :=
  modify (set_ZoneData (allocate (NumOfZones h) Default_ZoneData)) ;;
  for_fold (range 1 (NumOfZones h)) (0, 0, 0)%Z (Init_ZoneData_body h).

(** One air node of a zone (the body of the loop of lines 307-353). *)
Definition Init_AirNode (h : Host) (MundtZoneIndex ZoneIndex NumOfSurfs : Z)
    (NodeNum : Z) (loc : InitLocals) : M InitLocals :=
  st <- get ;;
  LineNode' <- checked (upd2 MundtZoneIndex NodeNum
    (DefineLinearModelNode.set_SurfMask (allocate NumOfSurfs false)) (LineNode st)) ;;
  modify (set_LineNode LineNode') ;;
  let AirNodeBeginNum' := if (NodeNum =? 1)%Z then NodeNum else AirNodeBeginNum loc in
  (* error check for debugging *)
  if (TotNumOfAirNodes h <? AirNodeBeginNum')%Z then
    ShowFatalError "An array bound exceeded. Error in InitMundtModel subroutine of MundtSimMgr."
  else
  match find (fun AirNodeNum =>
                SameString (AirNodeData.ZoneName (AirNode h AirNodeNum)) (ZoneName h ZoneIndex))
             (range AirNodeBeginNum' (TotNumOfAirNodes h)) with
  | Some AirNodeNum =>
      let a := AirNode h AirNodeNum in
      st <- get ;;
      LineNode' <- checked (upd2 MundtZoneIndex NodeNum
        (fun n => {| DefineLinearModelNode.AirNodeName := AirNodeData.Name a;
                     DefineLinearModelNode.ClassType := AirNodeData.ClassType a;
                     DefineLinearModelNode.Height := AirNodeData.Height a;
                     DefineLinearModelNode.Temp := DefineLinearModelNode.Temp n;
                     DefineLinearModelNode.SurfMask := AirNodeData.SurfMask a |})
        (LineNode st)) ;;
      modify (set_LineNode LineNode') ;;
      SetupOutputVariable "Room Air Node Air Temperature [C]" (AirNodeData.Name a) ;;
      (* count air nodes connected to walls in each zone *)
      let RoomNodesCount' :=
        if (AirNodeData.ClassType a =? MundtRoomAirNode)%Z
        then (RoomNodesCount loc + 1)%Z else RoomNodesCount loc in
      (* count floors in each zone *)
      let FloorSurfCount' :=
        if (AirNodeData.ClassType a =? FloorAirNode)%Z
        then (FloorSurfCount loc + count (AirNodeData.SurfMask a))%Z else FloorSurfCount loc in
      ret {| RoomNodesCount := RoomNodesCount'; FloorSurfCount := FloorSurfCount';
             AirNodeBeginNum := (AirNodeNum + 1)%Z; AirNodeFoundFlag := true;
             ErrorsFound := ErrorsFound loc |}
  | None =>
      (* error check for debugging *)
      ShowSevereError ("InitMundtModel: Air Node in Zone=" ++ quote ++ ZoneName h ZoneIndex
                       ++ quote ++ " is not found.")%string ;;
      ret {| RoomNodesCount := RoomNodesCount loc; FloorSurfCount := FloorSurfCount loc;
             AirNodeBeginNum := AirNodeBeginNum'; AirNodeFoundFlag := false;
             ErrorsFound := true |}
  end.

(** The surfaces and air nodes of the zone [ZoneIndex] (lines 299-353). *)
Definition Init_Zone (h : Host) (MundtZoneIndex ZoneIndex : Z) (zd : DefineZoneData.t)
    (loc : InitLocals) : M InitLocals :=
  (* get surface data *)
  for_each (range 1 (DefineZoneData.NumOfSurfs zd)) (fun SurfNum =>
    st <- get ;;
    MundtAirSurf' <- checked (upd2 MundtZoneIndex SurfNum
      (DefineSurfaceSettings.set_Area
         (SurfaceArea h (DefineZoneData.SurfFirst zd + SurfNum - 1)%Z))
      (MundtAirSurf st)) ;;
    modify (set_MundtAirSurf MundtAirSurf')) ;;
  (* get air node data *)
  for_fold (range 1 (TotNumOfZoneAirNodes h ZoneIndex))
    {| RoomNodesCount := 0; FloorSurfCount := 0; AirNodeBeginNum := AirNodeBeginNum loc;
       AirNodeFoundFlag := AirNodeFoundFlag loc; ErrorsFound := ErrorsFound loc |}
    (Init_AirNode h MundtZoneIndex ZoneIndex (DefineZoneData.NumOfSurfs zd)).

(** [Zone_Loop] (lines 296-363): the zone whose model index is
    [MundtZoneIndex] is looked for; the loop is left once its data are
    there. *)
Fixpoint Zone_Loop (h : Host) (MundtZoneIndex : Z) (zones : list Z) (loc : InitLocals)
    : M InitLocals :=
  match zones with
  | [] => ret loc
  | ZoneIndex :: zones' =>
      st <- get ;;
      zd <- checked (at1 (ZoneData st) ZoneIndex) ;;
      if (DefineZoneData.MundtZoneIndex zd =? MundtZoneIndex)%Z then
        loc' <- Init_Zone h MundtZoneIndex ZoneIndex zd loc ;;
        (* got data for this zone so exit the zone loop *)
        if AirNodeFoundFlag loc' then ret loc' else Zone_Loop h MundtZoneIndex zones' loc'
      else Zone_Loop h MundtZoneIndex zones' loc
  end.

(** The constant data of the zone with the model index [MundtZoneIndex]
    (the body of the loop of lines 294-368).  [acc] holds the local
    variables and the maxima of the numbers of room nodes and of floor
    surfaces found so far. *)
Definition Init_Zones_body (h : Host) (MundtZoneIndex : Z) (acc : InitLocals * Z * Z)
    : M (InitLocals * Z * Z) :=
  let '(loc, MaxNumOfRoomNodes, MaxNumOfFloorSurfs) := acc in
  loc' <- Zone_Loop h MundtZoneIndex (range 1 (NumOfZones h)) loc ;;
  ret (loc', Z.max MaxNumOfRoomNodes (RoomNodesCount loc'),
       Z.max MaxNumOfFloorSurfs (FloorSurfCount loc')).

Definition InitMundtModel (h : Host) : M unit :=
  (* allocate and initialize zone data; get zone data *)
  maxima <- Init_ZoneData h ;;
  let '(NumOfMundtZones, MaxNumOfSurfs, MaxNumOfAirNodes) := maxima in
  (* allocate and initialize surface and air-node data *)
  modify (set_ID1dSurf (range 1 MaxNumOfSurfs)) ;;
  modify (set_TheseSurfIDs (allocate MaxNumOfSurfs 0%Z)) ;;
  modify (set_MundtAirSurf
            (allocate NumOfMundtZones (allocate MaxNumOfSurfs Default_MundtAirSurf))) ;;
  modify (set_LineNode (allocate NumOfMundtZones (allocate MaxNumOfAirNodes Default_LineNode))) ;;
  (* get constant data (unchanged over time) for surfaces and air nodes *)
  locals <- for_fold (range 1 NumOfMundtZones) (InitLocals0, 0%Z, 0%Z) (Init_Zones_body h) ;;
  let '(loc, MaxNumOfRoomNodes, MaxNumOfFloorSurfs) := locals in
  (if ErrorsFound loc
   then ShowFatalError "InitMundtModel: Preceding condition(s) cause termination."
   else ret tt) ;;
  (* allocate arrays *)
  set_role (set_RoomNodeIDs (allocate MaxNumOfRoomNodes 0%Z)) ;;
  modify (set_FloorSurfSetIDs (allocate MaxNumOfFloorSurfs 0%Z)) ;;
  modify (set_FloorSurf (allocate MaxNumOfFloorSurfs Default_MundtAirSurf)).

(** ** ManageMundtModel (lines 106-175) *)

Definition ManageMundtModel (h : Host) (ZoneNum : Z) : M unit :=
  (* initialize Mundt model data *)
  st <- get ;;
  (if FirstTimeFlag st
   then InitMundtModel h ;; modify (set_FirstTimeFlag false)
   else ret tt) ;;
  (* identify the current zone index for zones using Mundt model *)
  st <- get ;;
  zd <- checked (at1 (ZoneData st) ZoneNum) ;;
  modify (set_MundtZoneNum (DefineZoneData.MundtZoneIndex zd)) ;;
  (* transfer data from surface domain to air domain for the specified zone *)
  GetSurfHBDataForMundtModel h ZoneNum ;;
  (* use the Mundt model only for cooling case *)
  st <- get ;;
  (if SystemOn (work st) then
     (* setup Mundt model *)
     ErrorsFound <- SetupMundtModel h ZoneNum false ;;
     (if ErrorsFound : bool
      then ShowFatalError
        "ManageMundtModel: Errors in setting up Mundt Model. Preceding condition(s) cause termination."
      else ret tt) ;;
     (* perform Mundt model calculations *)
     CalcMundtModel h ZoneNum
   else ret tt) ;;
  (* transfer data from air domain back to surface domain for the specified zone *)
  SetSurfHBDataForMundtModel h ZoneNum.

(** ** Quantities the properties refer to *)

(** The air node and the surface with a given index in the zone being
    processed. *)
Definition node_at (st : State) (NodeID : Z) : option DefineLinearModelNode.t :=
  at2 (LineNode st) (MundtZoneNum st) NodeID.

Definition surf_at (st : State) (SurfID : Z) : option DefineSurfaceSettings.t :=
  at2 (MundtAirSurf st) (MundtZoneNum st) SurfID.

(** The thermal capacity rate of the supply air, and the two sums over the
    floor surfaces. *)
Definition SupplyCapacityRate (w : ZoneWork) : Real64 :=
  ZoneAirDensity w * CpAir * SupplyAirVolumeRate w.

Definition FloorSumHAT (st : State) : Real64 :=
  sum (map (fun s => DefineSurfaceSettings.Area s * DefineSurfaceSettings.Hc s
                     * DefineSurfaceSettings.Temp s) (FloorSurf st)).

Definition FloorSumHA (st : State) : Real64 :=
  sum (map (fun s => DefineSurfaceSettings.Area s * DefineSurfaceSettings.Hc s)
           (FloorSurf st)).

(** Eq 2.2: the floor air temperature before the slope is checked. *)
Definition FloorAirBalance (h : Host) (ZoneNum : Z) (st : State) : Real64 :=
  (SupplyCapacityRate (work st) * SupplyAirTemp (work st) + FloorSumHAT st
   + ConvectiveFloorSplit h ZoneNum * ConvIntGain (work st)
   + - InfiltratFloorSplit h ZoneNum * QventCool (work st))
  / (SupplyCapacityRate (work st) + FloorSumHA st).

(** Eq 2.3: the leaving air temperature. *)
Definition LeavingAirTemp (st : State) : Real64 :=
  if R64.leb (QsysCoolTot (work st)) 0.0
  then SupplyAirTemp (work st)
  else QsysCoolTot (work st) / SupplyCapacityRate (work st) + SupplyAirTemp (work st).

(** Eq 2.4: the slope before it is checked against its bounds. *)
Definition RawSlope (h : Host) (ZoneNum : Z) (st : State) (ReturnHeight FloorHeight : Real64)
    : Real64 :=
  (LeavingAirTemp st - FloorAirBalance h ZoneNum st) / (ReturnHeight - FloorHeight).

(** The fields of an air node that are set when the topology is built. *)
Definition node_static (n : DefineLinearModelNode.t) : string * Z * Real64 * list bool :=
  (DefineLinearModelNode.AirNodeName n, DefineLinearModelNode.ClassType n,
   DefineLinearModelNode.Height n, DefineLinearModelNode.SurfMask n).

(** Two states with the same topology of air nodes: the nodes differ in
    their temperatures at most. *)
Definition same_static (st st' : State) : Prop :=
  forall z NodeID,
    option_map node_static (at2 (LineNode st') z NodeID)
    = option_map node_static (at2 (LineNode st) z NodeID).

(** A state without the results of the model: without the node table, the
    surface table and the working list of surface indices. *)
Definition without_results (st : State) : State :=
  set_LineNode [] (set_MundtAirSurf [] (set_TheseSurfIDs [] st)).

(** The temperature of the air node [NodeID] lies on the gradient line. *)
Definition OnLine (TLeaving Slope ReturnHeight : Real64) (st : State) (NodeID : Z) : Prop :=
  exists n, node_at st NodeID = Some n /\
            DefineLinearModelNode.Temp n
            = LineTemp TLeaving Slope ReturnHeight (DefineLinearModelNode.Height n).


(** The module variables as the program starts (lines 66-100, 142). *)
Definition State0 : State :=
  {| roles := {| MundtCeilAirID := 0; MundtFootAirID := 0; SupplyNodeID := 0;
                 TstatNodeID := 0; ReturnNodeID := 0; NumRoomNodes := 0; RoomNodeIDs := [] |};
     work := {| ZoneHeight := 0.0; ZoneFloorArea := 0.0; QventCool := 0.0;
                ConvIntGain := 0.0; SupplyAirTemp := 0.0; SupplyAirVolumeRate := 0.0;
                ZoneAirDensity := 0.0; QsysCoolTot := 0.0 |};
     hostv := {| TempEffBulkAir := fun _ => 0.0; SurfaceTAirRef := fun _ => 0%Z;
                 NodeTemp := fun _ => 15.0; TempTstatAir := fun _ => 0.0;
                 SimAirModel := fun _ => false |};
     MundtZoneNum := 0; NumFloorSurfs := 0; FloorSurfSetIDs := []; FloorSurf := [];
     TheseSurfIDs := []; ID1dSurf := []; ZoneData := []; LineNode := [];
     MundtAirSurf := []; FirstTimeFlag := true; Messages := [] |}.

(** The role tags the resolver knows. *)
Definition StandardClass (c : Z) : Prop :=
  c = InletAirNode \/ c = FloorAirNode \/ c = ControlAirNode \/ c = CeilingAirNode
  \/ c = MundtRoomAirNode \/ c = ReturnAirNode.

(** The zone being processed has, among its first [N] air nodes, a node
    with the role tag [c]. *)
Definition has_role (st : State) (N : Z) (c : Z) : Prop :=
  exists NodeNum n, (1 <= NodeNum <= N)%Z /\ node_at st NodeNum = Some n /\
                    DefineLinearModelNode.ClassType n = c.

(** A state without what the role resolver writes: the role indices, the
    floor surface set and the messages. *)
Definition without_roles (st : State) : State :=
  set_roles (roles State0)
    (set_NumFloorSurfs 0 (set_FloorSurfSetIDs [] (set_FloorSurf [] (set_Messages [] st)))).

(** The inbound half of [ManageMundtModel] (lines 147-157): the
    initialization on the first call, the model index of the zone and the
    data of the heat balance. *)
Definition Inbound (h : Host) (ZoneNum : Z) : M unit :=
  st <- get ;;
  (if FirstTimeFlag st
   then InitMundtModel h ;; modify (set_FirstTimeFlag false)
   else ret tt) ;;
  st <- get ;;
  zd <- checked (at1 (ZoneData st) ZoneNum) ;;
  modify (set_MundtZoneNum (DefineZoneData.MundtZoneIndex zd)) ;;
  GetSurfHBDataForMundtModel h ZoneNum.

(** A state without what the inbound adapter writes after the
    initialization: the scalar working state, the surface table and the
    model index of the zone. *)
Definition without_inbound (st : State) : State :=
  set_work (work State0) (set_MundtAirSurf [] (set_MundtZoneNum 0 st)).

(** A state without the host variables this module writes. *)
Definition without_hostv (st : State) : State := set_hostv (hostv State0) st.

(** Two surface tables that agree on the field [g] of every entry. *)
Definition same_field {F} (g : DefineSurfaceSettings.t -> F)
    (t t' : list (list DefineSurfaceSettings.t)) : Prop :=
  forall z SurfID, option_map g (at2 t' z SurfID) = option_map g (at2 t z SurfID).

(** ** The topology build, as the properties describe it *)

Definition isMundt (h : Host) (ZoneIndex : Z) : bool :=
  (AirModelType h ZoneIndex =? RoomAirModel_Mundt)%Z.

(** The zones that use the Mundt model, in the order of the host. *)
Definition MundtZones (h : Host) : list Z :=
  List.filter (isMundt h) (range 1 (NumOfZones h)).

(** The entries of the host's air-node table whose zone name is the name
    of the zone, in the order of the table: the definitions of the air
    nodes of the zone. *)
Definition zone_match (h : Host) (ZoneIndex AirNodeNum : Z) : bool :=
  SameString (AirNodeData.ZoneName (AirNode h AirNodeNum)) (ZoneName h ZoneIndex).

Definition zone_defs (h : Host) (ZoneIndex : Z) : list Z :=
  List.filter (zone_match h ZoneIndex) (range 1 (TotNumOfAirNodes h)).

(** The number of air nodes the zone declares, and the number of them left
    without a definition. *)
Definition zone_nodes (h : Host) (ZoneIndex : Z) : nat :=
  Z.to_nat (TotNumOfZoneAirNodes h ZoneIndex).

Definition zone_unmatched (h : Host) (ZoneIndex : Z) : nat :=
  zone_nodes h ZoneIndex - length (zone_defs h ZoneIndex).

(** The position of the scan of the table after the definitions [defs]
    have been consumed from the position [b] on. *)
Definition scan_end (b : Z) (defs : list Z) : Z :=
  match defs with
  | [] => b
  | _ => (List.last defs 0 + 1)%Z
  end.

(** The zone has a node without a definition and the scan for it starts
    behind the end of the table. *)
Definition zone_overrun (h : Host) (ZoneIndex : Z) : bool :=
  (0 <? zone_unmatched h ZoneIndex)%nat
  && (TotNumOfAirNodes h <? scan_end 1 (zone_defs h ZoneIndex))%Z.

Definition OutputVariable_message (h : Host) (AirNodeNum : Z) : Message :=
  OutputVariable "Room Air Node Air Temperature [C]" (AirNodeData.Name (AirNode h AirNodeNum)).

Definition NotFound_message (h : Host) (ZoneIndex : Z) : Message :=
  SevereError ("InitMundtModel: Air Node in Zone=" ++ quote ++ ZoneName h ZoneIndex
               ++ quote ++ " is not found.")%string.

Definition ArrayBound_message : Message :=
  FatalError "An array bound exceeded. Error in InitMundtModel subroutine of MundtSimMgr.".

Definition Termination_message : Message :=
  FatalError "InitMundtModel: Preceding condition(s) cause termination.".

(** The messages of the build for one zone: the output variables of the
    nodes with a definition, then one severe error for each node without,
    or the fatal error of the array bound. *)
Definition zone_messages (h : Host) (ZoneIndex : Z) : list Message :=
  map (OutputVariable_message h) (firstn (zone_nodes h ZoneIndex) (zone_defs h ZoneIndex))
  ++ (if zone_overrun h ZoneIndex
      then [ArrayBound_message]
      else List.repeat (NotFound_message h ZoneIndex) (zone_unmatched h ZoneIndex)).

(** The messages of the build for the zones [zones]; [errors] tells
    whether a node without a definition has been met before. *)
Fixpoint build_messages (h : Host) (zones : list Z) (errors : bool) : list Message :=
  match zones with
  | [] => if errors then [Termination_message] else []
  | z :: zones' =>
      zone_messages h z
      ++ (if zone_overrun h z
          then []
          else build_messages h zones' (errors || (0 <? zone_unmatched h z)%nat))
  end.

(** Some zone that uses the model declares a node without a definition. *)
Definition build_fails (h : Host) : bool :=
  existsb (fun z => (0 <? zone_unmatched h z)%nat) (MundtZones h).

(** The shape of the tables: the zone data and the lengths of the rows of
    the node table and of the surface table. *)
Definition table_shape (st : State) : list DefineZoneData.t * list nat * list nat :=
  (ZoneData st, map (@length _) (LineNode st), map (@length _) (MundtAirSurf st)).

(** The model index of a zone that uses the Mundt model: its rank among
    the zones that use the model. *)
Definition zone_rank (h : Host) (ZoneIndex : Z) : Z :=
  Z.of_nat (length (List.filter (isMundt h) (range 1 ZoneIndex))).

Definition zd_entry (h : Host) (ZoneIndex : Z) : DefineZoneData.t :=
  if isMundt h ZoneIndex
  then {| DefineZoneData.SurfFirst := SurfaceFirst h ZoneIndex;
          DefineZoneData.NumOfSurfs := (SurfaceLast h ZoneIndex - SurfaceFirst h ZoneIndex + 1)%Z;
          DefineZoneData.MundtZoneIndex := zone_rank h ZoneIndex |}
  else Default_ZoneData.

(** The tables are ready for the build: the zone data are there and the
    node table and the surface table have room for every zone that uses the
    model. *)
Definition BuildReady (h : Host) (st : State) : Prop :=
  forall y, (1 <= y <= NumOfZones h)%Z ->
    at1 (ZoneData st) y = Some (zd_entry h y) /\
    (isMundt h y = true ->
     (forall s, (1 <= s <= DefineZoneData.NumOfSurfs (zd_entry h y))%Z ->
                is_Some (at2 (MundtAirSurf st) (zone_rank h y) s)) /\
     (forall n, (1 <= n <= TotNumOfZoneAirNodes h y)%Z ->
                is_Some (at2 (LineNode st) (zone_rank h y) n))).

(** The messages for a zone whose scan stays within the table: the output
    variables of the nodes with a definition, then one severe error for
    each node without. *)
Definition zone_report (h : Host) (ZoneIndex : Z) : list Message :=
  map (OutputVariable_message h) (firstn (zone_nodes h ZoneIndex) (zone_defs h ZoneIndex))
  ++ List.repeat (NotFound_message h ZoneIndex) (zone_unmatched h ZoneIndex).

Definition is_SevereError (m : Message) : bool :=
  match m with
  | SevereError _ => true
  | _ => false
  end.

(** ** Loop bodies and step relations

    The bodies of the loops of the procedures above, by name, and the
    relations between the states of a run that the properties speak of. *)

(** Steps that leave the air nodes alone. *)
Definition keeps_nodes (st st' : State) : Prop :=
  LineNode st' = LineNode st /\ without_results st' = without_results st.

(** The state between two steps of [CalcMundtModel], seen from its start. *)
Definition calc_step (st s : State) : Prop :=
  without_results s = without_results st /\ same_static st s.

(** One turn of the loop over the room nodes (lines 722-730). *)
Definition room_body (r : RoleIDs) (TLeaving Slope : Real64) (NodeNum : Z) : M unit :=
  RoomNodeID <- RoomNodeIDsAt NodeNum ;;
  ReturnNode <- LineNodeAt (ReturnNodeID r) ;;
  RoomNode <- LineNodeAt RoomNodeID ;;
  let TThisNode :=
    LineTemp TLeaving Slope (DefineLinearModelNode.Height ReturnNode)
             (DefineLinearModelNode.Height RoomNode) in
  SetNodeResult RoomNodeID TThisNode ;;
  SetNodeSurfaces RoomNodeID TThisNode.

(** One turn of the loop over the air nodes of the zone (lines 568-587). *)
Definition setup_body (NodeNum : Z) (ErrorsFound : bool) : M bool :=
  Node <- LineNodeAt NodeNum ;;
  let SELECT_CASE_var := DefineLinearModelNode.ClassType Node in
  if (SELECT_CASE_var =? InletAirNode)%Z then
    set_role (set_SupplyNodeID NodeNum) ;; ret ErrorsFound
  else if (SELECT_CASE_var =? FloorAirNode)%Z then
    set_role (set_MundtFootAirID NodeNum) ;; ret ErrorsFound
  else if (SELECT_CASE_var =? ControlAirNode)%Z then
    set_role (set_TstatNodeID NodeNum) ;; ret ErrorsFound
  else if (SELECT_CASE_var =? CeilingAirNode)%Z then
    set_role (set_MundtCeilAirID NodeNum) ;; ret ErrorsFound
  else if (SELECT_CASE_var =? MundtRoomAirNode)%Z then
    set_role (fun r => set_NumRoomNodes (NumRoomNodes r + 1)%Z r) ;;
    st <- get ;;
    RoomNodeIDs' <- checked (upd1 (NumRoomNodes (roles st)) (fun _ => NodeNum)
                                  (RoomNodeIDs (roles st))) ;;
    set_role (set_RoomNodeIDs RoomNodeIDs') ;; ret ErrorsFound
  else if (SELECT_CASE_var =? ReturnAirNode)%Z then
    set_role (set_ReturnNodeID NodeNum) ;; ret ErrorsFound
  else
    ShowSevereError "SetupMundtModel: Non-Standard Type of Air Node for Mundt Model" ;;
    ret true.

(** The copy of the data of the floor surfaces (lines 598-602). *)
Definition floor_copy_body (SurfNum : Z) : M unit :=
  SurfID <- FloorSurfSetIDsAt SurfNum ;;
  s <- MundtAirSurfAt SurfID ;;
  st <- get ;;
  FloorSurf' <- checked (upd1 SurfNum
    (fun f => DefineSurfaceSettings.set_Area (DefineSurfaceSettings.Area s)
                (DefineSurfaceSettings.set_Hc (DefineSurfaceSettings.Hc s)
                   (DefineSurfaceSettings.set_Temp (DefineSurfaceSettings.Temp s) f)))
    (FloorSurf st)) ;;
  modify (set_FloorSurf FloorSurf').

(** The surface data of the inbound adapter (lines 510-514). *)
Definition get_surf_body (h : Host) (zd : DefineZoneData.t) (SurfNum : Z) : M unit :=
  st <- get ;;
  MundtAirSurf' <- checked (upd2 (MundtZoneNum st) SurfNum
    (fun s => DefineSurfaceSettings.set_Hc
                (HConvIn h (DefineZoneData.SurfFirst zd + SurfNum - 1)%Z)
                (DefineSurfaceSettings.set_Temp
                   (TempSurfIn h (DefineZoneData.SurfFirst zd + SurfNum - 1)%Z) s))
    (MundtAirSurf st)) ;;
  modify (set_MundtAirSurf MundtAirSurf').

(** The surface [SurfNum] of the zone holds the surface temperature and
    the convection coefficient the host has for it. *)
Definition surf_fetched (h : Host) (zd : DefineZoneData.t) (SurfNum : Z) (st : State) : Prop :=
  exists s, surf_at st SurfNum = Some s /\
            DefineSurfaceSettings.Temp s
            = TempSurfIn h (DefineZoneData.SurfFirst zd + SurfNum - 1)%Z /\
            DefineSurfaceSettings.Hc s
            = HConvIn h (DefineZoneData.SurfFirst zd + SurfNum - 1)%Z.

(** The outbound adapter when the system is off (lines 937-946). *)
Definition off_body (h : Host) (ZoneNum : Z) (zd : DefineZoneData.t) (SurfNum : Z) : M unit :=
  set_host (fun hv => set_TempEffBulkAir
    (fupd (TempEffBulkAir hv) (DefineZoneData.SurfFirst zd + SurfNum - 1)%Z (MAT h ZoneNum)) hv) ;;
  set_host (fun hv => set_SurfaceTAirRef
    (fupd (SurfaceTAirRef hv) (DefineZoneData.SurfFirst zd + SurfNum - 1)%Z ZoneMeanAirTemp) hv).

Definition well_mixed (h : Host) (ZoneNum : Z) (zd : DefineZoneData.t) (SurfNum : Z)
    (st : State) : Prop :=
  TempEffBulkAir (hostv st) (DefineZoneData.SurfFirst zd + SurfNum - 1)%Z = MAT h ZoneNum /\
  SurfaceTAirRef (hostv st) (DefineZoneData.SurfFirst zd + SurfNum - 1)%Z = ZoneMeanAirTemp.


(** The outbound adapter with the system on, for one surface: direct
    coupling (lines 900-904) and indirect coupling (lines 917-922). *)
Definition direct_body (zd : DefineZoneData.t) (SurfNum : Z) : M unit :=
  s <- MundtAirSurfAt SurfNum ;;
  set_host (fun hv => set_TempEffBulkAir
    (fupd (TempEffBulkAir hv) (DefineZoneData.SurfFirst zd + SurfNum - 1)%Z
          (DefineSurfaceSettings.TMeanAir s)) hv) ;;
  set_host (fun hv => set_SurfaceTAirRef
    (fupd (SurfaceTAirRef hv) (DefineZoneData.SurfFirst zd + SurfNum - 1)%Z AdjacentAirTemp) hv).

Definition indirect_body (h : Host) (ZoneNum : Z) (zd : DefineZoneData.t) (r : RoleIDs)
    (SurfNum : Z) : M unit :=
  s <- MundtAirSurfAt SurfNum ;;
  TstatNode <- LineNodeAt (TstatNodeID r) ;;
  let DeltaTemp :=
    DefineSurfaceSettings.TMeanAir s - DefineLinearModelNode.Temp TstatNode in
  set_host (fun hv => set_TempEffBulkAir
    (fupd (TempEffBulkAir hv) (DefineZoneData.SurfFirst zd + SurfNum - 1)%Z
          (TempZoneThermostatSetPoint h ZoneNum + DeltaTemp)) hv) ;;
  set_host (fun hv => set_SurfaceTAirRef
    (fupd (SurfaceTAirRef hv) (DefineZoneData.SurfFirst zd + SurfNum - 1)%Z AdjacentAirTemp) hv).

(** ** What a computation leaves alone

    [preserves g m]: the computation [m] leaves the view [g] of the state
    as it is, whether it returns or ends with a fatal error.
    [never_fatal m]: [m] never ends with a fatal error.
    [fatal_keeps g m]: when [m] ends with a fatal error, the view [g] of
    the state is as it was at the start. *)
Definition preserves {X A} (g : State -> X) (m : M A) : Prop :=
  forall st,
    match m st with
    | Ok _ st' => g st' = g st
    | Fatal st' => g st' = g st
    | Faulted _ => True
    end.

Definition never_fatal {A} (m : M A) : Prop :=
  forall st st', m st <> Fatal st'.

Definition fatal_keeps {X A} (g : State -> X) (m : M A) : Prop :=
  forall st st', m st = Fatal st' -> g st' = g st.

(** ** The air nodes of a zone by role tag *)

(** The air node [NodeNum] of the zone being processed carries the role
    tag [c]; the air nodes of the list [l] that carry it, in the order of
    the list. *)
Definition has_class (st : State) (c : Z) (NodeNum : Z) : bool :=
  match node_at st NodeNum with
  | Some n => (DefineLinearModelNode.ClassType n =? c)%Z
  | None => false
  end.

Definition nodes_with (st : State) (c : Z) (l : list Z) : list Z :=
  List.filter (has_class st c) l.

(** The role tag is one the resolver knows. *)
Definition StandardClassb (c : Z) : bool :=
  ((c =? InletAirNode) || (c =? FloorAirNode) || (c =? ControlAirNode)
   || (c =? CeilingAirNode) || (c =? MundtRoomAirNode) || (c =? ReturnAirNode))%Z.

(** The air nodes of the list whose role tag the resolver does not know. *)
Definition nonstandard (st : State) (NodeNum : Z) : bool :=
  match node_at st NodeNum with
  | Some n => negb (StandardClassb (DefineLinearModelNode.ClassType n))
  | None => false
  end.

Definition NonStandard_message : Message :=
  SevereError "SetupMundtModel: Non-Standard Type of Air Node for Mundt Model".

Definition NoFloor_message (h : Host) (ZoneNum : Z) : Message :=
  SevereError ("SetupMundtModel: Mundt model has no FloorAirNode, Zone="
               ++ ZoneName h ZoneNum)%string.

(** A state without what the loop of the resolver over the air nodes
    writes: the role indices and the messages. *)
Definition without_role_indices (st : State) : State :=
  set_roles (roles State0) (set_Messages [] st).

(** The index a role has after the resolver has gone through the first
    [N] air nodes of the zone: the last of them that carries the tag [c]
    of the role, or the index [old] the role had before. *)
Definition resolved (st : State) (N : Z) (c : Z) (old : Z) : Z :=
  default old (last (nodes_with st c (range 1 N))).

(** ** The supply air of the inbound adapter (lines 477-485)

    The sum of the thermal capacity rates of the inlet nodes of the zone
    and the sum of the capacity rates times the node temperatures. *)
Definition InletSums (h : Host) (ZoneNum : Z) (st : State) : Real64 * Real64 :=
  fold_left (fun acc NodeNum =>
    let NodeTemp' := NodeTemp (hostv st) (InletNode h ZoneNum NodeNum) in
    let MassFlowRate := NodeMassFlowRate h (InletNode h ZoneNum NodeNum) in
    let CpAir := PsyCpAirFnWTdb h (ZoneAirHumRat h ZoneNum) NodeTemp' in
    (fst acc + MassFlowRate * CpAir, snd acc + MassFlowRate * CpAir * NodeTemp'))
    (range 1 (NumInletNodes h ZoneNum)) (Finite 0.0, Finite 0.0).

(** The thermal capacity rate of the inlet node [NodeNum] of the zone. *)
Definition InletCapacityRate (h : Host) (ZoneNum : Z) (st : State) (NodeNum : Z) : Real64 :=
  NodeMassFlowRate h (InletNode h ZoneNum NodeNum)
  * PsyCpAirFnWTdb h (ZoneAirHumRat h ZoneNum)
                   (NodeTemp (hostv st) (InletNode h ZoneNum NodeNum)).

(** ** What the outbound adapter reports for a surface

    The surface [SurfNum] of the zone is reported to the heat balance with
    the effective air temperature [T] and the adjacent air as its
    reference. *)
Definition reported (zd : DefineZoneData.t) (SurfNum : Z) (T : Real64) (st : State) : Prop :=
  TempEffBulkAir (hostv st) (DefineZoneData.SurfFirst zd + SurfNum - 1)%Z = T /\
  SurfaceTAirRef (hostv st) (DefineZoneData.SurfFirst zd + SurfNum - 1)%Z = AdjacentAirTemp.

(** ** The tables after the build

    The state the build has before its loop over the zones that use the
    model: the zone data of [st0], the index list 1, ..., [MaxNumOfSurfs]
    and the tables of surfaces and air nodes with their defaults. *)
Definition Allocated (h : Host) (MaxNumOfSurfs MaxNumOfAirNodes : Z) (st0 : State) : State :=
  let NumOfMundtZones := Z.of_nat (length (MundtZones h)) in
  set_LineNode (allocate NumOfMundtZones (allocate MaxNumOfAirNodes Default_LineNode))
    (set_MundtAirSurf (allocate NumOfMundtZones (allocate MaxNumOfSurfs Default_MundtAirSurf))
       (set_TheseSurfIDs (allocate MaxNumOfSurfs 0%Z)
          (set_ID1dSurf (range 1 MaxNumOfSurfs) st0))).

(** A state without what the loop of the build over the zones writes: the
    tables of air nodes and of surfaces and the messages. *)
Definition without_tables (st : State) : State :=
  set_LineNode [] (set_MundtAirSurf [] (set_Messages [] st)).

(** What a call after the first leaves as it finds it: the zone data, the
    list of surface indices, the flag of the first call and the
    messages. *)
Definition build_record (st : State) : list DefineZoneData.t * list Z * bool * list Message :=
  (ZoneData st, ID1dSurf st, FirstTimeFlag st, Messages st).

(** The air node the build makes of the definition [a]: name, role tag,
    height and mask of the definition, and the temperature [T]. *)
Definition node_of (a : AirNodeData.t) (T : Real64) : DefineLinearModelNode.t :=
  {| DefineLinearModelNode.AirNodeName := AirNodeData.Name a;
     DefineLinearModelNode.ClassType := AirNodeData.ClassType a;
     DefineLinearModelNode.Height := AirNodeData.Height a;
     DefineLinearModelNode.Temp := T;
     DefineLinearModelNode.SurfMask := AirNodeData.SurfMask a |}.

(** From [st] to [st'] the rows of the zone [z], with the model index [m],
    have been built: each surface of the zone has got its area, and each
    air node that the zone declares and that has a definition has got
    the data of its definition, the definitions taken in the order of the
    table. *)
Definition zone_built (h : Host) (z m : Z) (st st' : State) : Prop :=
  (forall s, (1 <= s <= DefineZoneData.NumOfSurfs (zd_entry h z))%Z ->
     exists x,
       at2 (MundtAirSurf st) m s = Some x /\
       at2 (MundtAirSurf st') m s
       = Some (DefineSurfaceSettings.set_Area
                 (SurfaceArea h (DefineZoneData.SurfFirst (zd_entry h z) + s - 1)%Z) x)) /\
  (forall (j : nat) a,
     (Z.of_nat j < TotNumOfZoneAirNodes h z)%Z -> zone_defs h z !! j = Some a ->
     exists n,
       at2 (LineNode st) m (Z.of_nat j + 1) = Some n /\
       at2 (LineNode st') m (Z.of_nat j + 1)
       = Some (node_of (AirNode h a) (DefineLinearModelNode.Temp n))).

(** From [st] to [st'] the rows with a model index in [P] are as they
    were. *)
Definition rows_kept (P : Z -> Prop) (st st' : State) : Prop :=
  forall m k, P m ->
    at2 (LineNode st') m k = at2 (LineNode st) m k /\
    at2 (MundtAirSurf st') m k = at2 (MundtAirSurf st) m k.

(** ** A zone with six air nodes and three surfaces

    One controlled zone served by one inlet: a floor (surface 1), a wall
    (surface 2) and a ceiling (surface 3); air nodes for the inlet, the
    floor, the thermostat, the ceiling, the wall and the return.  The host
    is given by the temperature of the floor surface, the height of the
    return node and the mass flow rate of the zone. *)

Local Open Scope string_scope.

Definition Example_AirNode (ReturnHeight : Real64) (i : Z) : AirNodeData.t :=
  let node nm c hgt m :=
    {| AirNodeData.Name := nm; AirNodeData.ZoneName := "Zone One";
       AirNodeData.ClassType := c; AirNodeData.Height := hgt; AirNodeData.SurfMask := m |} in
  if (i =? 1)%Z then node "SUPPLY" InletAirNode 2.0 [false; false; false]
  else if (i =? 2)%Z then node "FLOOR" FloorAirNode 0.1 [true; false; false]
  else if (i =? 3)%Z then node "TSTAT" ControlAirNode 1.1 [false; false; false]
  else if (i =? 4)%Z then node "CEILING" CeilingAirNode 2.4 [false; false; true]
  else if (i =? 5)%Z then node "WALL" MundtRoomAirNode 1.2 [false; true; false]
  else node "RETURN" ReturnAirNode ReturnHeight [false; false; false].

Definition Example_Host_with (FloorSurfTemp ReturnHeight MassFlowRate : Real64) : Host :=
  {| NumOfZones := 1; ZoneName := fun _ => "ZONE ONE";
     SurfaceFirst := fun _ => 1%Z; SurfaceLast := fun _ => 3%Z;
     IsControlled := fun _ => true;
     CeilingHeight := fun _ => 2.5; FloorArea := fun _ => 50.0;
     Multiplier := fun _ => 1%Z; ListMultiplier := fun _ => 1%Z;
     SystemZoneNodeNumber := fun _ => 5%Z; NoHeatToReturnAir := fun _ => false;
     OutDryBulbTemp := fun _ => 30.0;
     AirModelType := fun _ => RoomAirModel_Mundt;
     TempCoupleScheme := fun _ => DirectCoupling;
     TotNumOfZoneAirNodes := fun _ => 6%Z; TotNumOfAirNodes := 6%Z;
     AirNode := Example_AirNode ReturnHeight;
     ConvectiveFloorSplit := fun _ => 0.0; InfiltratFloorSplit := fun _ => 0.0;
     SurfaceArea := fun _ => 50.0;
     TempSurfIn := fun i => if (i =? 1)%Z then FloorSurfTemp else 20.0;
     HConvIn := fun _ => 3.0;
     OutBaroPress := 101325.0; MAT := fun _ => 18.0; ZT := fun _ => 18.0;
     ZoneAirHumRat := fun _ => 0.0; MCPI := fun _ => 0.0;
     SumConvHTRadSys := fun _ => 0.0; SumConvPool := fun _ => 0.0;
     SysDepZoneLoadsLagged := fun _ => 0.0; NonAirSystemResponse := fun _ => 0.0;
     TempZoneThermostatSetPoint := fun _ => 24.0;
     NodeMassFlowRate := fun _ => MassFlowRate; NumInletNodes := fun _ => 1%Z;
     InletNode := fun _ _ => 7%Z;
     PsyRhoAirFnPbTdbW := fun _ _ _ => 1.0; PsyWFnTdpPb := fun _ _ => 0.0;
     PsyCpAirFnWTdb := fun _ _ => 1005.0;
     SumAllInternalConvectionGains := fun _ => 0.0;
     SumAllReturnAirConvectionGains := fun _ => 0.0 |}.

(** Cooling with a floor at 20 C; a floor at 40 C; the return node at the
    height of the floor node; the system off. *)
Definition Example_Host : Host := Example_Host_with 20.0 2.4 0.5.
Definition HotFloor_Host : Host := Example_Host_with 40.0 2.4 0.5.
Definition LowReturn_Host : Host := Example_Host_with 20.0 0.1 0.5.
Definition SystemOff_Host : Host := Example_Host_with 20.0 2.4 0.0.

(** The state a computation ends in. *)
Definition final {A} (m : M A) (st : State) : State :=
  match m st with
  | Ok _ st' => st'
  | Fatal st' => st'
  | Faulted _ => st
  end.

(** The zone of [h] as [ManageMundtModel] hands it to [CalcMundtModel]:
    initialized, its data fetched and its roles resolved. *)
Definition Ready (h : Host) : State :=
  final (InitMundtModel h ;;
         modify (set_FirstTimeFlag false) ;;
         modify (set_MundtZoneNum 1) ;;
         GetSurfHBDataForMundtModel h 1 ;;
         SetupMundtModel h 1 false) State0.

(** The example zone with its load turned into a heating load. *)
Definition Heating_State : State :=
  set_work {| ZoneHeight := 2.5; ZoneFloorArea := 50.0; QventCool := 0.0; ConvIntGain := 0.0;
              SupplyAirTemp := 15.0; SupplyAirVolumeRate := 0.5; ZoneAirDensity := 1.0;
              QsysCoolTot := - 100.0 |} (Ready Example_Host).

(** The scenario of the specification: supply air at 15 C, a supply volume
    flow of 0.5 at unit density, a cooling load of 1500 W, nothing
    apportioned to the floor, floor surfaces without film conductance, the
    return node at 2.4 m and the floor node at 0.1 m. *)
Definition Scenario_State : State :=
  set_work {| ZoneHeight := 2.5; ZoneFloorArea := 50.0; QventCool := 0.0; ConvIntGain := 0.0;
              SupplyAirTemp := 15.0; SupplyAirVolumeRate := 0.5; ZoneAirDensity := 1.0;
              QsysCoolTot := 1500.0 |}
    (set_FloorSurf [ {| DefineSurfaceSettings.Area := 50.0; DefineSurfaceSettings.Temp := 20.0;
                        DefineSurfaceSettings.Hc := 0.0;
                        DefineSurfaceSettings.TMeanAir := 25.0 |} ]
       (Ready Example_Host)).


(** ** Two zones, the second without a ceiling node

    The first zone is the zone above.  The second zone has five air nodes:
    floor, thermostat, wall, inlet and return, in this order, and no
    ceiling node. *)

Definition TwoZone_AirNode (i : Z) : AirNodeData.t :=
  let node nm c hgt m :=
    {| AirNodeData.Name := nm; AirNodeData.ZoneName := "Zone Two";
       AirNodeData.ClassType := c; AirNodeData.Height := hgt; AirNodeData.SurfMask := m |} in
  if (i <=? 6)%Z then Example_AirNode 2.4 i
  else if (i =? 7)%Z then node "FLOOR 2" FloorAirNode 0.1 [true; false; false]
  else if (i =? 8)%Z then node "TSTAT 2" ControlAirNode 1.1 [false; false; false]
  else if (i =? 9)%Z then node "WALL 2" MundtRoomAirNode 1.2 [false; true; false]
  else if (i =? 10)%Z then node "SUPPLY 2" InletAirNode 2.0 [false; false; true]
  else node "RETURN 2" ReturnAirNode 2.4 [false; false; false].

Definition TwoZone_Host : Host :=
  {| NumOfZones := 2;
     ZoneName := fun z => if (z =? 1)%Z then "ZONE ONE" else "ZONE TWO";
     SurfaceFirst := fun z => if (z =? 1)%Z then 1%Z else 4%Z;
     SurfaceLast := fun z => if (z =? 1)%Z then 3%Z else 6%Z;
     IsControlled := fun _ => true;
     CeilingHeight := fun _ => 2.5; FloorArea := fun _ => 50.0;
     Multiplier := fun _ => 1%Z; ListMultiplier := fun _ => 1%Z;
     SystemZoneNodeNumber := fun z => if (z =? 1)%Z then 5%Z else 6%Z;
     NoHeatToReturnAir := fun _ => false;
     OutDryBulbTemp := fun _ => 30.0;
     AirModelType := fun _ => RoomAirModel_Mundt;
     TempCoupleScheme := fun _ => DirectCoupling;
     TotNumOfZoneAirNodes := fun z => if (z =? 1)%Z then 6%Z else 5%Z;
     TotNumOfAirNodes := 11%Z;
     AirNode := TwoZone_AirNode;
     ConvectiveFloorSplit := fun _ => 0.0; InfiltratFloorSplit := fun _ => 0.0;
     SurfaceArea := fun _ => 50.0;
     TempSurfIn := fun _ => 20.0;
     HConvIn := fun _ => 3.0;
     OutBaroPress := 101325.0; MAT := fun _ => 18.0; ZT := fun _ => 18.0;
     ZoneAirHumRat := fun _ => 0.0; MCPI := fun _ => 0.0;
     SumConvHTRadSys := fun _ => 0.0; SumConvPool := fun _ => 0.0;
     SysDepZoneLoadsLagged := fun _ => 0.0; NonAirSystemResponse := fun _ => 0.0;
     TempZoneThermostatSetPoint := fun _ => 24.0;
     NodeMassFlowRate := fun _ => 0.5; NumInletNodes := fun _ => 1%Z;
     InletNode := fun _ _ => 7%Z;
     PsyRhoAirFnPbTdbW := fun _ _ _ => 1.0; PsyWFnTdpPb := fun _ _ => 0.0;
     PsyCpAirFnWTdb := fun _ _ => 1005.0;
     SumAllInternalConvectionGains := fun _ => 0.0;
     SumAllReturnAirConvectionGains := fun _ => 0.0 |}.

(** The second zone after the first zone has been processed, as the role
    resolver finds it, and as the resolver leaves it. *)
Definition TwoZone_Fetched : State :=
  final (modify (set_MundtZoneNum 2) ;; GetSurfHBDataForMundtModel TwoZone_Host 2)
        (final (ManageMundtModel TwoZone_Host 1) State0).

Definition TwoZone_Resolved : State :=
  final (SetupMundtModel TwoZone_Host 2 false) TwoZone_Fetched.

(** The example zone one call later, with the system off and the floor
    surface at 40 C; before this call the solver has run (first state) or
    has never run (second state). *)
Definition SystemOff_HotFloor_Host : Host := Example_Host_with 40.0 2.4 0.0.

Definition After_Cooling : State := final (ManageMundtModel Example_Host 1) State0.
Definition After_Off : State := final (ManageMundtModel SystemOff_Host 1) State0.

Local Close Scope string_scope.

Local Open Scope string_scope.

(** ** Hosts for the topology build

    The host [h] with other names of the zones, other numbers of declared
    air nodes and another table of air-node definitions. *)
Definition with_tables (h : Host) (ZoneName' : Z -> string)
    (TotNumOfZoneAirNodes' : Z -> Z) (TotNumOfAirNodes' : Z)
    (AirNode' : Z -> AirNodeData.t) : Host :=
  {| NumOfZones := NumOfZones h; ZoneName := ZoneName'; SurfaceFirst := SurfaceFirst h;
     SurfaceLast := SurfaceLast h; IsControlled := IsControlled h;
     CeilingHeight := CeilingHeight h; FloorArea := FloorArea h;
     Multiplier := Multiplier h; ListMultiplier := ListMultiplier h;
     SystemZoneNodeNumber := SystemZoneNodeNumber h;
     NoHeatToReturnAir := NoHeatToReturnAir h; OutDryBulbTemp := OutDryBulbTemp h;
     AirModelType := AirModelType h; TempCoupleScheme := TempCoupleScheme h;
     TotNumOfZoneAirNodes := TotNumOfZoneAirNodes';
     TotNumOfAirNodes := TotNumOfAirNodes'; AirNode := AirNode';
     ConvectiveFloorSplit := ConvectiveFloorSplit h;
     InfiltratFloorSplit := InfiltratFloorSplit h; SurfaceArea := SurfaceArea h;
     TempSurfIn := TempSurfIn h; HConvIn := HConvIn h; OutBaroPress := OutBaroPress h;
     MAT := MAT h; ZT := ZT h; ZoneAirHumRat := ZoneAirHumRat h; MCPI := MCPI h;
     SumConvHTRadSys := SumConvHTRadSys h; SumConvPool := SumConvPool h;
     SysDepZoneLoadsLagged := SysDepZoneLoadsLagged h;
     NonAirSystemResponse := NonAirSystemResponse h;
     TempZoneThermostatSetPoint := TempZoneThermostatSetPoint h;
     NodeMassFlowRate := NodeMassFlowRate h; NumInletNodes := NumInletNodes h;
     InletNode := InletNode h; PsyRhoAirFnPbTdbW := PsyRhoAirFnPbTdbW h;
     PsyWFnTdpPb := PsyWFnTdpPb h; PsyCpAirFnWTdb := PsyCpAirFnWTdb h;
     SumAllInternalConvectionGains := SumAllInternalConvectionGains h;
     SumAllReturnAirConvectionGains := SumAllReturnAirConvectionGains h |}.

(** The table of the two zones with one more definition behind it, of a
    node of a third zone. *)
Definition Spare_AirNode (i : Z) : AirNodeData.t :=
  if (i <=? 11)%Z then TwoZone_AirNode i
  else {| AirNodeData.Name := "SPARE"; AirNodeData.ZoneName := "Zone Three";
          AirNodeData.ClassType := MundtRoomAirNode; AirNodeData.Height := 1.2;
          AirNodeData.SurfMask := [false; false; false] |}.

(** The two zones, each declaring one air node more than it has
    definitions; the table ends with the definition of the third zone. *)
Definition Unmatched_Host : Host :=
  with_tables TwoZone_Host (ZoneName TwoZone_Host)
    (fun z => if (z =? 1)%Z then 7%Z else 6%Z) 12%Z Spare_AirNode.

(** The two zones with their names exchanged, each declaring one air node
    more than it has definitions: the definitions of the first zone are now
    the last five of the table. *)
Definition Overrun_Host : Host :=
  with_tables TwoZone_Host (fun z => if (z =? 1)%Z then "ZONE TWO" else "ZONE ONE")
    (fun z => if (z =? 1)%Z then 6%Z else 7%Z) 11%Z TwoZone_AirNode.

Local Close Scope string_scope.

(** ** States for the role resolver

    The example zone, ready, with another role tag at the air node
    [NodeID] of the zone. *)
Definition Retagged (NodeID : Z) (c : Z) : State :=
  set_LineNode
    (default [] (upd2 1 NodeID
       (fun n => {| DefineLinearModelNode.AirNodeName := DefineLinearModelNode.AirNodeName n;
                    DefineLinearModelNode.ClassType := c;
                    DefineLinearModelNode.Height := DefineLinearModelNode.Height n;
                    DefineLinearModelNode.Temp := DefineLinearModelNode.Temp n;
                    DefineLinearModelNode.SurfMask := DefineLinearModelNode.SurfMask n |})
       (LineNode (Ready Example_Host))))
    (Ready Example_Host).

(** The thermostat node tagged as a second floor node; the wall node
    tagged with a tag the resolver does not know. *)
Definition TwoFloors_State : State := Retagged 3 FloorAirNode.
Definition Odd_State : State := Retagged 5 7.

(** ** Hosts for the adapters

    The host [h] with another answer to whether a zone is controlled, and
    with another coupling scheme. *)
Definition with_IsControlled (v : Z -> bool) (h : Host) : Host :=
  {| NumOfZones := NumOfZones h; ZoneName := ZoneName h; SurfaceFirst := SurfaceFirst h;
     SurfaceLast := SurfaceLast h; IsControlled := v; CeilingHeight := CeilingHeight h;
     FloorArea := FloorArea h; Multiplier := Multiplier h;
     ListMultiplier := ListMultiplier h; SystemZoneNodeNumber := SystemZoneNodeNumber h;
     NoHeatToReturnAir := NoHeatToReturnAir h; OutDryBulbTemp := OutDryBulbTemp h;
     AirModelType := AirModelType h; TempCoupleScheme := TempCoupleScheme h;
     TotNumOfZoneAirNodes := TotNumOfZoneAirNodes h;
     TotNumOfAirNodes := TotNumOfAirNodes h; AirNode := AirNode h;
     ConvectiveFloorSplit := ConvectiveFloorSplit h;
     InfiltratFloorSplit := InfiltratFloorSplit h; SurfaceArea := SurfaceArea h;
     TempSurfIn := TempSurfIn h; HConvIn := HConvIn h; OutBaroPress := OutBaroPress h;
     MAT := MAT h; ZT := ZT h; ZoneAirHumRat := ZoneAirHumRat h; MCPI := MCPI h;
     SumConvHTRadSys := SumConvHTRadSys h; SumConvPool := SumConvPool h;
     SysDepZoneLoadsLagged := SysDepZoneLoadsLagged h;
     NonAirSystemResponse := NonAirSystemResponse h;
     TempZoneThermostatSetPoint := TempZoneThermostatSetPoint h;
     NodeMassFlowRate := NodeMassFlowRate h; NumInletNodes := NumInletNodes h;
     InletNode := InletNode h; PsyRhoAirFnPbTdbW := PsyRhoAirFnPbTdbW h;
     PsyWFnTdpPb := PsyWFnTdpPb h; PsyCpAirFnWTdb := PsyCpAirFnWTdb h;
     SumAllInternalConvectionGains := SumAllInternalConvectionGains h;
     SumAllReturnAirConvectionGains := SumAllReturnAirConvectionGains h |}.

Definition with_TempCoupleScheme (v : Z -> Z) (h : Host) : Host :=
  {| NumOfZones := NumOfZones h; ZoneName := ZoneName h; SurfaceFirst := SurfaceFirst h;
     SurfaceLast := SurfaceLast h; IsControlled := IsControlled h;
     CeilingHeight := CeilingHeight h; FloorArea := FloorArea h;
     Multiplier := Multiplier h; ListMultiplier := ListMultiplier h;
     SystemZoneNodeNumber := SystemZoneNodeNumber h;
     NoHeatToReturnAir := NoHeatToReturnAir h; OutDryBulbTemp := OutDryBulbTemp h;
     AirModelType := AirModelType h; TempCoupleScheme := v;
     TotNumOfZoneAirNodes := TotNumOfZoneAirNodes h;
     TotNumOfAirNodes := TotNumOfAirNodes h; AirNode := AirNode h;
     ConvectiveFloorSplit := ConvectiveFloorSplit h;
     InfiltratFloorSplit := InfiltratFloorSplit h; SurfaceArea := SurfaceArea h;
     TempSurfIn := TempSurfIn h; HConvIn := HConvIn h; OutBaroPress := OutBaroPress h;
     MAT := MAT h; ZT := ZT h; ZoneAirHumRat := ZoneAirHumRat h; MCPI := MCPI h;
     SumConvHTRadSys := SumConvHTRadSys h; SumConvPool := SumConvPool h;
     SysDepZoneLoadsLagged := SysDepZoneLoadsLagged h;
     NonAirSystemResponse := NonAirSystemResponse h;
     TempZoneThermostatSetPoint := TempZoneThermostatSetPoint h;
     NodeMassFlowRate := NodeMassFlowRate h; NumInletNodes := NumInletNodes h;
     InletNode := InletNode h; PsyRhoAirFnPbTdbW := PsyRhoAirFnPbTdbW h;
     PsyWFnTdpPb := PsyWFnTdpPb h; PsyCpAirFnWTdb := PsyCpAirFnWTdb h;
     SumAllInternalConvectionGains := SumAllInternalConvectionGains h;
     SumAllReturnAirConvectionGains := SumAllReturnAirConvectionGains h |}.

(** The example zone without a system, and with indirect coupling. *)
Definition Uncontrolled_Host : Host := with_IsControlled (fun _ => false) Example_Host.
Definition Indirect_Host : Host := with_TempCoupleScheme (fun _ => 2%Z) Example_Host.

(** The example zone, ready, with the floor role bound to the index of
    the return node, as an index left by another zone can be. *)
Definition FloorAtReturn_State : State :=
  set_roles (set_MundtFootAirID (ReturnNodeID (roles (Ready Example_Host)))
                                (roles (Ready Example_Host)))
            (Ready Example_Host).

(** ** Hosts for the supply air

    The host [h] with other mass flow rates at the nodes of the air loop,
    another number of inlet nodes and other inlet nodes. *)
Definition with_inlets (h : Host) (NodeMassFlowRate' : Z -> Real64)
    (NumInletNodes' : Z -> Z) (InletNode' : Z -> Z -> Z) : Host :=
  {| NumOfZones := NumOfZones h; ZoneName := ZoneName h; SurfaceFirst := SurfaceFirst h;
     SurfaceLast := SurfaceLast h; IsControlled := IsControlled h;
     CeilingHeight := CeilingHeight h; FloorArea := FloorArea h;
     Multiplier := Multiplier h; ListMultiplier := ListMultiplier h;
     SystemZoneNodeNumber := SystemZoneNodeNumber h;
     NoHeatToReturnAir := NoHeatToReturnAir h; OutDryBulbTemp := OutDryBulbTemp h;
     AirModelType := AirModelType h; TempCoupleScheme := TempCoupleScheme h;
     TotNumOfZoneAirNodes := TotNumOfZoneAirNodes h;
     TotNumOfAirNodes := TotNumOfAirNodes h; AirNode := AirNode h;
     ConvectiveFloorSplit := ConvectiveFloorSplit h;
     InfiltratFloorSplit := InfiltratFloorSplit h; SurfaceArea := SurfaceArea h;
     TempSurfIn := TempSurfIn h; HConvIn := HConvIn h; OutBaroPress := OutBaroPress h;
     MAT := MAT h; ZT := ZT h; ZoneAirHumRat := ZoneAirHumRat h; MCPI := MCPI h;
     SumConvHTRadSys := SumConvHTRadSys h; SumConvPool := SumConvPool h;
     SysDepZoneLoadsLagged := SysDepZoneLoadsLagged h;
     NonAirSystemResponse := NonAirSystemResponse h;
     TempZoneThermostatSetPoint := TempZoneThermostatSetPoint h;
     NodeMassFlowRate := NodeMassFlowRate'; NumInletNodes := NumInletNodes';
     InletNode := InletNode'; PsyRhoAirFnPbTdbW := PsyRhoAirFnPbTdbW h;
     PsyWFnTdpPb := PsyWFnTdpPb h; PsyCpAirFnWTdb := PsyCpAirFnWTdb h;
     SumAllInternalConvectionGains := SumAllInternalConvectionGains h;
     SumAllReturnAirConvectionGains := SumAllReturnAirConvectionGains h |}.

(** The example zone served by two inlets, the nodes 7 and 8 of the air
    loop, with 0.3 kg/s and 0.2 kg/s; the system node of the zone, node 5,
    has the 0.5 kg/s of both. *)
Definition TwoInlet_Host : Host :=
  with_inlets Example_Host
    (fun n => if (n =? 7)%Z then 0.3 else if (n =? 8)%Z then 0.2 else 0.5)
    (fun _ => 2%Z) (fun _ NodeNum => (6 + NodeNum)%Z).

(** The same two inlets without flow, while the system node of the zone
    still has its 0.5 kg/s. *)
Definition NoInletFlow_Host : Host :=
  with_inlets Example_Host
    (fun n => if (n =? 5)%Z then 0.5 else 0.0)
    (fun _ => 2%Z) (fun _ NodeNum => (6 + NodeNum)%Z).

(** The example zone after a call, with the air at node 7 of the air loop
    at 12 C and the air at the other nodes at 20 C. *)
Definition TwoInlet_State : State :=
  set_hostv (set_NodeTemp (fun n => if (n =? 7)%Z then 12.0 else 20.0)
                          (hostv After_Cooling))
            After_Cooling.

(** ** Two zones, the second without a floor node

    The first zone is the example zone.  The second zone has five air
    nodes: return, ceiling, thermostat, wall and inlet, in this order, and
    no floor node; its return node is at 2.5 m, and its third surface,
    the one of its ceiling node, is at 40 C. *)

Local Open Scope string_scope.



Local Close Scope string_scope.



(** ** What the solver writes to the surface entries (lines 711-729)

    [listed l N i]: the index [i] is among the first [N] entries of the
    list [l], the entries a loop from 1 to [N] over the list takes. *)
Definition listed (l : list Z) (N : Z) (i : Z) : Prop :=
  exists k, (1 <= k <= N)%Z /\ at1 l k = Some i.

(** The surfaces of the air node [n]: the surface indices packed with the
    mask of the node, as many as the mask counts. *)
Definition node_surface (st : State) (n : DefineLinearModelNode.t) (SurfID : Z) : Prop :=
  listed (pack (ID1dSurf st) (DefineLinearModelNode.SurfMask n))
         (count (DefineLinearModelNode.SurfMask n)) SurfID.

(** [solver_writes st sol ReturnNode SurfID T]: in the state [st], with
    the solution [sol], the solver writes the temperature [T] to the entry
    of the surface [SurfID]: the floor air temperature to a surface of the
    floor surface set, the temperature of the line at the height of the
    ceiling node to a surface of the ceiling node, and the temperature of
    the line at the height of a room node to a surface of that node. *)
Definition solver_writes (st : State) (sol : Solution.t)
    (ReturnNode : DefineLinearModelNode.t) (SurfID : Z) (T : Real64) : Prop :=
  let line := LineTemp (Solution.TLeaving sol) (Solution.Slope sol)
                       (DefineLinearModelNode.Height ReturnNode) in
  (listed (FloorSurfSetIDs st) (NumFloorSurfs st) SurfID /\ T = Solution.TAirFoot sol) \/
  (exists n, node_at st (MundtCeilAirID (roles st)) = Some n /\
             node_surface st n SurfID /\ T = line (DefineLinearModelNode.Height n)) \/
  (exists NodeNum RoomNodeID n,
      (1 <= NodeNum <= NumRoomNodes (roles st))%Z /\
      at1 (RoomNodeIDs (roles st)) NodeNum = Some RoomNodeID /\
      node_at st RoomNodeID = Some n /\
      node_surface st n SurfID /\ T = line (DefineLinearModelNode.Height n)).

(** [surfaces_written P s0 s]: from [s0] to [s] the surface entries of the
    other zones are as they were, and an entry of the zone being processed
    is as it was and has no write in [P], or has got as its effective air
    temperature a temperature [P] has for it, and nothing else. *)
Definition surfaces_written (P : Z -> Real64 -> Prop) (s0 s : State) : Prop :=
  MundtZoneNum s = MundtZoneNum s0 /\
  (forall z SurfID, z <> MundtZoneNum s0 ->
     at2 (MundtAirSurf s) z SurfID = at2 (MundtAirSurf s0) z SurfID) /\
  forall SurfID,
    (surf_at s SurfID = surf_at s0 SurfID /\ forall T, ~ P SurfID T) \/
    (exists x T, surf_at s0 SurfID = Some x /\ P SurfID T /\
                 surf_at s SurfID = Some (DefineSurfaceSettings.set_TMeanAir T x)).

(** ** A zone with a surface of two air nodes and a surface of none

    The example zone with the floor surface in the mask of the wall node
    too, and the wall surface in no mask. *)
Definition Masks_AirNode (i : Z) : AirNodeData.t :=
  if (i =? 5)%Z
  then {| AirNodeData.Name := AirNodeData.Name (Example_AirNode 2.4 5);
          AirNodeData.ZoneName := AirNodeData.ZoneName (Example_AirNode 2.4 5);
          AirNodeData.ClassType := MundtRoomAirNode; AirNodeData.Height := 1.2;
          AirNodeData.SurfMask := [true; false; false] |}
  else Example_AirNode 2.4 i.

Definition Masks_Host : Host :=
  with_tables Example_Host (ZoneName Example_Host) (TotNumOfZoneAirNodes Example_Host)
    (TotNumOfAirNodes Example_Host) Masks_AirNode.

(** ** The scenario with a gain that is not a finite number

    The scenario of the specification with a convective internal gain
    that the host hands over as an infinity. *)
Definition InfiniteGain_State : State :=
  set_work {| ZoneHeight := 2.5; ZoneFloorArea := 50.0; QventCool := 0.0;
              ConvIntGain := PosInf; SupplyAirTemp := 15.0; SupplyAirVolumeRate := 0.5;
              ZoneAirDensity := 1.0; QsysCoolTot := 1500.0 |} Scenario_State.

(** * Properties *)

(** ** Numbers *)

Lemma Qle_bool_false (x y : Q) : Qle_bool x y = false <-> (y < x)%Q.
Proof.
  split; intros H.
  - apply Qnot_le_lt. intros Hle. apply Qle_bool_iff in Hle. congruence.
  - destruct (Qle_bool x y) eqn:E; [| reflexivity].
    apply Qle_bool_iff in E. exfalso. apply (Qlt_not_le _ _ H E).
Qed.

Lemma Qcompare_0_eq (a : Q) : (a ?= 0)%Q = Eq <-> (a == 0)%Q.
Proof. symmetry. apply Qeq_alt. Qed.

Lemma Qcompare_0_gt (a : Q) : (a ?= 0)%Q = Gt <-> (0 < a)%Q.
Proof. rewrite Qgt_alt. reflexivity. Qed.

Lemma Qcompare_0_lt (a : Q) : (a ?= 0)%Q = Lt <-> (a < 0)%Q.
Proof. rewrite Qlt_alt. reflexivity. Qed.

Module R64Facts.

Lemma leb_le x y : R64.leb x y = true <-> x <= y.
Proof.
  destruct x, y; simpl; try tauto; try (split; [discriminate | contradiction]).
  apply Qle_bool_iff.
Qed.

Lemma ltb_lt x y : R64.ltb x y = true <-> x < y.
Proof.
  destruct x, y; simpl; try tauto; try (split; [discriminate | contradiction]).
  rewrite negb_true_iff. apply Qle_bool_false.
Qed.

Lemma leb_nle x y : R64.leb x y = false <-> ~ x <= y.
Proof.
  rewrite <- leb_le. destruct (R64.leb x y); split; congruence.
Qed.

Lemma ltb_nlt x y : R64.ltb x y = false <-> ~ x < y.
Proof.
  rewrite <- ltb_lt. destruct (R64.ltb x y); split; congruence.
Qed.

(** Among numbers the order is total. *)
Lemma nlt_le x y : number x -> number y -> ~ x < y -> y <= x.
Proof.
  destruct x, y; simpl; try tauto. intros _ _ H. apply Qnot_lt_le, H.
Qed.

Lemma nle_lt x y : number x -> number y -> ~ x <= y -> y < x.
Proof.
  destruct x, y; simpl; try tauto. intros _ _ H. apply Qnot_le_lt, H.
Qed.

Lemma le_number x y : x <= y -> number x /\ number y.
Proof. destruct x, y; simpl; tauto. Qed.

Lemma lt_number x y : x < y -> number x /\ number y.
Proof. destruct x, y; simpl; tauto. Qed.

Lemma lt_le x y : x < y -> x <= y.
Proof. destruct x, y; simpl; try tauto. apply Qlt_le_weak. Qed.

Lemma le_trans x y z : x <= y -> y <= z -> x <= z.
Proof. destruct x, y, z; simpl; try tauto. apply Qle_trans. Qed.

Lemma le_lt_trans x y z : x <= y -> y < z -> x < z.
Proof. destruct x, y, z; simpl; try tauto. apply Qle_lt_trans. Qed.

Lemma lt_le_trans x y z : x < y -> y <= z -> x < z.
Proof. destruct x, y, z; simpl; try tauto. apply Qlt_le_trans. Qed.

Lemma le_refl x : number x -> x <= x.
Proof. destruct x; simpl; try tauto. intros _. apply Qle_refl. Qed.

Lemma lt_not_le x y : x < y -> ~ y <= x.
Proof. destruct x, y; simpl; try tauto. apply Qlt_not_le. Qed.

Lemma eqv_refl x : x == x.
Proof. destruct x; simpl; auto. reflexivity. Qed.


Lemma eqv_trans x y z : x == y -> y == z -> x == z.
Proof. destruct x, y, z; simpl; try tauto. apply Qeq_trans. Qed.

Lemma eq_eqv x y : x = y -> x == y.
Proof. intros ->. apply eqv_refl. Qed.

Lemma le_eqv_r x y z : x <= y -> y == z -> x <= z.
Proof. destruct x, y, z; simpl; try tauto. intros H E. rewrite <- E. exact H. Qed.


Lemma finite_number x : finite x -> number x.
Proof. destruct x; simpl; tauto. Qed.

Lemma finite_inv x : finite x -> exists a, x = Finite a.
Proof. destruct x; simpl; try tauto. eauto. Qed.

Lemma eqv_finite (x : Real64) (a : Q) : x == Finite a -> finite x.
Proof. destruct x; simpl; tauto. Qed.

Lemma eqv_finite_inv (x : Real64) (a : Q) :
  x == Finite a -> exists b, x = Finite b /\ (b == a)%Q.
Proof. destruct x; simpl; try tauto. eauto. Qed.

(** The quotient of two finite numbers by a divisor other than zero, and
    by zero. *)
Lemma div_finite (a b : Q) : ~ (b == 0)%Q -> Finite a / Finite b = Finite (a / b).
Proof.
  intros Hb. simpl. destruct (b ?= 0)%Q eqn:E; try reflexivity.
  apply Qcompare_0_eq in E. contradiction.
Qed.

Lemma div_zero (a b : Q) : (b == 0)%Q -> Finite a / Finite b = R64.inf (a ?= 0)%Q.
Proof.
  intros Hb. simpl. apply Qcompare_0_eq in Hb. rewrite Hb. reflexivity.
Qed.

End R64Facts.

(** Replaces the values known to be finite by rationals. *)
Ltac finite_inv :=
  repeat match goal with
         | H : finite ?x |- _ =>
             let a := fresh "q" in
             let E := fresh "E" in
             destruct (R64Facts.finite_inv x H) as [a E]; clear H;
             first [subst x | rewrite ?E in *]
         end.

(** ** Reasoning about the monad *)

Lemma bind_Ok_inv {A B} (m : M A) (k : A -> M B) st b st' :
  bind m k st = Ok b st' ->
  exists a st1, m st = Ok a st1 /\ k a st1 = Ok b st'.
Proof.
  unfold bind. destruct (m st) as [a st1 | |]; try discriminate.
  intros H. exists a, st1. split; [reflexivity | exact H].
Qed.

Lemma bind_Ok {A B} (m : M A) (k : A -> M B) st a st1 :
  m st = Ok a st1 -> bind m k st = k a st1.
Proof. unfold bind. intros ->. reflexivity. Qed.

Lemma bind_Fatal {A B} (m : M A) (k : A -> M B) st st1 :
  m st = Fatal st1 -> bind m k st = Fatal st1.
Proof. unfold bind. intros ->. reflexivity. Qed.

Lemma bind_Faulted {A B} (m : M A) (k : A -> M B) st f :
  m st = Faulted f -> bind m k st = Faulted f.
Proof. unfold bind. intros ->. reflexivity. Qed.

Lemma checked_Ok_inv {A} (o : option A) st a st' :
  checked o st = Ok a st' -> o = Some a /\ st' = st.
Proof.
  destruct o; unfold checked, ret, fault; intros H; inversion H; auto.
Qed.

(** Takes a hypothesis [m st = Ok b st'] apart along the binds of [m]. *)
Ltac inv_Ok H := first [injection H as <- <- | injection H as <- | injection H as -> ->].

Ltac inv_step H :=
  match type of H with
  | bind _ _ _ = Ok _ _ =>
      let a := fresh "a" in
      let s := fresh "s" in
      let H1 := fresh "H" in
      apply bind_Ok_inv in H as (a & s & H1 & H); inv_step H1; cbv beta zeta in H; inv_step H
  | get _ = Ok _ _ => unfold get in H; inv_Ok H
  | ret _ _ = Ok _ _ => unfold ret in H; inv_Ok H
  | modify _ _ = Ok _ _ => unfold modify in H; inv_Ok H
  | set_role _ _ = Ok _ _ => unfold set_role, modify in H; inv_Ok H
  | set_host _ _ = Ok _ _ => unfold set_host, modify in H; inv_Ok H
  | ShowSevereError _ _ = Ok _ _ => unfold ShowSevereError, modify in H; inv_Ok H
  | SetupOutputVariable _ _ _ = Ok _ _ => unfold SetupOutputVariable, modify in H; inv_Ok H
  | ShowFatalError _ _ = Ok _ _ => discriminate H
  | fault _ _ = Ok _ _ => discriminate H
  | checked _ _ = Ok _ _ =>
      let E := fresh "E" in
      apply checked_Ok_inv in H as [E ->]
  | _ => idtac
  end.

(** Invariants of loops. *)
Lemma for_each_inv {B} (P : State -> Prop) (l : list B) (body : B -> M unit) :
  (forall x st st', In x l -> P st -> body x st = Ok tt st' -> P st') ->
  forall st st', P st -> for_each l body st = Ok tt st' -> P st'.
Proof.
  induction l as [| x l IH]; simpl; intros Hbody st st' HP H.
  - inv_step H. exact HP.
  - apply bind_Ok_inv in H as ([] & st1 & H1 & H2).
    apply (IH (fun y s s' Hin => Hbody y s s' (or_intror Hin)) st1 st'); [| exact H2].
    apply (Hbody x st st1); auto.
Qed.

Lemma for_fold_inv {B S} (P : State -> Prop) (l : list B) (body : B -> S -> M S) :
  (forall x s st s' st', In x l -> P st -> body x s st = Ok s' st' -> P st') ->
  forall s st s' st', P st -> for_fold l s body st = Ok s' st' -> P st'.
Proof.
  induction l as [| x l IH]; simpl; intros Hbody s st s' st' HP H.
  - inv_step H. exact HP.
  - apply bind_Ok_inv in H as (s1 & st1 & H1 & H2).
    apply (IH (fun y t u t' u' Hin => Hbody y t u t' u' (or_intror Hin)) s1 st1 s' st');
      [| exact H2].
    apply (Hbody x s st s1 st1); auto.
Qed.

(** ** Arrays *)

Lemma range_In lo hi i : In i (range lo hi) <-> (lo <= i <= hi)%Z.
Proof.
  unfold range. rewrite in_map_iff. split.
  - intros (k & <- & Hk). apply in_seq in Hk. lia.
  - intros Hi. exists (Z.to_nat (i - lo)). split; [lia |]. apply in_seq. lia.
Qed.

Lemma range_NoDup lo hi : List.NoDup (range lo hi).
Proof.
  unfold range. apply Finite.Injective_map_NoDup.
  - intros a b Hab. lia.
  - apply List.seq_NoDup.
Qed.

Lemma at1_Some_bounds {A} (l : list A) i x :
  at1 l i = Some x -> (1 <= i <= Z.of_nat (length l))%Z.
Proof.
  unfold at1. destruct (1 <=? i)%Z eqn:E; [| discriminate].
  intros H. apply lookup_lt_Some in H. lia.
Qed.

Lemma at1_is_Some {A} (l : list A) i :
  (1 <= i <= Z.of_nat (length l))%Z -> exists x, at1 l i = Some x.
Proof.
  intros Hi. unfold at1. destruct (1 <=? i)%Z eqn:E; [| lia].
  destruct (lookup_lt_is_Some_2 l (Z.to_nat (i - 1))) as [x Hx]; [lia |]. eauto.
Qed.

Lemma upd1_Some_inv {A} i (f : A -> A) (l l' : list A) :
  upd1 i f l = Some l' ->
  exists x, at1 l i = Some x /\ l' = <[Z.to_nat (i - 1) := f x]> l.
Proof.
  unfold upd1. destruct (at1 l i) as [x |]; [| discriminate].
  intros H. inversion H. eauto.
Qed.

Lemma upd1_length {A} i (f : A -> A) (l l' : list A) :
  upd1 i f l = Some l' -> length l' = length l.
Proof.
  intros H. apply upd1_Some_inv in H as (x & _ & ->). apply length_insert.
Qed.

Lemma at1_upd1_eq {A} i (f : A -> A) (l l' : list A) :
  upd1 i f l = Some l' -> at1 l' i = option_map f (at1 l i).
Proof.
  intros H. apply upd1_Some_inv in H as (x & Hx & ->). rewrite Hx. simpl.
  pose proof (at1_Some_bounds _ _ _ Hx) as Hb.
  unfold at1. destruct (1 <=? i)%Z eqn:E; [| lia].
  apply list_lookup_insert_eq. lia.
Qed.

Lemma at1_upd1_ne {A} i j (f : A -> A) (l l' : list A) :
  upd1 i f l = Some l' -> j <> i -> at1 l' j = at1 l j.
Proof.
  intros H Hne. apply upd1_Some_inv in H as (x & Hx & ->).
  pose proof (at1_Some_bounds _ _ _ Hx) as Hb.
  unfold at1. destruct (1 <=? j)%Z eqn:E; [| reflexivity].
  apply list_lookup_insert_ne. lia.
Qed.

Lemma upd2_Some_inv {A} i j (f : A -> A) (ll ll' : list (list A)) :
  upd2 i j f ll = Some ll' ->
  exists row row', at1 ll i = Some row /\ upd1 j f row = Some row' /\
                   ll' = <[Z.to_nat (i - 1) := row']> ll.
Proof.
  unfold upd2. destruct (at1 ll i) as [row |]; [| discriminate].
  destruct (upd1 j f row) as [row' |] eqn:E; [| discriminate].
  intros H. inversion H. eauto.
Qed.

Lemma at1_insert_eq {A} i (x y : A) (l : list A) :
  at1 l i = Some x -> at1 (<[Z.to_nat (i - 1) := y]> l) i = Some y.
Proof.
  intros Hx. pose proof (at1_Some_bounds _ _ _ Hx) as Hb.
  unfold at1. destruct (1 <=? i)%Z eqn:E; [| lia].
  apply list_lookup_insert_eq. lia.
Qed.

Lemma at1_insert_ne {A} i j (x y : A) (l : list A) :
  at1 l i = Some x -> j <> i -> at1 (<[Z.to_nat (i - 1) := y]> l) j = at1 l j.
Proof.
  intros Hx Hne. pose proof (at1_Some_bounds _ _ _ Hx) as Hb.
  unfold at1. destruct (1 <=? j)%Z eqn:E; [| reflexivity].
  apply list_lookup_insert_ne. lia.
Qed.

Lemma at2_upd2_eq {A} i j (f : A -> A) (ll ll' : list (list A)) :
  upd2 i j f ll = Some ll' -> at2 ll' i j = option_map f (at2 ll i j).
Proof.
  intros H. apply upd2_Some_inv in H as (row & row' & Hrow & Hupd & ->).
  unfold at2. rewrite (at1_insert_eq _ _ _ _ Hrow), Hrow.
  eapply at1_upd1_eq; eauto.
Qed.

Lemma at2_upd2_ne {A} i j i' j' (f : A -> A) (ll ll' : list (list A)) :
  upd2 i j f ll = Some ll' -> (i' <> i \/ j' <> j) -> at2 ll' i' j' = at2 ll i' j'.
Proof.
  intros H Hne. apply upd2_Some_inv in H as (row & row' & Hrow & Hupd & ->).
  unfold at2. destruct (Z.eq_dec i' i) as [-> | Hi].
  - rewrite (at1_insert_eq _ _ _ _ Hrow), Hrow.
    destruct Hne as [Hne | Hne]; [congruence |].
    eapply at1_upd1_ne; eauto.
  - rewrite (at1_insert_ne _ _ _ _ _ Hrow Hi). reflexivity.
Qed.

Lemma upd2_is_Some {A} i j (f : A -> A) (ll : list (list A)) x :
  at2 ll i j = Some x -> exists ll', upd2 i j f ll = Some ll'.
Proof.
  unfold at2, upd2, upd1. destruct (at1 ll i) as [row |]; [| discriminate].
  intros ->. eauto.
Qed.

(** Any field of an entry that the update leaves alone is the same after
    the update, at every index. *)
Lemma at2_upd2_field {A F} (g : A -> F) i j (f : A -> A) (ll ll' : list (list A)) :
  (forall x, g (f x) = g x) ->
  upd2 i j f ll = Some ll' ->
  forall i' j', option_map g (at2 ll' i' j') = option_map g (at2 ll i' j').
Proof.
  intros Hg H i' j'.
  destruct (Z.eq_dec i' i) as [-> | Hi]; [destruct (Z.eq_dec j' j) as [-> | Hj] |].
  - rewrite (at2_upd2_eq _ _ _ _ _ H). destruct (at2 ll i j); simpl; [| reflexivity].
    rewrite Hg. reflexivity.
  - rewrite (at2_upd2_ne _ _ _ _ _ _ _ H); auto.
  - rewrite (at2_upd2_ne _ _ _ _ _ _ _ H); auto.
Qed.

(** ** The Mundt equations *)

Lemma LineNodeAt_Ok_inv NodeID st n st' :
  LineNodeAt NodeID st = Ok n st' -> node_at st NodeID = Some n /\ st' = st.
Proof.
  unfold LineNodeAt. intros H. inv_step H. auto.
Qed.

Lemma LineNodeAt_Ok NodeID st n :
  node_at st NodeID = Some n -> LineNodeAt NodeID st = Ok n st.
Proof.
  unfold LineNodeAt, node_at, bind, get. intros ->. reflexivity.
Qed.

Lemma LineNodeAt_None NodeID st :
  node_at st NodeID = None -> LineNodeAt NodeID st = Faulted ArrayBound.
Proof.
  unfold LineNodeAt, node_at, bind, get. intros ->. reflexivity.
Qed.

Lemma CheckSlope_TLeaving TLeaving dH Slope TAirFoot :
  Solution.TLeaving (CheckSlope TLeaving dH Slope TAirFoot) = TLeaving.
Proof.
  unfold CheckSlope.
  destruct (R64.ltb MaxSlope Slope); [destruct (R64.ltb MaxSlope MinSlope) |
                                      destruct (R64.ltb Slope MinSlope)]; reflexivity.
Qed.

Lemma CheckSlope_above TLeaving dH Slope TAirFoot :
  MaxSlope < Slope ->
  CheckSlope TLeaving dH Slope TAirFoot =
  {| Solution.TAirFoot := TLeaving - (MaxSlope * dH); Solution.TLeaving := TLeaving;
     Solution.Slope := MaxSlope |}.
Proof.
  intros H. unfold CheckSlope. apply R64Facts.ltb_lt in H. rewrite H. reflexivity.
Qed.

Lemma CheckSlope_below TLeaving dH Slope TAirFoot :
  Slope < MinSlope ->
  CheckSlope TLeaving dH Slope TAirFoot =
  {| Solution.TAirFoot := TLeaving; Solution.TLeaving := TLeaving;
     Solution.Slope := MinSlope |}.
Proof.
  intros H. unfold CheckSlope.
  assert (Hmax : R64.ltb MaxSlope Slope = false).
  { apply R64Facts.ltb_nlt. destruct Slope; simpl in *; try tauto.
    unfold MinSlope, MaxSlope in *. simpl in *. lra. }
  rewrite Hmax. apply R64Facts.ltb_lt in H. rewrite H. reflexivity.
Qed.

Lemma CheckSlope_within TLeaving dH Slope TAirFoot :
  MinSlope <= Slope <= MaxSlope ->
  CheckSlope TLeaving dH Slope TAirFoot =
  {| Solution.TAirFoot := TAirFoot; Solution.TLeaving := TLeaving; Solution.Slope := Slope |}.
Proof.
  intros [Hlo Hhi]. unfold CheckSlope.
  assert (E1 : R64.ltb MaxSlope Slope = false)
    by (apply R64Facts.ltb_nlt; intros H; exact (R64Facts.lt_not_le _ _ H Hhi)).
  assert (E2 : R64.ltb Slope MinSlope = false)
    by (apply R64Facts.ltb_nlt; intros H; exact (R64Facts.lt_not_le _ _ H Hlo)).
  rewrite E1, E2. reflexivity.
Qed.

(** NaN passes both tests. *)
Lemma CheckSlope_NaN TLeaving dH TAirFoot :
  CheckSlope TLeaving dH NaN TAirFoot =
  {| Solution.TAirFoot := TAirFoot; Solution.TLeaving := TLeaving; Solution.Slope := NaN |}.
Proof. reflexivity. Qed.

Lemma CheckSlope_cases (Slope : Real64) :
  number Slope ->
  MaxSlope < Slope \/ Slope < MinSlope \/ MinSlope <= Slope <= MaxSlope.
Proof.
  destruct Slope as [q | | |]; simpl; try tauto. intros _.
  destruct (Qlt_le_dec 5.0 q); [auto |].
  destruct (Qlt_le_dec q 0.001); auto.
Qed.

Lemma CheckSlope_bounds TLeaving dH Slope TAirFoot :
  number Slope ->
  MinSlope <= Solution.Slope (CheckSlope TLeaving dH Slope TAirFoot) <= MaxSlope.
Proof.
  intros Hn. destruct (CheckSlope_cases Slope Hn) as [H | [H | H]].
  - rewrite CheckSlope_above by exact H. simpl. lra.
  - rewrite CheckSlope_below by exact H. simpl. lra.
  - rewrite CheckSlope_within by exact H. simpl. exact H.
Qed.

(** The checked slope is NaN exactly when the slope of Eq 2.4 is. *)
Lemma CheckSlope_number TLeaving dH Slope TAirFoot :
  number (Solution.Slope (CheckSlope TLeaving dH Slope TAirFoot)) <-> number Slope.
Proof.
  split.
  - destruct Slope; simpl; tauto.
  - intros Hn. destruct (CheckSlope_bounds TLeaving dH Slope TAirFoot Hn) as [H _].
    apply R64Facts.le_number in H. tauto.
Qed.

(** What a run of the equations that yields a result has computed. *)
Lemma SolveMundt_Ok_inv h ZoneNum st sol st' :
  SolveMundt h ZoneNum st = Ok sol st' ->
  st' = st /\
  exists ReturnNode FootNode,
    node_at st (ReturnNodeID (roles st)) = Some ReturnNode /\
    node_at st (MundtFootAirID (roles st)) = Some FootNode /\
    sol = CheckSlope (LeavingAirTemp st)
            (DefineLinearModelNode.Height ReturnNode - DefineLinearModelNode.Height FootNode)
            (RawSlope h ZoneNum st (DefineLinearModelNode.Height ReturnNode)
                      (DefineLinearModelNode.Height FootNode))
            (FloorAirBalance h ZoneNum st).
Proof.
  unfold SolveMundt. intros H.
  apply bind_Ok_inv in H as (s0 & s1 & H0 & H). unfold get in H0. injection H0 as <- <-.
  cbv zeta in H.
  apply bind_Ok_inv in H as (RN & s4 & H0 & H). apply LineNodeAt_Ok_inv in H0 as [HRN ->].
  apply bind_Ok_inv in H as (FN & s5 & H0 & H). apply LineNodeAt_Ok_inv in H0 as [HFN ->].
  unfold ret in H. injection H as <- <-.
  split; [reflexivity |]. exists RN, FN. repeat split; auto.
Qed.

(** The equations need the return node and the floor node, and nothing
    else, to yield a result. *)
Lemma SolveMundt_Ok h ZoneNum st ReturnNode FootNode :
  node_at st (ReturnNodeID (roles st)) = Some ReturnNode ->
  node_at st (MundtFootAirID (roles st)) = Some FootNode ->
  SolveMundt h ZoneNum st =
  Ok (CheckSlope (LeavingAirTemp st)
        (DefineLinearModelNode.Height ReturnNode - DefineLinearModelNode.Height FootNode)
        (RawSlope h ZoneNum st (DefineLinearModelNode.Height ReturnNode)
                  (DefineLinearModelNode.Height FootNode))
        (FloorAirBalance h ZoneNum st)) st.
Proof.
  intros HRN HFN. unfold SolveMundt.
  rewrite (bind_Ok get _ st st st) by reflexivity. cbv zeta.
  erewrite bind_Ok by (apply LineNodeAt_Ok; exact HRN).
  erewrite bind_Ok by (apply LineNodeAt_Ok; exact HFN).
  reflexivity.
Qed.

(** The equations read the state and leave it as it is. *)
Lemma SolveMundt_pure h ZoneNum st sol st' :
  SolveMundt h ZoneNum st = Ok sol st' -> st' = st.
Proof. intros H. apply SolveMundt_Ok_inv in H. tauto. Qed.

(** ** The leaving air temperature *)

(** C2. In a run of the equations that yields a result, the leaving air
    temperature is the supply air temperature exactly when the total
    cooling load is not positive; otherwise it is the supply air
    temperature plus the load divided by the thermal capacity rate of the
    zone (air density x specific heat x supply volume flow). *)
Theorem SolveMundt_TLeaving h ZoneNum st sol st'
    (Hrun : SolveMundt h ZoneNum st = Ok sol st') :
  (QsysCoolTot (work st) <= 0 ->
   Solution.TLeaving sol = SupplyAirTemp (work st)) /\
  (0 < QsysCoolTot (work st) ->
   Solution.TLeaving sol =
   QsysCoolTot (work st)
   / (ZoneAirDensity (work st) * CpAir * SupplyAirVolumeRate (work st))
   + SupplyAirTemp (work st)).
Proof.
  apply SolveMundt_Ok_inv in Hrun as (_ & RN & FN & _ & _ & ->).
  rewrite CheckSlope_TLeaving. unfold LeavingAirTemp, SupplyCapacityRate. split; intros HQ.
  - assert (E : R64.leb (QsysCoolTot (work st)) 0.0 = true).
    { apply R64Facts.leb_le. apply (R64Facts.le_eqv_r _ _ _ HQ). reflexivity. }
    rewrite E. reflexivity.
  - assert (E : R64.leb (QsysCoolTot (work st)) 0.0 = false).
    { apply R64Facts.leb_nle. apply R64Facts.lt_not_le.
      destruct (QsysCoolTot (work st)); simpl in *; auto; lra. }
    rewrite E. reflexivity.
Qed.

Lemma SolveMundt_TLeaving_witness :
  (exists sol, SolveMundt Example_Host 1 Heating_State = Ok sol Heating_State /\
               Solution.TLeaving sol = 15.0) /\
  (exists sol, SolveMundt Example_Host 1 (Ready Example_Host) = Ok sol (Ready Example_Host) /\
               Solution.TLeaving sol == 18.0).
Proof.
  split; eexists; (split; [vm_compute; reflexivity |]).
  - apply (SolveMundt_TLeaving Example_Host 1 Heating_State _ Heating_State).
    + vm_compute. reflexivity.
    + vm_compute. discriminate.
  - pose proof (SolveMundt_TLeaving Example_Host 1 (Ready Example_Host) _
                  (Ready Example_Host) ltac:(vm_compute; reflexivity)) as [_ H].
    rewrite H by (vm_compute; reflexivity). vm_compute. reflexivity.
Defined.

(** ** The bounds on the slope *)

(** C3, as the code has it.  With the return node and the floor node in
    the table the equations yield a result.  When the slope of Eq 2.4 is a
    number, the slope after the check lies between [MinSlope] and
    [MaxSlope].  A slope above [MaxSlope], the positive infinity of a
    quotient by zero included, is set to [MaxSlope] and the floor air
    temperature is recomputed on the line through the leaving air
    temperature.  A slope below [MinSlope], the negative infinity included,
    is set to [MinSlope] and the floor air temperature is set to the
    leaving air temperature.  A slope that is NaN passes both tests: it
    stays NaN, and the floor air temperature stays as Eq 2.2 gave it. *)
Theorem SolveMundt_Slope_checked h ZoneNum st ReturnNode FootNode
    (HReturn : node_at st (ReturnNodeID (roles st)) = Some ReturnNode)
    (HFoot : node_at st (MundtFootAirID (roles st)) = Some FootNode) :
  let ReturnHeight := DefineLinearModelNode.Height ReturnNode in
  let FloorHeight := DefineLinearModelNode.Height FootNode in
  let Raw := RawSlope h ZoneNum st ReturnHeight FloorHeight in
  exists sol,
    SolveMundt h ZoneNum st = Ok sol st /\
    (number Raw -> MinSlope <= Solution.Slope sol <= MaxSlope) /\
    (MaxSlope < Raw ->
     Solution.Slope sol = MaxSlope /\
     Solution.TAirFoot sol =
     Solution.TLeaving sol - (Solution.Slope sol * (ReturnHeight - FloorHeight))) /\
    (Raw < MinSlope ->
     Solution.Slope sol = MinSlope /\
     Solution.TAirFoot sol = Solution.TLeaving sol) /\
    (MinSlope <= Raw <= MaxSlope ->
     Solution.Slope sol = Raw /\
     Solution.TAirFoot sol = FloorAirBalance h ZoneNum st) /\
    (Raw = NaN ->
     Solution.Slope sol = NaN /\
     Solution.TAirFoot sol = FloorAirBalance h ZoneNum st).
Proof.
  cbv zeta. eexists. split; [apply (SolveMundt_Ok _ _ _ _ _ HReturn HFoot) |].
  split; [apply CheckSlope_bounds |]. split; [| split; [| split]]; intros Hraw.
  - rewrite CheckSlope_above by exact Hraw. simpl. auto.
  - rewrite CheckSlope_below by exact Hraw. simpl. auto.
  - rewrite CheckSlope_within by exact Hraw. simpl. auto.
  - rewrite Hraw, CheckSlope_NaN. simpl. auto.
Qed.

Lemma SolveMundt_Slope_checked_witness :
  exists sol,
    SolveMundt HotFloor_Host 1 (Ready HotFloor_Host) = Ok sol (Ready HotFloor_Host) /\
    MinSlope <= Solution.Slope sol <= MaxSlope /\
    Solution.Slope sol = MinSlope /\
    Solution.TAirFoot sol = Solution.TLeaving sol.
Proof.
  destruct (SolveMundt_Slope_checked HotFloor_Host 1 (Ready HotFloor_Host)
              (DefineLinearModelNode.mk "RETURN" ReturnAirNode 2.4 25.0 [false; false; false])
              (DefineLinearModelNode.mk "FLOOR" FloorAirNode 0.1 25.0 [true; false; false])
              ltac:(vm_compute; reflexivity) ltac:(vm_compute; reflexivity))
    as (sol & Hrun & Hb & _ & Hlow & _).
  exists sol. split; [exact Hrun |].
  split; [apply Hb; vm_compute; exact I |]. apply Hlow. vm_compute. reflexivity.
Defined.

(** The claim C3 as it is written fails in two ways.  It asks, below
    [MinSlope] too, for a floor air temperature on the line of the checked
    slope: with the floor surface at 40 C the slope of Eq 2.4 is negative,
    the slope becomes [MinSlope] and the floor air temperature becomes the
    leaving air temperature, which lies 0.0023 K above that line.  And it
    asks for a slope within the bounds always: with the return node at the
    height of the floor node and the floor surface at 28.05 C the leaving
    air temperature and the floor air temperature are both 18 C, the slope
    of Eq 2.4 is 0 / 0, and the slope after the check is NaN. *)
Lemma SolveMundt_Slope_checked_counterexample :
  (exists sol,
     SolveMundt HotFloor_Host 1 (Ready HotFloor_Host) = Ok sol (Ready HotFloor_Host) /\
     RawSlope HotFloor_Host 1 (Ready HotFloor_Host) 2.4 0.1 < MinSlope /\
     ~ Solution.TAirFoot sol == Solution.TLeaving sol - Solution.Slope sol * (2.4 - 0.1)) /\
  (exists sol,
     SolveMundt (Example_Host_with 28.05 0.1 0.5) 1 (Ready (Example_Host_with 28.05 0.1 0.5))
     = Ok sol (Ready (Example_Host_with 28.05 0.1 0.5)) /\
     Solution.TLeaving sol == 18.0 /\ Solution.TAirFoot sol == 18.0 /\
     Solution.Slope sol = NaN /\
     ~ MinSlope <= Solution.Slope sol <= MaxSlope).
Proof.
  split.
  - eexists. split; [vm_compute; reflexivity |].
    split; [vm_compute; reflexivity |].
    vm_compute. discriminate.
  - eexists. split; [vm_compute; reflexivity |].
    split; [vm_compute; reflexivity |]. split; [vm_compute; reflexivity |].
    split; [vm_compute; reflexivity |]. vm_compute. tauto.
Qed.

(** ** The scenario of the specification *)

Lemma add_zero (x y : Real64) : x == 0 -> y == 0 -> x + y == 0.
Proof. destruct x, y; simpl; try tauto. intros -> ->. reflexivity. Qed.

Lemma mul_zero_l (x y : Real64) : x == 0 -> finite y -> x * y == 0.
Proof. destruct x, y; simpl; try tauto. intros -> _. ring. Qed.

Lemma sum_zero (l : list Real64) : Forall (fun x => x == 0) l -> sum l == 0.
Proof.
  unfold sum.
  assert (G : forall a : Real64,
             a == 0 -> Forall (fun x => x == 0) l -> fold_left R64.add l a == 0).
  { induction l as [| x l IH]; simpl; intros a Ha Hl; [exact Ha |].
    inversion Hl; subst. apply IH; [apply add_zero; assumption | assumption]. }
  intros Hl. apply G; [reflexivity | exact Hl].
Qed.

Lemma Forall_map_iff {A B} (f : A -> B) (P : B -> Prop) (l : list A) :
  Forall P (map f l) <-> Forall (fun x => P (f x)) l.
Proof.
  induction l as [| x l IH]; simpl; split; intros H; try constructor;
    inversion H; subst; auto; apply IH; auto.
Qed.

(** C6, as the code has it.  In the scenario (supply air at 15 C, supply
    volume flow 0.5, cooling load 1500 W, nothing apportioned to the floor,
    no film conductance at the floor surfaces, return node at 2.4 m, floor
    node at 0.1 m, any positive air density, the gains and the floor
    surface temperatures finite numbers) the leaving air temperature is
    15 + 1500 / (density x 1005 x 0.5), and when the slope of Eq 2.4 lies
    within its bounds the floor air temperature is the supply temperature,
    15 C, and the slope is (TLeaving - TAirFoot) / 2.3. *)
Theorem SolveMundt_scenario h ZoneNum st ReturnNode FootNode
    (HReturn : node_at st (ReturnNodeID (roles st)) = Some ReturnNode)
    (HFoot : node_at st (MundtFootAirID (roles st)) = Some FootNode)
    (HReturnHeight : DefineLinearModelNode.Height ReturnNode == 2.4)
    (HFloorHeight : DefineLinearModelNode.Height FootNode == 0.1)
    (HSupplyTemp : SupplyAirTemp (work st) == 15.0)
    (HSupplyFlow : SupplyAirVolumeRate (work st) == 0.5)
    (HLoad : QsysCoolTot (work st) == 1500.0)
    (HDensity : 0 < ZoneAirDensity (work st))
    (HConvSplit : ConvectiveFloorSplit h ZoneNum == 0)
    (HInfilSplit : InfiltratFloorSplit h ZoneNum == 0)
    (HGains : finite (ConvIntGain (work st)) /\ finite (QventCool (work st)))
    (HFloorUA : Forall (fun s => DefineSurfaceSettings.Area s * DefineSurfaceSettings.Hc s == 0
                                 /\ finite (DefineSurfaceSettings.Temp s))
                       (FloorSurf st)) :
  exists sol,
    SolveMundt h ZoneNum st = Ok sol st /\
    Solution.TLeaving sol == 15.0 + 1500.0 / (ZoneAirDensity (work st) * 1005.0 * 0.5) /\
    (MinSlope <= (Solution.TLeaving sol - 15.0) / 2.3 <= MaxSlope ->
     Solution.TAirFoot sol == 15.0 /\
     Solution.Slope sol == (Solution.TLeaving sol - Solution.TAirFoot sol) / 2.3).
Proof.
  assert (HHA : FloorSumHA st == 0).
  { unfold FloorSumHA. apply sum_zero. apply Forall_map_iff.
    eapply Forall_impl; [exact HFloorUA |]. simpl. tauto. }
  assert (HHAT : FloorSumHAT st == 0).
  { unfold FloorSumHAT. apply sum_zero. apply Forall_map_iff.
    eapply Forall_impl; [exact HFloorUA |]. simpl. intros s [Hs Ht].
    apply mul_zero_l; assumption. }
  pose proof HDensity as Hpos. destruct HGains as [HG1 HG2].
  exists (CheckSlope (LeavingAirTemp st)
            (DefineLinearModelNode.Height ReturnNode - DefineLinearModelNode.Height FootNode)
            (RawSlope h ZoneNum st (DefineLinearModelNode.Height ReturnNode)
                      (DefineLinearModelNode.Height FootNode))
            (FloorAirBalance h ZoneNum st)).
  split; [apply SolveMundt_Ok; assumption |].
  rewrite CheckSlope_TLeaving.
  unfold RawSlope, FloorAirBalance, LeavingAirTemp, SupplyCapacityRate in *.
  destruct (R64Facts.eqv_finite_inv _ _ HReturnHeight) as (hr & -> & Ehr).
  destruct (R64Facts.eqv_finite_inv _ _ HFloorHeight) as (hf & -> & Ehf).
  destruct (R64Facts.eqv_finite_inv _ _ HSupplyTemp) as (sat & -> & Esat).
  destruct (R64Facts.eqv_finite_inv _ _ HSupplyFlow) as (v & -> & Ev).
  destruct (R64Facts.eqv_finite_inv _ _ HLoad) as (q & -> & Eq).
  destruct (R64Facts.eqv_finite_inv _ _ HConvSplit) as (cs & -> & Ecs).
  destruct (R64Facts.eqv_finite_inv _ _ HInfilSplit) as (fs & -> & Efs).
  destruct (R64Facts.eqv_finite_inv _ _ HHA) as (ha & -> & Eha).
  destruct (R64Facts.eqv_finite_inv _ _ HHAT) as (hat & -> & Ehat).
  destruct (R64Facts.finite_inv _ HG1) as (g & ->).
  destruct (R64Facts.finite_inv _ HG2) as (qv & ->).
  assert (Eleb : R64.leb (Finite q) 0.0 = false).
  { simpl. apply Qle_bool_false. lra. }
  rewrite Eleb. unfold CpAir.
  destruct (ZoneAirDensity (work st)) as [r | | |]; simpl in Hpos; try contradiction.
  2:{ (* a density without bound: the load leaves the supply air as it is *)
      assert (Ev0 : (v ?= 0)%Q = Gt) by (apply Qcompare_0_gt; lra).
      simpl. rewrite Ev0. simpl. split; [lra |].
      intros [Hin _]. exfalso.
      assert (E : ((0 + sat - 15.0) / 2.3 == 0)%Q) by (rewrite Esat; reflexivity).
      rewrite E in Hin. lra. }
  cbn [R64.mul R64.add R64.sub R64.opp].
  rewrite (R64Facts.div_finite q) by nra.
  rewrite (R64Facts.div_finite _ (r * 1005.0 * v + ha)) by nra.
  rewrite (R64Facts.div_finite 1500.0) by nra.
  cbn [R64.mul R64.add R64.sub R64.opp].
  rewrite (R64Facts.div_finite _ (hr - hf)) by lra.
  assert (HTL : (q / (r * 1005.0 * v) + sat == 15.0 + 1500.0 / (r * 1005.0 * 0.5))%Q).
  { rewrite Eq, Ev, Esat. lra. }
  assert (HTF : ((r * 1005.0 * v * sat + hat + cs * g + - fs * qv) / (r * 1005.0 * v + ha)
                 == 15.0)%Q).
  { rewrite Eha, Ehat, Ecs, Efs, Esat. field. nra. }
  split; [exact HTL |].
  rewrite (R64Facts.div_finite _ 2.3) by lra. intros Hin. simpl in Hin.
  assert (Hraw : ((q / (r * 1005.0 * v) + sat
                   - (r * 1005.0 * v * sat + hat + cs * g + - fs * qv) / (r * 1005.0 * v + ha))
                  / (hr - hf)
                  == (q / (r * 1005.0 * v) + sat - 15.0) / 2.3)%Q).
  { rewrite HTF, Ehr, Ehf. assert (E : (2.4 - 0.1 == 2.3)%Q) by lra. rewrite E. reflexivity. }
  rewrite CheckSlope_within
    by (simpl; rewrite Hraw; exact Hin).
  simpl. split; [exact HTF |]. rewrite Hraw, HTF. reflexivity.
Qed.

Lemma SolveMundt_scenario_witness :
  exists sol,
    SolveMundt Example_Host 1 Scenario_State = Ok sol Scenario_State /\
    Solution.TLeaving sol == 15.0 + 1500.0 / (1.0 * 1005.0 * 0.5) /\
    Solution.TAirFoot sol == 15.0 /\
    Solution.Slope sol == (Solution.TLeaving sol - Solution.TAirFoot sol) / 2.3.
Proof.
  destruct (SolveMundt_scenario Example_Host 1 Scenario_State
              (DefineLinearModelNode.mk "RETURN" ReturnAirNode 2.4 25.0 [false; false; false])
              (DefineLinearModelNode.mk "FLOOR" FloorAirNode 0.1 25.0 [true; false; false]))
    as (sol & Hrun & HTL & Hin).
  - vm_compute. reflexivity.
  - vm_compute. reflexivity.
  - reflexivity.
  - reflexivity.
  - reflexivity.
  - reflexivity.
  - reflexivity.
  - vm_compute. auto.
  - reflexivity.
  - reflexivity.
  - vm_compute. auto.
  - repeat constructor.
  - exists sol. split; [exact Hrun |]. split; [exact HTL |]. apply Hin.
    vm_compute in Hrun. injection Hrun as <-. vm_compute. split; discriminate.
Defined.

(** The claim C6 as it is written asks for a floor air temperature equal to
    the leaving air temperature.  In the scenario the floor air temperature
    is 15 C and the leaving air temperature lies 1500 / 502.5 K above it.
    And with a gain that is not a finite number the share of zero does not
    remove it from Eq 2.2: zero times infinity is NaN, and so is the floor
    air temperature. *)
Lemma SolveMundt_scenario_counterexample :
  (exists sol,
     SolveMundt Example_Host 1 Scenario_State = Ok sol Scenario_State /\
     ~ Solution.TAirFoot sol == Solution.TLeaving sol) /\
  (exists sol,
     SolveMundt Example_Host 1 InfiniteGain_State = Ok sol InfiniteGain_State /\
     ConvectiveFloorSplit Example_Host 1 == 0 /\
     MinSlope <= (Solution.TLeaving sol - 15.0) / 2.3 <= MaxSlope /\
     Solution.TAirFoot sol = NaN /\ Solution.Slope sol = NaN).
Proof.
  split.
  - eexists. split; [vm_compute; reflexivity |]. vm_compute. discriminate.
  - eexists. split; [vm_compute; reflexivity |]. split; [reflexivity |].
    split; [vm_compute; split; discriminate |]. split; reflexivity.
Qed.

(** ** The writes of CalcMundtModel *)

Lemma same_static_refl st : same_static st st.
Proof. intros z id. reflexivity. Qed.

Lemma same_static_trans st1 st2 st3 :
  same_static st1 st2 -> same_static st2 st3 -> same_static st1 st3.
Proof. intros H12 H23 z id. rewrite H23. apply H12. Qed.

Lemma same_static_LineNode st st' : LineNode st' = LineNode st -> same_static st st'.
Proof. intros E z id. rewrite E. reflexivity. Qed.

Lemma same_static_Height st st' NodeID n n' :
  same_static st st' -> MundtZoneNum st' = MundtZoneNum st ->
  node_at st NodeID = Some n -> node_at st' NodeID = Some n' ->
  node_static n' = node_static n.
Proof.
  unfold node_at. intros Hs Hz Hn Hn'. specialize (Hs (MundtZoneNum st) NodeID).
  rewrite Hz in Hn'. rewrite Hn, Hn' in Hs. simpl in Hs. congruence.
Qed.

Lemma same_static_node_at st st' NodeID n :
  same_static st st' -> MundtZoneNum st' = MundtZoneNum st ->
  node_at st NodeID = Some n ->
  exists n', node_at st' NodeID = Some n' /\ node_static n' = node_static n.
Proof.
  unfold node_at. intros Hs Hz Hn. specialize (Hs (MundtZoneNum st) NodeID).
  rewrite Hz. rewrite Hn in Hs. simpl in Hs.
  destruct (at2 (LineNode st') (MundtZoneNum st) NodeID) as [n' |]; [| discriminate].
  simpl in Hs. exists n'. split; congruence.
Qed.

Lemma node_static_Height n n' :
  node_static n' = node_static n ->
  DefineLinearModelNode.Height n' = DefineLinearModelNode.Height n.
Proof. unfold node_static. congruence. Qed.

Lemma node_static_SurfMask n n' :
  node_static n' = node_static n ->
  DefineLinearModelNode.SurfMask n' = DefineLinearModelNode.SurfMask n.
Proof. unfold node_static. congruence. Qed.

Lemma node_static_ClassType n n' :
  node_static n' = node_static n ->
  DefineLinearModelNode.ClassType n' = DefineLinearModelNode.ClassType n.
Proof. unfold node_static. congruence. Qed.

(** [SetNodeResult] writes the temperature of one node of the zone. *)
Lemma SetNodeResult_Ok_inv NodeID TempResult st st' :
  SetNodeResult NodeID TempResult st = Ok tt st' ->
  (exists n, node_at st NodeID = Some n /\
             node_at st' NodeID = Some (DefineLinearModelNode.set_Temp TempResult n)) /\
  (forall z id, z <> MundtZoneNum st \/ id <> NodeID ->
                at2 (LineNode st') z id = at2 (LineNode st) z id) /\
  same_static st st' /\
  MundtAirSurf st' = MundtAirSurf st /\
  TheseSurfIDs st' = TheseSurfIDs st /\
  without_results st' = without_results st.
Proof.
  unfold SetNodeResult. intros H. inv_step H. rename E into Hupd.
  unfold node_at. simpl. repeat split.
  - rewrite (at2_upd2_eq _ _ _ _ _ Hupd).
    destruct (upd2_Some_inv _ _ _ _ _ Hupd) as (row & row' & Hrow & Hrow' & _).
    apply upd1_Some_inv in Hrow' as (n & Hn & _).
    exists n. unfold at2. rewrite Hrow, Hn. auto.
  - intros z id Hne. apply (at2_upd2_ne _ _ _ _ _ _ _ Hupd). exact Hne.
  - intros z id. simpl. apply (at2_upd2_field node_static _ _
             (DefineLinearModelNode.set_Temp TempResult) _ _ (fun _ => eq_refl) Hupd).
Qed.

Lemma SetNodeResult_Ok NodeID TempResult st n :
  node_at st NodeID = Some n ->
  exists st', SetNodeResult NodeID TempResult st = Ok tt st'.
Proof.
  intros Hn. unfold SetNodeResult, node_at in *.
  destruct (upd2_is_Some _ _ (DefineLinearModelNode.set_Temp TempResult) _ _ Hn) as [ll' Hll].
  eexists. unfold bind, get. rewrite Hll. simpl. reflexivity.
Qed.

(** [SetSurfTmeanAir] writes the effective air temperature of one surface
    of the zone. *)
Lemma SetSurfTmeanAir_Ok_inv SurfID TeffAir st st' :
  SetSurfTmeanAir SurfID TeffAir st = Ok tt st' ->
  (exists s, surf_at st SurfID = Some s /\
             surf_at st' SurfID = Some (DefineSurfaceSettings.set_TMeanAir TeffAir s)) /\
  (forall z id, z <> MundtZoneNum st \/ id <> SurfID ->
                at2 (MundtAirSurf st') z id = at2 (MundtAirSurf st) z id) /\
  LineNode st' = LineNode st /\
  TheseSurfIDs st' = TheseSurfIDs st /\
  without_results st' = without_results st.
Proof.
  unfold SetSurfTmeanAir. intros H. inv_step H. rename E into Hupd.
  unfold surf_at. simpl. repeat split.
  - rewrite (at2_upd2_eq _ _ _ _ _ Hupd).
    destruct (upd2_Some_inv _ _ _ _ _ Hupd) as (row & row' & Hrow & Hrow' & _).
    apply upd1_Some_inv in Hrow' as (s & Hs & _).
    exists s. unfold at2. rewrite Hrow, Hs. auto.
  - intros z id Hne. apply (at2_upd2_ne _ _ _ _ _ _ _ Hupd). exact Hne.
Qed.

Lemma keeps_nodes_refl st : keeps_nodes st st.
Proof. split; reflexivity. Qed.

Lemma keeps_nodes_trans st1 st2 st3 :
  keeps_nodes st1 st2 -> keeps_nodes st2 st3 -> keeps_nodes st1 st3.
Proof. intros [A B] [C D]. split; congruence. Qed.

Lemma without_results_roles st st' :
  without_results st' = without_results st -> roles st' = roles st.
Proof. intros H. apply (f_equal roles) in H. exact H. Qed.

Lemma without_results_MundtZoneNum st st' :
  without_results st' = without_results st -> MundtZoneNum st' = MundtZoneNum st.
Proof. intros H. apply (f_equal MundtZoneNum) in H. exact H. Qed.

Lemma without_results_work st st' :
  without_results st' = without_results st -> work st' = work st.
Proof. intros H. apply (f_equal work) in H. exact H. Qed.

Lemma without_results_FloorSurfSetIDs st st' :
  without_results st' = without_results st -> FloorSurfSetIDs st' = FloorSurfSetIDs st.
Proof. intros H. apply (f_equal FloorSurfSetIDs) in H. exact H. Qed.

Lemma without_results_ID1dSurf st st' :
  without_results st' = without_results st -> ID1dSurf st' = ID1dSurf st.
Proof. intros H. apply (f_equal ID1dSurf) in H. exact H. Qed.

Lemma keeps_nodes_node_at st st' NodeID :
  keeps_nodes st st' -> node_at st' NodeID = node_at st NodeID.
Proof.
  intros [HL HW]. unfold node_at. rewrite HL, (without_results_MundtZoneNum _ _ HW).
  reflexivity.
Qed.

Lemma SetSurfTmeanAir_keeps_nodes SurfID TeffAir st st' :
  SetSurfTmeanAir SurfID TeffAir st = Ok tt st' -> keeps_nodes st st'.
Proof.
  intros H. apply SetSurfTmeanAir_Ok_inv in H as (_ & _ & HL & _ & HW). split; assumption.
Qed.

Lemma for_each_keeps_nodes {B} (l : list B) (body : B -> M unit) :
  (forall x st st', body x st = Ok tt st' -> keeps_nodes st st') ->
  forall st st', for_each l body st = Ok tt st' -> keeps_nodes st st'.
Proof.
  intros Hbody st st' H.
  refine (for_each_inv (keeps_nodes st) l body _ st st' (keeps_nodes_refl st) H).
  intros x s s' _ Hs Hx. eapply keeps_nodes_trans; [exact Hs | eapply Hbody; exact Hx].
Qed.

Lemma SetNodeSurfaces_keeps_nodes NodeID TeffAir st st' :
  SetNodeSurfaces NodeID TeffAir st = Ok tt st' -> keeps_nodes st st'.
Proof.
  unfold SetNodeSurfaces. intros H.
  apply bind_Ok_inv in H as (n & s1 & H1 & H). apply LineNodeAt_Ok_inv in H1 as [_ ->].
  apply bind_Ok_inv in H as (s2 & s3 & H1 & H). inv_step H1.
  apply bind_Ok_inv in H as (u & s4 & H1 & H). inv_step H1.
  eapply keeps_nodes_trans; [| eapply for_each_keeps_nodes; [| exact H]].
  - split; reflexivity.
  - intros x s s' Hx. apply bind_Ok_inv in Hx as (id & s5 & Hx1 & Hx).
    unfold TheseSurfIDsAt in Hx1. inv_step Hx1.
    eapply SetSurfTmeanAir_keeps_nodes; exact Hx.
Qed.

Lemma floor_loop_keeps_nodes TAirFoot l st st' :
  for_each l (fun SurfNum => SurfID <- FloorSurfSetIDsAt SurfNum ;;
                             SetSurfTmeanAir SurfID TAirFoot) st = Ok tt st' ->
  keeps_nodes st st'.
Proof.
  apply for_each_keeps_nodes. intros x s s' Hx.
  apply bind_Ok_inv in Hx as (id & s5 & Hx1 & Hx).
  unfold FloorSurfSetIDsAt in Hx1. inv_step Hx1.
  eapply SetSurfTmeanAir_keeps_nodes; exact Hx.
Qed.

(** ** The node temperatures after CalcMundtModel *)

Lemma SetNodeResult_other NodeID TempResult st st' id :
  SetNodeResult NodeID TempResult st = Ok tt st' -> id <> NodeID ->
  node_at st' id = node_at st id.
Proof.
  intros H Hne. apply SetNodeResult_Ok_inv in H as (_ & Hother & _ & _ & _ & HW).
  unfold node_at. rewrite (without_results_MundtZoneNum _ _ HW). apply Hother. auto.
Qed.

Lemma SetNodeResult_same NodeID TempResult st st' :
  SetNodeResult NodeID TempResult st = Ok tt st' ->
  exists n, node_at st NodeID = Some n /\
            node_at st' NodeID = Some (DefineLinearModelNode.set_Temp TempResult n).
Proof. intros H. apply SetNodeResult_Ok_inv in H. tauto. Qed.

(** A write of the temperature of the line at the height of the node puts
    the node on the line and keeps every other node where it is. *)
Lemma SetNodeResult_OnLine TLeaving Slope ReturnHeight NodeID st st' n :
  node_at st NodeID = Some n ->
  SetNodeResult NodeID
    (LineTemp TLeaving Slope ReturnHeight (DefineLinearModelNode.Height n)) st = Ok tt st' ->
  OnLine TLeaving Slope ReturnHeight st' NodeID /\
  (forall id, OnLine TLeaving Slope ReturnHeight st id ->
              OnLine TLeaving Slope ReturnHeight st' id).
Proof.
  intros Hn H. pose proof (SetNodeResult_same _ _ _ _ H) as (n0 & Hn0 & Hn').
  rewrite Hn in Hn0. injection Hn0 as <-.
  assert (Hon : OnLine TLeaving Slope ReturnHeight st' NodeID).
  { exists (DefineLinearModelNode.set_Temp
              (LineTemp TLeaving Slope ReturnHeight (DefineLinearModelNode.Height n)) n).
    split; [exact Hn' | reflexivity]. }
  split; [exact Hon |]. intros id Hid.
  destruct (Z.eq_dec id NodeID) as [-> | Hne]; [exact Hon |].
  destruct Hid as (m & Hm & HT). exists m.
  rewrite (SetNodeResult_other _ _ _ _ _ H Hne). auto.
Qed.

Lemma calc_step_refl st : calc_step st st.
Proof. split; [reflexivity | apply same_static_refl]. Qed.

Lemma calc_step_SetNodeResult st s s' NodeID TempResult :
  calc_step st s -> SetNodeResult NodeID TempResult s = Ok tt s' -> calc_step st s'.
Proof.
  intros [HW HS] H. apply SetNodeResult_Ok_inv in H as (_ & _ & HS' & _ & _ & HW').
  split; [congruence | eapply same_static_trans; eauto].
Qed.

Lemma calc_step_keeps_nodes st s s' :
  calc_step st s -> keeps_nodes s s' -> calc_step st s'.
Proof.
  intros [HW HS] [HL HW']. split; [congruence |].
  eapply same_static_trans; [exact HS | apply same_static_LineNode; exact HL].
Qed.

Lemma calc_step_node st s NodeID n :
  calc_step st s -> node_at st NodeID = Some n ->
  exists n', node_at s NodeID = Some n' /\ node_static n' = node_static n.
Proof.
  intros [HW HS] Hn. eapply same_static_node_at; eauto.
  apply without_results_MundtZoneNum. exact HW.
Qed.

Lemma calc_step_node_back st s NodeID n' :
  calc_step st s -> node_at s NodeID = Some n' ->
  exists n, node_at st NodeID = Some n /\ node_static n' = node_static n.
Proof.
  intros [HW HS] Hn'. pose proof (without_results_MundtZoneNum _ _ HW) as Hz.
  unfold node_at in *. specialize (HS (MundtZoneNum st) NodeID).
  rewrite Hz in Hn'. rewrite Hn' in HS. simpl in HS.
  destruct (at2 (LineNode st) (MundtZoneNum st) NodeID) as [n |]; [| discriminate].
  exists n. simpl in HS. split; congruence.
Qed.

Lemma room_body_spec st ReturnNode TLeaving Slope NodeNum s s' :
  node_at st (ReturnNodeID (roles st)) = Some ReturnNode ->
  calc_step st s ->
  room_body (roles st) TLeaving Slope NodeNum s = Ok tt s' ->
  let on := OnLine TLeaving Slope (DefineLinearModelNode.Height ReturnNode) in
  calc_step st s' /\
  (exists RoomNodeID,
      at1 (RoomNodeIDs (roles st)) NodeNum = Some RoomNodeID /\ on s' RoomNodeID /\
      forall id, id <> RoomNodeID -> node_at s' id = node_at s id) /\
  (forall id, on s id -> on s' id).
Proof.
  intros HRN Hstep H on. unfold room_body in H.
  apply bind_Ok_inv in H as (rid & s1 & H1 & H).
  unfold RoomNodeIDsAt in H1. inv_step H1. rename E into Hrid.
  rewrite (without_results_roles _ _ (proj1 Hstep)) in Hrid.
  apply bind_Ok_inv in H as (RN' & s2 & H1 & H). apply LineNodeAt_Ok_inv in H1 as [HRN' ->].
  apply bind_Ok_inv in H as (n & s3 & H1 & H). apply LineNodeAt_Ok_inv in H1 as [Hn ->].
  apply bind_Ok_inv in H as ([] & s4 & Hset & H).
  apply SetNodeSurfaces_keeps_nodes in H.
  destruct (calc_step_node_back _ _ _ _ Hstep HRN') as (RN0 & HRN0 & HRNs).
  rewrite HRN in HRN0. injection HRN0 as <-.
  rewrite (node_static_Height _ _ HRNs) in Hset.
  destruct (SetNodeResult_OnLine _ _ _ _ _ _ _ Hn Hset) as [Hon Hkeep].
  assert (Hstep4 : calc_step st s4) by (eapply calc_step_SetNodeResult; eauto).
  assert (Hon_keep : forall id, on s4 id -> on s' id).
  { intros id (m & Hm & HT). exists m. rewrite (keeps_nodes_node_at _ _ _ H). auto. }
  split; [eapply calc_step_keeps_nodes; eauto |]. split.
  - exists rid. split; [exact Hrid |]. split; [apply Hon_keep, Hon |].
    intros id Hne. rewrite (keeps_nodes_node_at _ _ _ H).
    eapply SetNodeResult_other; eauto.
  - intros id Hid. apply Hon_keep, Hkeep, Hid.
Qed.

Lemma room_loop_spec st ReturnNode TLeaving Slope (l : list Z) :
  node_at st (ReturnNodeID (roles st)) = Some ReturnNode ->
  let on := OnLine TLeaving Slope (DefineLinearModelNode.Height ReturnNode) in
  forall s s',
    calc_step st s ->
    for_each l (room_body (roles st) TLeaving Slope) s = Ok tt s' ->
    calc_step st s' /\
    (forall NodeNum, In NodeNum l ->
       exists RoomNodeID, at1 (RoomNodeIDs (roles st)) NodeNum = Some RoomNodeID /\
                          on s' RoomNodeID) /\
    (forall id, on s id -> on s' id) /\
    (forall id, (forall NodeNum, In NodeNum l ->
                                 at1 (RoomNodeIDs (roles st)) NodeNum <> Some id) ->
                node_at s' id = node_at s id).
Proof.
  intros HRN on. induction l as [| x l IH]; simpl; intros s s' Hstep H.
  - inv_step H. split; [exact Hstep |]. split; [intros k [] |]. split; auto.
  - apply bind_Ok_inv in H as ([] & s1 & Hx & H).
    destruct (room_body_spec _ _ _ _ _ _ _ HRN Hstep Hx) as (Hstep1 & (rid & Hrid & Hon & Hoth) & Hkeep).
    destruct (IH _ _ Hstep1 H) as (Hstep' & Hall & Hkeep' & Hoth').
    split; [exact Hstep' |]. split; [| split].
    + intros k [<- | Hk].
      * exists rid. split; [exact Hrid | apply Hkeep', Hon].
      * apply Hall, Hk.
    + intros id Hid. apply Hkeep', Hkeep, Hid.
    + intros id Hid. rewrite Hoth'.
      * apply Hoth. intros ->. apply (Hid x); auto.
      * intros k Hk. apply Hid. auto.
Qed.

(** What a run of [CalcMundtModel] that yields a result has written to the
    air nodes. *)
Lemma CalcMundtModel_Ok_inv h ZoneNum st st' :
  CalcMundtModel h ZoneNum st = Ok tt st' ->
  exists sol ReturnNode,
    SolveMundt h ZoneNum st = Ok sol st /\
    node_at st (ReturnNodeID (roles st)) = Some ReturnNode /\
    calc_step st st' /\
    let r := roles st in
    let on := OnLine (Solution.TLeaving sol) (Solution.Slope sol)
                     (DefineLinearModelNode.Height ReturnNode) st' in
    on (TstatNodeID r) /\
    (MundtCeilAirID r <> MundtFootAirID r -> on (MundtCeilAirID r)) /\
    (forall NodeNum, (1 <= NodeNum <= NumRoomNodes r)%Z ->
       exists RoomNodeID, at1 (RoomNodeIDs r) NodeNum = Some RoomNodeID /\ on RoomNodeID) /\
    (TstatNodeID r <> MundtFootAirID r ->
     (forall NodeNum, (1 <= NodeNum <= NumRoomNodes r)%Z ->
                      at1 (RoomNodeIDs r) NodeNum <> Some (MundtFootAirID r)) ->
     exists n, node_at st' (MundtFootAirID r) = Some n /\
               DefineLinearModelNode.Temp n = Solution.TAirFoot sol).
Proof.
  unfold CalcMundtModel. intros H.
  apply bind_Ok_inv in H as (sol & s0 & Hsol & H).
  pose proof (SolveMundt_pure _ _ _ _ _ Hsol) as ->. cbv zeta in H.
  apply bind_Ok_inv in H as (s1 & s2 & H1 & H). inv_step H1.
  apply bind_Ok_inv in H as (RN & s2 & H1 & H). apply LineNodeAt_Ok_inv in H1 as [HRN ->].
  apply bind_Ok_inv in H as (CN & s2 & H1 & H). apply LineNodeAt_Ok_inv in H1 as [HCN ->].
  apply bind_Ok_inv in H as (TN & s2 & H1 & H). apply LineNodeAt_Ok_inv in H1 as [HTN ->].
  apply bind_Ok_inv in H as ([] & s1 & Hw1 & H).
  apply bind_Ok_inv in H as ([] & s2 & Hw2 & H).
  apply bind_Ok_inv in H as ([] & s3 & Hw3 & H).
  apply bind_Ok_inv in H as ([] & s4 & Hw4 & H).
  apply bind_Ok_inv in H as ([] & s5 & Hw5 & H).
  apply bind_Ok_inv in H as ([] & s6 & Hfloor & H).
  apply bind_Ok_inv in H as ([] & s7 & Hceil & H).
  fold (room_body (roles st) (Solution.TLeaving sol) (Solution.Slope sol)) in H.
  apply floor_loop_keeps_nodes in Hfloor. apply SetNodeSurfaces_keeps_nodes in Hceil.
  pose proof (calc_step_refl st) as Hs0.
  pose proof (calc_step_SetNodeResult _ _ _ _ _ Hs0 Hw1) as Hs1.
  pose proof (calc_step_SetNodeResult _ _ _ _ _ Hs1 Hw2) as Hs2.
  pose proof (calc_step_SetNodeResult _ _ _ _ _ Hs2 Hw3) as Hs3.
  pose proof (calc_step_SetNodeResult _ _ _ _ _ Hs3 Hw4) as Hs4.
  pose proof (calc_step_SetNodeResult _ _ _ _ _ Hs4 Hw5) as Hs5.
  pose proof (calc_step_keeps_nodes _ _ _ Hs5 Hfloor) as Hs6.
  pose proof (calc_step_keeps_nodes _ _ _ Hs6 Hceil) as Hs7.
  destruct (room_loop_spec st RN (Solution.TLeaving sol) (Solution.Slope sol)
              (range 1 (NumRoomNodes (roles st))) HRN s7 st' Hs7 H)
    as (Hs' & Hrooms & Hkeep & Hother).
  set (on := OnLine (Solution.TLeaving sol) (Solution.Slope sol)
                    (DefineLinearModelNode.Height RN)) in *.
  assert (Hkeep67 : forall id, on s5 id -> on s7 id).
  { intros id (m & Hm & HT). exists m.
    rewrite (keeps_nodes_node_at _ _ _ Hceil), (keeps_nodes_node_at _ _ _ Hfloor). auto. }
  (* the thermostat node *)
  destruct (calc_step_node _ _ _ _ Hs4 HTN) as (TN4 & HTN4 & HTNs).
  rewrite <- (node_static_Height _ _ HTNs) in Hw5.
  destruct (SetNodeResult_OnLine _ _ _ _ _ _ _ HTN4 Hw5) as [HonT HkeepT].
  (* the ceiling node *)
  destruct (calc_step_node _ _ _ _ Hs2 HCN) as (CN2 & HCN2 & HCNs).
  rewrite <- (node_static_Height _ _ HCNs) in Hw3.
  destruct (SetNodeResult_OnLine _ _ _ _ _ _ _ HCN2 Hw3) as [HonC _].
  exists sol, RN. split; [exact Hsol |]. split; [exact HRN |]. split; [exact Hs' |].
  cbv zeta. fold on. split; [| split; [| split]].
  - apply Hkeep, Hkeep67, HonT.
  - intros Hne. apply Hkeep, Hkeep67, HkeepT.
    destruct HonC as (m & Hm & HT). exists m.
    rewrite (SetNodeResult_other _ _ _ _ _ Hw4 Hne). auto.
  - intros k Hk. apply Hrooms. apply range_In. exact Hk.
  - intros HneT Hrooms_ne.
    destruct (SetNodeResult_same _ _ _ _ Hw4) as (n & Hn & Hn4).
    exists (DefineLinearModelNode.set_Temp (Solution.TAirFoot sol) n).
    split; [| reflexivity].
    rewrite Hother.
    + rewrite (keeps_nodes_node_at _ _ _ Hceil), (keeps_nodes_node_at _ _ _ Hfloor).
      rewrite (SetNodeResult_other _ _ _ _ _ Hw5); auto.
    + intros k Hk. apply Hrooms_ne. apply range_In. exact Hk.
Qed.

(** ** The gradient line *)



(** ** The room nodes between floor and ceiling *)





Lemma between_finite (a b : Q) (x : Real64) : Finite a <= x -> x <= Finite b -> finite x.
Proof. destruct x; simpl; tauto. Qed.






(** ** The role resolver *)

Lemma for_fold_inv2 {B S} (P : S -> State -> Prop) (l : list B) (body : B -> S -> M S) :
  (forall x s st s' st', In x l -> P s st -> body x s st = Ok s' st' -> P s' st') ->
  forall s st s' st', P s st -> for_fold l s body st = Ok s' st' -> P s' st'.
Proof.
  induction l as [| x l IH]; simpl; intros Hbody s st s' st' HP H.
  - inv_step H. exact HP.
  - apply bind_Ok_inv in H as (s1 & st1 & H1 & H2).
    apply (IH (fun y t u t' u' Hin => Hbody y t u t' u' (or_intror Hin)) s1 st1 s' st');
      [| exact H2].
    apply (Hbody x s st s1 st1); auto.
Qed.

Lemma without_roles_LineNode st st' :
  without_roles st' = without_roles st -> LineNode st' = LineNode st.
Proof. intros H. apply (f_equal LineNode) in H. exact H. Qed.

Lemma without_roles_MundtZoneNum st st' :
  without_roles st' = without_roles st -> MundtZoneNum st' = MundtZoneNum st.
Proof. intros H. apply (f_equal MundtZoneNum) in H. exact H. Qed.

Lemma without_roles_node_at st st' NodeID :
  without_roles st' = without_roles st -> node_at st' NodeID = node_at st NodeID.
Proof.
  intros H. unfold node_at.
  rewrite (without_roles_LineNode _ _ H), (without_roles_MundtZoneNum _ _ H). reflexivity.
Qed.

(** What one turn does to the role indices, by the tag [c] of the node. *)
Lemma setup_body_spec NodeNum err st err' st' :
  setup_body NodeNum err st = Ok err' st' ->
  exists n,
    node_at st NodeNum = Some n /\
    without_roles st' = without_roles st /\
    let c := DefineLinearModelNode.ClassType n in
    let r := roles st in
    let r' := roles st' in
    (c <> InletAirNode -> SupplyNodeID r' = SupplyNodeID r) /\
    (c <> FloorAirNode -> MundtFootAirID r' = MundtFootAirID r) /\
    (c <> ControlAirNode -> TstatNodeID r' = TstatNodeID r) /\
    (c <> CeilingAirNode -> MundtCeilAirID r' = MundtCeilAirID r) /\
    (c <> ReturnAirNode -> ReturnNodeID r' = ReturnNodeID r) /\
    (c = FloorAirNode -> MundtFootAirID r' = NodeNum) /\
    (err' = true -> err = true \/ ~ StandardClass c) /\
    (StandardClass c -> Messages st' = Messages st).
Proof.
  unfold setup_body. intros H.
  apply bind_Ok_inv in H as (n & s1 & H1 & H). apply LineNodeAt_Ok_inv in H1 as [Hn ->].
  exists n. split; [exact Hn |]. cbv zeta in *.
  unfold InletAirNode, FloorAirNode, ControlAirNode, CeilingAirNode, MundtRoomAirNode,
    ReturnAirNode, StandardClass in *.
  repeat match type of H with
         | (if (?a =? ?b)%Z then _ else _) _ = _ =>
             let E := fresh "E" in destruct (Z.eqb_spec a b) as [E | E]
         end;
    inv_step H; simpl;
    (split; [reflexivity |]);
    repeat split; intros; try reflexivity; try congruence; try lia; auto.
  - right. unfold StandardClass, InletAirNode, FloorAirNode, ControlAirNode, CeilingAirNode,
      MundtRoomAirNode, ReturnAirNode. lia.
  - exfalso.
    unfold StandardClass, InletAirNode, FloorAirNode, ControlAirNode, CeilingAirNode,
      MundtRoomAirNode, ReturnAirNode in *. lia.
Qed.

Lemma setup_loop_frame l err st err' st' :
  for_fold l err setup_body st = Ok err' st' ->
  without_roles st' = without_roles st.
Proof.
  intros H.
  refine (for_fold_inv2 (fun _ s => without_roles s = without_roles st) l setup_body _
            err st err' st' eq_refl H).
  intros x e s e' s' _ Hs Hx. apply setup_body_spec in Hx as (n & _ & Hw & _). congruence.
Qed.

(** An index of a role whose tag no node of the list carries is left alone
    by the loop. *)
Lemma setup_loop_keeps (c : Z) (proj : RoleIDs -> Z) l err st err' st' :
  (forall NodeNum e s e' s' n,
      setup_body NodeNum e s = Ok e' s' -> node_at s NodeNum = Some n ->
      DefineLinearModelNode.ClassType n <> c -> proj (roles s') = proj (roles s)) ->
  for_fold l err setup_body st = Ok err' st' ->
  (forall NodeNum n, In NodeNum l -> node_at st NodeNum = Some n ->
                     DefineLinearModelNode.ClassType n <> c) ->
  proj (roles st') = proj (roles st).
Proof.
  intros Hbody H Hnone.
  refine (proj2 (for_fold_inv2
            (fun _ s => without_roles s = without_roles st /\ proj (roles s) = proj (roles st))
            l setup_body _ err st err' st' (conj eq_refl eq_refl) H)).
  intros x e s e' s' Hin [Hw Hp] Hx.
  pose proof Hx as Hx'. apply setup_body_spec in Hx' as (n & Hn & Hw' & _).
  split; [congruence |]. rewrite <- Hp. eapply Hbody; [exact Hx | exact Hn |].
  eapply Hnone; [exact Hin |]. rewrite <- (without_roles_node_at _ _ _ Hw). exact Hn.
Qed.

Lemma setup_loop_errors l err st err' st' :
  for_fold l err setup_body st = Ok err' st' ->
  err' = true ->
  err = true \/
  exists NodeNum n, In NodeNum l /\ node_at st NodeNum = Some n /\
                    ~ StandardClass (DefineLinearModelNode.ClassType n).
Proof.
  intros H.
  refine (proj2 (for_fold_inv2
            (fun e s => without_roles s = without_roles st /\
               (e = true -> err = true \/
                  exists NodeNum n, In NodeNum l /\ node_at st NodeNum = Some n /\
                                    ~ StandardClass (DefineLinearModelNode.ClassType n)))
            l setup_body _ err st err' st' (conj eq_refl (fun E => or_introl E)) H)).
  intros x e s e' s' Hin [Hw He] Hx.
  apply setup_body_spec in Hx as (n & Hn & Hw' & _ & _ & _ & _ & _ & _ & Herr & _).
  split; [congruence |]. intros E. destruct (Herr E) as [E' | Hns]; [auto |].
  right. exists x, n. rewrite <- (without_roles_node_at _ _ _ Hw). auto.
Qed.

(** A floor node in the list leaves a positive floor index behind. *)
Lemma setup_loop_floor l err st err' st' :
  (forall NodeNum, In NodeNum l -> (1 <= NodeNum)%Z) ->
  for_fold l err setup_body st = Ok err' st' ->
  (exists NodeNum n, In NodeNum l /\ node_at st NodeNum = Some n /\
                     DefineLinearModelNode.ClassType n = FloorAirNode) ->
  (0 < MundtFootAirID (roles st'))%Z.
Proof.
  intros Hpos. revert err st.
  induction l as [| x l IH]; simpl; intros err st H (k & n & Hin & Hn & Hc); [contradiction |].
  apply bind_Ok_inv in H as (e1 & s1 & Hx & H).
  pose proof Hx as Hx'.
  apply setup_body_spec in Hx' as (m & Hm & Hw & _ & _ & _ & _ & _ & Hfloor & _).
  destruct Hin as [<- | Hin].
  - rewrite Hn in Hm. injection Hm as <-. specialize (Hfloor Hc).
    assert (Hx1 : (1 <= x)%Z) by (apply Hpos; left; reflexivity).
    assert (Hp1 : (0 < MundtFootAirID (roles s1))%Z) by lia.
    refine (proj2 (for_fold_inv2
              (fun _ s => without_roles s = without_roles s1 /\ (0 < MundtFootAirID (roles s))%Z)
              l setup_body _ e1 s1 err' st' (conj eq_refl Hp1) H)).
    intros y e s e' s' Hy [Hw1 Hp] Hy'.
    apply setup_body_spec in Hy' as (q & Hq & Hw2 & _ & Hkeep & _ & _ & _ & Hset & _).
    split; [congruence |].
    destruct (Z.eq_dec (DefineLinearModelNode.ClassType q) FloorAirNode) as [E | E].
    + rewrite (Hset E). assert ((1 <= y)%Z) by (apply Hpos; right; exact Hy). lia.
    + rewrite (Hkeep E). exact Hp.
  - apply (IH (fun y Hy => Hpos y (or_intror Hy)) e1 s1 H).
    exists k, n. rewrite (without_roles_node_at _ _ _ Hw). auto.
Qed.

Lemma floor_copy_frame l st st' :
  for_each l floor_copy_body st = Ok tt st' ->
  roles st' = roles st /\ without_roles st' = without_roles st.
Proof.
  refine (for_each_inv (fun t => roles t = roles st /\ without_roles t = without_roles st)
            l floor_copy_body _ st st' (conj eq_refl eq_refl)).
  intros x t t' _ [Hr Hw] Hx. unfold floor_copy_body in Hx.
  apply bind_Ok_inv in Hx as (id & t1 & Hx1 & Hx).
  unfold FloorSurfSetIDsAt in Hx1. inv_step Hx1.
  apply bind_Ok_inv in Hx as (sf & t2 & Hx1 & Hx).
  unfold MundtAirSurfAt in Hx1. inv_step Hx1.
  inv_step Hx. simpl. split; assumption.
Qed.

(** The second half of the resolver (lines 589-606) leaves the role
    indices alone. *)
Lemma SetupMundtModel_Ok_inv h ZoneNum err st err' st' :
  SetupMundtModel h ZoneNum err st = Ok err' st' ->
  exists err1 st1,
    for_fold (range 1 (TotNumOfZoneAirNodes h ZoneNum)) err setup_body
             (set_roles (set_NumRoomNodes 0%Z (roles st)) st) = Ok err1 st1 /\
    roles st' = roles st1 /\
    without_roles st' = without_roles st /\
    (err' = true -> err1 = true \/ (MundtFootAirID (roles st1) <= 0)%Z).
Proof.
  unfold SetupMundtModel. intros H.
  apply bind_Ok_inv in H as ([] & s0 & H0 & H). inv_step H0.
  fold setup_body in H.
  apply bind_Ok_inv in H as (err1 & st1 & Hloop & H).
  exists err1, st1. split; [exact Hloop |].
  pose proof (setup_loop_frame _ _ _ _ _ Hloop) as Hw1.
  apply bind_Ok_inv in H as (s2 & s3 & H0 & H). inv_step H0.
  destruct (Z.ltb_spec 0 (MundtFootAirID (roles st1))) as [Hpos | Hneg].
  - apply bind_Ok_inv in H as (FN & s4 & H0 & H). apply LineNodeAt_Ok_inv in H0 as [_ ->].
    apply bind_Ok_inv in H as ([] & s4 & H0 & H). inv_step H0.
    apply bind_Ok_inv in H as ([] & s5 & H0 & H). inv_step H0.
    apply bind_Ok_inv in H as ([] & s6 & H0 & H). inv_step H0.
    apply bind_Ok_inv in H as (s7 & s8 & H0 & H). inv_step H0.
    apply bind_Ok_inv in H as ([] & s9 & Hfl & H).
    unfold ret in H. injection H as <- <-.
    apply floor_copy_frame in Hfl as [Hr Hw]. simpl in Hr.
    split; [exact Hr |]. split; [| intros E; auto].
    rewrite Hw. exact Hw1.
  - inv_step H. simpl. split; [reflexivity |]. split; [exact Hw1 |]. intros _. right. lia.
Qed.

(** The solver indexes the node table with the five role indices. *)
Lemma CalcMundtModel_indexes h ZoneNum st st' :
  CalcMundtModel h ZoneNum st = Ok tt st' ->
  is_Some (node_at st (SupplyNodeID (roles st))) /\
  is_Some (node_at st (ReturnNodeID (roles st))) /\
  is_Some (node_at st (MundtCeilAirID (roles st))) /\
  is_Some (node_at st (MundtFootAirID (roles st))) /\
  is_Some (node_at st (TstatNodeID (roles st))).
Proof.
  unfold CalcMundtModel. intros H.
  apply bind_Ok_inv in H as (sol & s0 & Hsol & H).
  apply SolveMundt_Ok_inv in Hsol as (-> & RN0 & FN & _ & HFN & _). cbv zeta in H.
  apply bind_Ok_inv in H as (s1 & s2 & H1 & H). inv_step H1.
  apply bind_Ok_inv in H as (RN & s2 & H1 & H). apply LineNodeAt_Ok_inv in H1 as [HRN ->].
  apply bind_Ok_inv in H as (CN & s2 & H1 & H). apply LineNodeAt_Ok_inv in H1 as [HCN ->].
  apply bind_Ok_inv in H as (TN & s2 & H1 & H). apply LineNodeAt_Ok_inv in H1 as [HTN ->].
  apply bind_Ok_inv in H as ([] & s1 & Hw1 & _).
  apply SetNodeResult_same in Hw1 as (SN & HSN & _).
  repeat split; eauto.
Qed.

(** C10.  The role resolver reports an error only for a role tag it does
    not know or for a missing floor node.  A zone without a ceiling, return,
    control or supply node is not detected: the index of the missing role
    keeps the value it had, left by the zone processed before (zero as the
    program starts), and the solver indexes the node table with it. *)
Theorem SetupMundtModel_missing_roles h ZoneNum st ErrorsFound st'
    (Hrun : SetupMundtModel h ZoneNum false st = Ok ErrorsFound st') :
  let N := TotNumOfZoneAirNodes h ZoneNum in
  (ErrorsFound = true ->
   (exists NodeNum n, (1 <= NodeNum <= N)%Z /\ node_at st NodeNum = Some n /\
                      ~ StandardClass (DefineLinearModelNode.ClassType n))
   \/ ~ has_role st N FloorAirNode) /\
  (~ has_role st N CeilingAirNode ->
   MundtCeilAirID (roles st') = MundtCeilAirID (roles st)) /\
  (~ has_role st N ReturnAirNode -> ReturnNodeID (roles st') = ReturnNodeID (roles st)) /\
  (~ has_role st N ControlAirNode -> TstatNodeID (roles st') = TstatNodeID (roles st)) /\
  (~ has_role st N InletAirNode -> SupplyNodeID (roles st') = SupplyNodeID (roles st)) /\
  (forall st'', CalcMundtModel h ZoneNum st' = Ok tt st'' ->
     is_Some (node_at st' (MundtCeilAirID (roles st'))) /\
     is_Some (node_at st' (ReturnNodeID (roles st'))) /\
     is_Some (node_at st' (TstatNodeID (roles st'))) /\
     is_Some (node_at st' (SupplyNodeID (roles st')))).
Proof.
  cbv zeta.
  apply SetupMundtModel_Ok_inv in Hrun as (err1 & st1 & Hloop & Hroles & Hw & Herr).
  set (st0 := set_roles (set_NumRoomNodes 0%Z (roles st)) st) in *.
  assert (Hnode : forall id, node_at st0 id = node_at st id) by reflexivity.
  assert (Hkeep : forall c (proj : RoleIDs -> Z),
             (forall NodeNum e s e' s' n,
                 setup_body NodeNum e s = Ok e' s' -> node_at s NodeNum = Some n ->
                 DefineLinearModelNode.ClassType n <> c -> proj (roles s') = proj (roles s)) ->
             proj (roles st0) = proj (roles st) ->
             ~ has_role st (TotNumOfZoneAirNodes h ZoneNum) c ->
             proj (roles st') = proj (roles st)).
  { intros c proj Hbody H0 Hnone. rewrite Hroles, <- H0.
    apply (setup_loop_keeps c proj _ _ _ _ _ Hbody Hloop).
    intros k n Hk Hn Hc. apply Hnone. exists k, n. apply range_In in Hk.
    rewrite Hnode in Hn. auto. }
  split; [| split; [| split; [| split; [| split]]]].
  - intros E. destruct (Herr E) as [E1 | Hfoot].
    + destruct (setup_loop_errors _ _ _ _ _ Hloop E1) as [? | (k & n & Hk & Hn & Hc)];
        [discriminate |].
      left. exists k, n. apply range_In in Hk. rewrite Hnode in Hn. auto.
    + right. intros (k & n & Hk & Hn & Hc).
      assert ((0 < MundtFootAirID (roles st1))%Z); [| lia].
      assert (Hpos : forall y, In y (range 1 (TotNumOfZoneAirNodes h ZoneNum)) -> (1 <= y)%Z)
        by (intros y Hy; apply range_In in Hy; lia).
      apply (setup_loop_floor _ _ _ _ _ Hpos Hloop).
      exists k, n. rewrite Hnode. split; [apply range_In; exact Hk | auto].
  - apply (Hkeep CeilingAirNode MundtCeilAirID); [| reflexivity].
    intros k e s e' s' n Hb Hn Hc. apply setup_body_spec in Hb as (m & Hm & _ & Hb).
    rewrite Hn in Hm. injection Hm as <-. apply Hb. exact Hc.
  - apply (Hkeep ReturnAirNode ReturnNodeID); [| reflexivity].
    intros k e s e' s' n Hb Hn Hc. apply setup_body_spec in Hb as (m & Hm & _ & Hb).
    rewrite Hn in Hm. injection Hm as <-. apply Hb. exact Hc.
  - apply (Hkeep ControlAirNode TstatNodeID); [| reflexivity].
    intros k e s e' s' n Hb Hn Hc. apply setup_body_spec in Hb as (m & Hm & _ & Hb).
    rewrite Hn in Hm. injection Hm as <-. apply Hb. exact Hc.
  - apply (Hkeep InletAirNode SupplyNodeID); [| reflexivity].
    intros k e s e' s' n Hb Hn Hc. apply setup_body_spec in Hb as (m & Hm & _ & Hb).
    rewrite Hn in Hm. injection Hm as <-. apply Hb. exact Hc.
  - intros st'' Hcalc. apply CalcMundtModel_indexes in Hcalc. tauto.
Qed.

(** The second of two zones has no ceiling node.  The resolver reports
    nothing; the ceiling index is still the index 4 of the ceiling node of
    the first zone; in the second zone that index is the inlet node, which
    the solver leaves with the ceiling temperature of the line in place of
    the supply air temperature. *)
Lemma SetupMundtModel_missing_roles_witness :
  MundtCeilAirID (roles State0) = 0%Z /\
  SetupMundtModel TwoZone_Host 2 false TwoZone_Fetched = Ok false TwoZone_Resolved /\
  MundtCeilAirID (roles TwoZone_Resolved) = MundtCeilAirID (roles TwoZone_Fetched) /\
  MundtCeilAirID (roles TwoZone_Resolved) = 4%Z /\
  SupplyNodeID (roles TwoZone_Resolved) = 4%Z /\
  exists sol inlet,
    SolveMundt TwoZone_Host 2 TwoZone_Resolved = Ok sol TwoZone_Resolved /\
    node_at (final (CalcMundtModel TwoZone_Host 2) TwoZone_Resolved) 4 = Some inlet /\
    DefineLinearModelNode.ClassType inlet = InletAirNode /\
    DefineLinearModelNode.Temp inlet
    = Solution.TLeaving sol - Solution.Slope sol * (2.4 - 2.0) /\
    ~ DefineLinearModelNode.Temp inlet == SupplyAirTemp (work TwoZone_Resolved).
Proof.
  assert (Hrun : SetupMundtModel TwoZone_Host 2 false TwoZone_Fetched
                 = Ok false TwoZone_Resolved) by (vm_compute; reflexivity).
  pose proof (SetupMundtModel_missing_roles TwoZone_Host 2 TwoZone_Fetched false
                TwoZone_Resolved Hrun) as (_ & Hceil & _).
  split; [reflexivity |]. split; [exact Hrun |]. split.
  - apply Hceil. intros (k & n & Hk & Hn & Hc).
    change (TotNumOfZoneAirNodes TwoZone_Host 2) with 5%Z in Hk.
    assert (Hcases : k = 1%Z \/ k = 2%Z \/ k = 3%Z \/ k = 4%Z \/ k = 5%Z) by lia.
    destruct Hcases as [-> | [-> | [-> | [-> | ->]]]];
      vm_compute in Hn; injection Hn as <-; discriminate Hc.
  - split; [vm_compute; reflexivity |]. split; [vm_compute; reflexivity |].
    do 2 eexists. split; [vm_compute; reflexivity |].
    split; [vm_compute; reflexivity |].
    split; [reflexivity |]. split; [vm_compute; reflexivity |].
    vm_compute. discriminate.
Defined.

(** ** The adapters *)

Lemma for_each_post {B} (I : State -> Prop) (Q : B -> State -> Prop) (l : list B)
    (body : B -> M unit) :
  (forall x st st', In x l -> I st -> body x st = Ok tt st' ->
                    I st' /\ Q x st' /\ forall y, Q y st -> Q y st') ->
  forall st st', I st -> for_each l body st = Ok tt st' ->
                 I st' /\ (forall x, In x l -> Q x st') /\ (forall y, Q y st -> Q y st').
Proof.
  induction l as [| x l IH]; simpl; intros Hbody st st' HI H.
  - inv_step H. split; [exact HI |]. split; [intros x [] | auto].
  - apply bind_Ok_inv in H as ([] & st1 & H1 & H2).
    destruct (Hbody x st st1 (or_introl eq_refl) HI H1) as (HI1 & HQ1 & Hkeep1).
    destruct (IH (fun y s s' Hin => Hbody y s s' (or_intror Hin)) st1 st' HI1 H2)
      as (HI' & HQ' & Hkeep').
    split; [exact HI' |]. split.
    + intros y [<- | Hy]; [apply Hkeep', HQ1 | apply HQ', Hy].
    + intros y Hy. apply Hkeep', Hkeep1, Hy.
Qed.

Lemma same_field_refl {F} (g : DefineSurfaceSettings.t -> F) t : same_field g t t.
Proof. intros z id. reflexivity. Qed.

Lemma same_field_trans {F} (g : DefineSurfaceSettings.t -> F) t1 t2 t3 :
  same_field g t1 t2 -> same_field g t2 t3 -> same_field g t1 t3.
Proof. intros H12 H23 z id. rewrite H23. apply H12. Qed.

Lemma same_field_upd2 {F} (g : DefineSurfaceSettings.t -> F) i j f t t' :
  (forall s, g (f s) = g s) -> upd2 i j f t = Some t' -> same_field g t t'.
Proof. intros Hg H z id. eapply at2_upd2_field; eauto. Qed.

Lemma get_surf_loop_spec h zd l st st' :
  for_each l (get_surf_body h zd) st = Ok tt st' ->
  (set_MundtAirSurf [] st' = set_MundtAirSurf [] st /\
   same_field DefineSurfaceSettings.Area (MundtAirSurf st) (MundtAirSurf st') /\
   same_field DefineSurfaceSettings.TMeanAir (MundtAirSurf st) (MundtAirSurf st')) /\
  forall SurfNum, In SurfNum l -> surf_fetched h zd SurfNum st'.
Proof.
  intros H.
  destruct (for_each_post
    (fun s => set_MundtAirSurf [] s = set_MundtAirSurf [] st /\
              same_field DefineSurfaceSettings.Area (MundtAirSurf st) (MundtAirSurf s) /\
              same_field DefineSurfaceSettings.TMeanAir (MundtAirSurf st) (MundtAirSurf s))
    (surf_fetched h zd) l (get_surf_body h zd)) with (st := st) (st' := st')
    as (HI & HQ & _); auto.
  - intros x s s' _ (Hw & HA & HT) Hx. unfold get_surf_body in Hx.
    apply bind_Ok_inv in Hx as (s0 & s1 & H0 & Hx). inv_step H0.
    apply bind_Ok_inv in Hx as (t' & s2 & H0 & Hx). inv_step H0. rename E into Hupd.
    inv_step Hx. simpl. split; [| split].
    + split; [exact Hw |]. split.
      * eapply same_field_trans; [exact HA |]. eapply same_field_upd2; [| exact Hupd].
        reflexivity.
      * eapply same_field_trans; [exact HT |]. eapply same_field_upd2; [| exact Hupd].
        reflexivity.
    + unfold surf_fetched, surf_at. simpl. rewrite (at2_upd2_eq _ _ _ _ _ Hupd).
      destruct (upd2_Some_inv _ _ _ _ _ Hupd) as (row & row' & Hrow & Hrow' & _).
      apply upd1_Some_inv in Hrow' as (s0 & Hs0 & _).
      unfold at2. rewrite Hrow, Hs0. simpl. eexists. split; [reflexivity |]. auto.
    + intros y (sy & Hy & HTy & HHy). unfold surf_fetched, surf_at in *. simpl.
      destruct (Z.eq_dec y x) as [-> | Hne].
      * rewrite (at2_upd2_eq _ _ _ _ _ Hupd), Hy. simpl. eexists. split; [reflexivity |].
        auto.
      * rewrite (at2_upd2_ne _ _ _ _ _ _ _ Hupd) by auto. eauto.
  - split; [reflexivity |]. split; apply same_field_refl.
Qed.

(** What the inbound adapter does when it yields a result. *)
Lemma GetSurfHBDataForMundtModel_Ok_inv h ZoneNum st st' :
  GetSurfHBDataForMundtModel h ZoneNum st = Ok tt st' ->
  IsControlled h ZoneNum = true /\
  without_inbound st' = without_inbound st /\
  MundtZoneNum st' = MundtZoneNum st /\
  same_field DefineSurfaceSettings.Area (MundtAirSurf st) (MundtAirSurf st') /\
  same_field DefineSurfaceSettings.TMeanAir (MundtAirSurf st) (MundtAirSurf st') /\
  exists zd, at1 (ZoneData st) ZoneNum = Some zd /\
             forall SurfNum, (1 <= SurfNum <= DefineZoneData.NumOfSurfs zd)%Z ->
                             surf_fetched h zd SurfNum st'.
Proof.
  unfold GetSurfHBDataForMundtModel. intros H.
  destruct (IsControlled h ZoneNum); simpl in H; [| discriminate].
  split; [reflexivity |].
  apply bind_Ok_inv in H as (s0 & s1 & H0 & H). inv_step H0. cbv zeta in H.
  match type of H with
  | (let '(a, b) := ?p in _) _ = _ => destruct p as [Ts Qs]
  end.
  apply bind_Ok_inv in H as ([] & s1 & H0 & H). inv_step H0.
  apply bind_Ok_inv in H as (zd & s1 & H0 & H). inv_step H0. simpl in E.
  fold (get_surf_body h zd) in H.
  apply get_surf_loop_spec in H as ((Hw & HA & HT) & Hf).
  split; [| split; [| split; [| split]]].
  - apply (f_equal without_inbound) in Hw. exact Hw.
  - apply (f_equal MundtZoneNum) in Hw. exact Hw.
  - exact HA.
  - exact HT.
  - exists zd. split; [exact E |]. intros k Hk. apply Hf, range_In, Hk.
Qed.

(** The outbound adapter writes host variables only. *)
Lemma set_host_without f st : without_hostv (set_hostv (f (hostv st)) st) = without_hostv st.
Proof. reflexivity. Qed.

Ltac inv_host H :=
  repeat match type of H with
         | bind (set_host _) _ _ = Ok _ _ =>
             let u := fresh "u" in
             let s := fresh "s" in
             let H0 := fresh "H" in
             apply bind_Ok_inv in H as (u & s & H0 & H);
             unfold set_host, modify in H0; injection H0 as <- <-
         | bind (LineNodeAt _) _ _ = Ok _ _ =>
             let n := fresh "n" in
             let s := fresh "s" in
             let H0 := fresh "H" in
             apply bind_Ok_inv in H as (n & s & H0 & H);
             apply LineNodeAt_Ok_inv in H0 as [_ ->]
         | bind (MundtAirSurfAt _) _ _ = Ok _ _ =>
             let n := fresh "n" in
             let s := fresh "s" in
             let H0 := fresh "H" in
             apply bind_Ok_inv in H as (n & s & H0 & H);
             unfold MundtAirSurfAt in H0; inv_step H0
         | set_host _ _ = Ok _ _ => unfold set_host, modify in H; injection H as <-
         end.

Lemma host_loop_frame (l : list Z) (body : Z -> M unit) st st' :
  (forall x s s', body x s = Ok tt s' -> without_hostv s' = without_hostv s) ->
  for_each l body st = Ok tt st' -> without_hostv st' = without_hostv st.
Proof.
  intros Hbody.
  refine (for_each_inv (fun s => without_hostv s = without_hostv st) l body _ st st' eq_refl).
  intros x s s' _ Hs Hx. rewrite (Hbody _ _ _ Hx). exact Hs.
Qed.

Lemma SetSurfHBDataForMundtModel_frame h ZoneNum st st' :
  SetSurfHBDataForMundtModel h ZoneNum st = Ok tt st' ->
  without_hostv st' = without_hostv st.
Proof.
  unfold SetSurfHBDataForMundtModel. intros H.
  apply bind_Ok_inv in H as (s0 & s1 & H0 & H). inv_step H0.
  apply bind_Ok_inv in H as (zd & s1 & H0 & H). inv_step H0. cbv zeta in H.
  destruct (SystemOn (work st)).
  - apply bind_Ok_inv in H as ([] & s1 & H1 & H). inv_host H.
    rewrite set_host_without.
    destruct (TempCoupleScheme h ZoneNum =? DirectCoupling)%Z.
    + apply bind_Ok_inv in H1 as ([] & s2 & Hl & H1).
      apply host_loop_frame in Hl;
        [| intros x s s' Hx; inv_host Hx; reflexivity].
      inv_host H1. simpl. exact Hl.
    + apply bind_Ok_inv in H1 as ([] & s2 & Hl & H1).
      apply host_loop_frame in Hl;
        [| intros x s s' Hx; inv_host Hx; reflexivity].
      inv_host H1. simpl. exact Hl.
  - apply bind_Ok_inv in H as ([] & s1 & Hl & H).
    apply host_loop_frame in Hl; [| intros x s s' Hx; inv_host Hx; reflexivity].
    inv_host H. simpl. exact Hl.
Qed.

Lemma SystemOn_iff w :
  SystemOn w = true <-> 0.0001 < SupplyAirVolumeRate w /\ 0.0001 < QsysCoolTot w.
Proof.
  unfold SystemOn. rewrite andb_true_iff, !R64Facts.ltb_lt. reflexivity.
Qed.

(** The gate is closed when a threshold is not exceeded, and that is so
    also when the flow or the load is NaN. *)
Lemma SystemOn_false w :
  SystemOn w = false <-> ~ (0.0001 < SupplyAirVolumeRate w /\ 0.0001 < QsysCoolTot w).
Proof.
  rewrite <- SystemOn_iff. destruct (SystemOn w); split; congruence.
Qed.

Lemma SystemOn_off w :
  SupplyAirVolumeRate w <= 0.0001 \/ QsysCoolTot w <= 0.0001 -> SystemOn w = false.
Proof.
  intros H. apply SystemOn_false. intros [H1 H2].
  destruct H as [H | H];
    [exact (R64Facts.lt_not_le _ _ H1 H) | exact (R64Facts.lt_not_le _ _ H2 H)].
Qed.

Lemma fupd_same {V} (f : Z -> V) k v : fupd f k v k = v.
Proof. unfold fupd. rewrite Z.eqb_refl. reflexivity. Qed.

Lemma fupd_cases {V} (f : Z -> V) k v j : fupd f k v j = v \/ fupd f k v j = f j.
Proof. unfold fupd. destruct (j =? k)%Z; auto. Qed.

Lemma off_loop_spec h ZoneNum zd l st st' :
  for_each l (off_body h ZoneNum zd) st = Ok tt st' ->
  forall SurfNum, In SurfNum l -> well_mixed h ZoneNum zd SurfNum st'.
Proof.
  intros H.
  destruct (for_each_post (fun _ => True) (well_mixed h ZoneNum zd) l (off_body h ZoneNum zd))
    with (st := st) (st' := st') as (_ & HQ & _); auto.
  intros x s s' _ _ Hx. unfold off_body in Hx. inv_host Hx. unfold well_mixed. simpl.
  split; [exact I |]. split.
  - split; apply fupd_same.
  - intros y [Hy1 Hy2]. split.
    + destruct (fupd_cases (TempEffBulkAir (hostv s))
                  (DefineZoneData.SurfFirst zd + x - 1)%Z (MAT h ZoneNum)
                  (DefineZoneData.SurfFirst zd + y - 1)%Z) as [-> | ->]; auto.
    + destruct (fupd_cases (SurfaceTAirRef (hostv s))
                  (DefineZoneData.SurfFirst zd + x - 1)%Z ZoneMeanAirTemp
                  (DefineZoneData.SurfFirst zd + y - 1)%Z) as [-> | ->]; auto.
Qed.

Lemma SetSurfHBDataForMundtModel_off h ZoneNum st st' :
  SetSurfHBDataForMundtModel h ZoneNum st = Ok tt st' ->
  SystemOn (work st) = false ->
  exists zd,
    at1 (ZoneData st) ZoneNum = Some zd /\
    (forall SurfNum, (1 <= SurfNum <= DefineZoneData.NumOfSurfs zd)%Z ->
       TempEffBulkAir (hostv st') (DefineZoneData.SurfFirst zd + SurfNum - 1)%Z = MAT h ZoneNum /\
       SurfaceTAirRef (hostv st') (DefineZoneData.SurfFirst zd + SurfNum - 1)%Z
       = ZoneMeanAirTemp) /\
    SimAirModel (hostv st') ZoneNum = false.
Proof.
  unfold SetSurfHBDataForMundtModel. intros H Hoff.
  apply bind_Ok_inv in H as (s0 & s1 & H0 & H). inv_step H0.
  apply bind_Ok_inv in H as (zd & s1 & H0 & H). inv_step H0. cbv zeta in H.
  rewrite Hoff in H. exists zd. split; [assumption |].
  apply bind_Ok_inv in H as ([] & s1 & Hl & H). inv_host H. simpl.
  split; [| apply fupd_same].
  fold (off_body h ZoneNum zd) in Hl.
  intros k Hk. apply (off_loop_spec _ _ _ _ _ _ Hl), range_In, Hk.
Qed.

(** The outbound adapter when the system is on sets the model-in-use
    flag. *)
Lemma SetSurfHBDataForMundtModel_on h ZoneNum st st' :
  SetSurfHBDataForMundtModel h ZoneNum st = Ok tt st' ->
  SystemOn (work st) = true ->
  SimAirModel (hostv st') ZoneNum = true.
Proof.
  unfold SetSurfHBDataForMundtModel. intros H Hon.
  apply bind_Ok_inv in H as (s0 & s1 & H0 & H). inv_step H0.
  apply bind_Ok_inv in H as (zd & s1 & H0 & H). inv_step H0. cbv zeta in H.
  rewrite Hon in H.
  apply bind_Ok_inv in H as ([] & s1 & _ & H). inv_host H. simpl. apply fupd_same.
Qed.

(** ** ManageMundtModel *)

(** A call that yields a result went through the inbound adapter, then,
    by the gate, through the role resolver and the solver or through
    neither, then through the outbound adapter. *)
Lemma ManageMundtModel_Ok_inv h ZoneNum st st' :
  ManageMundtModel h ZoneNum st = Ok tt st' ->
  exists s1,
    Inbound h ZoneNum st = Ok tt s1 /\
    if SystemOn (work s1)
    then exists s2 s3,
           SetupMundtModel h ZoneNum false s1 = Ok false s2 /\
           CalcMundtModel h ZoneNum s2 = Ok tt s3 /\
           SetSurfHBDataForMundtModel h ZoneNum s3 = Ok tt st'
    else SetSurfHBDataForMundtModel h ZoneNum s1 = Ok tt st'.
Proof.
  unfold ManageMundtModel, Inbound. intros H.
  apply bind_Ok_inv in H as (s0 & s0' & H0 & H). unfold get in H0. injection H0 as <- <-.
  apply bind_Ok_inv in H as ([] & sa & Hinit & H).
  apply bind_Ok_inv in H as (sb & sb' & H0 & H). unfold get in H0. injection H0 as <- <-.
  apply bind_Ok_inv in H as (zd & sc & Hzd & H). apply checked_Ok_inv in Hzd as [Hzd ->].
  apply bind_Ok_inv in H as ([] & sd & H0 & H). unfold modify in H0. injection H0 as <-.
  apply bind_Ok_inv in H as ([] & s1 & Hget & H).
  apply bind_Ok_inv in H as (se & se' & H0 & H). unfold get in H0. injection H0 as <- <-.
  apply bind_Ok_inv in H as ([] & sf & Hgate & H).
  exists s1. split.
  - rewrite (bind_Ok get _ st st st) by reflexivity.
    rewrite (bind_Ok _ _ st tt sa Hinit).
    rewrite (bind_Ok get _ sa sa sa) by reflexivity.
    unfold checked at 1. rewrite Hzd.
    rewrite (bind_Ok (ret zd) _ sa zd sa) by reflexivity.
    rewrite (bind_Ok (modify _) _ sa tt _) by reflexivity.
    exact Hget.
  - destruct (SystemOn (work s1)).
    + apply bind_Ok_inv in Hgate as (err & s2 & Hsetup & Hgate).
      apply bind_Ok_inv in Hgate as ([] & s2' & Herr & Hcalc).
      destruct err; [discriminate Herr |]. unfold ret in Herr. injection Herr as <-.
      exists s2, sf. auto.
    + unfold ret in Hgate. injection Hgate as <-. exact H.
Qed.

(** After the first call the inbound adapter leaves the role indices and
    the air nodes alone, and the areas and effective air temperatures of the
    surfaces. *)
Lemma Inbound_Ok_inv h ZoneNum st s1 :
  Inbound h ZoneNum st = Ok tt s1 ->
  FirstTimeFlag st = false ->
  without_inbound s1 = without_inbound st /\
  same_field DefineSurfaceSettings.Area (MundtAirSurf st) (MundtAirSurf s1) /\
  same_field DefineSurfaceSettings.TMeanAir (MundtAirSurf st) (MundtAirSurf s1) /\
  exists zd, at1 (ZoneData st) ZoneNum = Some zd /\
             MundtZoneNum s1 = DefineZoneData.MundtZoneIndex zd /\
             forall SurfNum, (1 <= SurfNum <= DefineZoneData.NumOfSurfs zd)%Z ->
                             surf_fetched h zd SurfNum s1.
Proof.
  unfold Inbound. intros H Hflag.
  apply bind_Ok_inv in H as (s0 & s0' & H0 & H). unfold get in H0. injection H0 as <- <-.
  rewrite Hflag in H.
  apply bind_Ok_inv in H as ([] & sa & H0 & H). unfold ret in H0. injection H0 as <-.
  apply bind_Ok_inv in H as (sb & sb' & H0 & H). unfold get in H0. injection H0 as <- <-.
  apply bind_Ok_inv in H as (zd & sc & Hzd & H). apply checked_Ok_inv in Hzd as [Hzd ->].
  apply bind_Ok_inv in H as ([] & sd & H0 & H). unfold modify in H0. injection H0 as <-.
  apply GetSurfHBDataForMundtModel_Ok_inv in H as (_ & Hw & Hz & HA & HT & zd' & Hzd' & Hf).
  simpl in *. rewrite Hzd in Hzd'. injection Hzd' as <-.
  split; [exact Hw |]. split; [exact HA |]. split; [exact HT |].
  exists zd. auto.
Qed.

(** C4.  In a call that yields a result the role resolver and the solver
    run if and only if the supply volume flow and the total cooling load
    both exceed 0.0001.  When a threshold fails (a flow or a load that is
    NaN fails it too), the call ends with the role indices, the air nodes
    and the surface entries as the inbound adapter left them (after the
    first call: the air nodes, the role indices and the effective air
    temperatures of the surfaces as they were before the call); the bulk
    effective air temperature of every surface of the zone is the mean air
    temperature of the host, its reference mode is the zone mean air, and
    the model-in-use flag is false. *)
Theorem ManageMundtModel_gate h ZoneNum st st'
    (Hrun : ManageMundtModel h ZoneNum st = Ok tt st') :
  exists s1,
    Inbound h ZoneNum st = Ok tt s1 /\
    (0.0001 < SupplyAirVolumeRate (work s1) /\ 0.0001 < QsysCoolTot (work s1) ->
     exists s2 s3,
       SetupMundtModel h ZoneNum false s1 = Ok false s2 /\
       CalcMundtModel h ZoneNum s2 = Ok tt s3 /\
       SetSurfHBDataForMundtModel h ZoneNum s3 = Ok tt st' /\
       SimAirModel (hostv st') ZoneNum = true) /\
    (~ (0.0001 < SupplyAirVolumeRate (work s1) /\ 0.0001 < QsysCoolTot (work s1)) ->
     SetSurfHBDataForMundtModel h ZoneNum s1 = Ok tt st' /\
     roles st' = roles s1 /\ LineNode st' = LineNode s1 /\
     MundtAirSurf st' = MundtAirSurf s1 /\
     (FirstTimeFlag st = false ->
      roles st' = roles st /\ LineNode st' = LineNode st /\
      same_field DefineSurfaceSettings.TMeanAir (MundtAirSurf st) (MundtAirSurf st')) /\
     (exists zd,
        at1 (ZoneData st') ZoneNum = Some zd /\
        forall SurfNum, (1 <= SurfNum <= DefineZoneData.NumOfSurfs zd)%Z ->
          TempEffBulkAir (hostv st') (DefineZoneData.SurfFirst zd + SurfNum - 1)%Z
          = MAT h ZoneNum /\
          SurfaceTAirRef (hostv st') (DefineZoneData.SurfFirst zd + SurfNum - 1)%Z
          = ZoneMeanAirTemp) /\
     SimAirModel (hostv st') ZoneNum = false).
Proof.
  apply ManageMundtModel_Ok_inv in Hrun as (s1 & Hin & Hgate).
  exists s1. split; [exact Hin |]. split.
  - intros Hon. apply SystemOn_iff in Hon. rewrite Hon in Hgate.
    destruct Hgate as (s2 & s3 & Hsetup & Hcalc & Hset).
    exists s2, s3. repeat (split; [assumption |]).
    apply (SetSurfHBDataForMundtModel_on _ _ _ _ Hset).
    apply CalcMundtModel_Ok_inv in Hcalc as (_ & _ & _ & _ & [Hw _] & _).
    apply SetupMundtModel_Ok_inv in Hsetup as (_ & _ & _ & _ & Hw' & _).
    rewrite (without_results_work _ _ Hw).
    apply (f_equal work) in Hw'. simpl in Hw'. rewrite Hw'. exact Hon.
  - intros Hoff. apply SystemOn_false in Hoff. rewrite Hoff in Hgate.
    pose proof (SetSurfHBDataForMundtModel_frame _ _ _ _ Hgate) as Hw.
    assert (Hr : roles st' = roles s1) by (apply (f_equal roles) in Hw; exact Hw).
    assert (HL : LineNode st' = LineNode s1) by (apply (f_equal LineNode) in Hw; exact Hw).
    assert (HS : MundtAirSurf st' = MundtAirSurf s1)
      by (apply (f_equal MundtAirSurf) in Hw; exact Hw).
    split; [exact Hgate |]. split; [exact Hr |]. split; [exact HL |]. split; [exact HS |].
    split; [| split].
    + intros Hflag.
      destruct (Inbound_Ok_inv _ _ _ _ Hin Hflag) as (Hwi & _ & HT & _).
      rewrite Hr, HL, HS.
      split; [apply (f_equal roles) in Hwi; exact Hwi |].
      split; [apply (f_equal LineNode) in Hwi; exact Hwi | exact HT].
    + destruct (SetSurfHBDataForMundtModel_off _ _ _ _ Hgate Hoff) as (zd & Hzd & Hsurf & _).
      exists zd. split; [| exact Hsurf].
      apply (f_equal ZoneData) in Hw. simpl in Hw. rewrite Hw. exact Hzd.
    + destruct (SetSurfHBDataForMundtModel_off _ _ _ _ Hgate Hoff) as (_ & _ & _ & Hflag).
      exact Hflag.
Qed.

(** ** The surface entries *)

Lemma SetSurfTmeanAir_field {F} (g : DefineSurfaceSettings.t -> F) SurfID TeffAir st st' :
  (forall v s, g (DefineSurfaceSettings.set_TMeanAir v s) = g s) ->
  SetSurfTmeanAir SurfID TeffAir st = Ok tt st' ->
  same_field g (MundtAirSurf st) (MundtAirSurf st').
Proof.
  intros Hg H. unfold SetSurfTmeanAir in H. inv_step H. simpl.
  eapply same_field_upd2; [| eassumption]. intros s. apply Hg.
Qed.

Lemma for_each_field {B F} (g : DefineSurfaceSettings.t -> F) (l : list B) (body : B -> M unit) :
  (forall x st st', body x st = Ok tt st' ->
                    same_field g (MundtAirSurf st) (MundtAirSurf st')) ->
  forall st st', for_each l body st = Ok tt st' ->
                 same_field g (MundtAirSurf st) (MundtAirSurf st').
Proof.
  intros Hbody st st' H.
  refine (for_each_inv (fun s => same_field g (MundtAirSurf st) (MundtAirSurf s)) l body _
            st st' (same_field_refl g _) H).
  intros x s s' _ Hs Hx. eapply same_field_trans; [exact Hs | eapply Hbody; exact Hx].
Qed.

Lemma SetNodeSurfaces_field {F} (g : DefineSurfaceSettings.t -> F) NodeID TeffAir st st' :
  (forall v s, g (DefineSurfaceSettings.set_TMeanAir v s) = g s) ->
  SetNodeSurfaces NodeID TeffAir st = Ok tt st' ->
  same_field g (MundtAirSurf st) (MundtAirSurf st').
Proof.
  intros Hg H. unfold SetNodeSurfaces in H.
  apply bind_Ok_inv in H as (n & s1 & H1 & H). apply LineNodeAt_Ok_inv in H1 as [_ ->].
  apply bind_Ok_inv in H as (s2 & s3 & H1 & H). inv_step H1.
  apply bind_Ok_inv in H as (u & s4 & H1 & H). inv_step H1.
  apply (for_each_field g) in H; [exact H |].
  intros x s s' Hx. apply bind_Ok_inv in Hx as (id & s5 & Hx1 & Hx).
  unfold TheseSurfIDsAt in Hx1. inv_step Hx1.
  eapply SetSurfTmeanAir_field; eauto.
Qed.

(** The solver writes no field of a surface entry but [TMeanAir]. *)
Lemma CalcMundtModel_field {F} (g : DefineSurfaceSettings.t -> F) h ZoneNum st st' :
  (forall v s, g (DefineSurfaceSettings.set_TMeanAir v s) = g s) ->
  CalcMundtModel h ZoneNum st = Ok tt st' ->
  same_field g (MundtAirSurf st) (MundtAirSurf st').
Proof.
  intros Hg H. unfold CalcMundtModel in H.
  apply bind_Ok_inv in H as (sol & s0 & Hsol & H).
  pose proof (SolveMundt_pure _ _ _ _ _ Hsol) as ->. cbv zeta in H.
  apply bind_Ok_inv in H as (s1 & s2 & H1 & H). inv_step H1.
  apply bind_Ok_inv in H as (RN & s2 & H1 & H). apply LineNodeAt_Ok_inv in H1 as [_ ->].
  apply bind_Ok_inv in H as (CN & s2 & H1 & H). apply LineNodeAt_Ok_inv in H1 as [_ ->].
  apply bind_Ok_inv in H as (TN & s2 & H1 & H). apply LineNodeAt_Ok_inv in H1 as [_ ->].
  apply bind_Ok_inv in H as ([] & s1 & Hw1 & H).
  apply bind_Ok_inv in H as ([] & s2 & Hw2 & H).
  apply bind_Ok_inv in H as ([] & s3 & Hw3 & H).
  apply bind_Ok_inv in H as ([] & s4 & Hw4 & H).
  apply bind_Ok_inv in H as ([] & s5 & Hw5 & H).
  apply bind_Ok_inv in H as ([] & s6 & Hfloor & H).
  apply bind_Ok_inv in H as ([] & s7 & Hceil & H).
  apply SetNodeResult_Ok_inv in Hw1 as (_ & _ & _ & E1 & _).
  apply SetNodeResult_Ok_inv in Hw2 as (_ & _ & _ & E2 & _).
  apply SetNodeResult_Ok_inv in Hw3 as (_ & _ & _ & E3 & _).
  apply SetNodeResult_Ok_inv in Hw4 as (_ & _ & _ & E4 & _).
  apply SetNodeResult_Ok_inv in Hw5 as (_ & _ & _ & E5 & _).
  assert (E : MundtAirSurf s5 = MundtAirSurf st) by congruence.
  rewrite <- E.
  apply (for_each_field g) in Hfloor.
  2:{ intros x s s' Hx. apply bind_Ok_inv in Hx as (id & t & Hx1 & Hx).
      unfold FloorSurfSetIDsAt in Hx1. inv_step Hx1. eapply SetSurfTmeanAir_field; eauto. }
  apply (SetNodeSurfaces_field g _ _ _ _ Hg) in Hceil.
  apply (for_each_field g) in H.
  2:{ intros x s s' Hx.
      apply bind_Ok_inv in Hx as (rid & t1 & Hx1 & Hx).
      unfold RoomNodeIDsAt in Hx1. inv_step Hx1.
      apply bind_Ok_inv in Hx as (RN' & t2 & Hx1 & Hx). apply LineNodeAt_Ok_inv in Hx1 as [_ ->].
      apply bind_Ok_inv in Hx as (n & t3 & Hx1 & Hx). apply LineNodeAt_Ok_inv in Hx1 as [_ ->].
      apply bind_Ok_inv in Hx as ([] & t4 & Hx1 & Hx).
      apply SetNodeResult_Ok_inv in Hx1 as (_ & _ & _ & Es & _).
      apply (SetNodeSurfaces_field g _ _ _ _ Hg) in Hx. rewrite Es in Hx. exact Hx. }
  eapply same_field_trans; [exact Hfloor |].
  eapply same_field_trans; [exact Hceil | exact H].
Qed.

Lemma surf_fetched_same h zd SurfNum st st' :
  MundtZoneNum st' = MundtZoneNum st ->
  same_field (fun s => (DefineSurfaceSettings.Temp s, DefineSurfaceSettings.Hc s))
             (MundtAirSurf st) (MundtAirSurf st') ->
  surf_fetched h zd SurfNum st -> surf_fetched h zd SurfNum st'.
Proof.
  intros Hz Hf (s & Hs & HT & HH). unfold surf_fetched, surf_at in *.
  specialize (Hf (MundtZoneNum st) SurfNum). rewrite Hz. rewrite Hs in Hf. simpl in Hf.
  destruct (at2 (MundtAirSurf st') (MundtZoneNum st) SurfNum) as [s' |]; [| discriminate].
  simpl in Hf. injection Hf as E1 E2. exists s'. split; [reflexivity |]. split; congruence.
Qed.

Lemma ManageMundtModel_gate_witness :
  (let st' := final (ManageMundtModel SystemOff_Host 1) State0 in
   ManageMundtModel SystemOff_Host 1 State0 = Ok tt st' /\
   (forall SurfNum, (1 <= SurfNum <= 3)%Z ->
      TempEffBulkAir (hostv st') (1 + SurfNum - 1)%Z = MAT SystemOff_Host 1 /\
      SurfaceTAirRef (hostv st') (1 + SurfNum - 1)%Z = ZoneMeanAirTemp) /\
   SimAirModel (hostv st') 1 = false) /\
  (let st' := final (ManageMundtModel Example_Host 1) State0 in
   ManageMundtModel Example_Host 1 State0 = Ok tt st' /\
   SimAirModel (hostv st') 1 = true).
Proof.
  split; cbv zeta.
  - assert (Hrun : ManageMundtModel SystemOff_Host 1 State0
                   = Ok tt (final (ManageMundtModel SystemOff_Host 1) State0))
      by (vm_compute; reflexivity).
    split; [exact Hrun |].
    destruct (ManageMundtModel_gate _ _ _ _ Hrun) as (s1 & Hin & _ & Hoff).
    vm_compute in Hin. injection Hin as <-.
    destruct Hoff as (_ & _ & _ & _ & _ & (zd & Hzd & Hsurf) & Hsim).
    { intros [H _]. vm_compute in H. discriminate H. }
    vm_compute in Hzd. injection Hzd as <-. split; [exact Hsurf | exact Hsim].
  - assert (Hrun : ManageMundtModel Example_Host 1 State0
                   = Ok tt (final (ManageMundtModel Example_Host 1) State0))
      by (vm_compute; reflexivity).
    split; [exact Hrun |].
    destruct (ManageMundtModel_gate _ _ _ _ Hrun) as (s1 & Hin & Hon & _).
    vm_compute in Hin. injection Hin as <-.
    destruct Hon as (s2 & s3 & _ & _ & _ & Hsim); [| exact Hsim].
    split; vm_compute; reflexivity.
Defined.

(** ** The topology build *)

(** *** Index ranges *)

Lemma range_nil lo hi : (hi < lo)%Z -> range lo hi = [].
Proof.
  intros H. unfold range. replace (Z.to_nat (hi - lo + 1)) with 0%nat by lia. reflexivity.
Qed.

Lemma range_cons lo hi : (lo <= hi)%Z -> range lo hi = lo :: range (lo + 1) hi.
Proof.
  intros H. unfold range.
  replace (Z.to_nat (hi - lo + 1)) with (S (Z.to_nat (hi - (lo + 1) + 1))) by lia.
  simpl. f_equal; [lia |].
  rewrite <- seq_shift, map_map. apply map_ext. intros k. lia.
Qed.

Lemma range_app lo mid hi :
  (lo <= mid + 1)%Z -> (mid <= hi)%Z -> range lo hi = range lo mid ++ range (mid + 1) hi.
Proof.
  intros H1 H2. remember (Z.to_nat (mid - lo + 1)) as n eqn:En.
  revert lo H1 En. induction n as [| n IH]; intros lo H1 En.
  - rewrite (range_nil lo mid) by lia.
    replace (mid + 1)%Z with lo by lia. reflexivity.
  - rewrite (range_cons lo hi) by lia. rewrite (range_cons lo mid) by lia.
    simpl. f_equal. apply IH; lia.
Qed.

Lemma range_split lo a hi :
  (lo <= a <= hi)%Z -> range lo hi = range lo (a - 1) ++ a :: range (a + 1) hi.
Proof.
  intros H. rewrite (range_app lo (a - 1) hi) by lia.
  replace (a - 1 + 1)%Z with a by lia. rewrite (range_cons a hi) by lia. reflexivity.
Qed.

Lemma range_snoc lo hi : (lo <= hi)%Z -> range lo hi = range lo (hi - 1) ++ [hi].
Proof.
  intros H. rewrite (range_split lo hi hi) by lia. rewrite (range_nil (hi + 1) hi) by lia.
  reflexivity.
Qed.

Lemma range_to_nat lo hi :
  range lo hi = range lo (lo + Z.of_nat (Z.to_nat (hi - lo + 1)) - 1).
Proof. unfold range. f_equal. f_equal. lia. Qed.

(** *** The scan of the air-node table *)

(** The first match from [b] on heads the matches from [b] on. *)
Lemma find_range (P : Z -> bool) (T : Z) (n : nat) :
  forall b, Z.to_nat (T - b + 1) = n ->
  match find P (range b T) with
  | Some a => (b <= a <= T)%Z /\
              List.filter P (range b T) = a :: List.filter P (range (a + 1) T)
  | None => List.filter P (range b T) = []
  end.
Proof.
  induction n as [| n IH]; intros b Hn.
  - rewrite range_nil by lia. reflexivity.
  - rewrite range_cons by lia. simpl. destruct (P b) eqn:Pb.
    + split; [lia | reflexivity].
    + specialize (IH (b + 1)%Z ltac:(lia)).
      destruct (find P (range (b + 1) T)) as [a |]; [| exact IH].
      destruct IH as [Ha Hf]. split; [lia | exact Hf].
Qed.

Lemma scan_end_cons b a defs : scan_end b (a :: defs) = scan_end (a + 1) defs.
Proof.
  unfold scan_end. destruct defs as [| a' defs]; [reflexivity |].
  reflexivity.
Qed.

(** *** The shape of the tables *)

Lemma map_length_insert {A} (ll : list (list A)) i (row row' : list A) :
  ll !! i = Some row -> length row' = length row ->
  map (@length _) (<[i := row']> ll) = map (@length _) ll.
Proof.
  revert i. induction ll as [| r ll IH]; intros i Hi Hlen; [reflexivity |].
  destruct i as [| i]; simpl in *.
  - injection Hi as ->. rewrite Hlen. reflexivity.
  - rewrite (IH i Hi Hlen). reflexivity.
Qed.

Lemma upd2_shape {A} i j (f : A -> A) (ll ll' : list (list A)) :
  upd2 i j f ll = Some ll' -> map (@length _) ll' = map (@length _) ll.
Proof.
  intros H. apply upd2_Some_inv in H as (row & row' & Hrow & Hupd & ->).
  apply upd1_length in Hupd. unfold at1 in Hrow.
  destruct (1 <=? i)%Z; [| discriminate].
  eapply map_length_insert; eauto.
Qed.

Lemma at1_is_Some_length {A B} (l : list A) (l' : list B) i :
  length l' = length l -> is_Some (at1 l i) -> is_Some (at1 l' i).
Proof.
  intros Hlen [x Hx]. apply at1_Some_bounds in Hx.
  destruct (at1_is_Some l' i) as [y Hy]; [lia | eauto].
Qed.

Lemma at2_is_Some_shape {A} (ll ll' : list (list A)) i j :
  map (@length _) ll' = map (@length _) ll ->
  is_Some (at2 ll i j) -> is_Some (at2 ll' i j).
Proof.
  intros Hshape [x Hx]. unfold at2 in *.
  destruct (at1 ll i) as [row |] eqn:Hrow; [| discriminate].
  unfold at1 in Hrow |- *. destruct (1 <=? i)%Z; [| discriminate].
  assert (Hl : map (@length _) ll !! Z.to_nat (i - 1) = Some (length row)).
  { change (map (@length A) ll) with ((@length A) <$> ll).
    rewrite list_lookup_fmap, Hrow. reflexivity. }
  rewrite <- Hshape in Hl.
  change (map (@length A) ll') with ((@length A) <$> ll') in Hl.
  rewrite list_lookup_fmap in Hl.
  destruct (ll' !! Z.to_nat (i - 1)) as [row' |]; [| discriminate].
  simpl in Hl. injection Hl as Hl.
  apply (at1_is_Some_length row row'); eauto.
Qed.

Lemma at2_allocate {A} (R C : Z) (d : A) i j :
  (1 <= i <= R)%Z -> (1 <= j <= C)%Z -> is_Some (at2 (allocate R (allocate C d)) i j).
Proof.
  intros Hi Hj. unfold at2, at1, allocate.
  destruct (1 <=? i)%Z eqn:Ei; [| lia].
  rewrite lookup_replicate_2 by lia.
  destruct (1 <=? j)%Z eqn:Ej; [| lia].
  rewrite lookup_replicate_2 by lia. eauto.
Qed.

(** *** One air node *)

Lemma Init_AirNode_spec h MundtZoneIndex ZoneIndex NumOfSurfs NodeNum loc st :
  is_Some (at2 (LineNode st) MundtZoneIndex NodeNum) ->
  let b := if (NodeNum =? 1)%Z then NodeNum else AirNodeBeginNum loc in
  if (TotNumOfAirNodes h <? b)%Z
  then exists st',
         Init_AirNode h MundtZoneIndex ZoneIndex NumOfSurfs NodeNum loc st = Fatal st' /\
         Messages st' = Messages st ++ [ArrayBound_message]
  else match find (zone_match h ZoneIndex) (range b (TotNumOfAirNodes h)) with
       | Some a =>
           exists loc' st',
             Init_AirNode h MundtZoneIndex ZoneIndex NumOfSurfs NodeNum loc st = Ok loc' st' /\
             Messages st' = Messages st ++ [OutputVariable_message h a] /\
             AirNodeBeginNum loc' = (a + 1)%Z /\ AirNodeFoundFlag loc' = true /\
             ErrorsFound loc' = ErrorsFound loc /\ table_shape st' = table_shape st
       | None =>
           exists loc' st',
             Init_AirNode h MundtZoneIndex ZoneIndex NumOfSurfs NodeNum loc st = Ok loc' st' /\
             Messages st' = Messages st ++ [NotFound_message h ZoneIndex] /\
             AirNodeBeginNum loc' = b /\ AirNodeFoundFlag loc' = false /\
             ErrorsFound loc' = true /\ table_shape st' = table_shape st
       end.
Proof.
  intros [n Hn] b.
  destruct (upd2_is_Some MundtZoneIndex NodeNum
              (DefineLinearModelNode.set_SurfMask (allocate NumOfSurfs false)) _ _ Hn)
    as [LN1 HLN1].
  pose proof (upd2_shape _ _ _ _ _ HLN1) as Hshape1.
  assert (Hstart : Init_AirNode h MundtZoneIndex ZoneIndex NumOfSurfs NodeNum loc st
    = (if (TotNumOfAirNodes h <? b)%Z
       then ShowFatalError
              "An array bound exceeded. Error in InitMundtModel subroutine of MundtSimMgr."
       else match find (zone_match h ZoneIndex) (range b (TotNumOfAirNodes h)) with
            | Some AirNodeNum =>
                let a := AirNode h AirNodeNum in
                st <- get ;;
                LineNode' <- checked (upd2 MundtZoneIndex NodeNum
                  (fun n => {| DefineLinearModelNode.AirNodeName := AirNodeData.Name a;
                               DefineLinearModelNode.ClassType := AirNodeData.ClassType a;
                               DefineLinearModelNode.Height := AirNodeData.Height a;
                               DefineLinearModelNode.Temp := DefineLinearModelNode.Temp n;
                               DefineLinearModelNode.SurfMask := AirNodeData.SurfMask a |})
                  (LineNode st)) ;;
                modify (set_LineNode LineNode') ;;
                SetupOutputVariable "Room Air Node Air Temperature [C]" (AirNodeData.Name a) ;;
                ret {| RoomNodesCount :=
                         if (AirNodeData.ClassType a =? MundtRoomAirNode)%Z
                         then (RoomNodesCount loc + 1)%Z else RoomNodesCount loc;
                       FloorSurfCount :=
                         if (AirNodeData.ClassType a =? FloorAirNode)%Z
                         then (FloorSurfCount loc + count (AirNodeData.SurfMask a))%Z
                         else FloorSurfCount loc;
                       AirNodeBeginNum := (AirNodeNum + 1)%Z; AirNodeFoundFlag := true;
                       ErrorsFound := ErrorsFound loc |}
            | None =>
                ShowSevereError ("InitMundtModel: Air Node in Zone=" ++ quote
                                 ++ ZoneName h ZoneIndex ++ quote ++ " is not found.")%string ;;
                ret {| RoomNodesCount := RoomNodesCount loc;
                       FloorSurfCount := FloorSurfCount loc;
                       AirNodeBeginNum := b; AirNodeFoundFlag := false;
                       ErrorsFound := true |}
            end) (set_LineNode LN1 st)).
  { unfold Init_AirNode. unfold bind at 1, get at 1. unfold bind at 1, checked at 1.
    rewrite HLN1. unfold ret at 1. unfold bind at 1, modify at 1. reflexivity. }
  rewrite Hstart. clear Hstart.
  destruct (TotNumOfAirNodes h <? b)%Z.
  - eexists. split; [reflexivity |]. reflexivity.
  - destruct (find (zone_match h ZoneIndex) (range b (TotNumOfAirNodes h))) as [a |].
    + assert (Hn1 : is_Some (at2 LN1 MundtZoneIndex NodeNum)).
      { apply (at2_is_Some_shape (LineNode st)); [exact Hshape1 | eauto]. }
      destruct Hn1 as [n1 Hn1].
      destruct (upd2_is_Some MundtZoneIndex NodeNum
                  (fun n => {| DefineLinearModelNode.AirNodeName := AirNodeData.Name (AirNode h a);
                               DefineLinearModelNode.ClassType :=
                                 AirNodeData.ClassType (AirNode h a);
                               DefineLinearModelNode.Height := AirNodeData.Height (AirNode h a);
                               DefineLinearModelNode.Temp := DefineLinearModelNode.Temp n;
                               DefineLinearModelNode.SurfMask :=
                                 AirNodeData.SurfMask (AirNode h a) |}) _ _ Hn1)
        as [LN2 HLN2].
      pose proof (upd2_shape _ _ _ _ _ HLN2) as Hshape2.
      do 2 eexists. split.
      * cbv zeta. unfold bind at 1, get at 1. unfold bind at 1, checked at 1.
        change (LineNode (set_LineNode LN1 st)) with LN1. rewrite HLN2. unfold ret at 1.
        unfold bind, modify, SetupOutputVariable, ret. reflexivity.
      * simpl. repeat split. unfold table_shape. simpl. congruence.
    + do 2 eexists. split; [reflexivity |]. simpl. repeat split.
      unfold table_shape. simpl. congruence.
Qed.

(** *** The air nodes of a zone *)

Lemma table_shape_LineNode st st' :
  table_shape st' = table_shape st ->
  map (@length _) (LineNode st') = map (@length _) (LineNode st).
Proof. unfold table_shape. intros H. injection H. auto. Qed.

Lemma table_shape_MundtAirSurf st st' :
  table_shape st' = table_shape st ->
  map (@length _) (MundtAirSurf st') = map (@length _) (MundtAirSurf st).
Proof. unfold table_shape. intros H. injection H. auto. Qed.

Lemma table_shape_ZoneData st st' :
  table_shape st' = table_shape st -> ZoneData st' = ZoneData st.
Proof. unfold table_shape. intros H. injection H. auto. Qed.

(** The scan of [cnt] nodes from the node [n0] on, with the scan of the
    table at [b] and the definitions [R] left from there on: the nodes find
    the definitions in the order of the table; a node left without one
    is a severe error, or the fatal error of the array bound when the scan
    is behind the end of the table. *)
Lemma node_loop_spec h MundtZoneIndex ZoneIndex NumOfSurfs (cnt : nat) :
  forall n0 loc st b R,
    (1 <= n0)%Z ->
    b = (if (n0 =? 1)%Z then 1%Z else AirNodeBeginNum loc) ->
    List.filter (zone_match h ZoneIndex) (range b (TotNumOfAirNodes h)) = R ->
    (forall n, (n0 <= n < n0 + Z.of_nat cnt)%Z ->
               is_Some (at2 (LineNode st) MundtZoneIndex n)) ->
    let run := for_fold (range n0 (n0 + Z.of_nat cnt - 1)) loc
                 (Init_AirNode h MundtZoneIndex ZoneIndex NumOfSurfs) st in
    let out := map (OutputVariable_message h) in
    if (cnt <=? length R)%nat then
      exists loc' st',
        run = Ok loc' st' /\
        Messages st' = Messages st ++ out (firstn cnt R) /\
        ErrorsFound loc' = ErrorsFound loc /\ table_shape st' = table_shape st
    else if (TotNumOfAirNodes h <? scan_end b R)%Z then
      exists st',
        run = Fatal st' /\ Messages st' = Messages st ++ out R ++ [ArrayBound_message]
    else
      exists loc' st',
        run = Ok loc' st' /\
        Messages st' = Messages st ++ out R
                       ++ List.repeat (NotFound_message h ZoneIndex) (cnt - length R) /\
        ErrorsFound loc' = true /\ table_shape st' = table_shape st.
Proof.
  induction cnt as [| c IH]; intros n0 loc st b R Hn0 Hb HR Htab; cbv zeta.
  - rewrite range_nil by lia. simpl. exists loc, st.
    split; [reflexivity |]. rewrite app_nil_r. auto.
  - rewrite range_cons by lia.
    replace (n0 + Z.of_nat (S c) - 1)%Z with (n0 + 1 + Z.of_nat c - 1)%Z by lia.
    simpl for_fold.
    assert (Hnode : is_Some (at2 (LineNode st) MundtZoneIndex n0)) by (apply Htab; lia).
    pose proof (Init_AirNode_spec h MundtZoneIndex ZoneIndex NumOfSurfs n0 loc st Hnode)
      as Hstep.
    cbv zeta in Hstep.
    assert (Eb : (if (n0 =? 1)%Z then n0 else AirNodeBeginNum loc) = b).
    { rewrite Hb. destruct (Z.eqb_spec n0 1); congruence. }
    rewrite Eb in Hstep.
    assert (Hnext : (if (n0 + 1 =? 1)%Z then 1%Z else AirNodeBeginNum loc)
                    = AirNodeBeginNum loc) by (destruct (Z.eqb_spec (n0 + 1) 1); [lia | auto]).
    destruct (Z.ltb_spec (TotNumOfAirNodes h) b) as [Hover | Hin].
    + (* the scan is behind the end of the table *)
      destruct Hstep as (st' & Hrun & Hmsg).
      rewrite range_nil in HR by lia. simpl in HR. subst R. simpl.
      destruct (Z.ltb_spec (TotNumOfAirNodes h) b); [| lia].
      exists st'. split; [apply bind_Fatal; exact Hrun | exact Hmsg].
    + pose proof (find_range (zone_match h ZoneIndex) (TotNumOfAirNodes h) _ b eq_refl)
        as Hfind.
      destruct (find (zone_match h ZoneIndex) (range b (TotNumOfAirNodes h))) as [a |].
      * (* the node has a definition *)
        destruct Hfind as [Ha Hf]. subst R. rewrite Hf.
        destruct Hstep as (loc1 & st1 & Hrun & Hmsg & Hbegin & _ & Herr & Hshape).
        specialize (IH (n0 + 1)%Z loc1 st1 (a + 1)%Z
                       (List.filter (zone_match h ZoneIndex)
                                    (range (a + 1) (TotNumOfAirNodes h)))
                       ltac:(lia)).
        destruct (Z.eqb_spec (n0 + 1) 1) as [? | _]; [lia |].
        specialize (IH (eq_sym Hbegin) eq_refl).
        assert (Htab1 : forall n, (n0 + 1 <= n < n0 + 1 + Z.of_nat c)%Z ->
                                  is_Some (at2 (LineNode st1) MundtZoneIndex n)).
        { intros n Hn. apply (at2_is_Some_shape (LineNode st));
            [apply table_shape_LineNode; exact Hshape | apply Htab; lia]. }
        specialize (IH Htab1). cbv zeta in IH.
        rewrite (bind_Ok _ _ _ _ _ Hrun). rewrite scan_end_cons.
        change (S c <=? length (a :: _))%nat
          with (c <=? length (List.filter (zone_match h ZoneIndex)
                                          (range (a + 1) (TotNumOfAirNodes h))))%nat.
        destruct (c <=? length _)%nat.
        -- destruct IH as (loc' & st' & Hrun' & Hmsg' & Herr' & Hshape').
           exists loc', st'. split; [exact Hrun' |].
           split; [rewrite Hmsg', Hmsg, <- app_assoc; reflexivity |].
           split; congruence.
        -- destruct (TotNumOfAirNodes h <? scan_end (a + 1) _)%Z.
           ++ destruct IH as (st' & Hrun' & Hmsg').
              exists st'. split; [exact Hrun' |].
              rewrite Hmsg', Hmsg, <- app_assoc. reflexivity.
           ++ destruct IH as (loc' & st' & Hrun' & Hmsg' & Herr' & Hshape').
              exists loc', st'. split; [exact Hrun' |].
              split; [rewrite Hmsg', Hmsg, <- app_assoc; reflexivity |].
              split; congruence.
      * (* the node has no definition *)
        subst R. rewrite Hfind.
        destruct Hstep as (loc1 & st1 & Hrun & Hmsg & Hbegin & _ & Herr & Hshape).
        specialize (IH (n0 + 1)%Z loc1 st1 b [] ltac:(lia)).
        destruct (Z.eqb_spec (n0 + 1) 1) as [? | _]; [lia |].
        specialize (IH (eq_sym Hbegin) Hfind).
        assert (Htab1 : forall n, (n0 + 1 <= n < n0 + 1 + Z.of_nat c)%Z ->
                                  is_Some (at2 (LineNode st1) MundtZoneIndex n)).
        { intros n Hn. apply (at2_is_Some_shape (LineNode st));
            [apply table_shape_LineNode; exact Hshape | apply Htab; lia]. }
        specialize (IH Htab1). cbv zeta in IH.
        rewrite (bind_Ok _ _ _ _ _ Hrun). simpl.
        destruct (Z.ltb_spec (TotNumOfAirNodes h) b); [lia |].
        simpl in IH. destruct c as [| c'].
        -- simpl in IH. destruct IH as (loc' & st' & Hrun' & Hmsg' & Herr' & Hshape').
           exists loc', st'. split; [exact Hrun' |].
           split; [rewrite Hmsg', Hmsg, app_nil_r; reflexivity |].
           split; congruence.
        -- simpl in IH. destruct (Z.ltb_spec (TotNumOfAirNodes h) b); [lia |].
           destruct IH as (loc' & st' & Hrun' & Hmsg' & Herr' & Hshape').
           exists loc', st'. split; [exact Hrun' |].
           split; [rewrite Hmsg', Hmsg, <- app_assoc; reflexivity |].
           split; congruence.
Qed.

(** *** One zone *)

Lemma area_loop_spec h MundtZoneIndex zd (l : list Z) :
  forall st,
    (forall s, In s l -> is_Some (at2 (MundtAirSurf st) MundtZoneIndex s)) ->
    exists st',
      for_each l (fun SurfNum =>
        st <- get ;;
        MundtAirSurf' <- checked (upd2 MundtZoneIndex SurfNum
          (DefineSurfaceSettings.set_Area
             (SurfaceArea h (DefineZoneData.SurfFirst zd + SurfNum - 1)%Z))
          (MundtAirSurf st)) ;;
        modify (set_MundtAirSurf MundtAirSurf')) st = Ok tt st' /\
      Messages st' = Messages st /\ LineNode st' = LineNode st /\
      table_shape st' = table_shape st.
Proof.
  induction l as [| x l IH]; intros st Htab; simpl.
  - exists st. auto.
  - destruct (Htab x (or_introl eq_refl)) as [s Hs].
    destruct (upd2_is_Some MundtZoneIndex x
                (DefineSurfaceSettings.set_Area
                   (SurfaceArea h (DefineZoneData.SurfFirst zd + x - 1)%Z)) _ _ Hs)
      as [MAS1 HMAS1].
    pose proof (upd2_shape _ _ _ _ _ HMAS1) as Hshape1.
    destruct (IH (set_MundtAirSurf MAS1 st)) as (st' & Hrun & Hmsg & HLN & Hshape).
    { intros y Hy. simpl. apply (at2_is_Some_shape (MundtAirSurf st)); [exact Hshape1 |].
      apply Htab. right. exact Hy. }
    exists st'. split.
    + unfold bind at 1. unfold bind at 1, get at 1. unfold bind at 1, checked at 1.
      rewrite HMAS1. unfold ret at 1, modify at 1. exact Hrun.
    + split; [exact Hmsg |]. split; [exact HLN |].
      rewrite Hshape. unfold table_shape. simpl. congruence.
Qed.

Lemma zone_unmatched_le h ZoneIndex :
  (zone_nodes h ZoneIndex <=? length (zone_defs h ZoneIndex))%nat = true ->
  zone_unmatched h ZoneIndex = 0%nat.
Proof. unfold zone_unmatched. intros H. apply Nat.leb_le in H. lia. Qed.

Lemma zone_unmatched_gt h ZoneIndex :
  (zone_nodes h ZoneIndex <=? length (zone_defs h ZoneIndex))%nat = false ->
  (0 <? zone_unmatched h ZoneIndex)%nat = true /\
  firstn (zone_nodes h ZoneIndex) (zone_defs h ZoneIndex) = zone_defs h ZoneIndex.
Proof.
  unfold zone_unmatched. intros H. apply Nat.leb_gt in H. split.
  - apply Nat.ltb_lt. lia.
  - apply firstn_all2. lia.
Qed.

(** The build of one zone: its messages are [zone_messages]; it stops the
    build when the zone overruns the table, and otherwise records whether
    the zone has a node without a definition. *)
Lemma Init_Zone_spec h MundtZoneIndex ZoneIndex zd loc st :
  (forall s, (1 <= s <= DefineZoneData.NumOfSurfs zd)%Z ->
             is_Some (at2 (MundtAirSurf st) MundtZoneIndex s)) ->
  (forall n, (1 <= n <= TotNumOfZoneAirNodes h ZoneIndex)%Z ->
             is_Some (at2 (LineNode st) MundtZoneIndex n)) ->
  if zone_overrun h ZoneIndex then
    exists st',
      Init_Zone h MundtZoneIndex ZoneIndex zd loc st = Fatal st' /\
      Messages st' = Messages st ++ zone_messages h ZoneIndex
  else
    exists loc' st',
      Init_Zone h MundtZoneIndex ZoneIndex zd loc st = Ok loc' st' /\
      Messages st' = Messages st ++ zone_messages h ZoneIndex /\
      ErrorsFound loc' = ErrorsFound loc || (0 <? zone_unmatched h ZoneIndex)%nat /\
      table_shape st' = table_shape st.
Proof.
  intros Hsurf Hnode. unfold Init_Zone.
  destruct (area_loop_spec h MundtZoneIndex zd (range 1 (DefineZoneData.NumOfSurfs zd)) st)
    as (st1 & Harea & Hmsg1 & HLN1 & Hshape1).
  { intros s Hs. apply Hsurf, range_In, Hs. }
  rewrite (bind_Ok _ _ _ _ _ Harea).
  set (loc0 := {| RoomNodesCount := 0; FloorSurfCount := 0;
                  AirNodeBeginNum := AirNodeBeginNum loc;
                  AirNodeFoundFlag := AirNodeFoundFlag loc;
                  ErrorsFound := ErrorsFound loc |}).
  pose proof (node_loop_spec h MundtZoneIndex ZoneIndex (DefineZoneData.NumOfSurfs zd)
                (zone_nodes h ZoneIndex) 1%Z loc0 st1 1%Z (zone_defs h ZoneIndex)
                ltac:(lia) eq_refl eq_refl) as Hloop.
  assert (Htab : forall n, (1 <= n < 1 + Z.of_nat (zone_nodes h ZoneIndex))%Z ->
                           is_Some (at2 (LineNode st1) MundtZoneIndex n)).
  { intros n Hn. rewrite HLN1. apply Hnode. unfold zone_nodes in Hn. lia. }
  specialize (Hloop Htab). cbv zeta in Hloop.
  assert (Hrange : range 1 (1 + Z.of_nat (zone_nodes h ZoneIndex) - 1)
                   = range 1 (TotNumOfZoneAirNodes h ZoneIndex)).
  { unfold zone_nodes. rewrite (range_to_nat 1 (TotNumOfZoneAirNodes h ZoneIndex)).
    f_equal. lia. }
  rewrite Hrange in Hloop. unfold zone_messages, zone_overrun.
  destruct (zone_nodes h ZoneIndex <=? length (zone_defs h ZoneIndex))%nat eqn:Hle.
  - rewrite (zone_unmatched_le _ _ Hle). simpl.
    destruct Hloop as (loc' & st' & Hrun & Hmsg & Herr & Hshape).
    exists loc', st'. split; [exact Hrun |].
    split; [rewrite Hmsg, Hmsg1, app_nil_r; reflexivity |].
    split; [rewrite Herr; simpl; rewrite orb_false_r; reflexivity | congruence].
  - destruct (zone_unmatched_gt _ _ Hle) as [Hpos Hall]. rewrite Hpos, Hall. simpl.
    destruct (TotNumOfAirNodes h <? scan_end 1 (zone_defs h ZoneIndex))%Z.
    + destruct Hloop as (st' & Hrun & Hmsg).
      exists st'. split; [exact Hrun | rewrite Hmsg, Hmsg1; reflexivity].
    + destruct Hloop as (loc' & st' & Hrun & Hmsg & Herr & Hshape).
      exists loc', st'. split; [exact Hrun |].
      split; [rewrite Hmsg, Hmsg1; reflexivity |].
      split; [rewrite Herr, orb_true_r; reflexivity | congruence].
Qed.

(** *** The model indices of the zones *)

Lemma zone_rank_step h y :
  (1 <= y)%Z ->
  zone_rank h y = (zone_rank h (y - 1) + if isMundt h y then 1 else 0)%Z.
Proof.
  intros Hy. unfold zone_rank. rewrite (range_snoc 1 y) by lia.
  rewrite List.filter_app, length_app. simpl. destruct (isMundt h y); simpl; lia.
Qed.

Lemma zone_rank_mono h y y' : (y <= y')%Z -> (zone_rank h y <= zone_rank h y')%Z.
Proof.
  intros H. unfold zone_rank.
  destruct (Z.le_gt_cases 0 y) as [Hy | Hy].
  - rewrite (range_app 1 y y') by lia. rewrite List.filter_app, length_app. lia.
  - rewrite (range_nil 1 y) by lia. simpl. lia.
Qed.

Lemma zone_rank_pos h y : (1 <= y)%Z -> isMundt h y = true -> (1 <= zone_rank h y)%Z.
Proof.
  intros Hy HM. rewrite zone_rank_step by exact Hy. rewrite HM.
  unfold zone_rank. lia.
Qed.

Lemma zone_rank_strict h y y' :
  (1 <= y < y')%Z -> isMundt h y' = true -> (zone_rank h y < zone_rank h y')%Z.
Proof.
  intros Hy HM. rewrite (zone_rank_step h y') by lia. rewrite HM.
  pose proof (zone_rank_mono h y (y' - 1) ltac:(lia)). lia.
Qed.

Lemma zone_rank_inj h y y' :
  (1 <= y)%Z -> (1 <= y')%Z -> isMundt h y = true -> isMundt h y' = true ->
  zone_rank h y = zone_rank h y' -> y = y'.
Proof.
  intros Hy Hy' HM HM' E.
  destruct (Z.lt_trichotomy y y') as [Hlt | [Heq | Hgt]]; [| exact Heq |].
  - pose proof (zone_rank_strict h y y' ltac:(lia) HM'). lia.
  - pose proof (zone_rank_strict h y' y ltac:(lia) HM). lia.
Qed.

Lemma zone_rank_MundtZones h : zone_rank h (NumOfZones h) = Z.of_nat (length (MundtZones h)).
Proof. reflexivity. Qed.

Lemma zd_entry_index h y m :
  (1 <= y)%Z -> (1 <= m)%Z ->
  DefineZoneData.MundtZoneIndex (zd_entry h y) = m <-> isMundt h y = true /\ zone_rank h y = m.
Proof.
  intros Hy Hm. unfold zd_entry. destruct (isMundt h y) eqn:HM; simpl.
  - split; [auto | tauto].
  - split; [lia | intros [? _]; discriminate].
Qed.

(** A zone of the list of the zones using the model, with the zones before
    it: its model index is its place in the list. *)
Lemma split_unique {A} (a a' b b' : list A) x :
  ~ In x a -> ~ In x a' -> a ++ x :: b = a' ++ x :: b' -> a = a'.
Proof.
  revert a'. induction a as [| u a IH]; intros [| v a'] Ha Ha' E; simpl in *.
  - reflexivity.
  - injection E as -> _. exfalso. apply Ha'. auto.
  - injection E as -> _. exfalso. apply Ha. auto.
  - injection E as -> E. f_equal. apply (IH a'); auto.
Qed.

Lemma MundtZones_In h z : In z (MundtZones h) <-> (1 <= z <= NumOfZones h)%Z /\ isMundt h z = true.
Proof. unfold MundtZones. rewrite filter_In, range_In. reflexivity. Qed.

Lemma MundtZones_NoDup h : List.NoDup (MundtZones h).
Proof. apply List.NoDup_filter, range_NoDup. Qed.

Lemma MundtZones_rank h pre z zs :
  MundtZones h = pre ++ z :: zs -> zone_rank h z = (Z.of_nat (length pre) + 1)%Z.
Proof.
  intros E.
  assert (Hz : In z (MundtZones h)) by (rewrite E; apply in_or_app; right; left; reflexivity).
  apply MundtZones_In in Hz as [Hz HM].
  pose proof (MundtZones_NoDup h) as Hnd. rewrite E in Hnd.
  apply List.NoDup_remove_2 in Hnd.
  assert (E' : MundtZones h = List.filter (isMundt h) (range 1 (z - 1))
                              ++ z :: List.filter (isMundt h) (range (z + 1) (NumOfZones h))).
  { unfold MundtZones. rewrite (range_split 1 z (NumOfZones h)) by lia.
    rewrite List.filter_app. simpl. rewrite HM. reflexivity. }
  rewrite E in E'.
  apply split_unique in E'.
  - rewrite zone_rank_step by lia. rewrite HM. unfold zone_rank. rewrite <- E'. lia.
  - intros Hin. apply Hnd. apply in_or_app. auto.
  - intros Hin. apply filter_In in Hin as [Hin _]. apply range_In in Hin. lia.
Qed.

(** *** The loop over the zones *)

Lemma BuildReady_shape h st st' :
  table_shape st' = table_shape st -> BuildReady h st -> BuildReady h st'.
Proof.
  intros Hshape Hready y Hy. destruct (Hready y Hy) as [Hzd Htab].
  rewrite (table_shape_ZoneData _ _ Hshape). split; [exact Hzd |].
  intros HM. destruct (Htab HM) as [Hs Hn]. split.
  - intros s Hs'. apply (at2_is_Some_shape (MundtAirSurf st));
      [apply table_shape_MundtAirSurf; exact Hshape | auto].
  - intros n Hn'. apply (at2_is_Some_shape (LineNode st));
      [apply table_shape_LineNode; exact Hshape | auto].
Qed.

Lemma Zone_Loop_cons h m y (l : list Z) loc st zd :
  at1 (ZoneData st) y = Some zd ->
  Zone_Loop h m (y :: l) loc st
  = (if (DefineZoneData.MundtZoneIndex zd =? m)%Z
     then loc' <- Init_Zone h m y zd loc ;;
          if AirNodeFoundFlag loc' then ret loc' else Zone_Loop h m l loc'
     else Zone_Loop h m l loc) st.
Proof.
  intros Hzd. simpl.
  unfold bind at 1, get at 1. unfold bind at 1, checked. rewrite Hzd. reflexivity.
Qed.

Lemma Zone_Loop_skip h m z (l : list Z) :
  isMundt h z = true -> zone_rank h z = m -> (1 <= z)%Z ->
  forall loc st,
    BuildReady h st ->
    (forall y, In y l -> (1 <= y <= NumOfZones h)%Z) ->
    ~ In z l ->
    Zone_Loop h m l loc st = Ok loc st.
Proof.
  intros HM Hrank Hz loc st Hready. induction l as [| y l IH]; intros Hl Hnot.
  - reflexivity.
  - destruct (Hready y (Hl y (or_introl eq_refl))) as [Hzd _].
    rewrite (Zone_Loop_cons _ _ _ _ _ _ _ Hzd).
    destruct (Z.eqb_spec (DefineZoneData.MundtZoneIndex (zd_entry h y)) m) as [E | E].
    + exfalso. apply Hnot. left.
      assert (Hy : (1 <= y)%Z) by (apply Hl; left; reflexivity).
      apply zd_entry_index in E as [HMy Hry]; [| exact Hy |].
      * apply (zone_rank_inj h); auto. congruence.
      * rewrite <- Hrank. apply zone_rank_pos; auto.
    + apply IH; [intros y' Hy'; apply Hl; right; exact Hy' |].
      intros Hin. apply Hnot. right. exact Hin.
Qed.

Lemma Zone_Loop_hit h m z (l : list Z) :
  isMundt h z = true -> zone_rank h z = m -> (1 <= z)%Z ->
  forall loc st,
    BuildReady h st ->
    (forall y, In y l -> (1 <= y <= NumOfZones h)%Z) ->
    List.NoDup l -> In z l ->
    if zone_overrun h z then
      exists st',
        Zone_Loop h m l loc st = Fatal st' /\
        Messages st' = Messages st ++ zone_messages h z
    else
      exists loc' st',
        Zone_Loop h m l loc st = Ok loc' st' /\
        Messages st' = Messages st ++ zone_messages h z /\
        ErrorsFound loc' = ErrorsFound loc || (0 <? zone_unmatched h z)%nat /\
        table_shape st' = table_shape st.
Proof.
  intros HM Hrank Hz loc st Hready.
  induction l as [| y l IH]; intros Hl Hnd Hin; [contradiction |].
  assert (Hy : (1 <= y <= NumOfZones h)%Z) by (apply Hl; left; reflexivity).
  destruct (Hready y Hy) as [Hzd Htab].
  rewrite (Zone_Loop_cons _ _ _ _ _ _ _ Hzd).
  inversion Hnd as [| y' l' Hnotin Hnd']; subst.
  destruct (Z.eqb_spec (DefineZoneData.MundtZoneIndex (zd_entry h y)) (zone_rank h z))
    as [E | E].
  - apply zd_entry_index in E as [HMy Hry]; [| lia | apply zone_rank_pos; auto].
    assert (y = z) as -> by (apply (zone_rank_inj h); auto; lia).
    destruct (Htab HM) as [Hs Hn].
    pose proof (Init_Zone_spec h (zone_rank h z) z (zd_entry h z) loc st Hs Hn) as Hzone.
    destruct (zone_overrun h z).
    + destruct Hzone as (st' & Hrun & Hmsg). exists st'.
      split; [apply bind_Fatal; exact Hrun | exact Hmsg].
    + destruct Hzone as (loc' & st' & Hrun & Hmsg & Herr & Hshape).
      exists loc', st'. rewrite (bind_Ok _ _ _ _ _ Hrun).
      split; [| auto].
      destruct (AirNodeFoundFlag loc'); [reflexivity |].
      apply (Zone_Loop_skip h (zone_rank h z) z); auto.
      * apply (BuildReady_shape h st); assumption.
      * intros y' Hy'. apply Hl. right. exact Hy'.
  - destruct Hin as [-> | Hin].
    + exfalso. apply E. apply zd_entry_index; [lia | apply zone_rank_pos; auto; lia | auto].
    + apply IH; auto. intros y' Hy'. apply Hl. right. exact Hy'.
Qed.

(** *** The zone data *)

Lemma Init_ZoneData_loop h (cnt : nat) :
  forall lo ms mn st,
    (1 <= lo)%Z -> Z.to_nat (NumOfZones h - lo + 1) = cnt ->
    (forall y, (1 <= y < lo)%Z -> at1 (ZoneData st) y = Some (zd_entry h y)) ->
    (forall y, (lo <= y <= NumOfZones h)%Z -> at1 (ZoneData st) y = Some Default_ZoneData) ->
    (forall y, (1 <= y < lo)%Z -> isMundt h y = true ->
               (DefineZoneData.NumOfSurfs (zd_entry h y) <= ms)%Z /\
               (TotNumOfZoneAirNodes h y <= mn)%Z) ->
    exists ms' mn' st',
      for_fold (range lo (NumOfZones h)) (zone_rank h (lo - 1), ms, mn)
               (Init_ZoneData_body h) st
      = Ok (zone_rank h (Z.max (lo - 1) (NumOfZones h)), ms', mn') st' /\
      (forall y, (1 <= y <= NumOfZones h)%Z -> at1 (ZoneData st') y = Some (zd_entry h y)) /\
      (forall y, (1 <= y <= NumOfZones h)%Z -> isMundt h y = true ->
                 (DefineZoneData.NumOfSurfs (zd_entry h y) <= ms')%Z /\
                 (TotNumOfZoneAirNodes h y <= mn')%Z) /\
      set_ZoneData [] st' = set_ZoneData [] st.
Proof.
  induction cnt as [| c IH]; intros lo ms mn st Hlo Hcnt Hdone Htodo Hmax.
  - rewrite range_nil by lia. replace (Z.max (lo - 1) (NumOfZones h)) with (lo - 1)%Z by lia.
    exists ms, mn, st. split; [reflexivity |].
    split; [intros y Hy; apply Hdone; lia |].
    split; [intros y Hy; apply Hmax; lia | reflexivity].
  - rewrite range_cons by lia. simpl for_fold.
    replace (Z.max (lo - 1) (NumOfZones h)) with (Z.max (lo + 1 - 1) (NumOfZones h)) by lia.
    unfold Init_ZoneData_body at 1. fold (isMundt h lo).
    pose proof (zone_rank_step h lo Hlo) as Hrank.
    destruct (isMundt h lo) eqn:HM.
    + (* a zone that uses the model *)
      pose proof (Htodo lo ltac:(lia)) as Hlo0.
      set (e := {| DefineZoneData.SurfFirst := SurfaceFirst h lo;
                   DefineZoneData.NumOfSurfs := (SurfaceLast h lo - SurfaceFirst h lo + 1)%Z;
                   DefineZoneData.MundtZoneIndex := (zone_rank h (lo - 1) + 1)%Z |}).
      assert (He : e = zd_entry h lo).
      { unfold e, zd_entry. rewrite HM, Hrank. reflexivity. }
      assert (Hupd : upd1 lo (fun _ => e) (ZoneData st)
                     = Some (<[Z.to_nat (lo - 1) := e]> (ZoneData st))).
      { unfold upd1. rewrite Hlo0. reflexivity. }
      destruct (IH (lo + 1)%Z
                   (Z.max ms (SurfaceLast h lo - SurfaceFirst h lo + 1))
                   (Z.max mn (TotNumOfZoneAirNodes h lo))
                   (set_ZoneData (<[Z.to_nat (lo - 1) := e]> (ZoneData st)) st))
        as (ms' & mn' & st' & Hrun & Hzd & Hmx & Hw); try lia.
      * intros y Hy. simpl. destruct (Z.eq_dec y lo) as [-> | Hne].
        -- rewrite (at1_upd1_eq _ _ _ _ Hupd), Hlo0. simpl. congruence.
        -- rewrite (at1_upd1_ne _ _ _ _ _ Hupd Hne). apply Hdone. lia.
      * intros y Hy. simpl. rewrite (at1_upd1_ne _ _ _ _ _ Hupd) by lia. apply Htodo. lia.
      * intros y Hy HMy. destruct (Z.eq_dec y lo) as [-> | Hne].
        -- rewrite <- He. simpl. lia.
        -- destruct (Hmax y ltac:(lia) HMy). lia.
      * exists ms', mn', st'. split; [| split; [exact Hzd | split; [exact Hmx | exact Hw]]].
        unfold bind at 1. unfold bind at 1, get at 1. unfold bind at 1, checked at 1.
        fold e. rewrite Hupd. unfold ret at 1. unfold bind at 1, modify at 1. unfold ret at 1.
        replace (zone_rank h (lo - 1) + 1)%Z with (zone_rank h (lo + 1 - 1)).
        -- exact Hrun.
        -- replace (lo + 1 - 1)%Z with lo by lia. lia.
    + (* any other zone *)
      destruct (IH (lo + 1)%Z ms mn st)
        as (ms' & mn' & st' & Hrun & Hzd & Hmx & Hw); try lia.
      * intros y Hy. destruct (Z.eq_dec y lo) as [-> | Hne].
        -- rewrite (Htodo lo) by lia. unfold zd_entry. rewrite HM. reflexivity.
        -- apply Hdone. lia.
      * intros y Hy. apply Htodo. lia.
      * intros y Hy HMy. destruct (Z.eq_dec y lo) as [-> | Hne]; [congruence |].
        apply Hmax; [lia | exact HMy].
      * exists ms', mn', st'. split; [| split; [exact Hzd | split; [exact Hmx | exact Hw]]].
        unfold bind at 1, ret at 1.
        replace (zone_rank h (lo - 1)) with (zone_rank h (lo + 1 - 1)).
        -- exact Hrun.
        -- replace (lo + 1 - 1)%Z with lo by lia. lia.
Qed.

Lemma Init_ZoneData_spec h st :
  exists ms mn st',
    Init_ZoneData h st = Ok (Z.of_nat (length (MundtZones h)), ms, mn) st' /\
    (forall y, (1 <= y <= NumOfZones h)%Z -> at1 (ZoneData st') y = Some (zd_entry h y)) /\
    (forall y, (1 <= y <= NumOfZones h)%Z -> isMundt h y = true ->
               (DefineZoneData.NumOfSurfs (zd_entry h y) <= ms)%Z /\
               (TotNumOfZoneAirNodes h y <= mn)%Z) /\
    set_ZoneData [] st' = set_ZoneData [] st.
Proof.
  unfold Init_ZoneData.
  destruct (Init_ZoneData_loop h _ 1%Z 0%Z 0%Z
              (set_ZoneData (allocate (NumOfZones h) Default_ZoneData) st)
              ltac:(lia) eq_refl)
    as (ms & mn & st' & Hrun & Hzd & Hmx & Hw).
  - intros y Hy. lia.
  - intros y Hy. simpl. unfold at1, allocate.
    destruct (1 <=? y)%Z eqn:E; [| lia]. apply lookup_replicate_2. lia.
  - intros y Hy. lia.
  - exists ms, mn, st'. split; [| split; [exact Hzd | split; [exact Hmx | exact Hw]]].
    unfold bind at 1, modify at 1.
    change (zone_rank h (1 - 1)) with 0%Z in Hrun. rewrite Hrun. f_equal. f_equal. f_equal.
    unfold zone_rank, MundtZones.
    destruct (Z.le_gt_cases 0 (NumOfZones h)) as [HN | HN].
    + replace (Z.max (1 - 1) (NumOfZones h)) with (NumOfZones h) by lia. reflexivity.
    + replace (Z.max (1 - 1) (NumOfZones h)) with 0%Z by lia.
      rewrite (range_nil 1 (NumOfZones h)) by lia. reflexivity.
Qed.

(** *** The loop over the zones that use the model *)

Lemma Init_Zones_loop h :
  forall zs pre loc mr mf st,
    MundtZones h = pre ++ zs -> BuildReady h st ->
    if existsb (zone_overrun h) zs then
      exists st',
        for_fold (range (Z.of_nat (length pre) + 1) (Z.of_nat (length (MundtZones h))))
                 (loc, mr, mf) (Init_Zones_body h) st = Fatal st' /\
        forall e, Messages st' = Messages st ++ build_messages h zs e
    else
      exists loc' mr' mf' st',
        for_fold (range (Z.of_nat (length pre) + 1) (Z.of_nat (length (MundtZones h))))
                 (loc, mr, mf) (Init_Zones_body h) st = Ok (loc', mr', mf') st' /\
        ErrorsFound loc'
        = ErrorsFound loc || existsb (fun z => (0 <? zone_unmatched h z)%nat) zs /\
        Messages st' ++ (if ErrorsFound loc' then [Termination_message] else [])
        = Messages st ++ build_messages h zs (ErrorsFound loc) /\
        table_shape st' = table_shape st.
Proof.
  induction zs as [| z zs IH]; intros pre loc mr mf st E Hready.
  - simpl existsb. rewrite E, app_nil_r. rewrite range_nil by lia.
    exists loc, mr, mf, st. split; [reflexivity |].
    split; [rewrite orb_false_r; reflexivity |].
    split; reflexivity.
  - assert (Hin : In z (MundtZones h)) by (rewrite E; apply in_or_app; right; left; reflexivity).
    apply MundtZones_In in Hin as [Hz HM].
    pose proof (MundtZones_rank _ _ _ _ E) as Hrank.
    assert (Hlen : (Z.of_nat (length pre) + 1 <= Z.of_nat (length (MundtZones h)))%Z).
    { rewrite E, length_app. simpl length. lia. }
    rewrite range_cons by exact Hlen. simpl for_fold.
    unfold Init_Zones_body at 1.
    pose proof (Zone_Loop_hit h _ z (range 1 (NumOfZones h)) HM Hrank ltac:(lia) loc st Hready
                  (fun y Hy => proj1 (range_In _ _ _) Hy) (range_NoDup _ _)
                  (proj2 (range_In _ _ _) Hz)) as Hhit.
    simpl existsb. simpl build_messages.
    destruct (zone_overrun h z) eqn:Hov.
    + destruct Hhit as (st' & Hrun & Hmsg). simpl orb.
      exists st'. split.
      * unfold bind at 1. unfold bind at 1. rewrite Hrun. reflexivity.
      * intros e. rewrite app_nil_r. exact Hmsg.
    + destruct Hhit as (loc1 & st1 & Hrun & Hmsg & Herr & Hshape). simpl orb.
      assert (E' : MundtZones h = (pre ++ [z]) ++ zs) by (rewrite <- app_assoc; exact E).
      pose proof (IH (pre ++ [z]) loc1
                     (Z.max mr (RoomNodesCount loc1)) (Z.max mf (FloorSurfCount loc1))
                     st1 E' (BuildReady_shape _ _ _ Hshape Hready)) as Hrest.
      replace (Z.of_nat (length (pre ++ [z])) + 1)%Z
        with (Z.of_nat (length pre) + 1 + 1)%Z in Hrest
        by (rewrite length_app; simpl length; lia).
      destruct (existsb (zone_overrun h) zs).
      * destruct Hrest as (st' & Hrun' & Hmsg').
        exists st'. split.
        -- unfold bind at 1. unfold bind at 1. rewrite Hrun. unfold ret at 1. exact Hrun'.
        -- intros e. rewrite (Hmsg' (e || (0 <? zone_unmatched h z)%nat)), Hmsg.
           rewrite <- app_assoc. reflexivity.
      * destruct Hrest as (loc' & mr' & mf' & st' & Hrun' & Herr' & Hmsg' & Hshape').
        exists loc', mr', mf', st'. split; [| split; [| split]].
        -- unfold bind at 1. unfold bind at 1. rewrite Hrun. unfold ret at 1. exact Hrun'.
        -- rewrite Herr', Herr. rewrite orb_assoc. reflexivity.
        -- rewrite Hmsg', Hmsg, Herr. rewrite <- app_assoc. reflexivity.
        -- rewrite Hshape'. exact Hshape.
Qed.

Lemma zone_overrun_fails h zs :
  existsb (zone_overrun h) zs = true ->
  existsb (fun z => (0 <? zone_unmatched h z)%nat) zs = true.
Proof.
  intros H. apply existsb_exists in H as (z & Hz & Hov). apply existsb_exists.
  exists z. split; [exact Hz |]. unfold zone_overrun in Hov.
  apply andb_true_iff in Hov as [Hov _]. exact Hov.
Qed.

(** The messages of a build in which no scan starts behind the end of the
    table: those of the zones, one after the other, then the fatal error
    if a node without a definition has been met. *)
Lemma build_messages_no_overrun h zs e :
  existsb (zone_overrun h) zs = false ->
  build_messages h zs e
  = flat_map (zone_messages h) zs
    ++ (if e || existsb (fun z => (0 <? zone_unmatched h z)%nat) zs
        then [Termination_message] else []).
Proof.
  revert e. induction zs as [| z zs IH]; intros e H.
  - simpl. rewrite orb_false_r. reflexivity.
  - simpl in H. apply orb_false_iff in H as [Hz Hzs]. simpl. rewrite Hz.
    rewrite (IH _ Hzs), <- app_assoc, orb_assoc. reflexivity.
Qed.

(** *** The build *)

Lemma InitMundtModel_spec h st :
  exists st',
    Messages st' = Messages st ++ build_messages h (MundtZones h) false /\
    InitMundtModel h st = if build_fails h then Fatal st' else Ok tt st'.
Proof.
  destruct (Init_ZoneData_spec h st) as (ms & mn & st0 & Hrun & Hzd & Hmx & Hw).
  assert (Hmsg0 : Messages st0 = Messages st).
  { change (Messages (set_ZoneData [] st0) = Messages (set_ZoneData [] st)).
    rewrite Hw. reflexivity. }
  unfold InitMundtModel. unfold bind at 1. rewrite Hrun.
  do 4 (unfold bind at 1; unfold modify at 1).
  set (st4 := set_LineNode _ _).
  assert (Hready : BuildReady h st4).
  { intros y Hy. split; [apply Hzd; exact Hy |]. intros HM.
    destruct (Hmx y Hy HM) as [Hs Hn].
    assert (Hr : (1 <= zone_rank h y <= Z.of_nat (length (MundtZones h)))%Z).
    { split; [apply zone_rank_pos; [lia | exact HM] |].
      rewrite <- zone_rank_MundtZones. apply zone_rank_mono. lia. }
    split.
    - intros s Hs'. apply at2_allocate; [exact Hr | lia].
    - intros n Hn'. apply at2_allocate; [exact Hr | lia]. }
  pose proof (Init_Zones_loop h (MundtZones h) [] InitLocals0 0%Z 0%Z st4 eq_refl Hready)
    as Hloop.
  change (Z.of_nat (length (@nil Z)) + 1)%Z with 1%Z in Hloop.
  change (Messages st4) with (Messages st0) in Hloop. rewrite Hmsg0 in Hloop.
  destruct (existsb (zone_overrun h) (MundtZones h)) eqn:Hov.
  - destruct Hloop as (st' & Hfold & Hmsg).
    exists st'. split; [apply Hmsg |].
    unfold build_fails. rewrite (zone_overrun_fails _ _ Hov).
    unfold bind at 1. rewrite Hfold. reflexivity.
  - destruct Hloop as (loc' & mr' & mf' & st' & Hfold & Herr & Hmsg & Hshape).
    change (ErrorsFound InitLocals0) with false in Herr, Hmsg. simpl orb in Herr.
    fold (build_fails h) in Herr.
    unfold bind at 1. rewrite Hfold. unfold bind at 1. rewrite Herr in *.
    destruct (build_fails h).
    + eexists. split; [| reflexivity]. simpl Messages. exact Hmsg.
    + rewrite app_nil_r in Hmsg. eexists. split; [| reflexivity]. simpl Messages. exact Hmsg.
Qed.

Lemma zone_messages_within h z :
  zone_overrun h z = false -> zone_messages h z = zone_report h z.
Proof. intros H. unfold zone_messages, zone_report. rewrite H. reflexivity. Qed.

Lemma zone_messages_overrun h z :
  zone_overrun h z = true ->
  zone_messages h z = map (OutputVariable_message h) (zone_defs h z) ++ [ArrayBound_message].
Proof.
  intros H. unfold zone_messages. rewrite H. unfold zone_overrun in H.
  apply andb_true_iff in H as [H _].
  destruct (zone_nodes h z <=? length (zone_defs h z))%nat eqn:E.
  - rewrite (zone_unmatched_le _ _ E) in H. discriminate.
  - destruct (zone_unmatched_gt _ _ E) as [_ ->]. reflexivity.
Qed.

Lemma flat_map_within h zs :
  existsb (zone_overrun h) zs = false ->
  flat_map (zone_messages h) zs = flat_map (zone_report h) zs.
Proof.
  induction zs as [| z zs IH]; intros H; [reflexivity |].
  simpl in H. apply orb_false_iff in H as [Hz Hzs].
  simpl. rewrite (zone_messages_within _ _ Hz), (IH Hzs). reflexivity.
Qed.

(** The messages of a build that meets a scan starting behind the end of
    the table: those of the zones before, then the output variables of the
    zone and the fatal error of the array bound. *)
Lemma build_messages_overrun h pre z zs e :
  existsb (zone_overrun h) pre = false -> zone_overrun h z = true ->
  build_messages h (pre ++ z :: zs) e
  = flat_map (zone_report h) pre
    ++ map (OutputVariable_message h) (zone_defs h z) ++ [ArrayBound_message].
Proof.
  revert e. induction pre as [| y pre IH]; intros e Hpre Hz.
  - simpl. rewrite Hz, app_nil_r. apply zone_messages_overrun. exact Hz.
  - simpl in Hpre. apply orb_false_iff in Hpre as [Hy Hpre]. simpl. rewrite Hy.
    rewrite (IH _ Hpre Hz), (zone_messages_within _ _ Hy), <- app_assoc. reflexivity.
Qed.

(** C7 (amended).  The one-time build always ends, normally or with a
    fatal error.  It ends with a fatal error exactly when some zone that
    uses the model declares an air node without a definition, and then
    [ManageMundtModel] ends with that fatal error in the state the build
    stopped in: no zone is solved in that pass.  As long as every scan
    starts within the table of definitions, each node without a definition
    adds one severe error, the scan goes on through the remaining nodes and
    zones, and the one fatal error comes after the messages of all zones.
    Once a scan starts behind the end of the table, the build stops at once
    with the fatal error of the array bound: that node gets no severe
    error and the remaining zones are not scanned. *)
Theorem InitMundtModel_build_errors (h : Host) (ZoneNum : Z) (st : State) :
  FirstTimeFlag st = true ->
  exists st',
    Messages st' = Messages st ++ build_messages h (MundtZones h) false /\
    (if build_fails h
     then InitMundtModel h st = Fatal st' /\ ManageMundtModel h ZoneNum st = Fatal st'
     else InitMundtModel h st = Ok tt st') /\
    (existsb (zone_overrun h) (MundtZones h) = false ->
     build_messages h (MundtZones h) false
     = flat_map (zone_report h) (MundtZones h)
       ++ (if build_fails h then [Termination_message] else [])) /\
    (forall pre z zs,
       MundtZones h = pre ++ z :: zs ->
       existsb (zone_overrun h) pre = false -> zone_overrun h z = true ->
       build_messages h (MundtZones h) false
       = flat_map (zone_report h) pre
         ++ map (OutputVariable_message h) (zone_defs h z) ++ [ArrayBound_message]).
Proof.
  intros Hfirst.
  destruct (InitMundtModel_spec h st) as (st' & Hmsg & Hrun).
  exists st'. split; [exact Hmsg |]. split; [| split].
  - destruct (build_fails h); [| exact Hrun]. split; [exact Hrun |].
    unfold ManageMundtModel. unfold bind at 1, get at 1. rewrite Hfirst.
    apply bind_Fatal. apply bind_Fatal. exact Hrun.
  - intros Hwithin. rewrite (build_messages_no_overrun _ _ _ Hwithin).
    rewrite (flat_map_within _ _ Hwithin). reflexivity.
  - intros pre z zs E Hpre Hz. rewrite E. apply build_messages_overrun; assumption.
Qed.

Lemma InitMundtModel_build_errors_witness :
  exists st',
    ManageMundtModel Unmatched_Host 1 State0 = Fatal st' /\
    Messages st'
    = map (OutputVariable_message Unmatched_Host) [1; 2; 3; 4; 5; 6]%Z
      ++ [NotFound_message Unmatched_Host 1]
      ++ map (OutputVariable_message Unmatched_Host) [7; 8; 9; 10; 11]%Z
      ++ [NotFound_message Unmatched_Host 2; Termination_message].
Proof.
  destruct (InitMundtModel_build_errors Unmatched_Host 1 State0 eq_refl)
    as (st' & Hmsg & Hrun & Hwithin & _).
  assert (E : build_fails Unmatched_Host = true) by (vm_compute; reflexivity).
  rewrite E in Hrun, Hwithin. destruct Hrun as [_ Hrun].
  exists st'. split; [exact Hrun |].
  rewrite Hmsg, Hwithin by (vm_compute; reflexivity).
  vm_compute. reflexivity.
Defined.

Lemma InitMundtModel_build_errors_counterexample :
  MundtZones Overrun_Host = [1; 2]%Z /\
  zone_unmatched Overrun_Host 1 = 1%nat /\
  zone_unmatched Overrun_Host 2 = 1%nat /\
  exists st',
    ManageMundtModel Overrun_Host 1 State0 = Fatal st' /\
    Messages st'
    = map (OutputVariable_message Overrun_Host) [7; 8; 9; 10; 11]%Z ++ [ArrayBound_message] /\
    existsb is_SevereError (Messages st') = false /\
    ~ In Termination_message (Messages st').
Proof.
  split; [vm_compute; reflexivity |].
  split; [vm_compute; reflexivity |].
  split; [vm_compute; reflexivity |].
  eexists. split; [vm_compute; reflexivity |].
  split; [vm_compute; reflexivity |].
  split; [vm_compute; reflexivity |].
  simpl. intros H. repeat (destruct H as [H | H]; [discriminate H |]). exact H.
Qed.

(** ** Frames of the procedures *)

Section Preserves.
Context {X : Type} (g : State -> X).

Lemma preserves_ret {A} (a : A) : preserves g (ret a).
Proof. intros st. reflexivity. Qed.

Lemma preserves_get : preserves g get.
Proof. intros st. reflexivity. Qed.

Lemma preserves_fault {A} f : preserves g (@fault A f).
Proof. intros st. exact I. Qed.

Lemma preserves_checked {A} (o : option A) : preserves g (checked o).
Proof. intros st. destruct o; simpl; auto. Qed.


Lemma preserves_modify f : (forall st, g (f st) = g st) -> preserves g (modify f).
Proof. intros H st. apply H. Qed.

Lemma preserves_bind {A B} (m : M A) (k : A -> M B) :
  preserves g m -> (forall a, preserves g (k a)) -> preserves g (bind m k).
Proof.
  intros Hm Hk st. unfold bind. specialize (Hm st).
  destruct (m st) as [a s | s | f]; auto.
  specialize (Hk a s). destruct (k a s); auto; congruence.
Qed.

Lemma preserves_for_each {B} (l : list B) (body : B -> M unit) :
  (forall x, preserves g (body x)) -> preserves g (for_each l body).
Proof.
  intros H. induction l as [| x l IH]; simpl.
  - apply preserves_ret.
  - apply preserves_bind; auto.
Qed.

Lemma preserves_for_fold {B S} (l : list B) (body : B -> S -> M S) :
  (forall x s, preserves g (body x s)) -> forall s, preserves g (for_fold l s body).
Proof.
  intros H. induction l as [| x l IH]; intros s; simpl.
  - apply preserves_ret.
  - apply preserves_bind; auto.
Qed.

Lemma preserves_ShowFatalError {A} msg :
  (forall m st, g (set_Messages m st) = g st) -> preserves g (@ShowFatalError A msg).
Proof. intros H st. apply H. Qed.

Lemma preserves_fatal_keeps {A} (m : M A) : preserves g m -> fatal_keeps g m.
Proof. intros H st st' E. specialize (H st). rewrite E in H. exact H. Qed.

Lemma never_fatal_fatal_keeps {A} (m : M A) : never_fatal m -> fatal_keeps g m.
Proof. intros H st st' E. destruct (H st st' E). Qed.

Lemma fatal_keeps_bind {A B} (m : M A) (k : A -> M B) :
  preserves g m -> (forall a, fatal_keeps g (k a)) -> fatal_keeps g (bind m k).
Proof.
  intros Hm Hk st st' E. unfold bind in E. specialize (Hm st).
  destruct (m st) as [a s | s | f]; [| congruence | discriminate].
  rewrite <- Hm. apply (Hk a s st' E).
Qed.

End Preserves.

Lemma never_fatal_ret {A} (a : A) : never_fatal (ret a).
Proof. intros st st'. discriminate. Qed.

Lemma never_fatal_get : never_fatal get.
Proof. intros st st'. discriminate. Qed.

Lemma never_fatal_fault {A} f : never_fatal (@fault A f).
Proof. intros st st'. discriminate. Qed.

Lemma never_fatal_modify f : never_fatal (modify f).
Proof. intros st st'. discriminate. Qed.

Lemma never_fatal_checked {A} (o : option A) : never_fatal (checked o).
Proof. intros st st'. destruct o; discriminate. Qed.


Lemma never_fatal_bind {A B} (m : M A) (k : A -> M B) :
  never_fatal m -> (forall a, never_fatal (k a)) -> never_fatal (bind m k).
Proof.
  intros Hm Hk st st' E. unfold bind in E.
  destruct (m st) as [a s | s | f] eqn:Em; [| | discriminate].
  - exact (Hk a s st' E).
  - exact (Hm st s Em).
Qed.

Lemma never_fatal_for_each {B} (l : list B) (body : B -> M unit) :
  (forall x, never_fatal (body x)) -> never_fatal (for_each l body).
Proof.
  intros H. induction l as [| x l IH]; simpl.
  - apply never_fatal_ret.
  - apply never_fatal_bind; auto.
Qed.

Lemma never_fatal_for_fold {B S} (l : list B) (body : B -> S -> M S) :
  (forall x s, never_fatal (body x s)) -> forall s, never_fatal (for_fold l s body).
Proof.
  intros H. induction l as [| x l IH]; intros s; simpl.
  - apply never_fatal_ret.
  - apply never_fatal_bind; auto.
Qed.

(** The frame of a procedure, step by step. *)
Ltac frame_step :=
  lazymatch goal with
  | |- preserves _ (bind _ _) => apply preserves_bind; [| intro]
  | |- preserves _ (ret _) => apply preserves_ret
  | |- preserves _ get => apply preserves_get
  | |- preserves _ (fault _) => apply preserves_fault
  | |- preserves _ (checked _) => apply preserves_checked
  | |- preserves _ (modify _) => apply preserves_modify; intro; reflexivity
  | |- preserves _ (for_each _ _) => apply preserves_for_each; intro
  | |- preserves _ (for_fold _ _ _) => apply preserves_for_fold; intros ? ?
  | |- preserves _ (ShowFatalError _) => apply preserves_ShowFatalError; intros; reflexivity
  | |- preserves _ (if ?b then _ else _) => destruct b
  | |- preserves _ (match ?o with Some _ => _ | None => _ end) => destruct o
  | |- preserves _ (let '(_, _) := ?p in _) => destruct p
  | |- never_fatal (bind _ _) => apply never_fatal_bind; [| intro]
  | |- never_fatal (ret _) => apply never_fatal_ret
  | |- never_fatal get => apply never_fatal_get
  | |- never_fatal (fault _) => apply never_fatal_fault
  | |- never_fatal (checked _) => apply never_fatal_checked
  | |- never_fatal (modify _) => apply never_fatal_modify
  | |- never_fatal (for_each _ _) => apply never_fatal_for_each; intro
  | |- never_fatal (for_fold _ _ _) => apply never_fatal_for_fold; intros ? ?
  | |- never_fatal (if ?b then _ else _) => destruct b
  | |- never_fatal (match ?o with Some _ => _ | None => _ end) => destruct o
  | |- never_fatal (let '(_, _) := ?p in _) => destruct p
  end.

Ltac frame := repeat (cbv zeta; frame_step).

Lemma preserves_LineNodeAt {X} (g : State -> X) NodeID : preserves g (LineNodeAt NodeID).
Proof. unfold LineNodeAt. frame. Qed.

Lemma never_fatal_LineNodeAt NodeID : never_fatal (LineNodeAt NodeID).
Proof. unfold LineNodeAt. frame. Qed.

Lemma never_fatal_CalcMundtModel h ZoneNum : never_fatal (CalcMundtModel h ZoneNum).
Proof.
  unfold CalcMundtModel, SolveMundt, SetNodeSurfaces, SetNodeResult, SetSurfTmeanAir,
    LineNodeAt, FloorSurfSetIDsAt, TheseSurfIDsAt, RoomNodeIDsAt.
  frame.
Qed.

Lemma preserves_CalcMundtModel h ZoneNum :
  preserves without_results (CalcMundtModel h ZoneNum).
Proof.
  unfold CalcMundtModel, SolveMundt, SetNodeSurfaces, SetNodeResult, SetSurfTmeanAir,
    LineNodeAt, FloorSurfSetIDsAt, TheseSurfIDsAt, RoomNodeIDsAt.
  frame.
Qed.

Lemma fatal_keeps_bind_last {X A B} (g : State -> X) (m : M A) (k : A -> M B) :
  fatal_keeps g m -> (forall a, never_fatal (k a)) -> fatal_keeps g (bind m k).
Proof.
  intros Hm Hk st st' E. unfold bind in E.
  destruct (m st) as [a s | s | f] eqn:Em; [| | discriminate].
  - destruct (Hk a s st' E).
  - injection E as <-. exact (Hm st s Em).
Qed.

Lemma preserves_hostv_GetSurfHBDataForMundtModel h ZoneNum :
  preserves hostv (GetSurfHBDataForMundtModel h ZoneNum).
Proof. unfold GetSurfHBDataForMundtModel. frame. Qed.

Lemma preserves_hostv_SetupMundtModel h ZoneNum ErrorsFound :
  preserves hostv (SetupMundtModel h ZoneNum ErrorsFound).
Proof.
  unfold SetupMundtModel, set_role, ShowSevereError, LineNodeAt, FloorSurfSetIDsAt,
    MundtAirSurfAt.
  frame.
Qed.

Lemma preserves_hostv_CalcMundtModel h ZoneNum : preserves hostv (CalcMundtModel h ZoneNum).
Proof.
  unfold CalcMundtModel, SolveMundt, SetNodeSurfaces, SetNodeResult, SetSurfTmeanAir,
    LineNodeAt, FloorSurfSetIDsAt, TheseSurfIDsAt, RoomNodeIDsAt.
  frame.
Qed.

Lemma preserves_hostv_Zone_Loop h m l : forall loc, preserves hostv (Zone_Loop h m l loc).
Proof.
  induction l as [| y l IH]; intros loc; simpl.
  - frame.
  - unfold Init_Zone, Init_AirNode, ShowSevereError, SetupOutputVariable. frame; apply IH.
Qed.

Lemma preserves_hostv_InitMundtModel h : preserves hostv (InitMundtModel h).
Proof.
  unfold InitMundtModel, Init_ZoneData, Init_ZoneData_body, Init_Zones_body, set_role.
  frame. apply preserves_hostv_Zone_Loop.
Qed.

Lemma never_fatal_SetSurfHBDataForMundtModel h ZoneNum :
  never_fatal (SetSurfHBDataForMundtModel h ZoneNum).
Proof.
  unfold SetSurfHBDataForMundtModel, set_host, LineNodeAt, MundtAirSurfAt. frame.
Qed.

Lemma preserves_LineNode_GetSurfHBDataForMundtModel h ZoneNum :
  preserves LineNode (GetSurfHBDataForMundtModel h ZoneNum).
Proof. unfold GetSurfHBDataForMundtModel. frame. Qed.

Lemma preserves_LineNode_SetupMundtModel h ZoneNum ErrorsFound :
  preserves LineNode (SetupMundtModel h ZoneNum ErrorsFound).
Proof.
  unfold SetupMundtModel, set_role, ShowSevereError, LineNodeAt, FloorSurfSetIDsAt,
    MundtAirSurfAt.
  frame.
Qed.

(** X1.  A call of [ManageMundtModel] that ends with a fatal error has
    written no host variable; after the first call it has not touched the
    table of air nodes either. *)
Theorem ManageMundtModel_fatal_unwritten (h : Host) (ZoneNum : Z) (st st' : State) :
  ManageMundtModel h ZoneNum st = Fatal st' ->
  hostv st' = hostv st /\
  (FirstTimeFlag st = false -> LineNode st' = LineNode st).
Proof.
  intros Hrun. split.
  - revert st st' Hrun. change (fatal_keeps hostv (ManageMundtModel h ZoneNum)).
    unfold ManageMundtModel.
    repeat lazymatch goal with
           | |- fatal_keeps _ (bind _ _) => apply fatal_keeps_bind; [frame | intro]
           end;
      auto using preserves_hostv_InitMundtModel, preserves_hostv_GetSurfHBDataForMundtModel,
        preserves_hostv_SetupMundtModel, preserves_hostv_CalcMundtModel.
    apply never_fatal_fatal_keeps, never_fatal_SetSurfHBDataForMundtModel.
  - intros Hflag. unfold ManageMundtModel in Hrun. unfold bind at 1, get at 1 in Hrun.
    rewrite Hflag in Hrun. unfold bind at 1, ret at 1 in Hrun.
    revert st' Hrun. generalize st. change (fatal_keeps LineNode
      (st0 <- get ;;
       zd <- checked (at1 (ZoneData st0) ZoneNum) ;;
       modify (set_MundtZoneNum (DefineZoneData.MundtZoneIndex zd)) ;;
       GetSurfHBDataForMundtModel h ZoneNum ;;
       st1 <- get ;;
       (if SystemOn (work st1)
        then ErrorsFound <- SetupMundtModel h ZoneNum false ;;
             (if ErrorsFound : bool
              then ShowFatalError
                "ManageMundtModel: Errors in setting up Mundt Model. Preceding condition(s) cause termination."
              else ret tt) ;;
             CalcMundtModel h ZoneNum
        else ret tt) ;;
       SetSurfHBDataForMundtModel h ZoneNum)).
    do 4 (apply fatal_keeps_bind; [frame | intro]);
      auto using preserves_LineNode_GetSurfHBDataForMundtModel.
    apply fatal_keeps_bind; [frame | intros s1].
    apply fatal_keeps_bind_last; [| intro; apply never_fatal_SetSurfHBDataForMundtModel].
    destruct (SystemOn (work s1)).
    + apply fatal_keeps_bind; [apply preserves_LineNode_SetupMundtModel | intro].
      apply fatal_keeps_bind; [frame | intro].
      apply never_fatal_fatal_keeps, never_fatal_CalcMundtModel.
    + apply never_fatal_fatal_keeps. frame.
Qed.

(** X2.  [SetNodeResult] overwrites: after a write to an air node, a second
    write to the same node leaves the state a single write of the second
    temperature would leave. *)
Theorem SetNodeResult_last_write (NodeID : Z) (T1 T2 : Real64) (st s1 : State) :
  SetNodeResult NodeID T1 st = Ok tt s1 ->
  exists s2,
    SetNodeResult NodeID T2 s1 = Ok tt s2 /\
    SetNodeResult NodeID T2 st = Ok tt s2.
Proof.
  intros H. unfold SetNodeResult in *.
  apply bind_Ok_inv in H as (s & s0 & Hg & H). unfold get in Hg. injection Hg as <- <-.
  apply bind_Ok_inv in H as (LN & s0 & Hc & H). apply checked_Ok_inv in Hc as [Hupd ->].
  unfold modify in H. injection H as <-.
  destruct (upd2_Some_inv _ _ _ _ _ Hupd) as (row & row' & Hrow & Hrow' & ->).
  destruct (upd1_Some_inv _ _ _ _ Hrow') as (n & Hn & ->).
  pose proof (at1_Some_bounds _ _ _ Hrow) as Hbi.
  pose proof (at1_Some_bounds _ _ _ Hn) as Hbj.
  eexists. split.
  - unfold bind at 1, get at 1. simpl MundtZoneNum. simpl LineNode.
    unfold upd2. rewrite (at1_insert_eq _ _ _ _ Hrow).
    unfold upd1 at 1. rewrite (at1_insert_eq _ _ _ _ Hn).
    rewrite !list_insert_insert_eq. reflexivity.
  - unfold bind at 1, get at 1. unfold upd2. rewrite Hrow. unfold upd1. rewrite Hn.
    reflexivity.
Qed.

Lemma SetNodeResult_last_write_witness :
  exists s1 s2,
    SetNodeResult 2 30.0 (Ready Example_Host) = Ok tt s1 /\
    SetNodeResult 2 18.5 s1 = Ok tt s2 /\
    SetNodeResult 2 18.5 (Ready Example_Host) = Ok tt s2.
Proof.
  destruct (SetNodeResult_last_write 2 30.0 18.5 (Ready Example_Host)
              (final (SetNodeResult 2 30.0) (Ready Example_Host)))
    as (s2 & H1 & H2); [vm_compute; reflexivity |].
  exists (final (SetNodeResult 2 30.0) (Ready Example_Host)), s2.
  split; [vm_compute; reflexivity |]. split; [exact H1 | exact H2].
Defined.

(** X3.  [CalcMundtModel] returns or stops at a fault; it never ends with a
    fatal error.  When it returns it has written nothing but temperatures
    of air nodes, mean air temperatures of surfaces and the working list of
    surface indices: the messages, the roles, the working state and the
    host variables are as before, and so are name, role tag, height and
    mask of every air node and area, temperature and film coefficient of
    every surface. *)
Theorem CalcMundtModel_outcome (h : Host) (ZoneNum : Z) (st : State) :
  (exists st',
      CalcMundtModel h ZoneNum st = Ok tt st' /\
      without_results st' = without_results st /\
      same_static st st' /\
      same_field (fun s => (DefineSurfaceSettings.Area s, DefineSurfaceSettings.Temp s,
                            DefineSurfaceSettings.Hc s))
                 (MundtAirSurf st) (MundtAirSurf st'))
  \/ (exists f, CalcMundtModel h ZoneNum st = Faulted f).
Proof.
  destruct (CalcMundtModel h ZoneNum st) as [[] st' | st' | f] eqn:E.
  - left. exists st'. split; [reflexivity |].
    destruct (CalcMundtModel_Ok_inv _ _ _ _ E) as (sol & RN & _ & _ & [Hw Hs] & _).
    split; [exact Hw |]. split; [exact Hs |].
    apply (CalcMundtModel_field _ h ZoneNum); [| exact E]. intros v s. reflexivity.
  - destruct (never_fatal_CalcMundtModel h ZoneNum st st' E).
  - right. exists f. reflexivity.
Qed.

Lemma sub_pos (x y : Real64) : x < y -> 0 < y - x.
Proof. destruct x, y; simpl; try tauto. lra. Qed.

(** The bounds of the floor air temperature after the check, for a height
    difference above zero. *)
Lemma CheckSlope_stratified (TLeaving TAirFoot dH : Real64) :
  0 < dH ->
  let sol := CheckSlope TLeaving dH ((TLeaving - TAirFoot) / dH) TAirFoot in
  number (Solution.Slope sol) ->
  TLeaving - MaxSlope * dH <= Solution.TAirFoot sol /\
  Solution.TAirFoot sol <= TLeaving.
Proof.
  intros Hpos. cbv zeta. intros Hnum. apply CheckSlope_number in Hnum.
  destruct (CheckSlope_cases _ Hnum) as [Ha | [Hb | Hw]].
  - rewrite CheckSlope_above by exact Ha. simpl Solution.TAirFoot.
    destruct dH as [d | | |]; simpl in Hpos; try contradiction.
    + assert (Ed : (d ?= 0)%Q = Gt) by (apply Qcompare_0_gt; exact Hpos).
      destruct TLeaving as [t | | |], TAirFoot as [f | | |]; simpl in *;
        rewrite ?Ed in *; simpl in *; try tauto; nra.
    + destruct TLeaving as [t | | |], TAirFoot as [f | | |]; simpl in *; try tauto; lra.
  - rewrite CheckSlope_below by exact Hb. simpl Solution.TAirFoot.
    destruct dH as [d | | |]; simpl in Hpos; try contradiction.
    + assert (Ed : (d ?= 0)%Q = Gt) by (apply Qcompare_0_gt; exact Hpos).
      destruct TLeaving as [t | | |], TAirFoot as [f | | |]; simpl in *;
        rewrite ?Ed in *; simpl in *; try tauto; nra.
    + destruct TLeaving as [t | | |], TAirFoot as [f | | |]; simpl in *; try tauto; lra.
  - rewrite CheckSlope_within by exact Hw. simpl Solution.TAirFoot. destruct Hw as [Hlo Hhi].
    destruct dH as [d | | |]; simpl in Hpos; try contradiction.
    + assert (Ed : (d ?= 0)%Q = Gt) by (apply Qcompare_0_gt; exact Hpos).
      destruct TLeaving as [t | | |], TAirFoot as [f | | |]; simpl in *;
        rewrite ?Ed in *; simpl in *; try tauto.
      assert (E : ((t - f) / d * d == t - f)%Q) by (field; lra).
      split; nra.
    + destruct TLeaving as [t | | |], TAirFoot as [f | | |]; simpl in *; try tauto; lra.
Qed.

(** X4.  With the return node above the floor node and a slope that is a
    number, the floor air temperature of a solve is never above the
    leaving air temperature and never more than [MaxSlope] times the
    height difference below it. *)
Theorem SolveMundt_stratification_bound (h : Host) (ZoneNum : Z) (st st' : State)
    (sol : Solution.t) (ReturnNode FootNode : DefineLinearModelNode.t) :
  SolveMundt h ZoneNum st = Ok sol st' ->
  node_at st (ReturnNodeID (roles st)) = Some ReturnNode ->
  node_at st (MundtFootAirID (roles st)) = Some FootNode ->
  DefineLinearModelNode.Height FootNode < DefineLinearModelNode.Height ReturnNode ->
  number (Solution.Slope sol) ->
  Solution.TLeaving sol
  - MaxSlope * (DefineLinearModelNode.Height ReturnNode - DefineLinearModelNode.Height FootNode)
  <= Solution.TAirFoot sol
  /\ Solution.TAirFoot sol <= Solution.TLeaving sol.
Proof.
  intros Hrun HR HF Hlt Hnum.
  destruct (SolveMundt_Ok_inv _ _ _ _ _ Hrun) as (_ & RN & FN & HR' & HF' & ->).
  rewrite HR in HR'. injection HR' as <-. rewrite HF in HF'. injection HF' as <-.
  rewrite CheckSlope_TLeaving. unfold RawSlope in *.
  apply CheckSlope_stratified; [apply sub_pos; exact Hlt | exact Hnum].
Qed.

Lemma SolveMundt_stratification_bound_witness :
  exists sol,
    SolveMundt Example_Host 1 (Ready Example_Host) = Ok sol (Ready Example_Host) /\
    Solution.TLeaving sol - MaxSlope * (2.4 - 0.1) <= Solution.TAirFoot sol /\
    Solution.TAirFoot sol <= Solution.TLeaving sol.
Proof.
  eexists. split; [vm_compute; reflexivity |].
  refine (SolveMundt_stratification_bound Example_Host 1 (Ready Example_Host)
            (Ready Example_Host) _
            {| DefineLinearModelNode.AirNodeName := _; DefineLinearModelNode.ClassType := _;
               DefineLinearModelNode.Height := 2.4; DefineLinearModelNode.Temp := _;
               DefineLinearModelNode.SurfMask := _ |}
            {| DefineLinearModelNode.AirNodeName := _; DefineLinearModelNode.ClassType := _;
               DefineLinearModelNode.Height := 0.1; DefineLinearModelNode.Temp := _;
               DefineLinearModelNode.SurfMask := _ |} _ _ _ _ _).
  - vm_compute. reflexivity.
  - vm_compute. reflexivity.
  - vm_compute. reflexivity.
  - vm_compute. reflexivity.
  - vm_compute. exact I.
Defined.

(** ** The surfaces of an air node *)

Lemma lookup_range lo hi (k : nat) :
  range lo hi !! k
  = if (k <? Z.to_nat (hi - lo + 1))%nat then Some (lo + Z.of_nat k)%Z else None.
Proof.
  unfold range. rewrite list_lookup_fmap.
  destruct (k <? Z.to_nat (hi - lo + 1))%nat eqn:E.
  - apply Nat.ltb_lt in E. rewrite lookup_seq_lt by exact E. reflexivity.
  - apply Nat.ltb_ge in E. rewrite lookup_seq_ge by exact E. reflexivity.
Qed.

Lemma pack_nil_r {A} (a : list A) : pack a [] = [].
Proof. unfold pack. destruct a; reflexivity. Qed.

Lemma pack_cons {A} (x : A) (a : list A) (b : bool) (mask : list bool) :
  pack (x :: a) (b :: mask) = if b then x :: pack a mask else pack a mask.
Proof.
  unfold pack. simpl combine. rewrite filter_cons. simpl snd.
  destruct b; simpl.
  - destruct (decide (true = true)) as [_ | E]; [reflexivity | destruct (E eq_refl)].
  - destruct (decide (false = true)) as [E | _]; [discriminate E | reflexivity].
Qed.

Lemma count_cons (b : bool) (mask : list bool) :
  count (b :: mask) = (if b then count mask + 1 else count mask)%Z.
Proof.
  unfold count. rewrite filter_cons. destruct b.
  - destruct (decide (true = true)) as [_ | E]; [| destruct (E eq_refl)]. simpl length. lia.
  - destruct (decide (false = true)) as [E | _]; [discriminate E | reflexivity].
Qed.

Lemma count_nonneg mask : (0 <= count mask)%Z.
Proof. unfold count. lia. Qed.

(** The packed list holds the elements at the positions where the mask is
    set. *)
Lemma lookup_pack {A} (a : list A) (mask : list bool) (x : A) :
  (exists k, pack a mask !! k = Some x)
  <-> exists j, a !! j = Some x /\ mask !! j = Some true.
Proof.
  revert mask. induction a as [| y a IH]; intros mask.
  - split; [intros [k H] | intros (j & H & _)]; [| destruct j; discriminate H].
    unfold pack in H. simpl in H. destruct k; discriminate H.
  - destruct mask as [| b mask].
    + rewrite pack_nil_r. split; [intros [k H] | intros (j & _ & H)]; destruct k || destruct j;
        discriminate H.
    + rewrite pack_cons. destruct b.
      * split.
        -- intros [[| k] H].
           ++ exists 0%nat. auto.
           ++ destruct (proj1 (IH mask) (ex_intro _ k H)) as (j & Hj1 & Hj2).
              exists (S j). auto.
        -- intros ([| j] & Hj1 & Hj2).
           ++ exists 0%nat. exact Hj1.
           ++ destruct (proj2 (IH mask) (ex_intro _ j (conj Hj1 Hj2))) as [k Hk].
              exists (S k). exact Hk.
      * rewrite IH. split.
        -- intros (j & Hj1 & Hj2). exists (S j). auto.
        -- intros ([| j] & Hj1 & Hj2); [discriminate Hj2 |]. exists j. auto.
Qed.

(** The packed list is as long as the count of the mask when no position
    behind the end of the list is set. *)
Lemma length_pack {A} (a : list A) (mask : list bool) :
  (Z.of_nat (length (pack a mask)) <= count mask)%Z /\
  ((count mask <= Z.of_nat (length (pack a mask)))%Z ->
   forall j, mask !! j = Some true -> (j < length a)%nat).
Proof.
  revert mask. induction a as [| y a IH]; intros mask.
  - unfold pack. simpl. split; [apply count_nonneg |].
    intros Hc j Hj. exfalso. revert j Hj Hc.
    induction mask as [| b mask IHm]; intros j Hj Hc; [destruct j; discriminate Hj |].
    rewrite count_cons in Hc. pose proof (count_nonneg mask).
    destruct b; [lia |]. destruct j as [| j]; [discriminate Hj |]. apply (IHm j Hj Hc).
  - destruct mask as [| b mask].
    + rewrite pack_nil_r. split; [apply count_nonneg |].
      intros _ j Hj. destruct j; discriminate Hj.
    + rewrite pack_cons, count_cons. destruct (IH mask) as [Hle Hall]. destruct b.
      * simpl length. split; [lia |]. intros Hc [| j] Hj; [simpl; lia |].
        simpl. apply -> Nat.succ_lt_mono. apply Hall; [lia | exact Hj].
      * split; [exact Hle |]. intros Hc [| j] Hj; [discriminate Hj |].
        simpl. apply -> Nat.succ_lt_mono. apply Hall; [exact Hc | exact Hj].
Qed.

Lemma set_TMeanAir_twice v w s :
  DefineSurfaceSettings.set_TMeanAir v (DefineSurfaceSettings.set_TMeanAir w s)
  = DefineSurfaceSettings.set_TMeanAir v s.
Proof. reflexivity. Qed.

(** The loop over the working list of surface indices. *)
Lemma surf_list_loop TeffAir (l : list Z) :
  forall s s',
    for_each l (fun SurfNum => SurfID <- TheseSurfIDsAt SurfNum ;;
                               SetSurfTmeanAir SurfID TeffAir) s = Ok tt s' ->
    TheseSurfIDs s' = TheseSurfIDs s /\
    without_results s' = without_results s /\
    LineNode s' = LineNode s /\
    (forall k, In k l -> is_Some (at1 (TheseSurfIDs s) k)) /\
    (forall z id, z <> MundtZoneNum s \/ (forall k, In k l -> at1 (TheseSurfIDs s) k <> Some id) ->
                  at2 (MundtAirSurf s') z id = at2 (MundtAirSurf s) z id) /\
    (forall k id, In k l -> at1 (TheseSurfIDs s) k = Some id ->
       exists x, surf_at s id = Some x /\
                 surf_at s' id = Some (DefineSurfaceSettings.set_TMeanAir TeffAir x)).
Proof.
  induction l as [| k0 l IH]; intros s s' H.
  - simpl in H. unfold ret in H. injection H as <-.
    repeat split; try reflexivity; intros; contradiction.
  - simpl in H. apply bind_Ok_inv in H as ([] & s1 & Hb & H).
    apply bind_Ok_inv in Hb as (id0 & s0 & Hat & Hset).
    unfold TheseSurfIDsAt in Hat. apply bind_Ok_inv in Hat as (s00 & s01 & Hg & Hat).
    unfold get in Hg. injection Hg as <- <-. apply checked_Ok_inv in Hat as [Hid0 ->].
    destruct (SetSurfTmeanAir_Ok_inv _ _ _ _ Hset) as ((x0 & Hx0 & Hx0') & Hoth & HLN & HT & HW).
    destruct (IH s1 s' H) as (HT' & HW' & HLN' & Hsome & Hoth' & Hwr).
    pose proof (without_results_MundtZoneNum _ _ HW) as HZ.
    rewrite HT in *.
    split; [exact HT' |]. split; [congruence |]. split; [congruence |].
    split; [| split].
    + intros k [<- | Hk]; [rewrite Hid0; eauto | apply Hsome; exact Hk].
    + intros z id Hcase. rewrite Hoth'.
      * apply Hoth. destruct Hcase as [Hz | Hall]; [left; exact Hz |].
        right. intros ->. apply (Hall k0); [left; reflexivity | exact Hid0].
      * rewrite HZ. destruct Hcase as [Hz | Hall]; [left; exact Hz |].
        right. intros k Hk. apply Hall. right. exact Hk.
    + assert (Hlater : forall id x1, surf_at s1 id = Some x1 ->
                (exists k, In k l /\ at1 (TheseSurfIDs s) k = Some id) ->
                surf_at s' id = Some (DefineSurfaceSettings.set_TMeanAir TeffAir x1)).
      { intros id x1 Hx1 (k & Hk & Hkid). destruct (Hwr k id Hk Hkid) as (x & Hx & Hx').
        rewrite Hx1 in Hx. injection Hx as <-. exact Hx'. }
      assert (Hdec : forall id, (exists k, In k l /\ at1 (TheseSurfIDs s) k = Some id)
                                \/ (forall k, In k l -> at1 (TheseSurfIDs s) k <> Some id)).
      { intros id. destruct (List.Exists_dec (fun k => at1 (TheseSurfIDs s) k = Some id) l)
          as [E | E].
        - intros k. destruct (decide (at1 (TheseSurfIDs s) k = Some id)); [left | right]; auto.
        - left. apply List.Exists_exists in E. exact E.
        - right. intros k Hk Hkid. apply E. apply List.Exists_exists. eauto. }
      intros k id Hk Hkid.
      destruct (Z.eq_dec id id0) as [-> | Hne].
      * exists x0. split; [exact Hx0 |].
        destruct (Hdec id0) as [Hex | Hnone].
        -- rewrite (Hlater id0 _ Hx0' Hex). rewrite set_TMeanAir_twice. reflexivity.
        -- unfold surf_at in *.
           rewrite (without_results_MundtZoneNum _ _ HW'), Hoth'; [| right; exact Hnone].
           exact Hx0'.
      * assert (Hex : exists k', In k' l /\ at1 (TheseSurfIDs s) k' = Some id).
        { destruct Hk as [<- | Hk]; [congruence | eauto]. }
        assert (Hs1 : surf_at s1 id = surf_at s id).
        { unfold surf_at. rewrite HZ. apply Hoth. right. exact Hne. }
        destruct (surf_at s id) as [x |] eqn:Hx.
        -- exists x. split; [reflexivity |]. apply (Hlater id x Hs1 Hex).
        -- destruct Hex as (k' & Hk' & Hk'id). destruct (Hwr k' id Hk' Hk'id) as (x & Hx1 & _).
           congruence.
Qed.

Lemma at1_lookup {A} (l : list A) (k : nat) : at1 l (Z.of_nat k + 1) = l !! k.
Proof.
  unfold at1. destruct (Z.leb_spec 1 (Z.of_nat k + 1)) as [_ | E]; [| lia].
  f_equal. lia.
Qed.

Lemma at1_Some_lookup {A} (l : list A) i x :
  at1 l i = Some x <-> (1 <= i)%Z /\ l !! Z.to_nat (i - 1) = Some x.
Proof.
  unfold at1. destruct (Z.leb_spec 1 i) as [E | E].
  - split; [intros H; split; [lia | exact H] | intros [_ H]; exact H].
  - split; [discriminate | intros [H _]; lia].
Qed.

(** X5.  With the list of surface indices as [InitMundtModel] builds it
    (1, 2, ..., N), [SetNodeSurfaces] gives the temperature to the mean air
    temperature of exactly the surfaces whose bit is set in the mask of the
    air node: these entries are overwritten, every other entry of the zone
    and every entry of another zone stays as it is. *)
Theorem SetNodeSurfaces_mask (NodeID : Z) (TeffAir : Real64) (st st' : State)
    (n : DefineLinearModelNode.t) (N : Z) :
  SetNodeSurfaces NodeID TeffAir st = Ok tt st' ->
  node_at st NodeID = Some n ->
  ID1dSurf st = range 1 N ->
  (forall SurfID,
      (at1 (DefineLinearModelNode.SurfMask n) SurfID = Some true ->
       exists s, surf_at st SurfID = Some s /\
                 surf_at st' SurfID = Some (DefineSurfaceSettings.set_TMeanAir TeffAir s)) /\
      (at1 (DefineLinearModelNode.SurfMask n) SurfID <> Some true ->
       surf_at st' SurfID = surf_at st SurfID)) /\
  (forall z SurfID, z <> MundtZoneNum st ->
                    at2 (MundtAirSurf st') z SurfID = at2 (MundtAirSurf st) z SurfID).
Proof.
  intros Hrun Hn HID. unfold SetNodeSurfaces in Hrun.
  apply bind_Ok_inv in Hrun as (n' & s0 & Hnode & Hrun).
  apply LineNodeAt_Ok_inv in Hnode as [Hn' ->]. rewrite Hn in Hn'. injection Hn' as <-.
  apply bind_Ok_inv in Hrun as (s & s0 & Hg & Hrun). unfold get in Hg. injection Hg as <- <-.
  apply bind_Ok_inv in Hrun as ([] & s0 & Hm & Hrun). unfold modify in Hm. injection Hm as <-.
  set (mask := DefineLinearModelNode.SurfMask n) in *.
  set (P := pack (ID1dSurf st) mask) in *.
  destruct (surf_list_loop _ _ _ _ Hrun) as (_ & HW & _ & Hsome & Hoth & Hwr).
  change (TheseSurfIDs (set_TheseSurfIDs P st)) with P in *.
  change (MundtZoneNum (set_TheseSurfIDs P st)) with (MundtZoneNum st) in *.
  change (MundtAirSurf (set_TheseSurfIDs P st)) with (MundtAirSurf st) in *.
  change (surf_at (set_TheseSurfIDs P st)) with (surf_at st) in *.
  assert (HZ : MundtZoneNum st' = MundtZoneNum st)
    by apply (without_results_MundtZoneNum _ _ HW).
  destruct (length_pack (ID1dSurf st) mask) as [Hle Hin]. fold P in Hle, Hin.
  (* the loop has gone through the whole packed list *)
  assert (Hfull : (count mask <= Z.of_nat (length P))%Z).
  { destruct (Z.le_gt_cases (count mask) 0) as [H0 | H0]; [lia |].
    destruct (Hsome (count mask)) as [x Hx]; [apply range_In; lia |].
    apply at1_Some_bounds in Hx. lia. }
  (* a position of the packed list is the index of a surface whose bit is set *)
  assert (Hmem : forall id, (exists k, P !! k = Some id) <-> at1 mask id = Some true).
  { intros id. unfold P. rewrite lookup_pack. rewrite HID. split.
    - intros (j & Hj1 & Hj2). rewrite lookup_range in Hj1.
      destruct (j <? Z.to_nat (N - 1 + 1))%nat; [| discriminate].
      injection Hj1 as <-. replace (1 + Z.of_nat j)%Z with (Z.of_nat j + 1)%Z by lia.
      rewrite at1_lookup. exact Hj2.
    - intros Hid. apply at1_Some_lookup in Hid as [Hid1 Hid2].
      exists (Z.to_nat (id - 1)). split; [| exact Hid2].
      pose proof (Hin Hfull _ Hid2) as Hlt. rewrite HID in Hlt.
      unfold range in Hlt. rewrite length_map, length_seq in Hlt.
      rewrite lookup_range.
      destruct (Z.to_nat (id - 1) <? Z.to_nat (N - 1 + 1))%nat eqn:E.
      + f_equal. lia.
      + apply Nat.ltb_ge in E. lia. }
  split.
  - intros SurfID. split.
    + intros Hbit. apply Hmem in Hbit as [k Hk].
      apply (Hwr (Z.of_nat k + 1)%Z).
      * apply range_In. apply lookup_lt_Some in Hk. lia.
      * rewrite at1_lookup. exact Hk.
    + intros Hbit. unfold surf_at. rewrite HZ. apply Hoth. right.
      intros k Hk Hkid. apply Hbit. apply Hmem.
      apply at1_Some_lookup in Hkid as [_ Hkid]. eauto.
  - intros z SurfID Hz. apply Hoth. left. exact Hz.
Qed.

Lemma SetNodeSurfaces_mask_witness :
  exists st' wall,
    SetNodeSurfaces 5 30.0 (Ready Example_Host) = Ok tt st' /\
    surf_at (Ready Example_Host) 2 = Some wall /\
    surf_at st' 2 = Some (DefineSurfaceSettings.set_TMeanAir 30.0 wall) /\
    surf_at st' 1 = surf_at (Ready Example_Host) 1 /\
    surf_at st' 3 = surf_at (Ready Example_Host) 3.
Proof.
  pose (st' := final (SetNodeSurfaces 5 30.0) (Ready Example_Host)).
  pose (n := default Default_LineNode (node_at (Ready Example_Host) 5)).
  assert (Hrun : SetNodeSurfaces 5 30.0 (Ready Example_Host) = Ok tt st')
    by (vm_compute; reflexivity).
  assert (Hn : node_at (Ready Example_Host) 5 = Some n) by (vm_compute; reflexivity).
  assert (HID : ID1dSurf (Ready Example_Host) = range 1 3) by (vm_compute; reflexivity).
  destruct (SetNodeSurfaces_mask 5 30.0 (Ready Example_Host) st' n 3 Hrun Hn HID)
    as [Hsurf _].
  assert (H2 : at1 (DefineLinearModelNode.SurfMask n) 2 = Some true)
    by (vm_compute; reflexivity).
  assert (H1 : at1 (DefineLinearModelNode.SurfMask n) 1 <> Some true)
    by (vm_compute; discriminate).
  assert (H3 : at1 (DefineLinearModelNode.SurfMask n) 3 <> Some true)
    by (vm_compute; discriminate).
  destruct (proj1 (Hsurf 2%Z) H2) as (wall & Hw & Hw').
  exists st', wall. split; [exact Hrun |].
  split; [exact Hw |]. split; [exact Hw' |].
  split; [exact (proj2 (Hsurf 1%Z) H1) | exact (proj2 (Hsurf 3%Z) H3)].
Defined.
(** ** The return node *)

(** A slope that is a number after the check is a finite number. *)
Lemma CheckSlope_finite TLeaving dH Slope TAirFoot :
  number (Solution.Slope (CheckSlope TLeaving dH Slope TAirFoot)) ->
  finite (Solution.Slope (CheckSlope TLeaving dH Slope TAirFoot)).
Proof.
  intros H. apply CheckSlope_number in H.
  destruct (CheckSlope_bounds TLeaving dH Slope TAirFoot H) as [H1 H2].
  exact (between_finite _ _ _ H1 H2).
Qed.

Lemma sub_zero_r (x z : Real64) : z == 0 -> x - z == x.
Proof. destruct x, z; simpl; try tauto. intros ->. ring. Qed.

Lemma LineTemp_at_return TLeaving Slope ReturnHeight :
  finite Slope -> finite ReturnHeight ->
  LineTemp TLeaving Slope ReturnHeight ReturnHeight == TLeaving.
Proof.
  intros HS HR. unfold LineTemp. apply sub_zero_r. finite_inv. simpl. ring.
Qed.

(** With the floor node at the height of the return node the quotient of
    Eq 2.4 is a quotient by zero; when it is a number, it is an infinity,
    and the check leaves the floor air temperature at the leaving air
    temperature. *)
Lemma CheckSlope_zero_height (TLeaving TAirFoot dH : Real64) :
  dH == 0 ->
  let sol := CheckSlope TLeaving dH ((TLeaving - TAirFoot) / dH) TAirFoot in
  number (Solution.Slope sol) ->
  Solution.TAirFoot sol == TLeaving.
Proof.
  intros HdH. cbv zeta. intros Hnum. apply CheckSlope_number in Hnum.
  destruct dH as [d | | |]; simpl in HdH; try contradiction.
  assert (Ed : (d ?= 0)%Q = Eq) by (apply Qcompare_0_eq; exact HdH).
  destruct (CheckSlope_cases _ Hnum) as [Ha | [Hb | [Hlo Hhi]]].
  - rewrite CheckSlope_above by exact Ha. simpl Solution.TAirFoot.
    apply sub_zero_r. simpl. rewrite HdH. ring.
  - rewrite CheckSlope_below by exact Hb. apply R64Facts.eqv_refl.
  - exfalso.
    destruct TLeaving as [t | | |], TAirFoot as [f | | |]; simpl in *;
      rewrite ?Ed in *; simpl in *; try tauto.
    destruct (t - f ?= 0)%Q; simpl in *; tauto.
Qed.

(** The writes of [CalcMundtModel] that follow the write to the return
    node leave the leaving air temperature there, when the slope is a
    number and the height of the node is finite. *)
Lemma CalcMundtModel_return_node_temp (h : Host) (ZoneNum : Z) (st st' : State) :
  CalcMundtModel h ZoneNum st = Ok tt st' ->
  exists sol n,
    SolveMundt h ZoneNum st = Ok sol st /\
    node_at st' (ReturnNodeID (roles st)) = Some n /\
    (number (Solution.Slope sol) -> finite (DefineLinearModelNode.Height n) ->
     DefineLinearModelNode.Temp n == Solution.TLeaving sol).
Proof.
  unfold CalcMundtModel. intros H.
  apply bind_Ok_inv in H as (sol & s0 & Hsol & H).
  pose proof (SolveMundt_pure _ _ _ _ _ Hsol) as ->. cbv zeta in H.
  apply bind_Ok_inv in H as (s1 & s2 & H1 & H). inv_step H1.
  apply bind_Ok_inv in H as (RN & s2 & H1 & H). apply LineNodeAt_Ok_inv in H1 as [HRN ->].
  apply bind_Ok_inv in H as (CN & s2 & H1 & H). apply LineNodeAt_Ok_inv in H1 as [HCN ->].
  apply bind_Ok_inv in H as (TN & s2 & H1 & H). apply LineNodeAt_Ok_inv in H1 as [HTN ->].
  apply bind_Ok_inv in H as ([] & s1 & Hw1 & H).
  apply bind_Ok_inv in H as ([] & s2 & Hw2 & H).
  apply bind_Ok_inv in H as ([] & s3 & Hw3 & H).
  apply bind_Ok_inv in H as ([] & s4 & Hw4 & H).
  apply bind_Ok_inv in H as ([] & s5 & Hw5 & H).
  apply bind_Ok_inv in H as ([] & s6 & Hfloor & H).
  apply bind_Ok_inv in H as ([] & s7 & Hceil & H).
  fold (room_body (roles st) (Solution.TLeaving sol) (Solution.Slope sol)) in H.
  apply floor_loop_keeps_nodes in Hfloor. apply SetNodeSurfaces_keeps_nodes in Hceil.
  pose proof (calc_step_refl st) as Hs0.
  pose proof (calc_step_SetNodeResult _ _ _ _ _ Hs0 Hw1) as Hs1.
  pose proof (calc_step_SetNodeResult _ _ _ _ _ Hs1 Hw2) as Hs2.
  pose proof (calc_step_SetNodeResult _ _ _ _ _ Hs2 Hw3) as Hs3.
  pose proof (calc_step_SetNodeResult _ _ _ _ _ Hs3 Hw4) as Hs4.
  pose proof (calc_step_SetNodeResult _ _ _ _ _ Hs4 Hw5) as Hs5.
  pose proof (calc_step_keeps_nodes _ _ _ Hs5 Hfloor) as Hs6.
  pose proof (calc_step_keeps_nodes _ _ _ Hs6 Hceil) as Hs7.
  destruct (room_loop_spec st RN (Solution.TLeaving sol) (Solution.Slope sol)
              (range 1 (NumRoomNodes (roles st))) HRN s7 st' Hs7 H)
    as (Hs' & Hrooms & _ & Hother).
  set (Ret := ReturnNodeID (roles st)) in *.
  set (TL := Solution.TLeaving sol) in *.
  destruct (calc_step_node _ _ _ _ Hs' HRN) as (m & Hm & Hstat).
  exists sol, m. split; [exact Hsol |]. split; [exact Hm |].
  rewrite (node_static_Height _ _ Hstat). intros Hnum HfR.
  assert (HfS : finite (Solution.Slope sol)).
  { destruct (SolveMundt_Ok_inv _ _ _ _ _ Hsol) as (_ & RN' & FN' & _ & _ & E).
    rewrite E in Hnum |- *. apply CheckSlope_finite, Hnum. }
  set (holds := fun s => exists n, node_at s Ret = Some n /\ DefineLinearModelNode.Temp n == TL).
  (* a write that keeps the temperature of the return node *)
  assert (Hwrite : forall id T s s',
             SetNodeResult id T s = Ok tt s' -> holds s -> (id = Ret -> T == TL) -> holds s').
  { intros id T s s' Hw (n & Hn & HT) Hid.
    destruct (Z.eq_dec id Ret) as [-> | Hne].
    - destruct (SetNodeResult_same _ _ _ _ Hw) as (m' & _ & Hm').
      exists (DefineLinearModelNode.set_Temp T m'). split; [exact Hm' |]. simpl. auto.
    - exists n. rewrite (SetNodeResult_other _ _ _ _ _ Hw); auto. }
  (* the write to the return node *)
  assert (H2 : holds s2).
  { destruct (SetNodeResult_same _ _ _ _ Hw2) as (m' & _ & Hm').
    exists (DefineLinearModelNode.set_Temp TL m'). split; [exact Hm' |]. simpl.
    apply R64Facts.eqv_refl. }
  (* the ceiling node *)
  assert (H3 : holds s3).
  { apply (Hwrite _ _ _ _ Hw3 H2). intros E. rewrite E in HCN. rewrite HRN in HCN.
    injection HCN as <-. apply LineTemp_at_return; assumption. }
  (* the floor node at the index of the return node: the height difference
     of Eq 2.4 is zero *)
  assert (H4 : holds s4).
  { apply (Hwrite _ _ _ _ Hw4 H3). intros E.
    destruct (SolveMundt_Ok_inv _ _ _ _ _ Hsol) as (_ & RN' & FN' & HR' & HF' & Esol).
    fold Ret in HR'. rewrite E in HF'. rewrite HR' in HF'. injection HF' as <-.
    rewrite HRN in HR'. injection HR' as <-.
    unfold TL. rewrite Esol in Hnum |- *. rewrite CheckSlope_TLeaving.
    unfold RawSlope in *. apply CheckSlope_zero_height; [| exact Hnum].
    destruct (R64Facts.finite_inv _ HfR) as [hr ->]. simpl. ring. }
  (* the thermostat node *)
  assert (H5 : holds s5).
  { apply (Hwrite _ _ _ _ Hw5 H4). intros E. rewrite E in HTN. rewrite HRN in HTN.
    injection HTN as <-. apply LineTemp_at_return; assumption. }
  assert (H7 : holds s7).
  { destruct H5 as (n & Hn & HT). exists n.
    rewrite (keeps_nodes_node_at _ _ _ Hceil), (keeps_nodes_node_at _ _ _ Hfloor). auto. }
  destruct (List.Exists_dec
              (fun NodeNum => at1 (RoomNodeIDs (roles st)) NodeNum = Some Ret)
              (range 1 (NumRoomNodes (roles st)))) as [E | E].
  - intros k. destruct (decide (at1 (RoomNodeIDs (roles st)) k = Some Ret)); [left | right]; auto.
  - (* the return node is also a room node *)
    apply List.Exists_exists in E as (k & Hk & Hkid).
    destruct (Hrooms k Hk) as (rid & Hrid & (m' & Hm' & HT)).
    rewrite Hkid in Hrid. injection Hrid as <-.
    rewrite Hm in Hm'. injection Hm' as <-.
    rewrite HT, (node_static_Height _ _ Hstat). apply LineTemp_at_return; assumption.
  - destruct H7 as (n & Hn & HT).
    rewrite Hother in Hm; [| intros k Hk Hkid; apply E; apply List.Exists_exists; eauto].
    rewrite Hn in Hm. injection Hm as <-. exact HT.
Qed.

(** X6.  After [CalcMundtModel] the return node holds the leaving air
    temperature of the solve, also when another role is bound to its
    index: the ceiling, the control or a room node, whose temperature on
    the line is then the leaving air temperature, or the floor node, whose
    height difference to the return node is then zero.  The slope is
    supposed to be a number and the height of the node finite. *)
Theorem CalcMundtModel_return_node (h : Host) (ZoneNum : Z) (st st' : State) :
  CalcMundtModel h ZoneNum st = Ok tt st' ->
  exists sol n,
    SolveMundt h ZoneNum st = Ok sol st /\
    node_at st' (ReturnNodeID (roles st)) = Some n /\
    (number (Solution.Slope sol) -> finite (DefineLinearModelNode.Height n) ->
     DefineLinearModelNode.Temp n == Solution.TLeaving sol).
Proof.
  intros H.
  destruct (CalcMundtModel_return_node_temp _ _ _ _ H) as (sol & n & Hsol & Hn & HT).
  exists sol, n. split; [exact Hsol |]. split; [exact Hn | exact HT].
Qed.

Lemma CalcMundtModel_return_node_witness :
  exists sol n,
    MundtFootAirID (roles FloorAtReturn_State) = ReturnNodeID (roles FloorAtReturn_State) /\
    SolveMundt Example_Host 1 FloorAtReturn_State = Ok sol FloorAtReturn_State /\
    node_at (final (CalcMundtModel Example_Host 1) FloorAtReturn_State) 6 = Some n /\
    Solution.Slope sol = MaxSlope /\
    DefineLinearModelNode.Temp n == Solution.TLeaving sol.
Proof.
  destruct (CalcMundtModel_return_node Example_Host 1 FloorAtReturn_State
              (final (CalcMundtModel Example_Host 1) FloorAtReturn_State))
    as (sol & n & Hsol & Hn & HT); [vm_compute; reflexivity |].
  exists sol, n. split; [reflexivity |]. split; [exact Hsol |]. split; [exact Hn |].
  pose proof Hsol as Hc. vm_compute in Hc. injection Hc as <-.
  pose proof Hn as Hc. vm_compute in Hc. injection Hc as <-.
  split; [vm_compute; reflexivity |].
  apply HT; vm_compute; exact I.
Defined.

(** ** The role resolver, node by node *)

Lemma preserves_Ok {X A} (g : State -> X) (m : M A) st a st' :
  preserves g m -> m st = Ok a st' -> g st' = g st.
Proof. intros H E. specialize (H st). rewrite E in H. exact H. Qed.

(** One turn of the loop of the resolver: what it binds, counts and
    reports. *)
Lemma setup_body_step NodeNum err st err' st' :
  setup_body NodeNum err st = Ok err' st' ->
  exists n,
    node_at st NodeNum = Some n /\
    without_roles st' = without_roles st /\
    let c := DefineLinearModelNode.ClassType n in
    let r := roles st in
    let r' := roles st' in
    SupplyNodeID r' = (if (c =? InletAirNode)%Z then NodeNum else SupplyNodeID r) /\
    MundtFootAirID r' = (if (c =? FloorAirNode)%Z then NodeNum else MundtFootAirID r) /\
    TstatNodeID r' = (if (c =? ControlAirNode)%Z then NodeNum else TstatNodeID r) /\
    MundtCeilAirID r' = (if (c =? CeilingAirNode)%Z then NodeNum else MundtCeilAirID r) /\
    ReturnNodeID r' = (if (c =? ReturnAirNode)%Z then NodeNum else ReturnNodeID r) /\
    (if (c =? MundtRoomAirNode)%Z
     then NumRoomNodes r' = (NumRoomNodes r + 1)%Z /\
          upd1 (NumRoomNodes r + 1) (fun _ => NodeNum) (RoomNodeIDs r) = Some (RoomNodeIDs r')
     else NumRoomNodes r' = NumRoomNodes r /\ RoomNodeIDs r' = RoomNodeIDs r) /\
    (if StandardClassb c
     then err' = err /\ Messages st' = Messages st
     else err' = true /\ Messages st' = Messages st ++ [NonStandard_message]).
Proof.
  unfold setup_body. intros H.
  apply bind_Ok_inv in H as (n & s0 & Hn & H). apply LineNodeAt_Ok_inv in Hn as [Hn ->].
  exists n. split; [exact Hn |]. cbv zeta in *.
  unfold StandardClassb, InletAirNode, FloorAirNode, ControlAirNode, CeilingAirNode,
    MundtRoomAirNode, ReturnAirNode in *.
  repeat match type of H with
         | (if (?a =? ?b)%Z then _ else _) _ = _ =>
             let E := fresh "E" in destruct (Z.eqb_spec a b) as [E | E]
         end;
    inv_step H; simpl;
    (split; [reflexivity |]);
    repeat match goal with
           | |- context [(?a =? ?b)%Z] =>
               let E := fresh "E" in destruct (Z.eqb_spec a b) as [E | E]; try lia
           end;
    simpl; repeat split; try reflexivity; try assumption.
Qed.

Lemma has_class_frame st st' c NodeNum :
  without_roles st' = without_roles st -> has_class st' c NodeNum = has_class st c NodeNum.
Proof. intros H. unfold has_class. rewrite (without_roles_node_at _ _ _ H). reflexivity. Qed.

Lemma nodes_with_frame st st' c l :
  without_roles st' = without_roles st -> nodes_with st' c l = nodes_with st c l.
Proof.
  intros H. unfold nodes_with. apply List.filter_ext. intros x. apply has_class_frame, H.
Qed.

Lemma nonstandard_frame st st' l :
  without_roles st' = without_roles st ->
  List.filter (nonstandard st') l = List.filter (nonstandard st) l.
Proof.
  intros H. apply List.filter_ext. intros x. unfold nonstandard.
  rewrite (without_roles_node_at _ _ _ H). reflexivity.
Qed.

Lemma nodes_with_cons st c x l n :
  node_at st x = Some n ->
  nodes_with st c (x :: l)
  = if (DefineLinearModelNode.ClassType n =? c)%Z
    then x :: nodes_with st c l else nodes_with st c l.
Proof.
  intros Hn. unfold nodes_with. simpl List.filter. unfold has_class at 1. rewrite Hn.
  reflexivity.
Qed.

(** A role index after the loop: the last node of the list with the tag of
    the role, or the index the role had before. *)
Lemma setup_loop_last (c : Z) (proj : RoleIDs -> Z) :
  (forall NodeNum e s e' s' n,
      setup_body NodeNum e s = Ok e' s' -> node_at s NodeNum = Some n ->
      proj (roles s')
      = if (DefineLinearModelNode.ClassType n =? c)%Z then NodeNum else proj (roles s)) ->
  forall l err st err' st',
    for_fold l err setup_body st = Ok err' st' ->
    proj (roles st') = default (proj (roles st)) (last (nodes_with st c l)).
Proof.
  intros Hbody. induction l as [| x l IH]; intros err st err' st' H.
  - simpl in H. unfold ret in H. injection H as <- <-. reflexivity.
  - simpl in H. apply bind_Ok_inv in H as (e1 & s1 & Hx & H).
    destruct (setup_body_step _ _ _ _ _ Hx) as (n & Hn & Hw & _).
    rewrite (IH _ _ _ _ H), (Hbody _ _ _ _ _ _ Hx Hn), (nodes_with_frame _ _ _ _ Hw).
    rewrite (nodes_with_cons _ _ _ _ _ Hn).
    destruct (DefineLinearModelNode.ClassType n =? c)%Z; [| reflexivity].
    rewrite last_cons. destruct (last (nodes_with st c l)); reflexivity.
Qed.

(** The room nodes after the loop: the nodes of the list with the tag of a
    room node are appended, in the order of the list. *)
Lemma setup_loop_rooms l :
  forall err st err' st',
    for_fold l err setup_body st = Ok err' st' ->
    (0 <= NumRoomNodes (roles st))%Z ->
    let R := nodes_with st MundtRoomAirNode l in
    NumRoomNodes (roles st') = (NumRoomNodes (roles st) + Z.of_nat (length R))%Z /\
    (forall j, (1 <= j <= NumRoomNodes (roles st))%Z ->
               at1 (RoomNodeIDs (roles st')) j = at1 (RoomNodeIDs (roles st)) j) /\
    (forall (k : nat) id, R !! k = Some id ->
       at1 (RoomNodeIDs (roles st')) (NumRoomNodes (roles st) + Z.of_nat k + 1) = Some id).
Proof.
  induction l as [| x l IH]; intros err st err' st' H H0.
  - simpl in H. unfold ret in H. injection H as <- <-. simpl.
    split; [lia |]. split; [reflexivity |]. intros k id Hk. destruct k; discriminate Hk.
  - simpl in H. apply bind_Ok_inv in H as (e1 & s1 & Hx & H).
    destruct (setup_body_step _ _ _ _ _ Hx) as (n & Hn & Hw & _ & _ & _ & _ & _ & Hroom & _).
    cbv zeta in Hroom.
    assert (HR : nodes_with st MundtRoomAirNode (x :: l)
                 = if (DefineLinearModelNode.ClassType n =? MundtRoomAirNode)%Z
                   then x :: nodes_with s1 MundtRoomAirNode l
                   else nodes_with s1 MundtRoomAirNode l).
    { rewrite (nodes_with_frame _ _ _ _ Hw). apply nodes_with_cons, Hn. }
    cbv zeta. rewrite HR. clear HR.
    destruct (DefineLinearModelNode.ClassType n =? MundtRoomAirNode)%Z.
    + destruct Hroom as [HN Hupd].
      destruct (IH _ _ _ _ H) as (HN' & Hkeep & Hnew); [lia |]. cbv zeta in *.
      split; [simpl length; lia |]. split.
      * intros j Hj. rewrite Hkeep by lia.
        apply (at1_upd1_ne _ _ _ _ _ Hupd). lia.
      * intros [| k] id Hk.
        -- simpl in Hk. injection Hk as ->.
           replace (NumRoomNodes (roles st) + Z.of_nat 0 + 1)%Z
             with (NumRoomNodes (roles st) + 1)%Z by lia.
           rewrite Hkeep by lia. rewrite (at1_upd1_eq _ _ _ _ Hupd).
           destruct (upd1_Some_inv _ _ _ _ Hupd) as (y & Hy & _). rewrite Hy. reflexivity.
        -- simpl in Hk. rewrite <- (Hnew k id Hk). f_equal. lia.
    + destruct Hroom as [HN HIDs].
      destruct (IH _ _ _ _ H) as (HN' & Hkeep & Hnew); [lia |]. cbv zeta in *.
      rewrite HN, HIDs in *. auto.
Qed.

Lemma nonstandard_cons st x l n :
  node_at st x = Some n ->
  List.filter (nonstandard st) (x :: l)
  = if StandardClassb (DefineLinearModelNode.ClassType n)
    then List.filter (nonstandard st) l else x :: List.filter (nonstandard st) l.
Proof.
  intros Hn. simpl List.filter. unfold nonstandard at 1. rewrite Hn.
  destruct (StandardClassb (DefineLinearModelNode.ClassType n)); reflexivity.
Qed.

(** The errors of the loop: one severe error for each node with a tag the
    resolver does not know. *)
Lemma setup_loop_messages l :
  forall err st err' st',
    for_fold l err setup_body st = Ok err' st' ->
    let k := length (List.filter (nonstandard st) l) in
    Messages st' = Messages st ++ List.repeat NonStandard_message k /\
    err' = err || (0 <? k)%nat.
Proof.
  induction l as [| x l IH]; intros err st err' st' H.
  - simpl in H. unfold ret in H. injection H as <- <-. simpl.
    rewrite app_nil_r, orb_false_r. auto.
  - simpl in H. apply bind_Ok_inv in H as (e1 & s1 & Hx & H).
    destruct (setup_body_step _ _ _ _ _ Hx) as (n & Hn & Hw & _ & _ & _ & _ & _ & _ & Hmsg).
    cbv zeta in Hmsg. destruct (IH _ _ _ _ H) as [HM He]. cbv zeta in *.
    rewrite (nonstandard_frame _ _ _ Hw) in HM, He.
    rewrite (nonstandard_cons _ _ _ _ Hn).
    destruct (StandardClassb (DefineLinearModelNode.ClassType n)).
    + destruct Hmsg as [-> HM1]. rewrite HM, HM1. auto.
    + destruct Hmsg as [-> HM1]. rewrite HM, HM1, He. simpl length. simpl List.repeat.
      rewrite <- app_assoc. simpl. rewrite orb_true_r. auto.
Qed.

Lemma preserves_floor_copy {X} (g : State -> X) l :
  (forall v st, g (set_FloorSurf v st) = g st) ->
  preserves g (for_each l floor_copy_body).
Proof.
  intros Hg. apply preserves_for_each. intros SurfNum.
  unfold floor_copy_body, FloorSurfSetIDsAt, MundtAirSurfAt.
  repeat (cbv zeta; first [apply preserves_modify; intro; apply Hg | frame_step]).
Qed.

Lemma preserves_setup_loop l err :
  preserves without_role_indices (for_fold l err setup_body).
Proof.
  apply preserves_for_fold. intros NodeNum e.
  unfold setup_body, set_role, ShowSevereError, LineNodeAt. frame.
Qed.

(** The resolver after its loop over the air nodes: the floor surface set
    of the floor node, or the error of a zone without one. *)
Lemma SetupMundtModel_Ok_floor h ZoneNum err st err' st' :
  SetupMundtModel h ZoneNum err st = Ok err' st' ->
  exists err1 st1,
    for_fold (range 1 (TotNumOfZoneAirNodes h ZoneNum)) err setup_body
             (set_roles (set_NumRoomNodes 0%Z (roles st)) st) = Ok err1 st1 /\
    without_role_indices st1 = without_role_indices st /\
    roles st' = roles st1 /\
    if (0 <? MundtFootAirID (roles st1))%Z
    then exists FootNode,
           node_at st (MundtFootAirID (roles st1)) = Some FootNode /\
           err' = err1 /\ Messages st' = Messages st1 /\
           let mask := DefineLinearModelNode.SurfMask FootNode in
           for_each (range 1 (count mask)) floor_copy_body
             (set_FloorSurf (map Default_FloorSurf (FloorSurf st1))
                (set_FloorSurfSetIDs (pack (ID1dSurf st1) mask)
                   (set_NumFloorSurfs (count mask) st1))) = Ok tt st'
    else err' = true /\ st' = set_Messages (Messages st1 ++ [NoFloor_message h ZoneNum]) st1.
Proof.
  unfold SetupMundtModel. intros H.
  apply bind_Ok_inv in H as ([] & s0 & H0 & H). inv_step H0.
  fold setup_body in H.
  apply bind_Ok_inv in H as (err1 & st1 & Hloop & H).
  exists err1, st1. split; [exact Hloop |].
  pose proof (setup_loop_frame _ _ _ _ _ Hloop) as Hw1.
  split; [exact (preserves_Ok _ _ _ _ _ (preserves_setup_loop _ _) Hloop) |].
  apply bind_Ok_inv in H as (s2 & s3 & H0 & H). inv_step H0.
  destruct (Z.ltb_spec 0 (MundtFootAirID (roles st1))) as [Hpos | Hneg].
  - apply bind_Ok_inv in H as (FN & s4 & H0 & H). apply LineNodeAt_Ok_inv in H0 as [HFN ->].
    apply bind_Ok_inv in H as ([] & s4 & H0 & H). inv_step H0.
    apply bind_Ok_inv in H as ([] & s5 & H0 & H). inv_step H0.
    apply bind_Ok_inv in H as ([] & s6 & H0 & H). inv_step H0.
    apply bind_Ok_inv in H as (s7 & s8 & H0 & H). inv_step H0.
    apply bind_Ok_inv in H as ([] & s9 & Hfl & H).
    unfold ret in H. injection H as <- <-.
    simpl NumFloorSurfs in Hfl. simpl FloorSurf in Hfl. simpl ID1dSurf in Hfl.
    fold floor_copy_body in Hfl.
    split.
    + rewrite (preserves_Ok roles _ _ _ _ (preserves_floor_copy roles _ (fun _ _ => eq_refl)) Hfl).
      reflexivity.
    + exists FN. split.
      * rewrite (without_roles_node_at _ _ _ Hw1) in HFN. exact HFN.
      * split; [reflexivity |]. split; [| exact Hfl].
        rewrite (preserves_Ok Messages _ _ _ _ (preserves_floor_copy Messages _ (fun _ _ => eq_refl)) Hfl).
        reflexivity.
  - inv_step H. split; [reflexivity |]. split; reflexivity.
Qed.

(** ** The role resolver *)

Lemma setup_start_frame st :
  without_roles (set_roles (set_NumRoomNodes 0%Z (roles st)) st) = without_roles st.
Proof. reflexivity. Qed.

(** X7.  The resolver counts the room nodes of the zone and lists them in
    ascending order: after it, [NumRoomNodes] is the number of air nodes of
    the zone tagged as room nodes and the first [NumRoomNodes] entries of
    [RoomNodeIDs] are their indices, in the order of the nodes. *)
Theorem SetupMundtModel_room_nodes (h : Host) (ZoneNum : Z) (ErrorsFound : bool)
    (st : State) (ErrorsFound' : bool) (st' : State) :
  SetupMundtModel h ZoneNum ErrorsFound st = Ok ErrorsFound' st' ->
  let R := nodes_with st MundtRoomAirNode (range 1 (TotNumOfZoneAirNodes h ZoneNum)) in
  NumRoomNodes (roles st') = Z.of_nat (length R) /\
  forall (k : nat) NodeID,
    R !! k = Some NodeID -> at1 (RoomNodeIDs (roles st')) (Z.of_nat k + 1) = Some NodeID.
Proof.
  intros H. destruct (SetupMundtModel_Ok_floor _ _ _ _ _ _ H) as (err1 & st1 & Hloop & _ & Hr & _).
  destruct (setup_loop_rooms _ _ _ _ _ Hloop) as (HN & _ & Hnew); [simpl; lia |].
  cbv zeta in *. rewrite (nodes_with_frame _ _ _ _ (setup_start_frame st)) in HN, Hnew.
  simpl in HN, Hnew. rewrite Hr. split; [exact HN |].
  intros k id Hk. rewrite <- (Hnew k id Hk). f_equal. 
Qed.

Lemma SetupMundtModel_room_nodes_witness :
  exists st',
    SetupMundtModel Example_Host 1 false (Ready Example_Host) = Ok false st' /\
    NumRoomNodes (roles st') = 1%Z /\
    at1 (RoomNodeIDs (roles st')) 1 = Some 5%Z.
Proof.
  pose (st' := final (SetupMundtModel Example_Host 1 false) (Ready Example_Host)).
  assert (Hrun : SetupMundtModel Example_Host 1 false (Ready Example_Host) = Ok false st')
    by (vm_compute; reflexivity).
  destruct (SetupMundtModel_room_nodes _ _ _ _ _ _ Hrun) as [HN HR].
  exists st'. split; [exact Hrun |]. split.
  - rewrite HN. vm_compute. reflexivity.
  - apply (HR 0%nat). vm_compute. reflexivity.
Defined.

Lemma setup_resolved (c : Z) (proj : RoleIDs -> Z) N err st err1 st1 :
  for_fold (range 1 N) err setup_body (set_roles (set_NumRoomNodes 0%Z (roles st)) st)
  = Ok err1 st1 ->
  (forall NodeNum e s e' s' n,
      setup_body NodeNum e s = Ok e' s' -> node_at s NodeNum = Some n ->
      proj (roles s')
      = if (DefineLinearModelNode.ClassType n =? c)%Z then NodeNum else proj (roles s)) ->
  (forall r, proj (set_NumRoomNodes 0%Z r) = proj r) ->
  proj (roles st1) = resolved st N c (proj (roles st)).
Proof.
  intros Hloop Hbody Hproj. rewrite (setup_loop_last c proj Hbody _ _ _ _ _ Hloop).
  unfold resolved. rewrite (nodes_with_frame _ _ _ _ (setup_start_frame st)).
  simpl roles. rewrite Hproj. reflexivity.
Qed.

(** X8.  Each of the five single roles is bound to the last air node of
    the zone that carries its tag; a role whose tag no node of the zone
    carries keeps the index it had before the call. *)
Theorem SetupMundtModel_last_wins (h : Host) (ZoneNum : Z) (ErrorsFound : bool)
    (st : State) (ErrorsFound' : bool) (st' : State) :
  SetupMundtModel h ZoneNum ErrorsFound st = Ok ErrorsFound' st' ->
  let N := TotNumOfZoneAirNodes h ZoneNum in
  SupplyNodeID (roles st') = resolved st N InletAirNode (SupplyNodeID (roles st)) /\
  MundtFootAirID (roles st') = resolved st N FloorAirNode (MundtFootAirID (roles st)) /\
  TstatNodeID (roles st') = resolved st N ControlAirNode (TstatNodeID (roles st)) /\
  MundtCeilAirID (roles st') = resolved st N CeilingAirNode (MundtCeilAirID (roles st)) /\
  ReturnNodeID (roles st') = resolved st N ReturnAirNode (ReturnNodeID (roles st)).
Proof.
  intros H. destruct (SetupMundtModel_Ok_floor _ _ _ _ _ _ H) as (err1 & st1 & Hloop & _ & Hr & _).
  cbv zeta. rewrite Hr.
  repeat split.
  - apply (setup_resolved InletAirNode SupplyNodeID _ _ _ _ _ Hloop); [| reflexivity].
    intros NodeNum e s e' s' n Hb Hn.
    destruct (setup_body_step _ _ _ _ _ Hb) as (n' & Hn' & _ & E & _).
    rewrite Hn in Hn'. injection Hn' as <-. exact E.
  - apply (setup_resolved FloorAirNode MundtFootAirID _ _ _ _ _ Hloop); [| reflexivity].
    intros NodeNum e s e' s' n Hb Hn.
    destruct (setup_body_step _ _ _ _ _ Hb) as (n' & Hn' & _ & _ & E & _).
    rewrite Hn in Hn'. injection Hn' as <-. exact E.
  - apply (setup_resolved ControlAirNode TstatNodeID _ _ _ _ _ Hloop); [| reflexivity].
    intros NodeNum e s e' s' n Hb Hn.
    destruct (setup_body_step _ _ _ _ _ Hb) as (n' & Hn' & _ & _ & _ & E & _).
    rewrite Hn in Hn'. injection Hn' as <-. exact E.
  - apply (setup_resolved CeilingAirNode MundtCeilAirID _ _ _ _ _ Hloop); [| reflexivity].
    intros NodeNum e s e' s' n Hb Hn.
    destruct (setup_body_step _ _ _ _ _ Hb) as (n' & Hn' & _ & _ & _ & _ & E & _).
    rewrite Hn in Hn'. injection Hn' as <-. exact E.
  - apply (setup_resolved ReturnAirNode ReturnNodeID _ _ _ _ _ Hloop); [| reflexivity].
    intros NodeNum e s e' s' n Hb Hn.
    destruct (setup_body_step _ _ _ _ _ Hb) as (n' & Hn' & _ & _ & _ & _ & _ & E & _).
    rewrite Hn in Hn'. injection Hn' as <-. exact E.
Qed.

Lemma SetupMundtModel_last_wins_witness :
  exists st',
    SetupMundtModel Example_Host 1 false TwoFloors_State = Ok false st' /\
    nodes_with TwoFloors_State FloorAirNode (range 1 6) = [2; 3]%Z /\
    MundtFootAirID (roles st') = 3%Z /\
    TstatNodeID (roles st') = TstatNodeID (roles TwoFloors_State).
Proof.
  pose (st' := final (SetupMundtModel Example_Host 1 false) TwoFloors_State).
  assert (Hrun : SetupMundtModel Example_Host 1 false TwoFloors_State = Ok false st')
    by (vm_compute; reflexivity).
  destruct (SetupMundtModel_last_wins _ _ _ _ _ _ Hrun) as (_ & HF & HT & _).
  exists st'. split; [exact Hrun |]. split; [vm_compute; reflexivity |].
  split.
  - rewrite HF. vm_compute. reflexivity.
  - rewrite HT. vm_compute. reflexivity.
Defined.

(** X9.  The resolver reports one severe error for each air node of the
    zone whose tag it does not know and one more when, after its loop, no
    floor node is bound; its error flag is the flag it was called with, or
    raised when it has reported an error. *)
Theorem SetupMundtModel_errors (h : Host) (ZoneNum : Z) (ErrorsFound : bool)
    (st : State) (ErrorsFound' : bool) (st' : State) :
  SetupMundtModel h ZoneNum ErrorsFound st = Ok ErrorsFound' st' ->
  let k := length (List.filter (nonstandard st) (range 1 (TotNumOfZoneAirNodes h ZoneNum))) in
  let nofloor := (MundtFootAirID (roles st') <=? 0)%Z in
  Messages st'
  = Messages st ++ List.repeat NonStandard_message k
    ++ (if nofloor then [NoFloor_message h ZoneNum] else []) /\
  ErrorsFound' = ErrorsFound || (0 <? k)%nat || nofloor.
Proof.
  intros H.
  destruct (SetupMundtModel_Ok_floor _ _ _ _ _ _ H) as (err1 & st1 & Hloop & _ & Hr & Hfloor).
  destruct (setup_loop_messages _ _ _ _ _ Hloop) as [HM He]. cbv zeta in *.
  rewrite (nonstandard_frame _ _ _ (setup_start_frame st)) in HM, He. simpl in HM.
  rewrite Hr. rewrite (Z.leb_antisym 0 (MundtFootAirID (roles st1))).
  destruct (0 <? MundtFootAirID (roles st1))%Z.
  - destruct Hfloor as (FN & _ & -> & HM' & _). simpl negb. cbv iota.
    rewrite HM', HM, app_nil_r, orb_false_r. auto.
  - destruct Hfloor as [-> ->]. simpl negb. cbv iota. simpl Messages.
    rewrite HM, <- app_assoc, orb_true_r. auto.
Qed.

Lemma SetupMundtModel_errors_witness :
  exists st',
    SetupMundtModel Example_Host 1 false Odd_State = Ok true st' /\
    Messages st' = Messages Odd_State ++ [NonStandard_message].
Proof.
  pose (st' := final (SetupMundtModel Example_Host 1 false) Odd_State).
  assert (Hrun : SetupMundtModel Example_Host 1 false Odd_State = Ok true st')
    by (vm_compute; reflexivity).
  destruct (SetupMundtModel_errors _ _ _ _ _ _ Hrun) as [HM _].
  exists st'. split; [exact Hrun |]. rewrite HM. vm_compute. reflexivity.
Defined.

(** ** The floor surface set *)

Lemma add_zero_r (a x : Real64) : x == 0 -> a + x == a.
Proof. destruct a, x; simpl; try tauto. intros ->. ring. Qed.

Lemma fold_zero (l : list Real64) :
  Forall (fun x => x == 0) l -> forall a b : Real64, a == b -> fold_left R64.add l a == b.
Proof.
  induction 1 as [| x l Hx Hl IH]; intros a b Hab; simpl; [exact Hab |].
  apply IH. apply (R64Facts.eqv_trans _ a); [apply add_zero_r; exact Hx | exact Hab].
Qed.

(** Entries behind the first [n] that add nothing can be left out of a
    sum. *)
Lemma sum_take {A} (g : A -> Real64) (l : list A) (n : nat) :
  (forall k x, (n <= k)%nat -> l !! k = Some x -> g x == 0) ->
  sum (map g l) == sum (map g (take n l)).
Proof.
  intros H. rewrite <- (take_drop n l) at 1. rewrite map_app. unfold sum.
  rewrite fold_left_app. apply fold_zero; [| apply R64Facts.eqv_refl].
  apply Forall_map_iff. apply Forall_forall. intros x Hx.
  apply list_elem_of_lookup in Hx as [k Hk].
  rewrite lookup_drop in Hk. apply (H (n + k)%nat); [lia | exact Hk].
Qed.

Lemma at1_map {A B} (f : A -> B) (l : list A) i : at1 (map f l) i = option_map f (at1 l i).
Proof.
  unfold at1. destruct (1 <=? i)%Z; [| reflexivity]. rewrite list_lookup_fmap.
  destruct (l !! Z.to_nat (i - 1)); reflexivity.
Qed.

(** A floor surface with the area, the film coefficient and the
    temperature of the surface [s]. *)
Lemma floor_copy_loop (l : list Z) :
  List.NoDup l ->
  forall s s',
    for_each l floor_copy_body s = Ok tt s' ->
    set_FloorSurf [] s' = set_FloorSurf [] s /\
    length (FloorSurf s') = length (FloorSurf s) /\
    (forall k, ~ In k l -> at1 (FloorSurf s') k = at1 (FloorSurf s) k) /\
    (forall k, In k l ->
       exists id x f,
         at1 (FloorSurfSetIDs s) k = Some id /\ surf_at s id = Some x /\
         at1 (FloorSurf s') k = Some f /\
         DefineSurfaceSettings.Area f = DefineSurfaceSettings.Area x /\
         DefineSurfaceSettings.Hc f = DefineSurfaceSettings.Hc x /\
         DefineSurfaceSettings.Temp f = DefineSurfaceSettings.Temp x).
Proof.
  intros Hnd. induction Hnd as [| k0 l Hnotin Hnd IH]; intros s s' H.
  - simpl in H. unfold ret in H. injection H as <-.
    repeat split; try reflexivity. intros k [].
  - simpl in H. apply bind_Ok_inv in H as ([] & s1 & Hb & H).
    unfold floor_copy_body in Hb.
    apply bind_Ok_inv in Hb as (id & s0 & Hid & Hb).
    unfold FloorSurfSetIDsAt in Hid. inv_step Hid.
    apply bind_Ok_inv in Hb as (x & s0 & Hx & Hb).
    unfold MundtAirSurfAt in Hx. inv_step Hx.
    apply bind_Ok_inv in Hb as (s0 & s00 & Hg & Hb). inv_step Hg.
    apply bind_Ok_inv in Hb as (FS & s0 & Hupd & Hb). inv_step Hupd. inv_step Hb.
    destruct (IH _ _ H) as (Hfr & Hlen & Hout & Hin). simpl in Hfr, Hlen, Hout, Hin.
    change (surf_at (set_FloorSurf FS s)) with (surf_at s) in Hin.
    split; [exact Hfr |]. split; [rewrite Hlen; apply (upd1_length _ _ _ _ E1) |].
    split.
    + intros k Hk. rewrite Hout by (intros Hk'; apply Hk; right; exact Hk').
      apply (at1_upd1_ne _ _ _ _ _ E1). intros ->. apply Hk. left. reflexivity.
    + intros k [<- | Hk].
      * rewrite (Hout k0 Hnotin), (at1_upd1_eq _ _ _ _ E1).
        destruct (upd1_Some_inv _ _ _ _ E1) as (f0 & Hf0 & _). rewrite Hf0.
        eexists id, x, _. split; [exact E |]. split; [exact E0 |].
        split; [reflexivity |]. simpl. auto.
      * apply Hin, Hk.
Qed.

Lemma without_role_indices_fields st st' :
  without_role_indices st' = without_role_indices st ->
  FloorSurf st' = FloorSurf st /\ ID1dSurf st' = ID1dSurf st /\
  MundtAirSurf st' = MundtAirSurf st /\ MundtZoneNum st' = MundtZoneNum st.
Proof.
  intros H. repeat split.
  - apply (f_equal FloorSurf) in H. exact H.
  - apply (f_equal ID1dSurf) in H. exact H.
  - apply (f_equal MundtAirSurf) in H. exact H.
  - apply (f_equal MundtZoneNum) in H. exact H.
Qed.

(** X10.  With a floor node bound, the resolver makes the floor surface set
    from the mask of the floor node: the number of floor surfaces is the
    count of the mask, their indices are those of the set bits, each of the
    first entries of [FloorSurf] holds area, film coefficient and
    temperature of its surface, and the entries behind them hold area 0,
    film coefficient 0 and 25 C, so that the sums over [FloorSurf] are the
    sums over the floor surfaces of this zone. *)
Theorem SetupMundtModel_floor_set (h : Host) (ZoneNum : Z) (ErrorsFound : bool)
    (st : State) (ErrorsFound' : bool) (st' : State) (FootNode : DefineLinearModelNode.t) :
  SetupMundtModel h ZoneNum ErrorsFound st = Ok ErrorsFound' st' ->
  (0 < MundtFootAirID (roles st'))%Z ->
  node_at st (MundtFootAirID (roles st')) = Some FootNode ->
  let mask := DefineLinearModelNode.SurfMask FootNode in
  NumFloorSurfs st' = count mask /\
  FloorSurfSetIDs st' = pack (ID1dSurf st) mask /\
  length (FloorSurf st') = length (FloorSurf st) /\
  (forall k, (1 <= k <= count mask)%Z ->
     exists SurfID s f,
       at1 (FloorSurfSetIDs st') k = Some SurfID /\ surf_at st SurfID = Some s /\
       at1 (FloorSurf st') k = Some f /\
       DefineSurfaceSettings.Area f = DefineSurfaceSettings.Area s /\
       DefineSurfaceSettings.Hc f = DefineSurfaceSettings.Hc s /\
       DefineSurfaceSettings.Temp f = DefineSurfaceSettings.Temp s) /\
  (forall k f, (count mask < k)%Z -> at1 (FloorSurf st') k = Some f ->
     DefineSurfaceSettings.Area f = 0.0 /\ DefineSurfaceSettings.Hc f = 0.0 /\
     DefineSurfaceSettings.Temp f = 25.0) /\
  FloorSumHA st'
  == sum (map (fun f => DefineSurfaceSettings.Area f * DefineSurfaceSettings.Hc f)
              (take (Z.to_nat (count mask)) (FloorSurf st'))) /\
  FloorSumHAT st'
  == sum (map (fun f => DefineSurfaceSettings.Area f * DefineSurfaceSettings.Hc f
                        * DefineSurfaceSettings.Temp f)
              (take (Z.to_nat (count mask)) (FloorSurf st'))).
Proof.
  intros H Hpos HFN.
  destruct (SetupMundtModel_Ok_floor _ _ _ _ _ _ H) as (err1 & st1 & Hloop & Hw & Hr & Hfloor).
  rewrite Hr in Hpos, HFN.
  destruct (Z.ltb_spec 0 (MundtFootAirID (roles st1))) as [_ | Hneg]; [| lia].
  destruct Hfloor as (FN & HFN' & _ & _ & Hfl). rewrite HFN in HFN'. injection HFN' as <-.
  cbv zeta in *. set (mask := DefineLinearModelNode.SurfMask FootNode) in *.
  destruct (without_role_indices_fields _ _ Hw) as (HFS & HID & HMS & HZ).
  rewrite HFS, HID in Hfl.
  destruct (floor_copy_loop _ (range_NoDup 1 (count mask)) _ _ Hfl)
    as (Hfr & Hlen & Hout & Hin).
  simpl in Hlen, Hout, Hin. rewrite length_map in Hlen.
  assert (Hbeyond : forall k f, (count mask < k)%Z -> at1 (FloorSurf st') k = Some f ->
            DefineSurfaceSettings.Area f = 0.0 /\ DefineSurfaceSettings.Hc f = 0.0 /\
            DefineSurfaceSettings.Temp f = 25.0).
  { intros k f Hk Hf. rewrite Hout in Hf by (rewrite range_In; lia).
    rewrite at1_map in Hf. destruct (at1 (FloorSurf st) k); [| discriminate].
    simpl in Hf. injection Hf as <-. simpl. auto. }
  assert (Htail : forall (k : nat) f, (Z.to_nat (count mask) <= k)%nat ->
            FloorSurf st' !! k = Some f ->
            DefineSurfaceSettings.Area f = 0.0 /\ DefineSurfaceSettings.Hc f = 0.0 /\
            DefineSurfaceSettings.Temp f = 25.0).
  { intros k f Hk Hf. apply (Hbeyond (Z.of_nat k + 1)%Z); [pose proof (count_nonneg mask); lia |].
    rewrite at1_lookup. exact Hf. }
  split; [apply (f_equal NumFloorSurfs) in Hfr; exact Hfr |].
  split; [apply (f_equal FloorSurfSetIDs) in Hfr; exact Hfr |].
  split; [exact Hlen |]. split; [| split; [exact Hbeyond | split]].
  - intros k Hk. destruct (Hin k) as (id & x & f & Hid & Hx & Hf & HA & HH & HT);
      [apply range_In; exact Hk |].
    exists id, x, f. split.
    + apply (f_equal FloorSurfSetIDs) in Hfr. simpl in Hfr. rewrite Hfr. exact Hid.
    + split; [| auto]. unfold surf_at in *. simpl in Hx. rewrite <- HMS, <- HZ. exact Hx.
  - unfold FloorSumHA. apply sum_take. intros k f Hk Hf.
    destruct (Htail k f Hk Hf) as (-> & -> & _). vm_compute. reflexivity.
  - unfold FloorSumHAT. apply sum_take. intros k f Hk Hf.
    destruct (Htail k f Hk Hf) as (-> & -> & ->). vm_compute. reflexivity.
Qed.

Lemma SetupMundtModel_floor_set_witness :
  exists st',
    SetupMundtModel Example_Host 1 false (Ready Example_Host) = Ok false st' /\
    NumFloorSurfs st' = 1%Z /\
    FloorSurfSetIDs st' = [1%Z] /\
    FloorSumHA st'
    == sum (map (fun f => DefineSurfaceSettings.Area f * DefineSurfaceSettings.Hc f)
                (take 1 (FloorSurf st'))).
Proof.
  pose (st' := final (SetupMundtModel Example_Host 1 false) (Ready Example_Host)).
  pose (n := default Default_LineNode (node_at (Ready Example_Host) 2)).
  assert (Hrun : SetupMundtModel Example_Host 1 false (Ready Example_Host) = Ok false st')
    by (vm_compute; reflexivity).
  assert (Hpos : (0 < MundtFootAirID (roles st'))%Z) by (vm_compute; reflexivity).
  assert (Hn : node_at (Ready Example_Host) (MundtFootAirID (roles st')) = Some n)
    by (vm_compute; reflexivity).
  destruct (SetupMundtModel_floor_set _ _ _ _ _ _ n Hrun Hpos Hn)
    as (HN & HIDs & _ & _ & _ & HHA & _).
  exists st'. split; [exact Hrun |].
  split; [rewrite HN; vm_compute; reflexivity |].
  split; [rewrite HIDs; vm_compute; reflexivity |].
  exact HHA.
Defined.

(** ** The inbound adapter *)

(** The scalar working state the inbound adapter leaves. *)
Lemma GetSurfHBDataForMundtModel_work h ZoneNum st st' :
  GetSurfHBDataForMundtModel h ZoneNum st = Ok tt st' ->
  let flow := NodeMassFlowRate h (SystemZoneNodeNumber h ZoneNum) in
  let w := work st' in
  ZoneAirDensity w
  = PsyRhoAirFnPbTdbW h (OutBaroPress h) (MAT h ZoneNum)
                      (PsyWFnTdpPb h (MAT h ZoneNum) (OutBaroPress h)) /\
  SupplyAirVolumeRate w = flow / ZoneAirDensity w /\
  (if R64.leb flow 0.0001
   then QsysCoolTot w = 0.0 /\ SupplyAirTemp w = SupplyAirTemp (work st)
   else QsysCoolTot w
        = - (snd (InletSums h ZoneNum st)
             - flow * PsyCpAirFnWTdb h (ZoneAirHumRat h ZoneNum) (MAT h ZoneNum)
               * MAT h ZoneNum) /\
        SupplyAirTemp w
        = if R64.leb (fst (InletSums h ZoneNum st)) 0.0
          then NodeTemp (hostv st) (InletNode h ZoneNum 1)
          else snd (InletSums h ZoneNum st) / fst (InletSums h ZoneNum st)).
Proof.
  unfold GetSurfHBDataForMundtModel. intros H.
  destruct (IsControlled h ZoneNum); simpl in H; [| discriminate].
  apply bind_Ok_inv in H as (s0 & s1 & H0 & H). inv_step H0.
  fold (InletSums h ZoneNum st) in H.
  cbv zeta in *.
  destruct (R64.leb (NodeMassFlowRate h (SystemZoneNodeNumber h ZoneNum)) 0.0001).
  - apply bind_Ok_inv in H as ([] & s1 & H0 & H). inv_step H0.
    apply bind_Ok_inv in H as (zd & s1 & H0 & H). inv_step H0.
    fold (get_surf_body h zd) in H.
    apply get_surf_loop_spec in H as ((Hw & _) & _).
    apply (f_equal work) in Hw. simpl in Hw. rewrite Hw. simpl. auto.
  - destruct (InletSums h ZoneNum st) as [S1 S2] eqn:ES.
    apply bind_Ok_inv in H as ([] & s1 & H0 & H). inv_step H0.
    apply bind_Ok_inv in H as (zd & s1 & H0 & H). inv_step H0.
    fold (get_surf_body h zd) in H.
    apply get_surf_loop_spec in H as ((Hw & _) & _).
    apply (f_equal work) in Hw. simpl in Hw. rewrite Hw. simpl. auto.
Qed.

(** The inbound half of a call ends with the inbound adapter. *)
Lemma Inbound_GetSurf h ZoneNum st s1 :
  Inbound h ZoneNum st = Ok tt s1 ->
  exists s0,
    GetSurfHBDataForMundtModel h ZoneNum s0 = Ok tt s1 /\
    (FirstTimeFlag st = false ->
     exists zd, at1 (ZoneData st) ZoneNum = Some zd /\
                s0 = set_MundtZoneNum (DefineZoneData.MundtZoneIndex zd) st).
Proof.
  unfold Inbound. intros H.
  apply bind_Ok_inv in H as (s & s0 & Hg & H). unfold get in Hg. injection Hg as <- <-.
  apply bind_Ok_inv in H as ([] & sa & Hinit & H).
  apply bind_Ok_inv in H as (s & s0 & Hg & H). unfold get in Hg. injection Hg as <- <-.
  apply bind_Ok_inv in H as (zd & s0 & Hzd & H). apply checked_Ok_inv in Hzd as [Hzd ->].
  apply bind_Ok_inv in H as ([] & s0 & Hm & H). unfold modify in Hm. injection Hm as <-.
  eexists. split; [exact H |].
  intros Hflag. rewrite Hflag in Hinit. unfold ret in Hinit. injection Hinit as <-.
  exists zd. split; [exact Hzd | reflexivity].
Qed.

(** X11.  When the mass flow rate at the system node of the zone is at most
    0.0001, the inbound adapter sets the cooling load to zero and keeps
    the supply air temperature it had; the call then skips resolver and
    solver and reports the zone as well mixed: every surface of the zone
    gets the mean air temperature of the zone, and the flag of the model
    is cleared. *)
Theorem ManageMundtModel_flow_off (h : Host) (ZoneNum : Z) (st st' : State) :
  ManageMundtModel h ZoneNum st = Ok tt st' ->
  NodeMassFlowRate h (SystemZoneNodeNumber h ZoneNum) <= 0.0001 ->
  exists s1 zd,
    Inbound h ZoneNum st = Ok tt s1 /\
    QsysCoolTot (work s1) = 0.0 /\
    (FirstTimeFlag st = false -> SupplyAirTemp (work s1) = SupplyAirTemp (work st)) /\
    SetSurfHBDataForMundtModel h ZoneNum s1 = Ok tt st' /\
    at1 (ZoneData s1) ZoneNum = Some zd /\
    (forall SurfNum, (1 <= SurfNum <= DefineZoneData.NumOfSurfs zd)%Z ->
       TempEffBulkAir (hostv st') (DefineZoneData.SurfFirst zd + SurfNum - 1)%Z = MAT h ZoneNum /\
       SurfaceTAirRef (hostv st') (DefineZoneData.SurfFirst zd + SurfNum - 1)%Z
       = ZoneMeanAirTemp) /\
    SimAirModel (hostv st') ZoneNum = false.
Proof.
  intros Hrun Hflow.
  destruct (ManageMundtModel_Ok_inv _ _ _ _ Hrun) as (s1 & Hin & Hgate).
  destruct (Inbound_GetSurf _ _ _ _ Hin) as (s0 & Hget & Hfirst).
  pose proof (GetSurfHBDataForMundtModel_work _ _ _ _ Hget) as (_ & _ & Hload).
  cbv zeta in Hload.
  assert (Hle : R64.leb (NodeMassFlowRate h (SystemZoneNodeNumber h ZoneNum)) 0.0001 = true)
    by (apply R64Facts.leb_le; exact Hflow).
  rewrite Hle in Hload. destruct Hload as [HQ HT].
  assert (Hoff : SystemOn (work s1) = false).
  { apply SystemOn_off. right. rewrite HQ. vm_compute. discriminate. }
  rewrite Hoff in Hgate.
  destruct (SetSurfHBDataForMundtModel_off _ _ _ _ Hgate Hoff) as (zd & Hzd & Hsurf & Hsim).
  exists s1, zd. split; [exact Hin |]. split; [exact HQ |]. split.
  - intros Hflag. destruct (Hfirst Hflag) as (zd0 & _ & ->). exact HT.
  - repeat split; auto; apply Hsurf; assumption.
Qed.

Lemma ManageMundtModel_flow_off_witness :
  exists s1 st',
    ManageMundtModel SystemOff_Host 1 After_Cooling = Ok tt st' /\
    Inbound SystemOff_Host 1 After_Cooling = Ok tt s1 /\
    QsysCoolTot (work s1) = 0.0 /\
    SupplyAirTemp (work s1) = SupplyAirTemp (work After_Cooling) /\
    SimAirModel (hostv st') 1 = false.
Proof.
  pose (st' := final (ManageMundtModel SystemOff_Host 1) After_Cooling).
  assert (Hrun : ManageMundtModel SystemOff_Host 1 After_Cooling = Ok tt st')
    by (vm_compute; reflexivity).
  assert (Hflow : NodeMassFlowRate SystemOff_Host (SystemZoneNodeNumber SystemOff_Host 1)
                  <= 0.0001) by (vm_compute; discriminate).
  destruct (ManageMundtModel_flow_off _ _ _ _ Hrun Hflow)
    as (s1 & zd & Hin & HQ & HT & _ & _ & _ & Hsim).
  exists s1, st'. split; [exact Hrun |]. split; [exact Hin |]. split; [exact HQ |].
  split; [apply HT; vm_compute; reflexivity | exact Hsim].
Defined.

Lemma mul_finite_inv (x y : Real64) :
  finite (x * y) -> exists a b, x = Finite a /\ y = Finite b.
Proof.
  destruct x as [a | | |], y as [b | | |]; simpl;
    try (intros _; eexists _, _; split; reflexivity);
    try contradiction;
    try (destruct (_ ?= _)%Q; simpl; contradiction).
Qed.

(** The sums over inlet nodes with finite capacity rates, none negative,
    and temperatures between [lo] and [hi]: both are finite, the sum of
    the capacity rates is not negative and the other sum lies between
    [lo] and [hi] times the sum of the capacity rates. *)
Lemma inlet_sums_bounds (h : Host) (ZoneNum : Z) (st : State) (lo hi : Q) (l : list Z) :
  (forall NodeNum, In NodeNum l ->
     0 <= InletCapacityRate h ZoneNum st NodeNum /\
     finite (InletCapacityRate h ZoneNum st NodeNum) /\
     Finite lo <= NodeTemp (hostv st) (InletNode h ZoneNum NodeNum) <= Finite hi) ->
  forall a b : Q,
    (0 <= a /\ lo * a <= b <= hi * a)%Q ->
    exists a' b' : Q,
      fold_left (fun acc NodeNum =>
        let NodeTemp' := NodeTemp (hostv st) (InletNode h ZoneNum NodeNum) in
        let MassFlowRate := NodeMassFlowRate h (InletNode h ZoneNum NodeNum) in
        let CpAir := PsyCpAirFnWTdb h (ZoneAirHumRat h ZoneNum) NodeTemp' in
        (fst acc + MassFlowRate * CpAir, snd acc + MassFlowRate * CpAir * NodeTemp'))
        l (Finite a, Finite b)
      = (Finite a', Finite b') /\
      (0 <= a' /\ lo * a' <= b' <= hi * a')%Q.
Proof.
  induction l as [| x l IH]; intros Hl a b Hacc; [exists a, b; split; [reflexivity | exact Hacc] |].
  simpl fold_left.
  destruct (Hl x (or_introl eq_refl)) as (Hw & Hfin & HTlo & HThi).
  unfold InletCapacityRate in Hw, Hfin.
  destruct (mul_finite_inv _ _ Hfin) as (m & cp & Em & Ecp).
  destruct (NodeTemp (hostv st) (InletNode h ZoneNum x)) as [T | | |] eqn:ET;
    try contradiction.
  cbv zeta. rewrite Em, Ecp in *. simpl in Hw, HTlo, HThi. simpl.
  apply IH; [intros y Hy; apply Hl; right; exact Hy |].
  destruct Hacc as (H0 & H1 & H2).
  assert (Hlo : (lo * (m * cp) <= m * cp * T)%Q).
  { rewrite (Qmult_comm (m * cp) T). apply Qmult_le_compat_r; assumption. }
  assert (Hhi : (m * cp * T <= hi * (m * cp))%Q).
  { rewrite (Qmult_comm (m * cp) T). apply Qmult_le_compat_r; assumption. }
  split; [lra |]. split; lra.
Qed.

(** X12.  With the system on, the supply air temperature of the inbound
    adapter is a mean of the temperatures of the inlet nodes of the zone,
    weighted with their thermal capacity rates: with every capacity rate
    finite and none negative it lies between the lowest and the highest
    inlet temperature.  When the capacity rates add up to nothing it is
    the temperature of the first inlet node. *)
Theorem GetSurfHBDataForMundtModel_supply_temp (h : Host) (ZoneNum : Z) (st st' : State)
    (lo hi : Real64) :
  GetSurfHBDataForMundtModel h ZoneNum st = Ok tt st' ->
  0.0001 < NodeMassFlowRate h (SystemZoneNodeNumber h ZoneNum) ->
  (1 <= NumInletNodes h ZoneNum)%Z ->
  finite lo -> finite hi ->
  (forall NodeNum, (1 <= NodeNum <= NumInletNodes h ZoneNum)%Z ->
     0 <= InletCapacityRate h ZoneNum st NodeNum /\
     finite (InletCapacityRate h ZoneNum st NodeNum) /\
     lo <= NodeTemp (hostv st) (InletNode h ZoneNum NodeNum) <= hi) ->
  lo <= SupplyAirTemp (work st') <= hi /\
  (fst (InletSums h ZoneNum st) <= 0 ->
   SupplyAirTemp (work st') = NodeTemp (hostv st) (InletNode h ZoneNum 1)) /\
  (0 < fst (InletSums h ZoneNum st) ->
   SupplyAirTemp (work st') = snd (InletSums h ZoneNum st) / fst (InletSums h ZoneNum st)).
Proof.
  intros Hrun Hflow Hone Hlo Hhi Hin.
  pose proof (GetSurfHBDataForMundtModel_work _ _ _ _ Hrun) as (_ & _ & Hload).
  cbv zeta in Hload.
  destruct (R64.leb (NodeMassFlowRate h (SystemZoneNodeNumber h ZoneNum)) 0.0001) eqn:E.
  { apply R64Facts.leb_le in E. destruct (R64Facts.lt_not_le _ _ Hflow E). }
  destruct Hload as [_ HT]. rewrite HT.
  destruct lo as [l | | |]; try contradiction.
  destruct hi as [u | | |]; try contradiction.
  destruct (inlet_sums_bounds h ZoneNum st l u (range 1 (NumInletNodes h ZoneNum))
              (fun i Hi => Hin i (proj1 (range_In _ _ _) Hi)) 0.0 0.0)
    as (a & b & ES & H0 & H1 & H2).
  { lra. }
  change (InletSums h ZoneNum st = (Finite a, Finite b)) in ES.
  rewrite ES. simpl fst. simpl snd.
  destruct (R64.leb (Finite a) 0.0) eqn:E0.
  - split; [apply Hin; lia |]. split; [reflexivity |].
    intros Hpos. apply R64Facts.leb_le in E0. simpl in E0, Hpos. lra.
  - apply R64Facts.leb_nle in E0. simpl in E0.
    assert (Ha : (0 < a)%Q) by lra.
    split; [| split; [intros Hle; simpl in Hle; lra | reflexivity]].
    rewrite R64Facts.div_finite by lra. simpl. split.
    + apply Qle_shift_div_l; [exact Ha | exact H1].
    + apply Qle_shift_div_r; [exact Ha | exact H2].
Qed.

(** Two inlets with 0.3 kg/s at 12 C and 0.2 kg/s at 20 C give supply air
    at 15.2 C, between 12 C and 20 C; the same inlets without flow give
    the 12 C of the first. *)
Lemma GetSurfHBDataForMundtModel_supply_temp_witness :
  (exists st',
     GetSurfHBDataForMundtModel TwoInlet_Host 1 TwoInlet_State = Ok tt st' /\
     12.0 <= SupplyAirTemp (work st') <= 20.0 /\
     SupplyAirTemp (work st') == 15.2) /\
  (exists st',
     GetSurfHBDataForMundtModel NoInletFlow_Host 1 TwoInlet_State = Ok tt st' /\
     12.0 <= SupplyAirTemp (work st') <= 20.0 /\
     SupplyAirTemp (work st') = 12.0).
Proof.
  split.
  - pose (st' := final (GetSurfHBDataForMundtModel TwoInlet_Host 1) TwoInlet_State).
    assert (Hrun : GetSurfHBDataForMundtModel TwoInlet_Host 1 TwoInlet_State = Ok tt st')
      by (vm_compute; reflexivity).
    exists st'. split; [exact Hrun |].
    destruct (GetSurfHBDataForMundtModel_supply_temp TwoInlet_Host 1 TwoInlet_State st'
                12.0 20.0 Hrun) as (Hbounds & _ & Hmean).
    + vm_compute. reflexivity.
    + vm_compute. discriminate.
    + exact I.
    + exact I.
    + intros NodeNum HNode.
      assert (HN : NodeNum = 1%Z \/ NodeNum = 2%Z) by (change (1 <= NodeNum <= 2)%Z in HNode; lia).
      destruct HN as [-> | ->]; vm_compute; repeat split; discriminate.
    + split; [exact Hbounds |].
      rewrite Hmean by (vm_compute; reflexivity). vm_compute. reflexivity.
  - pose (st' := final (GetSurfHBDataForMundtModel NoInletFlow_Host 1) TwoInlet_State).
    assert (Hrun : GetSurfHBDataForMundtModel NoInletFlow_Host 1 TwoInlet_State = Ok tt st')
      by (vm_compute; reflexivity).
    exists st'. split; [exact Hrun |].
    destruct (GetSurfHBDataForMundtModel_supply_temp NoInletFlow_Host 1 TwoInlet_State st'
                12.0 20.0 Hrun) as (Hbounds & Hzero & _).
    + vm_compute. reflexivity.
    + vm_compute. discriminate.
    + exact I.
    + exact I.
    + intros NodeNum HNode.
      assert (HN : NodeNum = 1%Z \/ NodeNum = 2%Z) by (change (1 <= NodeNum <= 2)%Z in HNode; lia).
      destruct HN as [-> | ->]; vm_compute; repeat split; discriminate.
    + split; [exact Hbounds |].
      rewrite Hzero by (vm_compute; discriminate). vm_compute. reflexivity.
Defined.

(** ** The outbound adapter *)

Lemma preserves_for_each_In {X B} (g : State -> X) (l : list B) (body : B -> M unit) :
  (forall x, In x l -> preserves g (body x)) -> preserves g (for_each l body).
Proof.
  induction l as [| x l IH]; intros H; simpl.
  - apply preserves_ret.
  - apply preserves_bind; [apply H; left; reflexivity |].
    intros _. apply IH. intros y Hy. apply H. right. exact Hy.
Qed.

Lemma fupd_other {V} (f : Z -> V) k v j : j <> k -> fupd f k v j = f j.
Proof. intros H. unfold fupd. destruct (Z.eqb_spec j k); [contradiction | reflexivity]. Qed.

(** The host variables the outbound adapter leaves alone: those of the
    surfaces outside the zone, of the other system nodes and of the other
    zones. *)
Lemma SetSurfHBDataForMundtModel_others h ZoneNum st st' :
  SetSurfHBDataForMundtModel h ZoneNum st = Ok tt st' ->
  exists zd,
    at1 (ZoneData st) ZoneNum = Some zd /\
    (forall i, ~ (DefineZoneData.SurfFirst zd <= i
                  <= DefineZoneData.SurfFirst zd + DefineZoneData.NumOfSurfs zd - 1)%Z ->
       TempEffBulkAir (hostv st') i = TempEffBulkAir (hostv st) i /\
       SurfaceTAirRef (hostv st') i = SurfaceTAirRef (hostv st) i) /\
    (forall j, j <> SystemZoneNodeNumber h ZoneNum ->
       NodeTemp (hostv st') j = NodeTemp (hostv st) j) /\
    (forall z, z <> ZoneNum ->
       TempTstatAir (hostv st') z = TempTstatAir (hostv st) z /\
       SimAirModel (hostv st') z = SimAirModel (hostv st) z).
Proof.
  unfold SetSurfHBDataForMundtModel. intros H.
  apply bind_Ok_inv in H as (s0 & s1 & H0 & H). unfold get in H0. injection H0 as <- <-.
  apply bind_Ok_inv in H as (zd & s1 & H0 & H). apply checked_Ok_inv in H0 as [Hzd ->].
  exists zd. split; [exact Hzd |]. cbv zeta in H.
  assert (Hframe : forall {X} (g : State -> X),
    (forall k v hv s, (1 <= k <= DefineZoneData.NumOfSurfs zd)%Z ->
       g (set_hostv (set_TempEffBulkAir
            (fupd (TempEffBulkAir hv) (DefineZoneData.SurfFirst zd + k - 1)%Z v) hv) s)
       = g (set_hostv hv s)) ->
    (forall k v hv s, (1 <= k <= DefineZoneData.NumOfSurfs zd)%Z ->
       g (set_hostv (set_SurfaceTAirRef
            (fupd (SurfaceTAirRef hv) (DefineZoneData.SurfFirst zd + k - 1)%Z v) hv) s)
       = g (set_hostv hv s)) ->
    (forall v hv s,
       g (set_hostv (set_NodeTemp (fupd (NodeTemp hv) (SystemZoneNodeNumber h ZoneNum) v) hv) s)
       = g (set_hostv hv s)) ->
    (forall v hv s,
       g (set_hostv (set_TempTstatAir (fupd (TempTstatAir hv) ZoneNum v) hv) s)
       = g (set_hostv hv s)) ->
    (forall v hv s,
       g (set_hostv (set_SimAirModel (fupd (SimAirModel hv) ZoneNum v) hv) s)
       = g (set_hostv hv s)) ->
    (forall s, g (set_hostv (hostv s) s) = g s) ->
    g st' = g st).
  { intros X g H1 H2 H3 H4 H5 H6.
    refine (preserves_Ok g _ _ _ _ _ H).
    unfold set_host, LineNodeAt, MundtAirSurfAt.
    repeat (cbv zeta;
            first [ apply preserves_for_each_In; intros SurfNum HSurf;
                    apply range_In in HSurf
                  | apply preserves_modify; intro s;
                    first [ rewrite H1 by assumption | rewrite H2 by assumption
                          | rewrite H3 | rewrite H4 | rewrite H5 ]; apply H6
                  | frame_step ]). }
  split; [| split].
  - intros i Hi. split.
    + apply (Hframe _ (fun s => TempEffBulkAir (hostv s) i)); intros; simpl; try reflexivity.
      apply fupd_other. lia.
    + apply (Hframe _ (fun s => SurfaceTAirRef (hostv s) i)); intros; simpl; try reflexivity.
      apply fupd_other. lia.
  - intros j Hj.
    apply (Hframe _ (fun s => NodeTemp (hostv s) j)); intros; simpl; try reflexivity.
    apply fupd_other. exact Hj.
  - intros z Hz. split.
    + apply (Hframe _ (fun s => TempTstatAir (hostv s) z)); intros; simpl; try reflexivity.
      apply fupd_other. exact Hz.
    + apply (Hframe _ (fun s => SimAirModel (hostv s) z)); intros; simpl; try reflexivity.
      apply fupd_other. exact Hz.
Qed.

Lemma without_hostv_fields st st' :
  without_hostv st' = without_hostv st ->
  LineNode st' = LineNode st /\ MundtAirSurf st' = MundtAirSurf st /\
  MundtZoneNum st' = MundtZoneNum st /\ ZoneData st' = ZoneData st /\
  roles st' = roles st /\ work st' = work st.
Proof.
  intros H. repeat split.
  - apply (f_equal LineNode) in H. exact H.
  - apply (f_equal MundtAirSurf) in H. exact H.
  - apply (f_equal MundtZoneNum) in H. exact H.
  - apply (f_equal ZoneData) in H. exact H.
  - apply (f_equal roles) in H. exact H.
  - apply (f_equal work) in H. exact H.
Qed.

Lemma reported_fupd zd k y T s (v : Real64) :
  reported zd y T s ->
  (y = k -> v = T) ->
  reported zd y T
    (set_hostv (set_SurfaceTAirRef
       (fupd (SurfaceTAirRef (set_TempEffBulkAir
                (fupd (TempEffBulkAir (hostv s)) (DefineZoneData.SurfFirst zd + k - 1)%Z v)
                (hostv s)))
             (DefineZoneData.SurfFirst zd + k - 1)%Z AdjacentAirTemp)
       (set_TempEffBulkAir
          (fupd (TempEffBulkAir (hostv s)) (DefineZoneData.SurfFirst zd + k - 1)%Z v)
          (hostv s)))
       (set_hostv (set_TempEffBulkAir
          (fupd (TempEffBulkAir (hostv s)) (DefineZoneData.SurfFirst zd + k - 1)%Z v)
          (hostv s)) s)).
Proof.
  intros [H1 H2] Hv. unfold reported. simpl. unfold fupd.
  destruct (Z.eqb_spec (DefineZoneData.SurfFirst zd + y - 1) (DefineZoneData.SurfFirst zd + k - 1))
    as [E | E].
  - split; [apply Hv; lia | reflexivity].
  - split; assumption.
Qed.

Lemma direct_loop_spec zd l st st' :
  for_each l (direct_body zd) st = Ok tt st' ->
  without_hostv st' = without_hostv st /\
  forall SurfNum, In SurfNum l ->
    exists s, surf_at st SurfNum = Some s /\
              reported zd SurfNum (DefineSurfaceSettings.TMeanAir s) st'.
Proof.
  intros H.
  destruct (for_each_post
              (fun s => without_hostv s = without_hostv st)
              (fun k s => exists x, surf_at st k = Some x /\
                                    reported zd k (DefineSurfaceSettings.TMeanAir x) s)
              l (direct_body zd)) with (st := st) (st' := st') as (HI & HQ & _);
    [| reflexivity | exact H | split; [exact HI | exact HQ]].
  intros k s s' _ Hs Hk. unfold direct_body in Hk.
  apply bind_Ok_inv in Hk as (x & s0 & Hx & Hk). unfold MundtAirSurfAt in Hx. inv_step Hx.
  inv_host Hk.
  destruct (without_hostv_fields _ _ Hs) as (_ & HMS & HZ & _).
  assert (Hxk : surf_at st k = Some x) by (unfold surf_at; rewrite <- HMS, <- HZ; exact E).
  split; [exact Hs |]. split.
  - exists x. split; [exact Hxk |]. split; simpl; apply fupd_same.
  - intros y (xy & Hxy & Hrep). exists xy. split; [exact Hxy |].
    apply reported_fupd; [exact Hrep |]. intros ->. congruence.
Qed.

Lemma indirect_loop_spec h ZoneNum zd r l st st' :
  for_each l (indirect_body h ZoneNum zd r) st = Ok tt st' ->
  without_hostv st' = without_hostv st /\
  forall SurfNum, In SurfNum l ->
    exists s TstatNode,
      surf_at st SurfNum = Some s /\ node_at st (TstatNodeID r) = Some TstatNode /\
      reported zd SurfNum
        (TempZoneThermostatSetPoint h ZoneNum
         + (DefineSurfaceSettings.TMeanAir s - DefineLinearModelNode.Temp TstatNode)) st'.
Proof.
  intros H.
  destruct (for_each_post
              (fun s => without_hostv s = without_hostv st)
              (fun k s => exists x TN,
                 surf_at st k = Some x /\ node_at st (TstatNodeID r) = Some TN /\
                 reported zd k
                   (TempZoneThermostatSetPoint h ZoneNum
                    + (DefineSurfaceSettings.TMeanAir x - DefineLinearModelNode.Temp TN)) s)
              l (indirect_body h ZoneNum zd r)) with (st := st) (st' := st') as (HI & HQ & _);
    [| reflexivity | exact H | split; [exact HI | exact HQ]].
  intros k s s' _ Hs Hk. unfold indirect_body in Hk.
  apply bind_Ok_inv in Hk as (x & s0 & Hx & Hk). unfold MundtAirSurfAt in Hx. inv_step Hx.
  apply bind_Ok_inv in Hk as (TN & s0 & HTN & Hk). apply LineNodeAt_Ok_inv in HTN as [HTN ->].
  cbv zeta in Hk. inv_host Hk.
  destruct (without_hostv_fields _ _ Hs) as (HLN & HMS & HZ & _).
  assert (Hxk : surf_at st k = Some x) by (unfold surf_at; rewrite <- HMS, <- HZ; exact E).
  assert (HTN' : node_at st (TstatNodeID r) = Some TN)
    by (unfold node_at in *; rewrite <- HLN, <- HZ; exact HTN).
  split; [exact Hs |]. split.
  - exists x, TN. split; [exact Hxk |]. split; [exact HTN' |]. split; simpl; apply fupd_same.
  - intros y (xy & TNy & Hxy & HTNy & Hrep). exists xy, TNy.
    split; [exact Hxy |]. split; [exact HTNy |].
    apply reported_fupd; [exact Hrep |]. intros ->. congruence.
Qed.

(** The outbound adapter with the system on and direct coupling. *)
Lemma SetSurfHBDataForMundtModel_direct h ZoneNum st st' :
  SetSurfHBDataForMundtModel h ZoneNum st = Ok tt st' ->
  SystemOn (work st) = true ->
  TempCoupleScheme h ZoneNum = DirectCoupling ->
  exists zd ReturnNode TstatNode,
    at1 (ZoneData st) ZoneNum = Some zd /\
    node_at st (ReturnNodeID (roles st)) = Some ReturnNode /\
    node_at st (TstatNodeID (roles st)) = Some TstatNode /\
    (forall SurfNum, (1 <= SurfNum <= DefineZoneData.NumOfSurfs zd)%Z ->
       exists s, surf_at st SurfNum = Some s /\
                 reported zd SurfNum (DefineSurfaceSettings.TMeanAir s) st') /\
    NodeTemp (hostv st') (SystemZoneNodeNumber h ZoneNum)
    = DefineLinearModelNode.Temp ReturnNode /\
    TempTstatAir (hostv st') ZoneNum = DefineLinearModelNode.Temp TstatNode /\
    SimAirModel (hostv st') ZoneNum = true.
Proof.
  unfold SetSurfHBDataForMundtModel. intros H Hon Hdir.
  apply bind_Ok_inv in H as (s0 & s1 & H0 & H). unfold get in H0. injection H0 as <- <-.
  apply bind_Ok_inv in H as (zd & s1 & H0 & H). apply checked_Ok_inv in H0 as [Hzd ->].
  cbv zeta in H. rewrite Hon, Hdir in H. rewrite Z.eqb_refl in H.
  apply bind_Ok_inv in H as ([] & s8 & H & Hflag).
  fold (direct_body zd) in H.
  apply bind_Ok_inv in H as ([] & sL & Hloop & H).
  destruct (direct_loop_spec _ _ _ _ Hloop) as [HwL Hrep].
  destruct (without_hostv_fields _ _ HwL) as (HLN & _ & HZ & _).
  apply bind_Ok_inv in H as (CN & s & HCN & H). apply LineNodeAt_Ok_inv in HCN as [_ ->].
  apply bind_Ok_inv in H as (FN & s & HFN & H). apply LineNodeAt_Ok_inv in HFN as [_ ->].
  cbv zeta in H.
  apply bind_Ok_inv in H as (RN & s & HRN & H). apply LineNodeAt_Ok_inv in HRN as [HRN ->].
  apply bind_Ok_inv in H as ([] & s & H0 & H). unfold set_host, modify in H0.
  injection H0 as <-.
  apply bind_Ok_inv in H as (TN & s & HTN & H). apply LineNodeAt_Ok_inv in HTN as [HTN ->].
  unfold set_host, modify in H. injection H as <-.
  unfold set_host, modify in Hflag. injection Hflag as <-.
  exists zd, RN, TN. split; [exact Hzd |].
  split; [unfold node_at in *; rewrite <- HLN, <- HZ; exact HRN |].
  split; [unfold node_at in *; simpl in HTN; rewrite <- HLN, <- HZ; exact HTN |].
  split.
  - intros k Hk. destruct (Hrep k) as (x & Hx & Hr); [apply range_In; exact Hk |].
    exists x. split; [exact Hx |]. destruct Hr as [Hr1 Hr2]. split; simpl; assumption.
  - simpl. split; [apply fupd_same |]. split; apply fupd_same.
Qed.

(** The outbound adapter with the system on and indirect coupling. *)
Lemma SetSurfHBDataForMundtModel_indirect h ZoneNum st st' :
  SetSurfHBDataForMundtModel h ZoneNum st = Ok tt st' ->
  SystemOn (work st) = true ->
  TempCoupleScheme h ZoneNum <> DirectCoupling ->
  exists zd ReturnNode TstatNode,
    at1 (ZoneData st) ZoneNum = Some zd /\
    node_at st (ReturnNodeID (roles st)) = Some ReturnNode /\
    node_at st (TstatNodeID (roles st)) = Some TstatNode /\
    (forall SurfNum, (1 <= SurfNum <= DefineZoneData.NumOfSurfs zd)%Z ->
       exists s, surf_at st SurfNum = Some s /\
                 reported zd SurfNum
                   (TempZoneThermostatSetPoint h ZoneNum
                    + (DefineSurfaceSettings.TMeanAir s
                       - DefineLinearModelNode.Temp TstatNode)) st') /\
    NodeTemp (hostv st') (SystemZoneNodeNumber h ZoneNum)
    = TempZoneThermostatSetPoint h ZoneNum
      + (DefineLinearModelNode.Temp ReturnNode - DefineLinearModelNode.Temp TstatNode) /\
    TempTstatAir (hostv st') ZoneNum = ZT h ZoneNum /\
    SimAirModel (hostv st') ZoneNum = true.
Proof.
  unfold SetSurfHBDataForMundtModel. intros H Hon Hind.
  apply bind_Ok_inv in H as (s0 & s1 & H0 & H). unfold get in H0. injection H0 as <- <-.
  apply bind_Ok_inv in H as (zd & s1 & H0 & H). apply checked_Ok_inv in H0 as [Hzd ->].
  cbv zeta in H. rewrite Hon in H.
  destruct (Z.eqb_spec (TempCoupleScheme h ZoneNum) DirectCoupling) as [E | _];
    [contradiction |].
  apply bind_Ok_inv in H as ([] & s8 & H & Hflag).
  fold (indirect_body h ZoneNum zd (roles st)) in H.
  apply bind_Ok_inv in H as ([] & sL & Hloop & H).
  destruct (indirect_loop_spec _ _ _ _ _ _ _ Hloop) as [HwL Hrep].
  destruct (without_hostv_fields _ _ HwL) as (HLN & _ & HZ & _).
  apply bind_Ok_inv in H as (CN & s & HCN & H). apply LineNodeAt_Ok_inv in HCN as [_ ->].
  apply bind_Ok_inv in H as (FN & s & HFN & H). apply LineNodeAt_Ok_inv in HFN as [_ ->].
  cbv zeta in H.
  apply bind_Ok_inv in H as (TN0 & s & HTN0 & H). apply LineNodeAt_Ok_inv in HTN0 as [_ ->].
  cbv zeta in H.
  apply bind_Ok_inv in H as (RN & s & HRN & H). apply LineNodeAt_Ok_inv in HRN as [HRN ->].
  apply bind_Ok_inv in H as (TN & s & HTN & H). apply LineNodeAt_Ok_inv in HTN as [HTN ->].
  cbv zeta in H.
  apply bind_Ok_inv in H as ([] & s & H0 & H). unfold set_host, modify in H0.
  injection H0 as <-.
  unfold set_host, modify in H. injection H as <-.
  unfold set_host, modify in Hflag. injection Hflag as <-.
  assert (HTN' : node_at st (TstatNodeID (roles st)) = Some TN)
    by (unfold node_at in *; rewrite <- HLN, <- HZ; exact HTN).
  exists zd, RN, TN. split; [exact Hzd |].
  split; [unfold node_at in *; rewrite <- HLN, <- HZ; exact HRN |].
  split; [exact HTN' |].
  split.
  - intros k Hk. destruct (Hrep k) as (x & TNk & Hx & HTNk & Hr); [apply range_In; exact Hk |].
    rewrite HTN' in HTNk. injection HTNk as <-.
    exists x. split; [exact Hx |]. destruct Hr as [Hr1 Hr2]. split; simpl; assumption.
  - simpl. split; [apply fupd_same |]. split; apply fupd_same.
Qed.

(** ** A call with the system on *)

Lemma preserves_work_SetupMundtModel h ZoneNum ErrorsFound :
  preserves work (SetupMundtModel h ZoneNum ErrorsFound).
Proof.
  unfold SetupMundtModel, set_role, ShowSevereError, LineNodeAt, FloorSurfSetIDsAt,
    MundtAirSurfAt.
  frame.
Qed.

Lemma preserves_hostv_Inbound h ZoneNum : preserves hostv (Inbound h ZoneNum).
Proof.
  unfold Inbound. frame;
    auto using preserves_hostv_InitMundtModel, preserves_hostv_GetSurfHBDataForMundtModel.
Qed.

(** What a call with the system on hands to the outbound adapter. *)
Lemma ManageMundtModel_on_inv h ZoneNum st st' s1 :
  ManageMundtModel h ZoneNum st = Ok tt st' ->
  Inbound h ZoneNum st = Ok tt s1 ->
  SystemOn (work s1) = true ->
  exists s2 s3 sol,
    SetupMundtModel h ZoneNum false s1 = Ok false s2 /\
    SolveMundt h ZoneNum s2 = Ok sol s2 /\
    CalcMundtModel h ZoneNum s2 = Ok tt s3 /\
    SetSurfHBDataForMundtModel h ZoneNum s3 = Ok tt st' /\
    work s2 = work s1 /\ work s3 = work s1 /\ roles s3 = roles s2 /\
    MundtZoneNum s3 = MundtZoneNum s2 /\
    without_hostv st' = without_hostv s3 /\
    Solution.TLeaving sol
    == QsysCoolTot (work s1) / SupplyCapacityRate (work s1) + SupplyAirTemp (work s1).
Proof.
  intros Hrun Hin Hon.
  destruct (ManageMundtModel_Ok_inv _ _ _ _ Hrun) as (s1' & Hin' & Hgate).
  rewrite Hin in Hin'. injection Hin' as <-. rewrite Hon in Hgate.
  destruct Hgate as (s2 & s3 & Hsetup & Hcalc & Hout).
  destruct (CalcMundtModel_Ok_inv _ _ _ _ Hcalc) as (sol & RN & Hsol & _ & [Hw _] & _).
  exists s2, s3, sol.
  pose proof (preserves_Ok work _ _ _ _ (preserves_work_SetupMundtModel _ _ _) Hsetup) as Hw2.
  pose proof (without_results_work _ _ Hw) as Hw3.
  repeat (split; [first [assumption | congruence] |]).
  split; [exact (without_results_roles _ _ Hw) |].
  split; [exact (without_results_MundtZoneNum _ _ Hw) |].
  split; [exact (SetSurfHBDataForMundtModel_frame _ _ _ _ Hout) |].
  destruct (SolveMundt_Ok_inv _ _ _ _ _ Hsol) as (_ & RN' & FN' & _ & _ & ->).
  rewrite CheckSlope_TLeaving. unfold LeavingAirTemp. rewrite Hw2.
  apply SystemOn_iff in Hon as [_ HQ].
  destruct (R64.leb (QsysCoolTot (work s1)) 0.0) eqn:E; [| apply R64Facts.eqv_refl].
  apply R64Facts.leb_le in E. destruct (QsysCoolTot (work s1)); simpl in *; try tauto. lra.
Qed.

(** X13.  With the system on and direct coupling, a call reports the
    results of the solve as they are: the system node of the zone gets the
    temperature of the return node, which is the leaving air temperature
    (supply air temperature plus cooling load over capacity rate of the
    supply air) when the slope of the solve is a number and the height of
    the return node is finite; the thermostat gets the temperature of the
    control node, every surface of the zone gets its mean air temperature
    with the adjacent air as reference, and the flag of the model is
    set. *)
Theorem ManageMundtModel_direct_coupling (h : Host) (ZoneNum : Z) (st st' : State) :
  ManageMundtModel h ZoneNum st = Ok tt st' ->
  exists s1,
    Inbound h ZoneNum st = Ok tt s1 /\
    (SystemOn (work s1) = true ->
     TempCoupleScheme h ZoneNum = DirectCoupling ->
     exists zd TstatNode ReturnNode s2 sol,
       at1 (ZoneData st') ZoneNum = Some zd /\
       SetupMundtModel h ZoneNum false s1 = Ok false s2 /\
       SolveMundt h ZoneNum s2 = Ok sol s2 /\
       node_at st' (ReturnNodeID (roles st')) = Some ReturnNode /\
       NodeTemp (hostv st') (SystemZoneNodeNumber h ZoneNum)
       = DefineLinearModelNode.Temp ReturnNode /\
       (number (Solution.Slope sol) ->
        finite (DefineLinearModelNode.Height ReturnNode) ->
        NodeTemp (hostv st') (SystemZoneNodeNumber h ZoneNum)
        == QsysCoolTot (work s1) / SupplyCapacityRate (work s1) + SupplyAirTemp (work s1)) /\
       node_at st' (TstatNodeID (roles st')) = Some TstatNode /\
       TempTstatAir (hostv st') ZoneNum = DefineLinearModelNode.Temp TstatNode /\
       (forall SurfNum, (1 <= SurfNum <= DefineZoneData.NumOfSurfs zd)%Z ->
          exists s, surf_at st' SurfNum = Some s /\
                    reported zd SurfNum (DefineSurfaceSettings.TMeanAir s) st') /\
       SimAirModel (hostv st') ZoneNum = true).
Proof.
  intros Hrun.
  destruct (ManageMundtModel_Ok_inv _ _ _ _ Hrun) as (s1 & Hin & _).
  exists s1. split; [exact Hin |]. intros Hon Hdir.
  destruct (ManageMundtModel_on_inv _ _ _ _ _ Hrun Hin Hon)
    as (s2 & s3 & sol & Hsetup & Hsol & Hcalc & Hout & Hw2 & Hw3 & Hr3 & HZ3 & Hfr & HTL).
  rewrite <- Hw3 in Hon.
  destruct (SetSurfHBDataForMundtModel_direct _ _ _ _ Hout Hon Hdir)
    as (zd & RN & TN & Hzd & HRN & HTN & Hsurf & HNode & HTstat & Hsim).
  destruct (without_hostv_fields _ _ Hfr) as (HLN & HMS & HZ & HZD & Hr & _).
  destruct (CalcMundtModel_return_node_temp _ _ _ _ Hcalc) as (sol' & n & Hsol' & Hn & HT).
  rewrite Hsol in Hsol'. injection Hsol' as <-.
  rewrite Hr3 in HRN. rewrite HRN in Hn. injection Hn as <-.
  exists zd, TN, RN, s2, sol. split; [rewrite HZD; exact Hzd |].
  split; [exact Hsetup |]. split; [exact Hsol |].
  split; [unfold node_at in *; rewrite HLN, HZ, Hr, Hr3; exact HRN |].
  split; [exact HNode |].
  split.
  - intros Hnum Hfin. rewrite HNode.
    exact (R64Facts.eqv_trans _ _ _ (HT Hnum Hfin) HTL).
  - split; [unfold node_at in *; rewrite HLN, HZ, Hr; exact HTN |].
    split; [exact HTstat |]. split; [| exact Hsim].
    intros k Hk. destruct (Hsurf k Hk) as (x & Hx & Hrep).
    exists x. split; [unfold surf_at in *; rewrite HMS, HZ; exact Hx | exact Hrep].
Qed.
(** X14.  With the system on and indirect coupling, a call reports the
    results of the solve as offsets to the thermostat set point: every
    surface of the zone gets the set point plus its mean air temperature
    minus the temperature of the control node, the system node of the zone
    gets the set point plus the return node temperature minus the
    temperature of the control node, and the thermostat gets the mean air
    temperature of the host, not a temperature of the solve. *)
Theorem ManageMundtModel_indirect_coupling (h : Host) (ZoneNum : Z) (st st' : State) :
  ManageMundtModel h ZoneNum st = Ok tt st' ->
  exists s1,
    Inbound h ZoneNum st = Ok tt s1 /\
    (SystemOn (work s1) = true ->
     TempCoupleScheme h ZoneNum <> DirectCoupling ->
     exists zd ReturnNode TstatNode,
       at1 (ZoneData st') ZoneNum = Some zd /\
       node_at st' (ReturnNodeID (roles st')) = Some ReturnNode /\
       node_at st' (TstatNodeID (roles st')) = Some TstatNode /\
       NodeTemp (hostv st') (SystemZoneNodeNumber h ZoneNum)
       = TempZoneThermostatSetPoint h ZoneNum
         + (DefineLinearModelNode.Temp ReturnNode - DefineLinearModelNode.Temp TstatNode) /\
       TempTstatAir (hostv st') ZoneNum = ZT h ZoneNum /\
       (forall SurfNum, (1 <= SurfNum <= DefineZoneData.NumOfSurfs zd)%Z ->
          exists s, surf_at st' SurfNum = Some s /\
                    reported zd SurfNum
                      (TempZoneThermostatSetPoint h ZoneNum
                       + (DefineSurfaceSettings.TMeanAir s
                          - DefineLinearModelNode.Temp TstatNode)) st') /\
       SimAirModel (hostv st') ZoneNum = true).
Proof.
  intros Hrun.
  destruct (ManageMundtModel_Ok_inv _ _ _ _ Hrun) as (s1 & Hin & _).
  exists s1. split; [exact Hin |]. intros Hon Hind.
  destruct (ManageMundtModel_on_inv _ _ _ _ _ Hrun Hin Hon)
    as (s2 & s3 & sol & Hsetup & Hsol & Hcalc & Hout & Hw2 & Hw3 & Hr3 & HZ3 & Hfr & HTL).
  rewrite <- Hw3 in Hon.
  destruct (SetSurfHBDataForMundtModel_indirect _ _ _ _ Hout Hon Hind)
    as (zd & RN & TN & Hzd & HRN & HTN & Hsurf & HNode & HTstat & Hsim).
  destruct (without_hostv_fields _ _ Hfr) as (HLN & HMS & HZ & HZD & Hr & _).
  exists zd, RN, TN. split; [rewrite HZD; exact Hzd |].
  split; [unfold node_at in *; rewrite HLN, HZ, Hr; exact HRN |].
  split; [unfold node_at in *; rewrite HLN, HZ, Hr; exact HTN |].
  split; [exact HNode |]. split; [exact HTstat |]. split; [| exact Hsim].
  intros k Hk. destruct (Hsurf k Hk) as (x & Hx & Hrep).
  exists x. split; [unfold surf_at in *; rewrite HMS, HZ; exact Hx | exact Hrep].
Qed.

(** X15.  A call writes the host variables of the zone it is called for
    and no others: the effective air temperature and the reference of
    every surface outside the surfaces of the zone, the temperature of
    every other system node, and the thermostat temperature and the flag
    of every other zone are as before the call. *)
Theorem ManageMundtModel_other_zones (h : Host) (ZoneNum : Z) (st st' : State) :
  ManageMundtModel h ZoneNum st = Ok tt st' ->
  exists zd,
    at1 (ZoneData st') ZoneNum = Some zd /\
    (forall i, (i < DefineZoneData.SurfFirst zd
                \/ DefineZoneData.SurfFirst zd + DefineZoneData.NumOfSurfs zd <= i)%Z ->
       TempEffBulkAir (hostv st') i = TempEffBulkAir (hostv st) i /\
       SurfaceTAirRef (hostv st') i = SurfaceTAirRef (hostv st) i) /\
    (forall j, (j < SystemZoneNodeNumber h ZoneNum \/ SystemZoneNodeNumber h ZoneNum < j)%Z ->
       NodeTemp (hostv st') j = NodeTemp (hostv st) j) /\
    (forall z, (z < ZoneNum \/ ZoneNum < z)%Z ->
       TempTstatAir (hostv st') z = TempTstatAir (hostv st) z /\
       SimAirModel (hostv st') z = SimAirModel (hostv st) z).
Proof.
  intros Hrun.
  destruct (ManageMundtModel_Ok_inv _ _ _ _ Hrun) as (s1 & Hin & Hgate).
  pose proof (preserves_Ok hostv _ _ _ _ (preserves_hostv_Inbound _ _) Hin) as Hh1.
  assert (Hout : exists s3, SetSurfHBDataForMundtModel h ZoneNum s3 = Ok tt st'
                            /\ hostv s3 = hostv st).
  { destruct (SystemOn (work s1)).
    - destruct Hgate as (s2 & s3 & Hsetup & Hcalc & Hout). exists s3. split; [exact Hout |].
      rewrite (preserves_Ok hostv _ _ _ _ (preserves_hostv_CalcMundtModel _ _) Hcalc).
      rewrite (preserves_Ok hostv _ _ _ _ (preserves_hostv_SetupMundtModel _ _ _) Hsetup).
      exact Hh1.
    - exists s1. split; [exact Hgate | exact Hh1]. }
  destruct Hout as (s3 & Hout & Hh3).
  destruct (SetSurfHBDataForMundtModel_others _ _ _ _ Hout) as (zd & Hzd & Hsurf & Hnode & Hzone).
  destruct (without_hostv_fields _ _ (SetSurfHBDataForMundtModel_frame _ _ _ _ Hout))
    as (_ & _ & _ & HZD & _).
  rewrite <- Hh3. exists zd. split; [rewrite HZD; exact Hzd |].
  split; [intros i Hi; apply Hsurf; lia |].
  split; [intros j Hj; apply Hnode; lia | intros z Hz; apply Hzone; lia].
Qed.

(** ** The calls on the example hosts *)

Lemma final_Ok {A} (m : M A) st a st' : m st = Ok a st' -> final m st = st'.
Proof. unfold final. intros ->. reflexivity. Qed.

Lemma ManageMundtModel_direct_coupling_witness :
  let st' := final (ManageMundtModel Example_Host 1) State0 in
  exists s1 ctrl,
    ManageMundtModel Example_Host 1 State0 = Ok tt st' /\
    Inbound Example_Host 1 State0 = Ok tt s1 /\
    NodeTemp (hostv st') 5 == 1507.5 / (1.0 * 1005.0 * 0.5) + 15.0 /\
    node_at st' 3 = Some ctrl /\
    TempTstatAir (hostv st') 1 = DefineLinearModelNode.Temp ctrl /\
    SimAirModel (hostv st') 1 = true.
Proof.
  cbv zeta. set (st' := final (ManageMundtModel Example_Host 1) State0).
  assert (Hrun : ManageMundtModel Example_Host 1 State0 = Ok tt st')
    by (vm_compute; reflexivity).
  destruct (ManageMundtModel_direct_coupling _ _ _ _ Hrun) as (s1 & Hin & Hon).
  pose proof (final_Ok _ _ _ _ Hin) as Hs1.
  destruct Hon as (zd & TN & RN & s2 & sol & _ & Hsetup & Hsol & HRN & _ & HNode
                   & HTN & HTstat & _ & Hsim).
  - rewrite <- Hs1. vm_compute. reflexivity.
  - reflexivity.
  - exists s1, TN. split; [exact Hrun |]. split; [exact Hin |].
    pose proof (final_Ok _ _ _ _ Hsetup) as Hs2. subst s1. subst s2.
    pose proof Hsol as Hc. vm_compute in Hc. injection Hc as <-.
    pose proof HRN as Hc. vm_compute in Hc. injection Hc as <-.
    split.
    + eapply R64Facts.eqv_trans; [apply HNode; vm_compute; exact I |].
      vm_compute. reflexivity.
    + split; [| split; [exact HTstat | exact Hsim]].
      assert (E3 : TstatNodeID (roles st') = 3%Z) by (vm_compute; reflexivity).
      rewrite E3 in HTN. exact HTN.
Defined.

Lemma ManageMundtModel_indirect_coupling_witness :
  let st' := final (ManageMundtModel Indirect_Host 1) State0 in
  exists s1 ret ctrl,
    ManageMundtModel Indirect_Host 1 State0 = Ok tt st' /\
    Inbound Indirect_Host 1 State0 = Ok tt s1 /\
    node_at st' 6 = Some ret /\ node_at st' 3 = Some ctrl /\
    NodeTemp (hostv st') 5
    = 24.0 + (DefineLinearModelNode.Temp ret - DefineLinearModelNode.Temp ctrl) /\
    TempTstatAir (hostv st') 1 = 18.0.
Proof.
  cbv zeta. set (st' := final (ManageMundtModel Indirect_Host 1) State0).
  assert (Hrun : ManageMundtModel Indirect_Host 1 State0 = Ok tt st')
    by (vm_compute; reflexivity).
  destruct (ManageMundtModel_indirect_coupling _ _ _ _ Hrun) as (s1 & Hin & Hon).
  pose proof (final_Ok _ _ _ _ Hin) as Hs1.
  destruct Hon as (zd & RN & TN & _ & HRN & HTN & HNode & HTstat & _).
  - rewrite <- Hs1. vm_compute. reflexivity.
  - vm_compute. discriminate.
  - assert (E1 : ReturnNodeID (roles st') = 6%Z) by (vm_compute; reflexivity).
    assert (E2 : TstatNodeID (roles st') = 3%Z) by (vm_compute; reflexivity).
    rewrite E1 in HRN. rewrite E2 in HTN.
    exists s1, RN, TN. split; [exact Hrun |]. split; [exact Hin |].
    split; [exact HRN |]. split; [exact HTN |]. split; [exact HNode | exact HTstat].
Defined.

Lemma ManageMundtModel_other_zones_witness :
  let st' := final (ManageMundtModel TwoZone_Host 1) State0 in
  ManageMundtModel TwoZone_Host 1 State0 = Ok tt st' /\
  TempEffBulkAir (hostv st') 4 = TempEffBulkAir (hostv State0) 4 /\
  NodeTemp (hostv st') 6 = NodeTemp (hostv State0) 6 /\
  SimAirModel (hostv st') 2 = SimAirModel (hostv State0) 2.
Proof.
  cbv zeta. set (st' := final (ManageMundtModel TwoZone_Host 1) State0).
  assert (Hrun : ManageMundtModel TwoZone_Host 1 State0 = Ok tt st')
    by (vm_compute; reflexivity).
  destruct (ManageMundtModel_other_zones _ _ _ _ Hrun) as (zd & Hzd & Hsurf & Hnode & Hzone).
  assert (E : at1 (ZoneData st') 1
              = Some {| DefineZoneData.SurfFirst := 1; DefineZoneData.NumOfSurfs := 3;
                        DefineZoneData.MundtZoneIndex := 1 |}) by (vm_compute; reflexivity).
  pose proof (eq_trans (eq_sym Hzd) E) as Ez. injection Ez as ->.
  split; [exact Hrun |]. split; [| split].
  - apply (Hsurf 4%Z). simpl. lia.
  - apply (Hnode 6%Z). simpl. lia.
  - apply (Hzone 2%Z). lia.
Defined.

Lemma ManageMundtModel_fatal_unwritten_witness :
  let st' := final (ManageMundtModel Uncontrolled_Host 1) After_Cooling in
  ManageMundtModel Uncontrolled_Host 1 After_Cooling = Fatal st' /\
  hostv st' = hostv After_Cooling /\
  LineNode st' = LineNode After_Cooling.
Proof.
  cbv zeta. set (st' := final (ManageMundtModel Uncontrolled_Host 1) After_Cooling).
  assert (Hrun : ManageMundtModel Uncontrolled_Host 1 After_Cooling = Fatal st')
    by (vm_compute; reflexivity).
  destruct (ManageMundtModel_fatal_unwritten _ _ _ _ Hrun) as [Hh HLN].
  split; [exact Hrun |]. split; [exact Hh |]. apply HLN. vm_compute. reflexivity.
Defined.

(** ** The build that ends well *)

Lemma preserves_Zone_Loop h m l : forall loc, preserves without_tables (Zone_Loop h m l loc).
Proof.
  induction l as [| y l IH]; intros loc; simpl.
  - frame.
  - unfold Init_Zone, Init_AirNode, ShowSevereError, SetupOutputVariable. frame; apply IH.
Qed.

Lemma preserves_Init_Zones_loop h l acc :
  preserves without_tables (for_fold l acc (Init_Zones_body h)).
Proof.
  apply preserves_for_fold. intros m [[loc mr] mf]. unfold Init_Zones_body.
  frame. apply preserves_Zone_Loop.
Qed.

(** A build that returns: the zone data, the allocation, the loop over the
    zones that use the model, and the lists that are allocated last. *)
Lemma InitMundtModel_Ok_inv h st st' :
  InitMundtModel h st = Ok tt st' ->
  exists ms mn st0 loc mr mf st5,
    Init_ZoneData h st = Ok (Z.of_nat (length (MundtZones h)), ms, mn) st0 /\
    (forall y, (1 <= y <= NumOfZones h)%Z -> at1 (ZoneData st0) y = Some (zd_entry h y)) /\
    (forall y, (1 <= y <= NumOfZones h)%Z -> isMundt h y = true ->
               (DefineZoneData.NumOfSurfs (zd_entry h y) <= ms)%Z /\
               (TotNumOfZoneAirNodes h y <= mn)%Z) /\
    BuildReady h (Allocated h ms mn st0) /\
    for_fold (range 1 (Z.of_nat (length (MundtZones h)))) (InitLocals0, 0%Z, 0%Z)
             (Init_Zones_body h) (Allocated h ms mn st0) = Ok (loc, mr, mf) st5 /\
    build_fails h = false /\
    table_shape st5 = table_shape (Allocated h ms mn st0) /\
    st' = set_FloorSurf (allocate mf Default_MundtAirSurf)
            (set_FloorSurfSetIDs (allocate mf 0%Z)
               (set_roles (set_RoomNodeIDs (allocate mr 0%Z) (roles st5)) st5)).
Proof.
  intros H.
  destruct (Init_ZoneData_spec h st) as (ms & mn & st0 & Hrun & Hzd & Hmx & Hw).
  unfold InitMundtModel in H. unfold bind at 1 in H. rewrite Hrun in H.
  do 4 (unfold bind at 1 in H; unfold modify at 1 in H).
  fold (Allocated h ms mn st0) in H.
  assert (Hready : BuildReady h (Allocated h ms mn st0)).
  { intros y Hy. split; [apply Hzd; exact Hy |]. intros HM.
    destruct (Hmx y Hy HM) as [Hs Hn].
    assert (Hr : (1 <= zone_rank h y <= Z.of_nat (length (MundtZones h)))%Z).
    { split; [apply zone_rank_pos; [lia | exact HM] |].
      rewrite <- zone_rank_MundtZones. apply zone_rank_mono. lia. }
    split.
    - intros s Hs'. apply at2_allocate; [exact Hr | lia].
    - intros n Hn'. apply at2_allocate; [exact Hr | lia]. }
  pose proof (Init_Zones_loop h (MundtZones h) [] InitLocals0 0%Z 0%Z
                (Allocated h ms mn st0) eq_refl Hready) as Hloop.
  change (Z.of_nat (length (@nil Z)) + 1)%Z with 1%Z in Hloop.
  destruct (existsb (zone_overrun h) (MundtZones h)).
  - destruct Hloop as (s & Hfold & _). unfold bind at 1 in H. rewrite Hfold in H.
    discriminate H.
  - destruct Hloop as (loc & mr & mf & st5 & Hfold & Herr & _ & Hshape).
    change (ErrorsFound InitLocals0) with false in Herr. simpl orb in Herr.
    fold (build_fails h) in Herr.
    unfold bind at 1 in H. rewrite Hfold in H. unfold bind at 1 in H. rewrite Herr in H.
    destruct (build_fails h); [discriminate H |].
    unfold ret at 1 in H. unfold set_role in H.
    unfold bind at 1, modify at 1 in H. unfold bind at 1, modify at 1 in H.
    unfold modify in H. injection H as <-.
    exists ms, mn, st0, loc, mr, mf, st5.
    repeat (split; [first [assumption | reflexivity] |]). reflexivity.
Qed.

Lemma MundtZones_lookup h y :
  (1 <= y <= NumOfZones h)%Z -> isMundt h y = true ->
  MundtZones h !! Z.to_nat (zone_rank h y - 1) = Some y.
Proof.
  intros Hy HM. assert (Hin : In y (MundtZones h)) by (apply MundtZones_In; auto).
  apply in_split in Hin as (pre & zs & E).
  rewrite (MundtZones_rank _ _ _ _ E), E.
  replace (Z.to_nat (Z.of_nat (length pre) + 1 - 1)) with (length pre + 0)%nat by lia.
  rewrite lookup_app_r by lia. replace (length pre + 0 - length pre)%nat with 0%nat by lia.
  reflexivity.
Qed.

(** X16.  A build that returns has numbered the zones that use the model
    1, 2, ... in the order of the host: the model index of such a zone is
    its position among them, and its zone data hold its first surface and
    its number of surfaces; any other zone has model index 0 and no
    surfaces.  The list of surface indices is 1, 2, ..., up to a number
    that is at least the number of surfaces of each zone that uses the
    model. *)
Theorem InitMundtModel_zone_data (h : Host) (st st' : State) :
  InitMundtModel h st = Ok tt st' ->
  (forall y, (1 <= y <= NumOfZones h)%Z ->
     exists zd,
       at1 (ZoneData st') y = Some zd /\
       if isMundt h y
       then DefineZoneData.SurfFirst zd = SurfaceFirst h y /\
            DefineZoneData.NumOfSurfs zd = (SurfaceLast h y - SurfaceFirst h y + 1)%Z /\
            (1 <= DefineZoneData.MundtZoneIndex zd)%Z /\
            MundtZones h !! Z.to_nat (DefineZoneData.MundtZoneIndex zd - 1) = Some y
       else zd = Default_ZoneData) /\
  exists MaxNumOfSurfs,
    ID1dSurf st' = range 1 MaxNumOfSurfs /\
    forall y, (1 <= y <= NumOfZones h)%Z -> isMundt h y = true ->
              (SurfaceLast h y - SurfaceFirst h y + 1 <= MaxNumOfSurfs)%Z.
Proof.
  intros H.
  destruct (InitMundtModel_Ok_inv _ _ _ H)
    as (ms & mn & st0 & loc & mr & mf & st5 & _ & Hzd & Hmx & _ & Hloop & _ & Hshape & ->).
  apply table_shape_ZoneData in Hshape. simpl ZoneData in *.
  assert (HID : ID1dSurf st5 = range 1 ms).
  { apply (preserves_Ok _ _ _ _ _ (preserves_Init_Zones_loop _ _ _)) in Hloop.
    apply (f_equal ID1dSurf) in Hloop. exact Hloop. }
  split.
  - intros y Hy. exists (zd_entry h y). rewrite Hshape. split; [apply Hzd; exact Hy |].
    unfold zd_entry. destruct (isMundt h y) eqn:HM; [| reflexivity]. simpl.
    split; [reflexivity |]. split; [reflexivity |].
    split; [apply zone_rank_pos; [lia | exact HM] | apply MundtZones_lookup; assumption].
  - exists ms. split; [exact HID |].
    intros y Hy HM. destruct (Hmx y Hy HM) as [Hs _].
    unfold zd_entry in Hs. rewrite HM in Hs. exact Hs.
Qed.

Lemma InitMundtModel_zone_data_witness :
  let st' := final (InitMundtModel TwoZone_Host) State0 in
  InitMundtModel TwoZone_Host State0 = Ok tt st' /\
  exists zd,
    at1 (ZoneData st') 2 = Some zd /\
    DefineZoneData.SurfFirst zd = 4%Z /\ DefineZoneData.NumOfSurfs zd = 3%Z /\
    MundtZones TwoZone_Host !! Z.to_nat (DefineZoneData.MundtZoneIndex zd - 1) = Some 2%Z.
Proof.
  cbv zeta. set (st' := final (InitMundtModel TwoZone_Host) State0).
  assert (Hrun : InitMundtModel TwoZone_Host State0 = Ok tt st') by (vm_compute; reflexivity).
  split; [exact Hrun |].
  destruct (InitMundtModel_zone_data _ _ _ Hrun) as [Hz _].
  destruct (Hz 2%Z) as (zd & Hzd & Hm); [simpl; lia |].
  assert (E : isMundt TwoZone_Host 2 = true) by reflexivity.
  rewrite E in Hm. destruct Hm as (H1 & H2 & _ & H4).
  exists zd. split; [exact Hzd |]. split; [exact H1 |]. split; [exact H2 | exact H4].
Defined.

(** ** The calls after the first *)

Lemma preserves_record_SetSurfHBDataForMundtModel h ZoneNum :
  preserves build_record (SetSurfHBDataForMundtModel h ZoneNum).
Proof.
  unfold SetSurfHBDataForMundtModel, set_host, LineNodeAt, MundtAirSurfAt. frame.
Qed.

Lemma preserves_record_CalcMundtModel h ZoneNum :
  preserves build_record (CalcMundtModel h ZoneNum).
Proof.
  unfold CalcMundtModel, SolveMundt, SetNodeSurfaces, SetNodeResult, SetSurfTmeanAir,
    LineNodeAt, FloorSurfSetIDsAt, TheseSurfIDsAt, RoomNodeIDsAt.
  frame.
Qed.

(** The resolver that reports no error leaves the messages alone. *)
Lemma SetupMundtModel_record h ZoneNum st st' :
  SetupMundtModel h ZoneNum false st = Ok false st' -> build_record st' = build_record st.
Proof.
  intros H.
  destruct (SetupMundtModel_Ok_floor _ _ _ _ _ _ H) as (err1 & st1 & Hloop & _ & Hr & _).
  destruct (setup_loop_messages _ _ _ _ _ Hloop) as [_ He]. cbv zeta in He.
  rewrite (nonstandard_frame _ _ _ (setup_start_frame st)) in He.
  destruct (SetupMundtModel_Ok_inv _ _ _ _ _ _ H) as (_ & _ & _ & _ & Hw & _).
  assert (HM : Messages st' = Messages st).
  { destruct (SetupMundtModel_Ok_floor _ _ _ _ _ _ H) as (e1 & s1 & Hl & _ & _ & Hfl).
    rewrite Hloop in Hl. injection Hl as <- <-.
    destruct (setup_loop_messages _ _ _ _ _ Hloop) as [HM1 _]. cbv zeta in HM1.
    rewrite (nonstandard_frame _ _ _ (setup_start_frame st)) in HM1. simpl in HM1, He.
    destruct (0 <? MundtFootAirID (roles st1))%Z.
    - destruct Hfl as (FN & _ & <- & HM' & _). rewrite HM', HM1.
      destruct (length (List.filter (nonstandard st)
                          (range 1 (TotNumOfZoneAirNodes h ZoneNum)))); [| discriminate He].
      simpl. apply app_nil_r.
    - destruct Hfl as [Hf _]. discriminate Hf. }
  unfold build_record. rewrite HM.
  apply (f_equal (fun s => (ZoneData s, ID1dSurf s, FirstTimeFlag s))) in Hw.
  simpl in Hw. injection Hw as -> -> ->. reflexivity.
Qed.

Lemma Inbound_record h ZoneNum st s1 :
  Inbound h ZoneNum st = Ok tt s1 -> FirstTimeFlag st = false ->
  build_record s1 = build_record st.
Proof.
  intros H Hflag. destruct (Inbound_Ok_inv _ _ _ _ H Hflag) as (Hw & _).
  apply (f_equal build_record) in Hw. exact Hw.
Qed.

Lemma Inbound_FirstTimeFlag h ZoneNum st s1 :
  Inbound h ZoneNum st = Ok tt s1 -> FirstTimeFlag s1 = false.
Proof.
  intros H. unfold Inbound in H.
  apply bind_Ok_inv in H as (s & s0 & Hg & H). unfold get in Hg. injection Hg as <- <-.
  apply bind_Ok_inv in H as ([] & sa & Hinit & H).
  assert (Hsa : FirstTimeFlag sa = false).
  { destruct (FirstTimeFlag st) eqn:E.
    - apply bind_Ok_inv in Hinit as ([] & sb & _ & Hm). unfold modify in Hm.
      injection Hm as <-. reflexivity.
    - unfold ret in Hinit. injection Hinit as <-. exact E. }
  apply bind_Ok_inv in H as (s & s0 & Hg & H). unfold get in Hg. injection Hg as <- <-.
  apply bind_Ok_inv in H as (zd & s0 & Hzd & H). apply checked_Ok_inv in Hzd as [_ ->].
  apply bind_Ok_inv in H as ([] & s0 & Hm & H). unfold modify in Hm. injection Hm as <-.
  destruct (GetSurfHBDataForMundtModel_Ok_inv _ _ _ _ H) as (_ & Hw & _).
  apply (f_equal FirstTimeFlag) in Hw. simpl in Hw. rewrite Hw. exact Hsa.
Qed.

(** X17.  The build is done once: every call that returns leaves the flag
    of the first call cleared, and a call that returns after the first has
    registered no output variable and reported no error, and has left the
    zone data, the list of surface indices and name, role tag, height and
    mask of every air node as they were. *)
Theorem ManageMundtModel_later_call (h : Host) (ZoneNum : Z) (st st' : State) :
  ManageMundtModel h ZoneNum st = Ok tt st' ->
  FirstTimeFlag st' = false /\
  (FirstTimeFlag st = false ->
   Messages st' = Messages st /\ ZoneData st' = ZoneData st /\
   ID1dSurf st' = ID1dSurf st /\ same_static st st').
Proof.
  intros Hrun.
  destruct (ManageMundtModel_Ok_inv _ _ _ _ Hrun) as (s1 & Hin & Hgate).
  pose proof (Inbound_FirstTimeFlag _ _ _ _ Hin) as Hf1.
  assert (Hrest : build_record st' = build_record s1 /\ same_static s1 st').
  { destruct (SystemOn (work s1)).
    - destruct Hgate as (s2 & s3 & Hsetup & Hcalc & Hout).
      pose proof (preserves_Ok _ _ _ _ _ (preserves_record_SetSurfHBDataForMundtModel _ _) Hout)
        as H3.
      pose proof (preserves_Ok _ _ _ _ _ (preserves_record_CalcMundtModel _ _) Hcalc) as H2.
      pose proof (SetupMundtModel_record _ _ _ _ Hsetup) as H1.
      split; [congruence |].
      destruct (CalcMundtModel_Ok_inv _ _ _ _ Hcalc) as (_ & _ & _ & _ & [_ Hs23] & _).
      destruct (SetupMundtModel_Ok_inv _ _ _ _ _ _ Hsetup) as (_ & _ & _ & _ & Hw12 & _).
      destruct (without_hostv_fields _ _ (SetSurfHBDataForMundtModel_frame _ _ _ _ Hout))
        as (HLN & _).
      apply (same_static_trans _ s3); [| apply same_static_LineNode; exact HLN].
      apply (same_static_trans _ s2); [| exact Hs23].
      apply same_static_LineNode. apply (without_roles_LineNode _ _ Hw12).
    - pose proof (preserves_Ok _ _ _ _ _ (preserves_record_SetSurfHBDataForMundtModel _ _) Hgate)
        as H3.
      split; [exact H3 |].
      destruct (without_hostv_fields _ _ (SetSurfHBDataForMundtModel_frame _ _ _ _ Hgate))
        as (HLN & _).
      apply same_static_LineNode. exact HLN. }
  destruct Hrest as [Hrec Hstat].
  split.
  - apply (f_equal (fun r => snd (fst r))) in Hrec. simpl in Hrec. congruence.
  - intros Hflag. pose proof (Inbound_record _ _ _ _ Hin Hflag) as Hrec1.
    rewrite Hrec1 in Hrec. unfold build_record in Hrec. injection Hrec as H1 H2 H3 H4.
    split; [exact H4 |]. split; [exact H1 |]. split; [exact H2 |].
    apply (same_static_trans _ s1); [| exact Hstat].
    destruct (Inbound_Ok_inv _ _ _ _ Hin Hflag) as (Hw & _).
    apply same_static_LineNode. apply (f_equal LineNode) in Hw. exact Hw.
Qed.

Lemma ManageMundtModel_later_call_witness :
  let st' := final (ManageMundtModel Example_Host 1) After_Cooling in
  ManageMundtModel Example_Host 1 After_Cooling = Ok tt st' /\
  FirstTimeFlag st' = false /\
  Messages st' = Messages After_Cooling /\ ZoneData st' = ZoneData After_Cooling.
Proof.
  cbv zeta. set (st' := final (ManageMundtModel Example_Host 1) After_Cooling).
  assert (Hrun : ManageMundtModel Example_Host 1 After_Cooling = Ok tt st')
    by (vm_compute; reflexivity).
  destruct (ManageMundtModel_later_call _ _ _ _ Hrun) as [Hf Hlater].
  destruct Hlater as (HM & HZ & _); [vm_compute; reflexivity |].
  split; [exact Hrun |]. split; [exact Hf |]. split; [exact HM | exact HZ].
Defined.

(** ** What the build writes into the tables *)

Lemma preserves_MundtAirSurf_Init_AirNode h m z NS k loc :
  preserves MundtAirSurf (Init_AirNode h m z NS k loc).
Proof. unfold Init_AirNode, ShowSevereError, SetupOutputVariable. frame. Qed.

(** One air node: the entry gets the data of the first definition of the
    zone from the scan position on; no other entry of the table is
    touched. *)
Lemma Init_AirNode_content h m z NS k loc st loc' st' :
  Init_AirNode h m z NS k loc st = Ok loc' st' ->
  let b := if (k =? 1)%Z then k else AirNodeBeginNum loc in
  MundtAirSurf st' = MundtAirSurf st /\
  (forall m' k', m' <> m \/ k' <> k -> at2 (LineNode st') m' k' = at2 (LineNode st) m' k') /\
  exists n0,
    at2 (LineNode st) m k = Some n0 /\
    match find (zone_match h z) (range b (TotNumOfAirNodes h)) with
    | Some a =>
        AirNodeBeginNum loc' = (a + 1)%Z /\
        at2 (LineNode st') m k
        = Some (node_of (AirNode h a) (DefineLinearModelNode.Temp n0))
    | None => AirNodeBeginNum loc' = b
    end.
Proof.
  intros H. cbv zeta.
  split; [exact (preserves_Ok _ _ _ _ _ (preserves_MundtAirSurf_Init_AirNode _ _ _ _ _ _) H) |].
  unfold Init_AirNode in H.
  apply bind_Ok_inv in H as (s & s0 & Hg & H). unfold get in Hg. injection Hg as <- <-.
  apply bind_Ok_inv in H as (LN1 & s0 & Hc & H). apply checked_Ok_inv in Hc as [H1 ->].
  apply bind_Ok_inv in H as ([] & s0 & Hm & H). unfold modify in Hm. injection Hm as <-.
  destruct (upd2_Some_inv _ _ _ _ _ H1) as (row & row' & Hrow & Hrow' & _).
  destruct (upd1_Some_inv _ _ _ _ Hrow') as (n0 & Hn0 & _).
  assert (Hat : at2 (LineNode st) m k = Some n0) by (unfold at2; rewrite Hrow; exact Hn0).
  fold (zone_match h z) in H.
  destruct (TotNumOfAirNodes h <? (if (k =? 1)%Z then k else AirNodeBeginNum loc))%Z;
    [discriminate H |].
  destruct (find (zone_match h z)
              (range (if (k =? 1)%Z then k else AirNodeBeginNum loc) (TotNumOfAirNodes h)))
    as [a |].
  - cbv zeta in H.
    apply bind_Ok_inv in H as (s & s0 & Hg & H). unfold get in Hg. injection Hg as <- <-.
    apply bind_Ok_inv in H as (LN2 & s0 & Hc & H). apply checked_Ok_inv in Hc as [H2 ->].
    apply bind_Ok_inv in H as ([] & s0 & Hm & H). unfold modify in Hm. injection Hm as <-.
    apply bind_Ok_inv in H as ([] & s0 & Hm & H).
    unfold SetupOutputVariable, modify in Hm. injection Hm as <-.
    unfold ret in H. injection H as <- <-. simpl LineNode in *.
    split.
    + intros m' k' Hne. rewrite (at2_upd2_ne _ _ _ _ _ _ _ H2 Hne).
      apply (at2_upd2_ne _ _ _ _ _ _ _ H1 Hne).
    + exists n0. split; [exact Hat |]. split; [reflexivity |].
      rewrite (at2_upd2_eq _ _ _ _ _ H2), (at2_upd2_eq _ _ _ _ _ H1), Hat. reflexivity.
  - apply bind_Ok_inv in H as ([] & s0 & Hm & H).
    unfold ShowSevereError, modify in Hm. injection Hm as <-.
    unfold ret in H. injection H as <- <-. simpl LineNode in *.
    split.
    + intros m' k' Hne. apply (at2_upd2_ne _ _ _ _ _ _ _ H1 Hne).
    + exists n0. split; [exact Hat | reflexivity].
Qed.

(** The scan of [cnt] nodes from the node [n0] on: the node [n0 + j] gets
    the data of the [j]-th definition left from the scan position on; the
    entries of the other rows, and those of the row outside the scan, are
    as they were. *)
Lemma node_loop_content h m z NS (cnt : nat) :
  forall n0 loc st b loc' st',
    (1 <= n0)%Z ->
    b = (if (n0 =? 1)%Z then 1%Z else AirNodeBeginNum loc) ->
    for_fold (range n0 (n0 + Z.of_nat cnt - 1)) loc (Init_AirNode h m z NS) st
    = Ok loc' st' ->
    MundtAirSurf st' = MundtAirSurf st /\
    (forall m' k', m' <> m \/ ~ (n0 <= k' < n0 + Z.of_nat cnt)%Z ->
                   at2 (LineNode st') m' k' = at2 (LineNode st) m' k') /\
    (forall (j : nat) a,
       (j < cnt)%nat ->
       List.filter (zone_match h z) (range b (TotNumOfAirNodes h)) !! j = Some a ->
       exists n,
         at2 (LineNode st) m (n0 + Z.of_nat j) = Some n /\
         at2 (LineNode st') m (n0 + Z.of_nat j)
         = Some (node_of (AirNode h a) (DefineLinearModelNode.Temp n))).
Proof.
  induction cnt as [| c IH]; intros n0 loc st b loc' st' Hn0 Hb H.
  - rewrite range_nil in H by lia. simpl in H. unfold ret in H. injection H as <- <-.
    split; [reflexivity |]. split; [reflexivity |]. intros j a Hj. lia.
  - rewrite range_cons in H by lia.
    replace (n0 + Z.of_nat (S c) - 1)%Z with (n0 + 1 + Z.of_nat c - 1)%Z in H by lia.
    simpl for_fold in H.
    apply bind_Ok_inv in H as (loc1 & st1 & Hstep & Hrest).
    pose proof (Init_AirNode_content _ _ _ _ _ _ _ _ _ Hstep) as Hc. cbv zeta in Hc.
    assert (Eb : (if (n0 =? 1)%Z then n0 else AirNodeBeginNum loc) = b).
    { rewrite Hb. destruct (Z.eqb_spec n0 1); congruence. }
    rewrite Eb in Hc. destruct Hc as (HMAS1 & Hfr1 & n & Hn & Hfind).
    assert (Hnext : (if (n0 + 1 =? 1)%Z then 1%Z else AirNodeBeginNum loc1)
                    = AirNodeBeginNum loc1)
      by (destruct (Z.eqb_spec (n0 + 1) 1); [lia | auto]).
    destruct (IH (n0 + 1)%Z loc1 st1 (AirNodeBeginNum loc1) loc' st'
                 ltac:(lia) (eq_sym Hnext) Hrest) as (HMAS & Hfr & Hcont).
    split; [congruence |]. split.
    + intros m' k' Hne. rewrite Hfr by (destruct Hne; [left; auto | right; lia]).
      apply Hfr1. destruct Hne; [left; auto | right; lia].
    + intros j a Hj Hlook.
      pose proof (find_range (zone_match h z) (TotNumOfAirNodes h) _ b eq_refl) as Hf.
      destruct (find (zone_match h z) (range b (TotNumOfAirNodes h))) as [a0 |].
      * destruct Hfind as [Hbegin Hnode]. destruct Hf as [_ Hf]. rewrite Hf in Hlook.
        destruct j as [| j'].
        -- simpl in Hlook. injection Hlook as <-.
           replace (n0 + Z.of_nat 0)%Z with n0 by lia.
           exists n. split; [exact Hn |].
           rewrite Hfr by (right; lia). exact Hnode.
        -- simpl in Hlook. rewrite <- Hbegin in Hlook.
           destruct (Hcont j' a ltac:(lia) Hlook) as (n' & Hn' & Hnode').
           replace (n0 + Z.of_nat (S j'))%Z with (n0 + 1 + Z.of_nat j')%Z by lia.
           exists n'. split; [| exact Hnode'].
           rewrite <- Hn'. symmetry. apply Hfr1. right. lia.
      * rewrite Hf in Hlook. discriminate Hlook.
Qed.

(** The areas of the surfaces [l] of a zone: each gets its area; the
    other entries of the table are as they were. *)
Lemma area_loop_content h m zd (l : list Z) :
  List.NoDup l ->
  forall st st',
    for_each l (fun SurfNum =>
      st <- get ;;
      MundtAirSurf' <- checked (upd2 m SurfNum
        (DefineSurfaceSettings.set_Area
           (SurfaceArea h (DefineZoneData.SurfFirst zd + SurfNum - 1)%Z))
        (MundtAirSurf st)) ;;
      modify (set_MundtAirSurf MundtAirSurf')) st = Ok tt st' ->
    LineNode st' = LineNode st /\
    (forall m' s, m' <> m \/ ~ In s l ->
                  at2 (MundtAirSurf st') m' s = at2 (MundtAirSurf st) m' s) /\
    (forall s, In s l ->
       exists x,
         at2 (MundtAirSurf st) m s = Some x /\
         at2 (MundtAirSurf st') m s
         = Some (DefineSurfaceSettings.set_Area
                   (SurfaceArea h (DefineZoneData.SurfFirst zd + s - 1)%Z) x)).
Proof.
  induction 1 as [| x l Hx Hnd IH]; intros st st' H; simpl in H.
  - unfold ret in H. injection H as <-. split; [reflexivity |].
    split; [reflexivity |]. intros s [].
  - apply bind_Ok_inv in H as ([] & st1 & Hstep & Hrest).
    apply bind_Ok_inv in Hstep as (s0 & s1 & Hg & Hstep).
    unfold get in Hg. injection Hg as <- <-.
    apply bind_Ok_inv in Hstep as (MAS1 & s1 & Hc & Hstep).
    apply checked_Ok_inv in Hc as [H1 ->].
    unfold modify in Hstep. injection Hstep as <-.
    destruct (IH _ _ Hrest) as (HLN & Hfr & Hcont). simpl in HLN, Hfr, Hcont.
    destruct (upd2_Some_inv _ _ _ _ _ H1) as (row & row' & Hrow & Hrow' & _).
    destruct (upd1_Some_inv _ _ _ _ Hrow') as (x0 & Hx0 & _).
    assert (Hat : at2 (MundtAirSurf st) m x = Some x0) by (unfold at2; rewrite Hrow; exact Hx0).
    split; [exact HLN |]. split.
    + intros m' s Hne. rewrite Hfr by (destruct Hne as [? | Hs]; [left; auto | right; intros ?; apply Hs; right; auto]).
      apply (at2_upd2_ne _ _ _ _ _ _ _ H1).
      destruct Hne as [? | Hs]; [left; auto | right; intros ->; apply Hs; left; auto].
    + intros s [<- | Hs].
      * exists x0. split; [exact Hat |].
        rewrite Hfr by (right; exact Hx).
        rewrite (at2_upd2_eq _ _ _ _ _ H1), Hat. reflexivity.
      * destruct (Hcont s Hs) as (y & Hy & Hy').
        exists y. split; [| exact Hy'].
        rewrite <- Hy. symmetry. apply (at2_upd2_ne _ _ _ _ _ _ _ H1).
        right. intros ->. exact (Hx Hs).
Qed.

(** The build of one zone writes the rows of the zone, and no other row. *)
Lemma Init_Zone_content h m z loc st loc' st' :
  Init_Zone h m z (zd_entry h z) loc st = Ok loc' st' ->
  zone_built h z m st st' /\ rows_kept (fun m' => m' <> m) st st'.
Proof.
  intros H. unfold Init_Zone in H.
  apply bind_Ok_inv in H as ([] & st1 & Harea & Hnodes).
  destruct (area_loop_content h m (zd_entry h z) _ (range_NoDup _ _) _ _ Harea)
    as (HLN1 & Hfr1 & Hc1).
  rewrite (range_to_nat 1 (TotNumOfZoneAirNodes h z)) in Hnodes.
  destruct (node_loop_content h m z _ _ 1%Z _ _ 1%Z _ _ ltac:(lia) eq_refl Hnodes)
    as (HMAS & Hfr & Hc).
  split; [split |].
  - intros s Hs. destruct (Hc1 s (proj2 (range_In _ _ _) Hs)) as (x & Hx & Hx').
    exists x. split; [exact Hx |]. rewrite HMAS. exact Hx'.
  - intros j a Hj Hlook.
    destruct (Hc j a ltac:(lia) Hlook) as (n & Hn & Hn').
    replace (Z.of_nat j + 1)%Z with (1 + Z.of_nat j)%Z by lia.
    exists n. split; [rewrite <- HLN1; exact Hn | exact Hn'].
  - intros m' k Hm'. split.
    + rewrite Hfr by (left; exact Hm'). rewrite HLN1. reflexivity.
    + rewrite HMAS. apply Hfr1. left. exact Hm'.
Qed.

(** The search for the zone with the model index [m] builds the rows of
    that zone, and no other row. *)
Lemma Zone_Loop_content h m z (l : list Z) :
  isMundt h z = true -> zone_rank h z = m -> (1 <= z)%Z ->
  forall loc st loc' st',
    BuildReady h st ->
    (forall y, In y l -> (1 <= y <= NumOfZones h)%Z) ->
    List.NoDup l -> In z l ->
    Zone_Loop h m l loc st = Ok loc' st' ->
    zone_built h z m st st' /\ rows_kept (fun m' => m' <> m) st st'.
Proof.
  intros HM Hrank Hz loc st loc' st' Hready.
  induction l as [| y l IH]; intros Hl Hnd Hin Hrun; [contradiction |].
  assert (Hy : (1 <= y <= NumOfZones h)%Z) by (apply Hl; left; reflexivity).
  destruct (Hready y Hy) as [Hzd Htab].
  rewrite (Zone_Loop_cons _ _ _ _ _ _ _ Hzd) in Hrun.
  inversion Hnd as [| y' l' Hnotin Hnd']; subst.
  destruct (Z.eqb_spec (DefineZoneData.MundtZoneIndex (zd_entry h y)) (zone_rank h z))
    as [E | E].
  - apply zd_entry_index in E as [HMy Hry]; [| lia | apply zone_rank_pos; auto].
    assert (y = z) as -> by (apply (zone_rank_inj h); auto; lia).
    apply bind_Ok_inv in Hrun as (loc1 & st1 & Hzone & Hrest).
    destruct (Htab HM) as [Hs Hn].
    pose proof (Init_Zone_spec h (zone_rank h z) z (zd_entry h z) loc st Hs Hn) as Hspec.
    destruct (zone_overrun h z).
    + destruct Hspec as (st2 & Hrun2 & _). rewrite Hrun2 in Hzone. discriminate Hzone.
    + destruct Hspec as (loc2 & st2 & Hrun2 & _ & _ & Hshape).
      rewrite Hrun2 in Hzone. injection Hzone as -> ->.
      assert (st' = st1) as ->.
      { destruct (AirNodeFoundFlag loc1).
        - unfold ret in Hrest. injection Hrest as _ <-. reflexivity.
        - rewrite (Zone_Loop_skip h (zone_rank h z) z l HM eq_refl Hz loc1 st1) in Hrest.
          + injection Hrest as _ <-. reflexivity.
          + apply (BuildReady_shape h st); assumption.
          + intros y' Hy'. apply Hl. right. exact Hy'.
          + exact Hnotin. }
      apply (Init_Zone_content _ _ _ _ _ _ _ Hrun2).
  - destruct Hin as [-> | Hin].
    + exfalso. apply E. apply zd_entry_index; [lia | apply zone_rank_pos; auto; lia | auto].
    + apply IH; auto. intros y' Hy'. apply Hl. right. exact Hy'.
Qed.

Lemma zone_built_after h z m st s1 st' :
  zone_built h z m st s1 -> rows_kept (fun m' => m' = m) s1 st' -> zone_built h z m st st'.
Proof.
  intros [Hs Hn] Hk. split.
  - intros s Hr. destruct (Hs s Hr) as (x & Hx & Hx'). exists x. split; [exact Hx |].
    rewrite (proj2 (Hk m s eq_refl)). exact Hx'.
  - intros j a Hj Hl. destruct (Hn j a Hj Hl) as (n & Hx & Hx'). exists n. split; [exact Hx |].
    rewrite (proj1 (Hk m _ eq_refl)). exact Hx'.
Qed.

Lemma zone_built_before h z m st s1 st' :
  rows_kept (fun m' => m' = m) st s1 -> zone_built h z m s1 st' -> zone_built h z m st st'.
Proof.
  intros Hk [Hs Hn]. split.
  - intros s Hr. destruct (Hs s Hr) as (x & Hx & Hx'). exists x. split; [| exact Hx'].
    rewrite <- (proj2 (Hk m s eq_refl)). exact Hx.
  - intros j a Hj Hl. destruct (Hn j a Hj Hl) as (n & Hx & Hx'). exists n. split; [| exact Hx'].
    rewrite <- (proj1 (Hk m _ eq_refl)). exact Hx.
Qed.

(** The loop over the zones that use the model, from the zone after the
    zones [pre] on: each zone still to come gets its rows built; the rows
    of the zones [pre] are as they were. *)
Lemma Init_Zones_content h :
  forall zs pre acc st acc' st',
    MundtZones h = pre ++ zs -> BuildReady h st ->
    for_fold (range (Z.of_nat (length pre) + 1) (Z.of_nat (length (MundtZones h))))
             acc (Init_Zones_body h) st = Ok acc' st' ->
    (forall z, In z zs -> zone_built h z (zone_rank h z) st st') /\
    rows_kept (fun m' => (m' <= Z.of_nat (length pre))%Z) st st'.
Proof.
  induction zs as [| z zs IH]; intros pre [[loc mr] mf] st acc' st' E Hready Hrun.
  - rewrite E, app_nil_r in Hrun. rewrite range_nil in Hrun by lia.
    simpl in Hrun. unfold ret in Hrun. injection Hrun as _ <-.
    split; [intros z [] | intros m k _; split; reflexivity].
  - assert (Hin : In z (MundtZones h)) by (rewrite E; apply in_or_app; right; left; reflexivity).
    apply MundtZones_In in Hin as [Hz HM].
    pose proof (MundtZones_rank _ _ _ _ E) as Hrank.
    assert (Hlen : (Z.of_nat (length pre) + 1 <= Z.of_nat (length (MundtZones h)))%Z).
    { rewrite E, length_app. simpl length. lia. }
    rewrite range_cons in Hrun by exact Hlen. simpl for_fold in Hrun.
    apply bind_Ok_inv in Hrun as ([[loc1 mr1] mf1] & s1 & Hstep & Hrest).
    unfold Init_Zones_body in Hstep.
    apply bind_Ok_inv in Hstep as (loc2 & s2 & Hzone & Hret).
    unfold ret in Hret. injection Hret as -> _ _ ->.
    pose proof (Zone_Loop_hit h _ z (range 1 (NumOfZones h)) HM Hrank ltac:(lia) loc st Hready
                  (fun y Hy => proj1 (range_In _ _ _) Hy) (range_NoDup _ _)
                  (proj2 (range_In _ _ _) Hz)) as Hhit.
    destruct (zone_overrun h z).
    { destruct Hhit as (st2 & Hrun2 & _). rewrite Hrun2 in Hzone. discriminate Hzone. }
    destruct Hhit as (loc2 & st2 & Hrun2 & _ & _ & Hshape).
    rewrite Hrun2 in Hzone. injection Hzone as -> ->.
    destruct (Zone_Loop_content h _ z (range 1 (NumOfZones h)) HM Hrank ltac:(lia)
                loc st loc1 s1 Hready
                (fun y Hy => proj1 (range_In _ _ _) Hy) (range_NoDup _ _)
                (proj2 (range_In _ _ _) Hz) Hrun2) as [Hbuilt Hkept].
    assert (E' : MundtZones h = (pre ++ [z]) ++ zs) by (rewrite <- app_assoc; exact E).
    replace (Z.of_nat (length pre) + 1 + 1)%Z
      with (Z.of_nat (length (pre ++ [z])) + 1)%Z in Hrest
      by (rewrite length_app; simpl length; lia).
    destruct (IH (pre ++ [z]) _ s1 acc' st' E' (BuildReady_shape _ _ _ Hshape Hready) Hrest)
      as [Hbuilt' Hkept'].
    assert (Hlen' : Z.of_nat (length (pre ++ [z])) = (Z.of_nat (length pre) + 1)%Z)
      by (rewrite length_app; simpl length; lia).
    split.
    + intros z' [<- | Hz'].
      * rewrite Hrank. apply (zone_built_after _ _ _ _ s1); [exact Hbuilt |].
        intros m k ->. apply Hkept'. lia.
      * apply (zone_built_before _ _ _ _ s1); [| apply Hbuilt'; exact Hz'].
        intros m k ->. apply Hkept.
        apply in_split in Hz' as (l1 & l2 & ->).
        assert (E2 : MundtZones h = (pre ++ z :: l1) ++ z' :: l2)
          by (rewrite <- app_assoc; exact E).
        rewrite (MundtZones_rank _ _ _ _ E2). rewrite length_app. simpl length. lia.
    + intros m k Hm. destruct (Hkept' m k) as [-> ->]; [cbv beta in *; lia |].
      apply Hkept. cbv beta in *. lia.
Qed.

Lemma at2_allocate_eq {A} (R C : Z) (d : A) i j x :
  at2 (allocate R (allocate C d)) i j = Some x -> x = d.
Proof.
  unfold at2, at1, allocate. intros H.
  destruct (1 <=? i)%Z; [| discriminate H].
  destruct (replicate (Z.to_nat R) (replicate (Z.to_nat C) d) !! Z.to_nat (i - 1))
    as [row |] eqn:Hrow; [| discriminate H].
  apply lookup_replicate in Hrow as [-> _].
  destruct (1 <=? j)%Z; [| discriminate H].
  apply lookup_replicate in H as [-> _]. reflexivity.
Qed.

(** A build that returns has built the rows of every zone that uses the
    model, from the allocated tables. *)
Lemma InitMundtModel_built h st st' :
  InitMundtModel h st = Ok tt st' ->
  exists ms mn st0,
    forall y, (1 <= y <= NumOfZones h)%Z -> isMundt h y = true ->
              zone_built h y (zone_rank h y) (Allocated h ms mn st0) st'.
Proof.
  intros H.
  destruct (InitMundtModel_Ok_inv _ _ _ H)
    as (ms & mn & st0 & loc & mr & mf & st5 & _ & _ & _ & Hready & Hloop & _ & _ & ->).
  exists ms, mn, st0. intros y Hy HM.
  destruct (Init_Zones_content h (MundtZones h) [] _ _ _ _ eq_refl Hready Hloop) as [Hb _].
  apply (zone_built_after _ _ _ _ st5).
  - apply Hb. apply MundtZones_In. auto.
  - intros m k _. split; reflexivity.
Qed.

(** X18.  After a build that returns, the air nodes of a zone that uses the
    model are the definitions of the host's air-node table that carry the
    name of the zone, in the order of the table: node j + 1 of the row of
    the zone has the name, the role tag, the height and the surface mask of
    the j-th such definition, and the temperature 25 of the allocation;
    this for each node the zone declares that has a definition. *)
Theorem InitMundtModel_air_nodes (h : Host) (st st' : State) (y : Z) (j : nat) (a : Z) :
  InitMundtModel h st = Ok tt st' ->
  (1 <= y <= NumOfZones h)%Z -> isMundt h y = true ->
  (Z.of_nat j < TotNumOfZoneAirNodes h y)%Z ->
  zone_defs h y !! j = Some a ->
  at2 (LineNode st') (zone_rank h y) (Z.of_nat j + 1) = Some (node_of (AirNode h a) 25.0).
Proof.
  intros H Hy HM Hj Ha.
  destruct (InitMundtModel_built _ _ _ H) as (ms & mn & st0 & Hb).
  destruct (Hb y Hy HM) as [_ Hn].
  destruct (Hn j a Hj Ha) as (n & Hn0 & Hn').
  apply at2_allocate_eq in Hn0. subst n. exact Hn'.
Qed.

Lemma InitMundtModel_air_nodes_witness :
  let st' := final (InitMundtModel TwoZone_Host) State0 in
  InitMundtModel TwoZone_Host State0 = Ok tt st' /\
  zone_defs TwoZone_Host 2 !! 1%nat = Some 8%Z /\
  at2 (LineNode st') 2 2 = Some (node_of (TwoZone_AirNode 8) 25.0).
Proof.
  cbv zeta.
  assert (Hrun : InitMundtModel TwoZone_Host State0
                 = Ok tt (final (InitMundtModel TwoZone_Host) State0))
    by (vm_compute; reflexivity).
  split; [exact Hrun |].
  assert (Hd : zone_defs TwoZone_Host 2 !! 1%nat = Some 8%Z) by (vm_compute; reflexivity).
  split; [exact Hd |].
  apply (InitMundtModel_air_nodes TwoZone_Host State0 _ 2%Z 1%nat 8%Z Hrun);
    [simpl; lia | reflexivity | simpl; lia | exact Hd].
Defined.

(** X19.  After a build that returns, entry s of the row of a zone that
    uses the model, for s from 1 to the number of surfaces of the zone,
    holds the area of the host's surface number first surface + s - 1, with
    the temperatures 25 and the coefficient 0 of the allocation. *)
Theorem InitMundtModel_surface_areas (h : Host) (st st' : State) (y s : Z) :
  InitMundtModel h st = Ok tt st' ->
  (1 <= y <= NumOfZones h)%Z -> isMundt h y = true ->
  (1 <= s <= SurfaceLast h y - SurfaceFirst h y + 1)%Z ->
  at2 (MundtAirSurf st') (zone_rank h y) s
  = Some {| DefineSurfaceSettings.Area := SurfaceArea h (SurfaceFirst h y + s - 1)%Z;
            DefineSurfaceSettings.Temp := 25.0;
            DefineSurfaceSettings.Hc := 0.0;
            DefineSurfaceSettings.TMeanAir := 25.0 |}.
Proof.
  intros H Hy HM Hs.
  destruct (InitMundtModel_built _ _ _ H) as (ms & mn & st0 & Hb).
  destruct (Hb y Hy HM) as [Hsf _].
  unfold zd_entry in Hsf. rewrite HM in Hsf. simpl in Hsf.
  destruct (Hsf s Hs) as (x & Hx & Hx').
  apply at2_allocate_eq in Hx. subst x. exact Hx'.
Qed.

Lemma InitMundtModel_surface_areas_witness :
  let st' := final (InitMundtModel TwoZone_Host) State0 in
  InitMundtModel TwoZone_Host State0 = Ok tt st' /\
  at2 (MundtAirSurf st') 2 3
  = Some {| DefineSurfaceSettings.Area := 50.0; DefineSurfaceSettings.Temp := 25.0;
            DefineSurfaceSettings.Hc := 0.0; DefineSurfaceSettings.TMeanAir := 25.0 |}.
Proof.
  cbv zeta.
  assert (Hrun : InitMundtModel TwoZone_Host State0
                 = Ok tt (final (InitMundtModel TwoZone_Host) State0))
    by (vm_compute; reflexivity).
  split; [exact Hrun |].
  apply (InitMundtModel_surface_areas TwoZone_Host State0 _ 2%Z 3%Z Hrun);
    [simpl; lia | reflexivity | simpl; lia].
Defined.

(** ** The division by the height between return and floor *)

(** A quotient by a difference is a finite number only when the two
    terms of the difference differ. *)
Lemma div_sub_finite_inv (x a b : Real64) : finite (x / (a - b)) -> ~ a == b.
Proof.
  destruct a as [a | | |], b as [b | | |]; cbn [R64.sub R64.div finite R64.eqv]; try tauto;
    try (destruct x; cbn [R64.sub R64.div finite R64.eqv]; tauto).
  destruct x as [x | | |]; cbn [R64.sub R64.div finite R64.eqv]; try tauto.
  destruct (a - b ?= 0)%Q eqn:E; intros H Hb.
  - destruct (x ?= 0)%Q; simpl in H; contradiction.
  - apply -> Qcompare_0_lt in E. lra.
  - apply -> Qcompare_0_gt in E. lra.
  - destruct (a - b ?= 0)%Q; tauto.
  - destruct (a - b ?= 0)%Q; tauto.
Qed.

Lemma sub_eqv_zero (x y : Real64) : x == y -> finite x -> x - y == 0.
Proof. destruct x, y; simpl; try tauto. intros -> _. ring. Qed.

(** The quotient of Eq 2.4 by a height of zero, and what the check makes
    of it. *)
Lemma CheckSlope_height_zero (TLeaving TAirFoot dH : Real64) :
  dH == 0 ->
  (TAirFoot < TLeaving ->
   (TLeaving - TAirFoot) / dH = PosInf /\
   CheckSlope TLeaving dH ((TLeaving - TAirFoot) / dH) TAirFoot
   = {| Solution.TAirFoot := TLeaving - (MaxSlope * dH); Solution.TLeaving := TLeaving;
        Solution.Slope := MaxSlope |}) /\
  (TLeaving < TAirFoot ->
   (TLeaving - TAirFoot) / dH = NegInf /\
   CheckSlope TLeaving dH ((TLeaving - TAirFoot) / dH) TAirFoot
   = {| Solution.TAirFoot := TLeaving; Solution.TLeaving := TLeaving;
        Solution.Slope := MinSlope |}) /\
  (TLeaving == TAirFoot ->
   (TLeaving - TAirFoot) / dH = NaN /\
   CheckSlope TLeaving dH ((TLeaving - TAirFoot) / dH) TAirFoot
   = {| Solution.TAirFoot := TAirFoot; Solution.TLeaving := TLeaving;
        Solution.Slope := NaN |}).
Proof.
  intros HdH. destruct dH as [d | | |]; simpl in HdH; try contradiction.
  assert (Ed : (d ?= 0)%Q = Eq) by (apply Qcompare_0_eq; exact HdH).
  split; [| split]; intros H.
  - assert (E : (TLeaving - TAirFoot) / Finite d = PosInf).
    { destruct TLeaving as [t | | |], TAirFoot as [f | | |]; simpl in *;
        rewrite ?Ed; try tauto.
      assert (Ec : (t - f ?= 0)%Q = Gt) by (apply Qcompare_0_gt; lra).
      rewrite Ec. reflexivity. }
    split; [exact E |]. rewrite E. apply CheckSlope_above. exact I.
  - assert (E : (TLeaving - TAirFoot) / Finite d = NegInf).
    { destruct TLeaving as [t | | |], TAirFoot as [f | | |]; simpl in *;
        rewrite ?Ed; try tauto.
      assert (Ec : (t - f ?= 0)%Q = Lt) by (apply Qcompare_0_lt; lra).
      rewrite Ec. reflexivity. }
    split; [exact E |]. rewrite E. apply CheckSlope_below. exact I.
  - assert (E : (TLeaving - TAirFoot) / Finite d = NaN).
    { destruct TLeaving as [t | | |], TAirFoot as [f | | |]; simpl in *;
        rewrite ?Ed; try tauto.
      assert (Ec : (t - f ?= 0)%Q = Eq) by (apply Qcompare_0_eq; lra).
      rewrite Ec. reflexivity. }
    split; [exact E |]. rewrite E. apply CheckSlope_NaN.
Qed.

(** C9.  The slope is a quotient by the height of the return node minus
    the height of the floor node, and nothing guards it: the solve
    carries out the division whatever the two heights are, and
    [CalcMundtModel] neither ends with a fatal error nor logs a message.
    The quotient is a finite number only if the two heights differ.  With
    the two nodes at one height it is an infinity, which the check
    replaces by the bound on its side, or NaN, which passes the check:
    with the floor air colder than the leaving air the slope is
    [MaxSlope], with the floor air warmer it is [MinSlope], with both at
    one temperature it is NaN.  With different heights and finite
    temperatures the quotient is a finite number. *)
Theorem CalcMundtModel_height_unguarded h ZoneNum st ReturnNode FootNode
    (HReturn : node_at st (ReturnNodeID (roles st)) = Some ReturnNode)
    (HFoot : node_at st (MundtFootAirID (roles st)) = Some FootNode) :
  exists sol,
    SolveMundt h ZoneNum st = Ok sol st /\
    (finite (RawSlope h ZoneNum st (DefineLinearModelNode.Height ReturnNode)
                      (DefineLinearModelNode.Height FootNode)) ->
     ~ DefineLinearModelNode.Height ReturnNode == DefineLinearModelNode.Height FootNode) /\
    (DefineLinearModelNode.Height ReturnNode == DefineLinearModelNode.Height FootNode ->
     finite (DefineLinearModelNode.Height ReturnNode) ->
     (FloorAirBalance h ZoneNum st < LeavingAirTemp st ->
      Solution.Slope sol = MaxSlope /\ Solution.TAirFoot sol == LeavingAirTemp st) /\
     (LeavingAirTemp st < FloorAirBalance h ZoneNum st ->
      Solution.Slope sol = MinSlope /\ Solution.TAirFoot sol = LeavingAirTemp st) /\
     (LeavingAirTemp st == FloorAirBalance h ZoneNum st ->
      Solution.Slope sol = NaN /\ Solution.TAirFoot sol = FloorAirBalance h ZoneNum st)) /\
    (~ DefineLinearModelNode.Height ReturnNode == DefineLinearModelNode.Height FootNode ->
     finite (DefineLinearModelNode.Height ReturnNode) ->
     finite (DefineLinearModelNode.Height FootNode) ->
     finite (LeavingAirTemp st) -> finite (FloorAirBalance h ZoneNum st) ->
     finite (RawSlope h ZoneNum st (DefineLinearModelNode.Height ReturnNode)
                      (DefineLinearModelNode.Height FootNode))) /\
    (forall st', CalcMundtModel h ZoneNum st <> Fatal st') /\
    (forall st', CalcMundtModel h ZoneNum st = Ok tt st' -> Messages st' = Messages st).
Proof.
  eexists. split; [apply (SolveMundt_Ok _ _ _ _ _ HReturn HFoot) |].
  set (HR := DefineLinearModelNode.Height ReturnNode).
  set (HF := DefineLinearModelNode.Height FootNode).
  split; [| split; [| split; [| split]]].
  - intros Hfin. unfold RawSlope in Hfin. exact (div_sub_finite_inv _ _ _ Hfin).
  - intros Heq HfR.
    destruct (CheckSlope_height_zero (LeavingAirTemp st) (FloorAirBalance h ZoneNum st)
                (HR - HF) (sub_eqv_zero _ _ Heq HfR)) as (Ha & Hb & Hc).
    unfold RawSlope. split; [| split]; intros H.
    + destruct (Ha H) as [_ ->]. split; [reflexivity |]. simpl Solution.TAirFoot.
      apply sub_zero_r.
      clearbody HR HF. destruct HR, HF; simpl in *; try tauto. rewrite Heq. ring.
    + destruct (Hb H) as [_ ->]. split; reflexivity.
    + destruct (Hc H) as [_ ->]. split; reflexivity.
  - intros Hne HfR HfF HfL HfB. unfold RawSlope.
    clearbody HR HF. destruct HR as [r | | |], HF as [f | | |]; try contradiction.
    destruct (LeavingAirTemp st) as [t | | |]; try contradiction.
    destruct (FloorAirBalance h ZoneNum st) as [b | | |]; try contradiction.
    simpl in Hne. simpl R64.sub. rewrite R64Facts.div_finite by lra. exact I.
  - intros st'. apply never_fatal_CalcMundtModel.
  - intros st' Hrun.
    pose proof (preserves_CalcMundtModel h ZoneNum st) as Hp. rewrite Hrun in Hp.
    exact (f_equal Messages Hp).
Qed.

(** The example zone with the return node at the 0.1 m of the floor node:
    the solve returns with the slope [MaxSlope], the solver returns and so
    does the call. *)
Lemma CalcMundtModel_height_unguarded_witness :
  exists sol st' st'',
    SolveMundt LowReturn_Host 1 (Ready LowReturn_Host) = Ok sol (Ready LowReturn_Host) /\
    Solution.Slope sol = MaxSlope /\
    Solution.TAirFoot sol == Solution.TLeaving sol /\
    CalcMundtModel LowReturn_Host 1 (Ready LowReturn_Host) = Ok tt st' /\
    Messages st' = Messages (Ready LowReturn_Host) /\
    ManageMundtModel LowReturn_Host 1 State0 = Ok tt st''.
Proof.
  destruct (CalcMundtModel_height_unguarded LowReturn_Host 1 (Ready LowReturn_Host)
              (DefineLinearModelNode.mk "RETURN" ReturnAirNode 0.1 25.0 [false; false; false])
              (DefineLinearModelNode.mk "FLOOR" FloorAirNode 0.1 25.0 [true; false; false]))
    as (sol & Hsol & _ & Hzero & _ & _ & Hlog).
  - vm_compute. reflexivity.
  - vm_compute. reflexivity.
  - destruct Hzero as ([HS HT] & _ & _).
    + vm_compute. reflexivity.
    + exact I.
    + vm_compute. reflexivity.
    + exists sol, (final (CalcMundtModel LowReturn_Host 1) (Ready LowReturn_Host)),
        (final (ManageMundtModel LowReturn_Host 1) State0).
      split; [exact Hsol |]. split; [exact HS |].
      assert (ETL : Solution.TLeaving sol = LeavingAirTemp (Ready LowReturn_Host)).
      { pose proof Hsol as Hc. apply SolveMundt_Ok_inv in Hc as (_ & RN & FN & _ & _ & ->).
        apply CheckSlope_TLeaving. }
      split; [rewrite ETL; exact HT |].
      assert (Hrun : CalcMundtModel LowReturn_Host 1 (Ready LowReturn_Host)
                     = Ok tt (final (CalcMundtModel LowReturn_Host 1) (Ready LowReturn_Host)))
        by (vm_compute; reflexivity).
      split; [exact Hrun |]. split; [exact (Hlog _ Hrun) |].
      vm_compute. reflexivity.
Defined.

(** ** The effective air temperatures the solver writes *)

Lemma surfaces_written_start s0 : surfaces_written (fun _ _ => False) s0 s0.
Proof.
  split; [reflexivity |]. split; [reflexivity |].
  intros id. left. split; [reflexivity | intros T H; exact H].
Qed.

Lemma surfaces_written_iff (P Q : Z -> Real64 -> Prop) s0 s :
  (forall id T, P id T <-> Q id T) -> surfaces_written P s0 s -> surfaces_written Q s0 s.
Proof.
  intros HPQ (Hz & Hoth & Hid). split; [exact Hz |]. split; [exact Hoth |].
  intros id. destruct (Hid id) as [[E Hno] | (x & T & Hx & HP & Hs)].
  - left. split; [exact E |]. intros T HQ. apply (Hno T), HPQ, HQ.
  - right. exists x, T. split; [exact Hx |]. split; [apply HPQ, HP | exact Hs].
Qed.

Lemma surfaces_written_same (P : Z -> Real64 -> Prop) s0 s s' :
  MundtAirSurf s' = MundtAirSurf s -> MundtZoneNum s' = MundtZoneNum s ->
  surfaces_written P s0 s -> surfaces_written P s0 s'.
Proof.
  intros EA EZ (Hz & Hoth & Hid). unfold surfaces_written, surf_at in *.
  rewrite EA, EZ. auto.
Qed.

(** One write. *)
Lemma SetSurfTmeanAir_written (P : Z -> Real64 -> Prop) s0 s s' SurfID TeffAir :
  SetSurfTmeanAir SurfID TeffAir s = Ok tt s' ->
  surfaces_written P s0 s ->
  surfaces_written (fun id T => P id T \/ (id = SurfID /\ T = TeffAir)) s0 s'.
Proof.
  intros H (Hz & Hoth & Hid).
  apply SetSurfTmeanAir_Ok_inv in H as ((y & Hy & Hy') & Hoth' & _ & _ & HW).
  pose proof (without_results_MundtZoneNum _ _ HW) as HZ.
  split; [congruence |]. split.
  - intros z id Hne. rewrite Hoth'; [apply Hoth, Hne | left; congruence].
  - intros id. destruct (Z.eq_dec id SurfID) as [-> | Hne].
    + right. destruct (Hid SurfID) as [[E Hno] | (x & T & Hx & HP & Hs)].
      * exists y, TeffAir. split; [congruence |]. split; [right; auto | exact Hy'].
      * exists x, TeffAir. split; [exact Hx |]. split; [right; auto |].
        rewrite Hs in Hy. injection Hy as <-. exact Hy'.
    + assert (E : surf_at s' id = surf_at s id).
      { unfold surf_at. rewrite HZ. apply Hoth'. right. exact Hne. }
      rewrite E. destruct (Hid id) as [[E0 Hno] | (x & T & Hx & HP & Hs)].
      * left. split; [exact E0 |]. intros T [HP | [Heq _]]; [exact (Hno T HP) | auto].
      * right. exists x, T. auto.
Qed.

(** A loop that writes one temperature to the surfaces a list of indices
    names. *)
Lemma index_loop_written (ids : State -> list Z) (TeffAir : Real64) :
  (forall id s s', SetSurfTmeanAir id TeffAir s = Ok tt s' -> ids s' = ids s) ->
  forall (l : list Z) (P : Z -> Real64 -> Prop) s0 s s',
    for_each l (fun k => SurfID <- (st <- get ;; checked (at1 (ids st) k)) ;;
                         SetSurfTmeanAir SurfID TeffAir) s = Ok tt s' ->
    surfaces_written P s0 s ->
    surfaces_written
      (fun id T => P id T \/ ((exists k, In k l /\ at1 (ids s) k = Some id) /\ T = TeffAir))
      s0 s' /\
    ids s' = ids s.
Proof.
  intros Hids. induction l as [| k0 l IH]; intros P s0 s s' H Hinv.
  - simpl in H. unfold ret in H. injection H as <-. split; [| reflexivity].
    apply (surfaces_written_iff P); [| exact Hinv].
    intros id T. split; [auto | intros [HP | [(k & [] & _) _]]; exact HP].
  - simpl in H. apply bind_Ok_inv in H as ([] & s1 & Hb & H).
    apply bind_Ok_inv in Hb as (id0 & sx & Hat & Hset).
    apply bind_Ok_inv in Hat as (sy & sz & Hg & Hat).
    unfold get in Hg. injection Hg as <- <-. apply checked_Ok_inv in Hat as [Hid0 ->].
    pose proof (Hids _ _ _ Hset) as E1.
    pose proof (SetSurfTmeanAir_written P s0 _ _ _ _ Hset Hinv) as Hinv1.
    destruct (IH _ s0 s1 s' H Hinv1) as [Hinv' E']. split; [| congruence].
    eapply surfaces_written_iff; [| exact Hinv']. intros id T. rewrite E1. split.
    + intros [[HP | [-> ->]] | [(k & Hk & Hkid) ->]].
      * left. exact HP.
      * right. split; [exists k0; split; [left; reflexivity | exact Hid0] | reflexivity].
      * right. split; [exists k; split; [right; exact Hk | exact Hkid] | reflexivity].
    + intros [HP | [(k & [<- | Hk] & Hkid) ->]].
      * left. left. exact HP.
      * left. right. split; [congruence | reflexivity].
      * right. split; [exists k; auto | reflexivity].
Qed.

(** The loop over the floor surface set (lines 711-714). *)
Lemma floor_loop_written (P : Z -> Real64 -> Prop) TAirFoot N s0 s s' :
  for_each (range 1 N) (fun SurfNum => SurfID <- FloorSurfSetIDsAt SurfNum ;;
                                       SetSurfTmeanAir SurfID TAirFoot) s = Ok tt s' ->
  surfaces_written P s0 s ->
  surfaces_written
    (fun id T => P id T \/ (listed (FloorSurfSetIDs s) N id /\ T = TAirFoot)) s0 s'.
Proof.
  intros H Hinv.
  assert (Hids : forall id t t', SetSurfTmeanAir id TAirFoot t = Ok tt t' ->
                                 FloorSurfSetIDs t' = FloorSurfSetIDs t).
  { intros id t t' Hw. apply SetSurfTmeanAir_Ok_inv in Hw as (_ & _ & _ & _ & HW).
    apply (without_results_FloorSurfSetIDs _ _ HW). }
  destruct (index_loop_written FloorSurfSetIDs TAirFoot Hids _ P s0 s s' H Hinv)
    as [Hinv' _].
  eapply surfaces_written_iff; [| exact Hinv']. intros id T. unfold listed.
  split; (intros [HP | [(k & Hk & Hkid) ->]]; [left; exact HP | right]);
    (split; [exists k; split; [apply range_In in Hk || apply range_In; exact Hk | exact Hkid]
            | reflexivity]).
Qed.

(** The surfaces of an air node (lines 716-720 and 725-729). *)
Lemma SetNodeSurfaces_written (P : Z -> Real64 -> Prop) NodeID TeffAir n s0 s s' :
  SetNodeSurfaces NodeID TeffAir s = Ok tt s' ->
  node_at s NodeID = Some n ->
  surfaces_written P s0 s ->
  surfaces_written (fun id T => P id T \/ (node_surface s n id /\ T = TeffAir)) s0 s'.
Proof.
  intros H Hn Hinv. unfold SetNodeSurfaces in H.
  apply bind_Ok_inv in H as (n' & sx & Hnode & H).
  apply LineNodeAt_Ok_inv in Hnode as [Hn' ->]. rewrite Hn in Hn'. injection Hn' as <-.
  apply bind_Ok_inv in H as (sy & sz & Hg & H). unfold get in Hg. injection Hg as <- <-.
  apply bind_Ok_inv in H as ([] & sm & Hm & H). unfold modify in Hm. injection Hm as <-.
  assert (Hids : forall id t t', SetSurfTmeanAir id TeffAir t = Ok tt t' ->
                                 TheseSurfIDs t' = TheseSurfIDs t).
  { intros id t t' Hw. apply SetSurfTmeanAir_Ok_inv in Hw. tauto. }
  destruct (index_loop_written TheseSurfIDs TeffAir Hids _ P s0 _ s' H) as [Hinv' _].
  { apply (surfaces_written_same P s0 s); [reflexivity | reflexivity | exact Hinv]. }
  eapply surfaces_written_iff; [| exact Hinv']. intros id T.
  unfold node_surface, listed. simpl TheseSurfIDs.
  split; (intros [HP | [(k & Hk & Hkid) ->]]; [left; exact HP | right]);
    (split; [exists k; split; [apply range_In in Hk || apply range_In; exact Hk | exact Hkid]
            | reflexivity]).
Qed.

Lemma node_surface_static st s (n n' : DefineLinearModelNode.t) SurfID :
  ID1dSurf s = ID1dSurf st ->
  DefineLinearModelNode.SurfMask n' = DefineLinearModelNode.SurfMask n ->
  node_surface s n' SurfID <-> node_surface st n SurfID.
Proof. intros E1 E2. unfold node_surface. rewrite E1, E2. reflexivity. Qed.

(** One turn of the loop over the room nodes. *)
Lemma room_body_written (P : Z -> Real64 -> Prop) st ReturnNode TLeaving Slope NodeNum s s' :
  node_at st (ReturnNodeID (roles st)) = Some ReturnNode ->
  calc_step st s ->
  surfaces_written P st s ->
  room_body (roles st) TLeaving Slope NodeNum s = Ok tt s' ->
  calc_step st s' /\
  exists RoomNodeID n,
    at1 (RoomNodeIDs (roles st)) NodeNum = Some RoomNodeID /\
    node_at st RoomNodeID = Some n /\
    surfaces_written
      (fun id T =>
         P id T \/
         (node_surface st n id /\
          T = LineTemp TLeaving Slope (DefineLinearModelNode.Height ReturnNode)
                       (DefineLinearModelNode.Height n))) st s'.
Proof.
  intros HRN Hstep Hinv H. unfold room_body in H.
  apply bind_Ok_inv in H as (rid & s1 & H1 & H).
  unfold RoomNodeIDsAt in H1. inv_step H1. rename E into Hrid.
  rewrite (without_results_roles _ _ (proj1 Hstep)) in Hrid.
  apply bind_Ok_inv in H as (RN' & s2 & H1 & H). apply LineNodeAt_Ok_inv in H1 as [HRN' ->].
  apply bind_Ok_inv in H as (n & s3 & H1 & H). apply LineNodeAt_Ok_inv in H1 as [Hn ->].
  apply bind_Ok_inv in H as ([] & s4 & Hset & H).
  destruct (calc_step_node_back _ _ _ _ Hstep HRN') as (RN0 & HRN0 & HRNs).
  rewrite HRN in HRN0. injection HRN0 as <-.
  destruct (calc_step_node_back _ _ _ _ Hstep Hn) as (n0 & Hn0 & Hns).
  rewrite (node_static_Height _ _ HRNs), (node_static_Height _ _ Hns) in Hset, H.
  assert (Hstep4 : calc_step st s4) by (eapply calc_step_SetNodeResult; eauto).
  pose proof (SetNodeSurfaces_keeps_nodes _ _ _ _ H) as Hkeep.
  split; [eapply calc_step_keeps_nodes; eauto |].
  exists rid, n0. split; [exact Hrid |]. split; [exact Hn0 |].
  destruct (SetNodeResult_same _ _ _ _ Hset) as (m & Hm & Hm').
  rewrite Hn in Hm. injection Hm as <-.
  apply SetNodeResult_Ok_inv in Hset as (_ & _ & _ & EA & _ & EW).
  assert (Hinv4 : surfaces_written P st s4).
  { apply (surfaces_written_same P st s); [exact EA | | exact Hinv].
    apply (without_results_MundtZoneNum _ _ EW). }
  pose proof (SetNodeSurfaces_written P _ _ _ _ _ _ H Hm' Hinv4) as Hinv'.
  eapply surfaces_written_iff; [| exact Hinv']. intros id T. cbv beta.
  rewrite (node_surface_static st s4 n0).
  - reflexivity.
  - apply (without_results_ID1dSurf _ _ (proj1 Hstep4)).
  - simpl. apply (node_static_SurfMask _ _ Hns).
Qed.

(** The loop over the room nodes (lines 722-730). *)
Lemma room_loop_written st ReturnNode TLeaving Slope (l : list Z) :
  node_at st (ReturnNodeID (roles st)) = Some ReturnNode ->
  forall (P : Z -> Real64 -> Prop) s s',
    calc_step st s ->
    surfaces_written P st s ->
    for_each l (room_body (roles st) TLeaving Slope) s = Ok tt s' ->
    surfaces_written
      (fun id T =>
         P id T \/
         exists NodeNum RoomNodeID n,
           In NodeNum l /\
           at1 (RoomNodeIDs (roles st)) NodeNum = Some RoomNodeID /\
           node_at st RoomNodeID = Some n /\
           node_surface st n id /\
           T = LineTemp TLeaving Slope (DefineLinearModelNode.Height ReturnNode)
                        (DefineLinearModelNode.Height n)) st s'.
Proof.
  intros HRN. induction l as [| x l IH]; simpl; intros P s s' Hstep Hinv H.
  - inv_step H. eapply surfaces_written_iff; [| exact Hinv].
    intros id T. split; [auto | intros [HP | (k & rid & n & [] & _)]; exact HP].
  - apply bind_Ok_inv in H as ([] & s1 & Hx & H).
    destruct (room_body_written P _ _ _ _ _ _ _ HRN Hstep Hinv Hx)
      as (Hstep1 & rid & n & Hrid & Hn & Hinv1).
    pose proof (IH _ _ _ Hstep1 Hinv1 H) as Hinv'.
    eapply surfaces_written_iff; [| exact Hinv']. intros id T. split.
    + intros [[HP | [Hs ->]] | (k & rid' & n' & Hk & Hrid' & Hn' & Hs & ->)].
      * left. exact HP.
      * right. exists x, rid, n. auto.
      * right. exists k, rid', n'. auto 6.
    + intros [HP | (k & rid' & n' & [<- | Hk] & Hrid' & Hn' & Hs & ->)].
      * left. left. exact HP.
      * rewrite Hrid in Hrid'. injection Hrid' as <-.
        rewrite Hn in Hn'. injection Hn' as <-. left. right. auto.
      * right. exists k, rid', n'. auto 6.
Qed.

(** What a run of [CalcMundtModel] that yields a result has written to the
    surface entries. *)
Lemma CalcMundtModel_written h ZoneNum st st' :
  CalcMundtModel h ZoneNum st = Ok tt st' ->
  exists sol ReturnNode,
    SolveMundt h ZoneNum st = Ok sol st /\
    node_at st (ReturnNodeID (roles st)) = Some ReturnNode /\
    surfaces_written (solver_writes st sol ReturnNode) st st'.
Proof.
  unfold CalcMundtModel. intros H.
  apply bind_Ok_inv in H as (sol & s0 & Hsol & H).
  pose proof (SolveMundt_pure _ _ _ _ _ Hsol) as ->. cbv zeta in H.
  apply bind_Ok_inv in H as (s1 & s2 & H1 & H). inv_step H1.
  apply bind_Ok_inv in H as (RN & s2 & H1 & H). apply LineNodeAt_Ok_inv in H1 as [HRN ->].
  apply bind_Ok_inv in H as (CN & s2 & H1 & H). apply LineNodeAt_Ok_inv in H1 as [HCN ->].
  apply bind_Ok_inv in H as (TN & s2 & H1 & H). apply LineNodeAt_Ok_inv in H1 as [HTN ->].
  apply bind_Ok_inv in H as ([] & s1 & Hw1 & H).
  apply bind_Ok_inv in H as ([] & s2 & Hw2 & H).
  apply bind_Ok_inv in H as ([] & s3 & Hw3 & H).
  apply bind_Ok_inv in H as ([] & s4 & Hw4 & H).
  apply bind_Ok_inv in H as ([] & s5 & Hw5 & H).
  apply bind_Ok_inv in H as ([] & s6 & Hfloor & H).
  apply bind_Ok_inv in H as ([] & s7 & Hceil & H).
  fold (room_body (roles st) (Solution.TLeaving sol) (Solution.Slope sol)) in H.
  exists sol, RN. split; [exact Hsol |]. split; [exact HRN |].
  pose proof (calc_step_refl st) as Hs0.
  pose proof (calc_step_SetNodeResult _ _ _ _ _ Hs0 Hw1) as Hs1.
  pose proof (calc_step_SetNodeResult _ _ _ _ _ Hs1 Hw2) as Hs2.
  pose proof (calc_step_SetNodeResult _ _ _ _ _ Hs2 Hw3) as Hs3.
  pose proof (calc_step_SetNodeResult _ _ _ _ _ Hs3 Hw4) as Hs4.
  pose proof (calc_step_SetNodeResult _ _ _ _ _ Hs4 Hw5) as Hs5.
  pose proof (calc_step_keeps_nodes _ _ _ Hs5 (floor_loop_keeps_nodes _ _ _ _ Hfloor)) as Hs6.
  pose proof (calc_step_keeps_nodes _ _ _ Hs6 (SetNodeSurfaces_keeps_nodes _ _ _ _ Hceil))
    as Hs7.
  apply SetNodeResult_Ok_inv in Hw1 as (_ & _ & _ & E1 & _).
  apply SetNodeResult_Ok_inv in Hw2 as (_ & _ & _ & E2 & _).
  apply SetNodeResult_Ok_inv in Hw3 as (_ & _ & _ & E3 & _).
  apply SetNodeResult_Ok_inv in Hw4 as (_ & _ & _ & E4 & _).
  apply SetNodeResult_Ok_inv in Hw5 as (_ & _ & _ & E5 & _).
  assert (Hinv5 : surfaces_written (fun _ _ => False) st s5).
  { apply (surfaces_written_same _ st st); [congruence | | apply surfaces_written_start].
    apply (without_results_MundtZoneNum _ _ (proj1 Hs5)). }
  pose proof (floor_loop_written _ _ _ _ _ _ Hfloor Hinv5) as Hinv6.
  rewrite (without_results_FloorSurfSetIDs _ _ (proj1 Hs5)) in Hinv6.
  destruct (calc_step_node _ _ _ _ Hs6 HCN) as (CN6 & HCN6 & HCNs).
  pose proof (SetNodeSurfaces_written _ _ _ _ _ _ _ Hceil HCN6 Hinv6) as Hinv7.
  pose proof (room_loop_written st RN _ _ _ HRN _ _ _ Hs7 Hinv7 H) as Hinv'.
  eapply surfaces_written_iff; [| exact Hinv']. intros id T. unfold solver_writes.
  cbv beta zeta.
  rewrite (node_surface_static st s6 CN CN6 id
             (without_results_ID1dSurf _ _ (proj1 Hs6)) (node_static_SurfMask _ _ HCNs)).
  split.
  - intros [[[[] | HF] | [HC ->]] | (k & rid & n & Hk & Hrid & Hn & Hs & ->)].
    + left. exact HF.
    + right. left. exists CN. auto.
    + right. right. exists k, rid, n. apply range_In in Hk. auto 6.
  - intros [HF | [(n & Hn & Hs & ->) | (k & rid & n & Hk & Hrid & Hn & Hs & ->)]].
    + left. left. right. exact HF.
    + rewrite HCN in Hn. injection Hn as <-. left. right. auto.
    + right. exists k, rid, n. apply range_In in Hk. auto 6.
Qed.

(** ** The surface entries in a call *)

(** The first call is the initialization followed by a call that finds
    the flag cleared. *)
Lemma Inbound_first h ZoneNum st s1 :
  FirstTimeFlag st = true ->
  Inbound h ZoneNum st = Ok tt s1 ->
  exists sa, InitMundtModel h st = Ok tt sa /\
             Inbound h ZoneNum (set_FirstTimeFlag false sa) = Ok tt s1.
Proof.
  unfold Inbound. intros Hflag H.
  apply bind_Ok_inv in H as (sx & sy & Hg & H). unfold get in Hg. injection Hg as <- <-.
  rewrite Hflag in H.
  apply bind_Ok_inv in H as ([] & s0 & Hinit & H).
  apply bind_Ok_inv in Hinit as ([] & sa & Hinit & Hm).
  unfold modify in Hm. injection Hm as <-.
  exists sa. split; [exact Hinit |].
  rewrite (bind_Ok get _ _ _ _ eq_refl). simpl FirstTimeFlag. cbv iota.
  rewrite (bind_Ok (ret tt) _ _ tt _ eq_refl). exact H.
Qed.

(** The state a call has after the initialization, if it is the first,
    and before the inbound adapter. *)
Lemma Inbound_initialized h ZoneNum st s1 :
  Inbound h ZoneNum st = Ok tt s1 ->
  exists s0,
    (if FirstTimeFlag st
     then exists sa, InitMundtModel h st = Ok tt sa /\ s0 = set_FirstTimeFlag false sa
     else s0 = st) /\
    FirstTimeFlag s0 = false /\
    Inbound h ZoneNum s0 = Ok tt s1.
Proof.
  intros H. destruct (FirstTimeFlag st) eqn:Hflag.
  - destruct (Inbound_first _ _ _ _ Hflag H) as (sa & Hinit & Hin).
    exists (set_FirstTimeFlag false sa). split; [exists sa; auto |]. split; [reflexivity | exact Hin].
  - exists st. auto.
Qed.

(** C8, as the code has it.  In a call that yields a result, the first
    or a later one, the areas of the surface entries are at the end what
    they were after the initialization, which runs in the first call and
    never again.  The surface temperature and the convection coefficient
    of every surface of the zone are, once the inbound adapter is through
    and still at the end of the call, the values the host has for them.
    The effective air temperature [TMeanAir] is written by the solver
    only, before the outbound adapter reads it.  When the gate fails, every
    entry keeps the value it had.  When the solver runs, the entries of
    the other zones keep theirs, and an entry of the zone either has no
    write of the solver and keeps its value, or holds a temperature the
    solver has written to it: the floor air temperature for a surface of
    the floor surface set, the temperature of the ceiling node or of a
    room node for a surface of that node. *)
Theorem ManageMundtModel_surface_entries h ZoneNum st st'
    (Hrun : ManageMundtModel h ZoneNum st = Ok tt st') :
  FirstTimeFlag st' = false /\
  exists s0 s1 zd,
    (if FirstTimeFlag st
     then exists sa, InitMundtModel h st = Ok tt sa /\ s0 = set_FirstTimeFlag false sa
     else s0 = st) /\
    Inbound h ZoneNum st = Ok tt s1 /\
    at1 (ZoneData s0) ZoneNum = Some zd /\
    MundtZoneNum st' = DefineZoneData.MundtZoneIndex zd /\
    same_field DefineSurfaceSettings.Area (MundtAirSurf s0) (MundtAirSurf st') /\
    (forall SurfNum, (1 <= SurfNum <= DefineZoneData.NumOfSurfs zd)%Z ->
       surf_fetched h zd SurfNum s1 /\ surf_fetched h zd SurfNum st') /\
    (~ (0.0001 < SupplyAirVolumeRate (work s1) /\ 0.0001 < QsysCoolTot (work s1)) ->
     SetSurfHBDataForMundtModel h ZoneNum s1 = Ok tt st' /\
     same_field DefineSurfaceSettings.TMeanAir (MundtAirSurf s0) (MundtAirSurf st')) /\
    (0.0001 < SupplyAirVolumeRate (work s1) /\ 0.0001 < QsysCoolTot (work s1) ->
     exists s2 s3 sol ReturnNode,
       SetupMundtModel h ZoneNum false s1 = Ok false s2 /\
       SolveMundt h ZoneNum s2 = Ok sol s2 /\
       node_at s2 (ReturnNodeID (roles s2)) = Some ReturnNode /\
       CalcMundtModel h ZoneNum s2 = Ok tt s3 /\
       SetSurfHBDataForMundtModel h ZoneNum s3 = Ok tt st' /\
       MundtAirSurf st' = MundtAirSurf s3 /\
       (forall z SurfID, z <> MundtZoneNum st' ->
          option_map DefineSurfaceSettings.TMeanAir (at2 (MundtAirSurf st') z SurfID)
          = option_map DefineSurfaceSettings.TMeanAir (at2 (MundtAirSurf s0) z SurfID)) /\
       forall SurfID,
         (option_map DefineSurfaceSettings.TMeanAir (surf_at st' SurfID)
          = option_map DefineSurfaceSettings.TMeanAir
              (at2 (MundtAirSurf s0) (MundtZoneNum st') SurfID) /\
          forall T, ~ solver_writes s2 sol ReturnNode SurfID T) \/
         (exists x, surf_at st' SurfID = Some x /\
                    solver_writes s2 sol ReturnNode SurfID
                                  (DefineSurfaceSettings.TMeanAir x))).
Proof.
  apply ManageMundtModel_Ok_inv in Hrun as (s1 & Hin & Hgate).
  destruct (Inbound_initialized _ _ _ _ Hin) as (s0 & Hs0 & Hflag & Hin0).
  destruct (Inbound_Ok_inv _ _ _ _ Hin0 Hflag) as (Hwi & HA & HT & zd & Hzd & Hz & Hf).
  assert (Hflag1 : FirstTimeFlag s1 = false).
  { apply (f_equal FirstTimeFlag) in Hwi. simpl in Hwi. congruence. }
  destruct (SystemOn (work s1)) eqn:Hon.
  - destruct Hgate as (s2 & s3 & Hsetup & Hcalc & Hset).
    pose proof Hsetup as Hws.
    apply SetupMundtModel_Ok_inv in Hws as (_ & _ & _ & _ & Hws & _).
    pose proof (CalcMundtModel_field DefineSurfaceSettings.Area _ _ _ _
                  (fun _ _ => eq_refl) Hcalc) as HAc.
    pose proof (CalcMundtModel_field
                  (fun s => (DefineSurfaceSettings.Temp s, DefineSurfaceSettings.Hc s))
                  _ _ _ _ (fun _ _ => eq_refl) Hcalc) as HTc.
    destruct (CalcMundtModel_written _ _ _ _ Hcalc)
      as (sol & RN & Hsol & HRN & Hz3 & Hoth & Hid).
    pose proof Hcalc as Hwc.
    apply CalcMundtModel_Ok_inv in Hwc as (_ & _ & _ & _ & [Hwc _] & _).
    pose proof (SetSurfHBDataForMundtModel_frame _ _ _ _ Hset) as Hfr.
    assert (E2 : MundtAirSurf s2 = MundtAirSurf s1)
      by (apply (f_equal MundtAirSurf) in Hws; exact Hws).
    assert (E3 : MundtAirSurf st' = MundtAirSurf s3)
      by (apply (f_equal MundtAirSurf) in Hfr; exact Hfr).
    assert (Ez2 : MundtZoneNum s2 = MundtZoneNum s1)
      by (apply (f_equal MundtZoneNum) in Hws; exact Hws).
    assert (Ez3 : MundtZoneNum st' = MundtZoneNum s3)
      by (apply (f_equal MundtZoneNum) in Hfr; exact Hfr).
    assert (Ez : MundtZoneNum st' = MundtZoneNum s1) by congruence.
    split.
    { apply (f_equal FirstTimeFlag) in Hws, Hwc, Hfr. simpl in *. congruence. }
    exists s0, s1, zd. split; [exact Hs0 |]. split; [exact Hin |]. split; [exact Hzd |].
    split; [congruence |].
    split.
    { rewrite E3. eapply same_field_trans; [exact HA |]. rewrite <- E2. exact HAc. }
    split.
    { intros k Hk. split; [apply Hf, Hk |].
      apply (surf_fetched_same _ _ _ s1); [exact Ez | | apply Hf, Hk].
      rewrite E3, <- E2. exact HTc. }
    split.
    { intros Hoff. apply SystemOn_false in Hoff. congruence. }
    intros _. exists s2, s3, sol, RN.
    split; [exact Hsetup |]. split; [exact Hsol |]. split; [exact HRN |].
    split; [exact Hcalc |]. split; [exact Hset |]. split; [exact E3 |]. split.
    + intros z id Hne. rewrite E3, Hoth by congruence. rewrite E2. apply HT.
    + intros id. destruct (Hid id) as [[E Hno] | (x & T & Hx & HP & Hs)].
      * left. split; [| exact Hno].
        unfold surf_at in *. rewrite E3, Ez3, E, Hz3, E2. apply HT.
      * right. exists (DefineSurfaceSettings.set_TMeanAir T x). split; [| exact HP].
        unfold surf_at in *. rewrite E3, Ez3. exact Hs.
  - pose proof (SetSurfHBDataForMundtModel_frame _ _ _ _ Hgate) as Hfr.
    assert (E : MundtAirSurf st' = MundtAirSurf s1)
      by (apply (f_equal MundtAirSurf) in Hfr; exact Hfr).
    assert (Ez : MundtZoneNum st' = MundtZoneNum s1)
      by (apply (f_equal MundtZoneNum) in Hfr; exact Hfr).
    split.
    { apply (f_equal FirstTimeFlag) in Hfr. simpl in *. congruence. }
    exists s0, s1, zd. split; [exact Hs0 |]. split; [exact Hin |]. split; [exact Hzd |].
    split; [congruence |].
    split; [rewrite E; exact HA |].
    split.
    { intros k Hk. split; [apply Hf, Hk |].
      apply (surf_fetched_same _ _ _ s1); [exact Ez | rewrite E; apply same_field_refl
                                           | apply Hf, Hk]. }
    split.
    { intros _. split; [exact Hgate | rewrite E; exact HT]. }
    intros Hopen. apply SystemOn_iff in Hopen. congruence.
Qed.

(** The first call for the example zone, with the system on, and a later
    call with the system off and the floor surface at 40 C. *)
Lemma ManageMundtModel_surface_entries_witness :
  (let st' := final (ManageMundtModel Example_Host 1) State0 in
   FirstTimeFlag st' = false /\
   exists s2 sol ReturnNode floor,
     SolveMundt Example_Host 1 s2 = Ok sol s2 /\
     surf_at st' 1 = Some floor /\
     DefineSurfaceSettings.Temp floor = 20.0 /\ DefineSurfaceSettings.Hc floor = 3.0 /\
     solver_writes s2 sol ReturnNode 1 (DefineSurfaceSettings.TMeanAir floor)) /\
  (let st' := final (ManageMundtModel SystemOff_HotFloor_Host 1) After_Cooling in
   FirstTimeFlag st' = false /\
   same_field DefineSurfaceSettings.Area (MundtAirSurf After_Cooling) (MundtAirSurf st') /\
   same_field DefineSurfaceSettings.TMeanAir (MundtAirSurf After_Cooling) (MundtAirSurf st') /\
   exists floor,
     surf_at st' 1 = Some floor /\
     DefineSurfaceSettings.Temp floor = 40.0 /\ DefineSurfaceSettings.Hc floor = 3.0).
Proof.
  split; cbv zeta.
  - destruct (ManageMundtModel_surface_entries Example_Host 1 State0
                (final (ManageMundtModel Example_Host 1) State0))
      as (Hflag & s0 & s1 & zd & Hs0 & Hin & Hzd & _ & _ & Hf & _ & Hon).
    + vm_compute. reflexivity.
    + split; [exact Hflag |].
      change (FirstTimeFlag State0) with true in Hs0. destruct Hs0 as (sa & Hinit & ->).
      pose proof (final_Ok _ _ _ _ Hinit) as Hsa. subst sa.
      vm_compute in Hzd. injection Hzd as <-.
      pose proof (final_Ok _ _ _ _ Hin) as Hs1. subst s1.
      destruct Hon as (s2 & s3 & sol & RN & Hsetup & Hsol & _ & _ & _ & _ & _ & Hid).
      { split; vm_compute; reflexivity. }
      pose proof (final_Ok _ _ _ _ Hsetup) as Hs2. subst s2.
      destruct (Hf 1%Z) as (_ & floor & Hfloor & HT & HH); [simpl; lia |].
      eexists _, sol, RN, floor. split; [exact Hsol |]. split; [exact Hfloor |].
      split; [exact HT |]. split; [exact HH |].
      destruct (Hid 1%Z) as [[_ Hno] | (x & Hx & Hw)].
      * exfalso. apply (Hno (Solution.TAirFoot sol)). left. split; [| reflexivity].
        exists 1%Z. split; [vm_compute; split; discriminate | vm_compute; reflexivity].
      * rewrite Hfloor in Hx. injection Hx as <-. exact Hw.
  - destruct (ManageMundtModel_surface_entries SystemOff_HotFloor_Host 1 After_Cooling
                (final (ManageMundtModel SystemOff_HotFloor_Host 1) After_Cooling))
      as (Hflag & s0 & s1 & zd & Hs0 & Hin & Hzd & _ & HA & Hf & Hoff & _).
    + vm_compute. reflexivity.
    + assert (E : FirstTimeFlag After_Cooling = false) by (vm_compute; reflexivity).
      rewrite E in Hs0. subst s0.
      split; [exact Hflag |]. split; [exact HA |].
      pose proof (final_Ok _ _ _ _ Hin) as Hs1. subst s1.
      split.
      { apply Hoff. intros [H _]. vm_compute in H. discriminate H. }
      vm_compute in Hzd. injection Hzd as <-.
      destruct (Hf 1%Z) as (_ & floor & Hfloor & HT & HH); [simpl; lia |].
      exists floor. split; [exact Hfloor |]. split; [exact HT | exact HH].
Defined.

(** The claim C8 as it is written has [TMeanAir] overwritten exactly once
    in every call.  In a call with the system off the floor surface takes
    the surface temperature of the host, 40 C, and keeps the effective air
    temperature it had: the floor air temperature of the call before, or
    the default of 25 C when the solver has never run.  In a call with the
    system on for the zone whose wall surface is in no mask and whose
    floor surface is in the mask of the wall node too, the wall surface
    keeps the default of 25 C, and the floor surface, written with the floor
    air temperature and then with the temperature of the wall node, holds
    the latter. *)
Lemma ManageMundtModel_surface_entries_counterexample :
  (exists before after before' after',
     surf_at After_Cooling 1 = Some before /\
     ManageMundtModel SystemOff_HotFloor_Host 1 After_Cooling
     = Ok tt (final (ManageMundtModel SystemOff_HotFloor_Host 1) After_Cooling) /\
     surf_at (final (ManageMundtModel SystemOff_HotFloor_Host 1) After_Cooling) 1
     = Some after /\
     surf_at After_Off 1 = Some before' /\
     ManageMundtModel SystemOff_HotFloor_Host 1 After_Off
     = Ok tt (final (ManageMundtModel SystemOff_HotFloor_Host 1) After_Off) /\
     surf_at (final (ManageMundtModel SystemOff_HotFloor_Host 1) After_Off) 1 = Some after' /\
     DefineSurfaceSettings.Temp before = 20.0 /\ DefineSurfaceSettings.Temp after = 40.0 /\
     DefineSurfaceSettings.Temp before' = 20.0 /\ DefineSurfaceSettings.Temp after' = 40.0 /\
     DefineSurfaceSettings.TMeanAir after = DefineSurfaceSettings.TMeanAir before /\
     DefineSurfaceSettings.TMeanAir after' = DefineSurfaceSettings.TMeanAir before' /\
     DefineSurfaceSettings.TMeanAir after' = 25.0 /\
     ~ DefineSurfaceSettings.TMeanAir after == DefineSurfaceSettings.TMeanAir after') /\
  (exists sol wall floor WallNode,
     ManageMundtModel Masks_Host 1 State0
     = Ok tt (final (ManageMundtModel Masks_Host 1) State0) /\
     SystemOn (work (final (ManageMundtModel Masks_Host 1) State0)) = true /\
     SolveMundt Masks_Host 1 (Ready Masks_Host) = Ok sol (Ready Masks_Host) /\
     surf_at (final (ManageMundtModel Masks_Host 1) State0) 2 = Some wall /\
     surf_at (final (ManageMundtModel Masks_Host 1) State0) 1 = Some floor /\
     node_at (final (ManageMundtModel Masks_Host 1) State0) 5 = Some WallNode /\
     DefineSurfaceSettings.TMeanAir wall = 25.0 /\
     listed (FloorSurfSetIDs (Ready Masks_Host)) (NumFloorSurfs (Ready Masks_Host)) 1 /\
     DefineSurfaceSettings.TMeanAir floor = DefineLinearModelNode.Temp WallNode /\
     ~ DefineSurfaceSettings.TMeanAir floor == Solution.TAirFoot sol).
Proof.
  split.
  - do 4 eexists.
    split; [vm_compute; reflexivity |]. split; [vm_compute; reflexivity |].
    split; [vm_compute; reflexivity |]. split; [vm_compute; reflexivity |].
    split; [vm_compute; reflexivity |]. split; [vm_compute; reflexivity |].
    simpl. repeat (split; [reflexivity |]). vm_compute. discriminate.
  - do 4 eexists.
    split; [vm_compute; reflexivity |]. split; [vm_compute; reflexivity |].
    split; [vm_compute; reflexivity |]. split; [vm_compute; reflexivity |].
    split; [vm_compute; reflexivity |]. split; [vm_compute; reflexivity |].
    split; [vm_compute; reflexivity |].
    split; [exists 1%Z; split; [vm_compute; split; discriminate | vm_compute; reflexivity] |].
    split; [vm_compute; reflexivity |].
    vm_compute. discriminate.
Qed.
